(** * Source controller: reconcilers for OCIRepository, HelmRepository (OCI) and HelmChart

    A shallow embedding of the reconcilers of
    [controllers/helmrepository_controller_oci.go],
    [controllers/ocirepository_controller.go] and
    [controllers/helmchart_controller.go], together with the helpers of
    [internal/object/object.go] they use.

    Conventions of the embedding.
    - A Go method with a pointer receiver that mutates the object under
      reconciliation is a state transformer over a [World]: the object, the
      files of the artifact storage, the content of the temporary working
      directory and the log of the calls made to the outside (API server,
      registry, storage, event recorder).
    - Everything the reconcilers read from the outside (API server objects,
      registry answers, file system failures) is an oracle of an [Env]
      record; an oracle is a function of the arguments of the call, so one
      [Env] is one unchanged outside world.
    - A statement either falls through, returns from the enclosing function
      or panics ([Out]); deferred calls are applied to the outcome. *)

From Stdlib Require Import String Ascii List Bool ZArith Lia.
From Stdlib Require Import Sorting.Permutation Sorting.Sorted.
From Stdlib Require Import Numbers.DecimalString.
Import ListNotations.

Local Open Scope list_scope.
Local Open Scope string_scope.

(** ** Go strings *)

Module strings.

(** [strings.HasPrefix]. *)
Definition HasPrefix (s prefix : string) : bool := String.prefix prefix s.

(** [strings.TrimPrefix]. *)
Definition TrimPrefix (s prefix : string) : string :=
  if String.prefix prefix s
  then substring (String.length prefix) (String.length s - String.length prefix) s
  else s.

(** [strings.HasSuffix]. *)
Definition HasSuffix (s suffix : string) : bool :=
  (String.length suffix <=? String.length s)%nat &&
  String.eqb (substring (String.length s - String.length suffix) (String.length suffix) s) suffix.

(** [strings.Split(s, sep)] for a separator of one byte: the result has one
    more element than [s] has occurrences of [sep], so it is never empty. *)
Fixpoint Split (s : string) (sep : ascii) : list string :=
  match s with
  | EmptyString => [EmptyString]
  | String c rest =>
      if Ascii.eqb c sep then EmptyString :: Split rest sep
      else match Split rest sep with
           | [] => [String c EmptyString]
           | p :: ps => String c p :: ps
           end
  end.

(** [strings.Contains(s, sep)] for a separator of one byte. *)
Fixpoint Contains (s : string) (sep : ascii) : bool :=
  match s with
  | EmptyString => false
  | String c rest => Ascii.eqb c sep || Contains rest sep
  end.

(** [strings.ToLower] on ASCII letters. *)
Definition lower (c : ascii) : ascii :=
  let n := nat_of_ascii c in
  if ((65 <=? n) && (n <=? 90))%nat then ascii_of_nat (n + 32) else c.

Fixpoint ToLower (s : string) : string :=
  match s with
  | EmptyString => EmptyString
  | String c rest => String (lower c) (ToLower rest)
  end.

End strings.

(** [strconv.FormatInt(i, 10)]. *)
Definition strconv_FormatInt (i : Z) : string := NilZero.string_of_int (Z.to_int i).

(** The element a Go slice expression [xs[len(xs)-1]] reads; the slices it is
    applied to come from [strings.Split] and are never empty. *)
Definition last_elem (xs : list string) : string := List.last xs EmptyString.

(** The Go slice expression [s[0:n]] on a string: it panics when [n] exceeds
    the length in bytes ([None]). *)
Definition slice_to (s : string) (n : nat) : option string :=
  if (n <=? String.length s)%nat then Some (substring 0 n s) else None.

(** Lookup in a Go [map[string]V] given as the list of its entries. *)
Fixpoint map_lookup {V : Type} (m : list (string * V)) (k : string) : option V :=
  match m with
  | [] => None
  | (k', v) :: rest => if String.eqb k' k then Some v else map_lookup rest k
  end.

(** ** Go errors *)

(** [chart.BuildErrorReason]. *)
Record BuildErrorReason : Type := mkBuildErrorReason {
  ber_Reason : string;
  ber_Summary : string
}.

(** The error values the reconcilers create, wrap and inspect. *)
Inductive error : Type :=
| errors_New (msg : string)
| ErrUnconfiguredProvider
| StatusError (reason : string) (msg : string)
| Errorf_w (msg : string) (err : error)
| invalidOCIURLError (err : error)
| serror_Generic (reason : string) (err : error)
| serror_Stalling (reason : string) (err : error)
| serror_Event (reason : string) (err : error)
| chart_BuildError (reason : BuildErrorReason) (err : error)
| url_Error (err : error)
| Aggregate1 (err : error)
| Aggregate2 (err1 err2 : error).

(** [error.Error()]. *)
Fixpoint Error (e : error) : string :=
  match e with
  | errors_New msg => msg
  | ErrUnconfiguredProvider => "no provider configured"
  | StatusError _ msg => msg
  | Errorf_w msg err => msg ++ ": " ++ Error err
  | invalidOCIURLError err => Error err
  | serror_Generic _ err => Error err
  | serror_Stalling _ err => Error err
  | serror_Event _ err => Error err
  | chart_BuildError reason err => ber_Summary reason ++ ": " ++ Error err
  | url_Error err => Error err
  | Aggregate1 err => Error err
  | Aggregate2 err1 err2 => "[" ++ Error err1 ++ ", " ++ Error err2 ++ "]"
  end.

(** [errors.Is(err, oci.ErrUnconfiguredProvider)]: the chain of wrapped
    errors is searched; [invalidOCIURLError] has no [Unwrap] method. *)
Fixpoint is_ErrUnconfiguredProvider (e : error) : bool :=
  match e with
  | ErrUnconfiguredProvider => true
  | Errorf_w _ err => is_ErrUnconfiguredProvider err
  | serror_Generic _ err => is_ErrUnconfiguredProvider err
  | serror_Stalling _ err => is_ErrUnconfiguredProvider err
  | serror_Event _ err => is_ErrUnconfiguredProvider err
  | chart_BuildError _ err => is_ErrUnconfiguredProvider err
  | url_Error err => is_ErrUnconfiguredProvider err
  | Aggregate1 err => is_ErrUnconfiguredProvider err
  | Aggregate2 err1 err2 => is_ErrUnconfiguredProvider err1 || is_ErrUnconfiguredProvider err2
  | _ => false
  end.

(** [apierrors.ReasonForError]: the reason of a status error, unknown ([""])
    for every other error, looking through wrapping. *)
Fixpoint ReasonForError (e : error) : string :=
  match e with
  | StatusError reason _ => reason
  | Errorf_w _ err => ReasonForError err
  | _ => ""
  end.

Definition StatusReasonUnknown : string := "".

(** [apierrors.IsNotFound]. *)
Definition IsNotFound (e : error) : bool := String.eqb (ReasonForError e) "NotFound".

(** [client.IgnoreNotFound]. *)
Definition IgnoreNotFound (e : error) : option error :=
  if IsNotFound e then None else Some e.

(** [kerrors.NewAggregate] of a list of two errors: nil entries are dropped,
    and the aggregate of no error is nil. *)
Definition NewAggregate (err1 err2 : option error) : option error :=
  match err1, err2 with
  | None, None => None
  | Some e, None => Some (Aggregate1 e)
  | None, Some e => Some (Aggregate1 e)
  | Some e1, Some e2 => Some (Aggregate2 e1 e2)
  end.

(** [kerrors.FilterOut] with one matcher on an error that is not an
    aggregate. *)
Definition FilterOut (e : error) (matcher : error -> bool) : option error :=
  if matcher e then None else Some e.

(** A Go result pair [(T, error)] with a nil value on error. *)
Definition Err (A : Type) : Type := (error + A)%type.

(** ** Statements, functions and deferred calls *)

(** The outcome of a statement in a function that returns [R], over a state
    [S]: it falls through with a value, returns, or panics. *)
Inductive Out (S R A : Type) : Type :=
| Next (a : A) (s : S)
| Return (r : R) (s : S)
| Panic (msg : string) (s : S).
Arguments Next {S R A} a s.
Arguments Return {S R A} r s.
Arguments Panic {S R A} msg s.

Definition Stmt (S R A : Type) : Type := S -> Out S R A.

(** The outcome of a call. *)
Inductive Res (S R : Type) : Type :=
| Done (r : R) (s : S)
| Panicked (msg : string) (s : S).
Arguments Done {S R} r s.
Arguments Panicked {S R} msg s.

Definition Func (S R : Type) : Type := S -> Res S R.

Definition bind {S R A B} (m : Stmt S R A) (k : A -> Stmt S R B) : Stmt S R B :=
  fun s => match m s with
           | Next a s' => k a s'
           | Return r s' => Return r s'
           | Panic msg s' => Panic msg s'
           end.

Definition pure {S R A} (a : A) : Stmt S R A := fun s => Next a s.
Definition return_ {S R A} (r : R) : Stmt S R A := fun s => Return r s.
Definition panic {S R A} (msg : string) : Stmt S R A := fun s => Panic msg s.
Definition get {S R} : Stmt S R S := fun s => Next s s.
Definition modify {S R} (f : S -> S) : Stmt S R unit := fun s => Next tt (f s).
Definition when {S R} (b : bool) (m : Stmt S R unit) : Stmt S R unit :=
  if b then m else pure tt.

Declare Scope go_scope.
Delimit Scope go_scope with go.
Notation "x <- m ;; k" := (bind m (fun x => k))
  (at level 100, m at next level, right associativity) : go_scope.
Notation "m ;; k" := (bind m (fun _ => k))
  (at level 100, right associativity) : go_scope.
Notation "' pat <- m ;; k" := (bind m (fun x => match x with pat => k end))
  (at level 100, pat pattern, m at next level, right associativity) : go_scope.

(** A function body: falling off the end yields the last value. *)
Definition body {S R} (m : Stmt S R R) : Func S R :=
  fun s => match m s with
           | Next r s' => Done r s'
           | Return r s' => Done r s'
           | Panic msg s' => Panicked msg s'
           end.

(** A call statement. *)
Definition call {S R A} (f : Func S A) : Stmt S R A :=
  fun s => match f s with
           | Done a s' => Next a s'
           | Panicked msg s' => Panic msg s'
           end.

(** [defer]: the deferred function sees (and may replace) the named results;
    when the function panics it runs on the zero results and the panic goes
    on. *)
Definition deferred {S R} (zero : R) (d : R -> Func S R) (f : Func S R) : Func S R :=
  fun s => match f s with
           | Done r s' => d r s'
           | Panicked msg s' =>
               match d zero s' with
               | Done _ s'' => Panicked msg s''
               | Panicked msg' s'' => Panicked msg' s''
               end
           end.

(** ** Kubernetes object metadata and conditions *)

Module metav1.

Inductive ConditionStatus : Type := ConditionTrue | ConditionFalse | ConditionUnknown.

Definition ConditionStatus_eqb (a b : ConditionStatus) : bool :=
  match a, b with
  | ConditionTrue, ConditionTrue => true
  | ConditionFalse, ConditionFalse => true
  | ConditionUnknown, ConditionUnknown => true
  | _, _ => false
  end.

(** [metav1.Condition]; the transition time is not modelled. *)
Record Condition : Type := mkCondition {
  Type_ : string;
  Status : ConditionStatus;
  Reason : string;
  Message : string;
  ObservedGeneration : Z
}.

(** [metav1.ObjectMeta], the fields the reconcilers read or write. A zero
    deletion timestamp is [None]. *)
Record ObjectMeta : Type := mkObjectMeta {
  Namespace : string;
  Name : string;
  Generation : Z;
  DeletionTimestamp : option Z;
  Finalizers : list string;
  Annotations : list (string * string)
}.

Definition set_Finalizers (fs : list string) (m : ObjectMeta) : ObjectMeta :=
  mkObjectMeta (Namespace m) (Name m) (Generation m) (DeletionTimestamp m) fs (Annotations m).

(** [DeletionTimestamp.IsZero()]. *)
Definition DeletionTimestamp_IsZero (m : ObjectMeta) : bool :=
  match DeletionTimestamp m with None => true | Some _ => false end.

End metav1.

(** [controllerutil]: finalizers of an object. *)
Module controllerutil.

Definition ContainsFinalizer (m : metav1.ObjectMeta) (finalizer : string) : bool :=
  existsb (String.eqb finalizer) (metav1.Finalizers m).

Definition AddFinalizer (m : metav1.ObjectMeta) (finalizer : string) : metav1.ObjectMeta :=
  if ContainsFinalizer m finalizer then m
  else metav1.set_Finalizers (metav1.Finalizers m ++ [finalizer])%list m.

Definition RemoveFinalizer (m : metav1.ObjectMeta) (finalizer : string) : metav1.ObjectMeta :=
  metav1.set_Finalizers
    (filter (fun f => negb (String.eqb f finalizer)) (metav1.Finalizers m)) m.

End controllerutil.

(** [github.com/fluxcd/pkg/apis/meta]: condition types, reasons and the
    reconcile request annotation. *)
Module meta.

Definition ReadyCondition : string := "Ready".
Definition StalledCondition : string := "Stalled".
Definition ReconcilingCondition : string := "Reconciling".
Definition SucceededReason : string := "Succeeded".
Definition FailedReason : string := "Failed".
Definition ProgressingReason : string := "Progressing".
Definition ProgressingWithRetryReason : string := "ProgressingWithRetry".
Definition ReconcileRequestAnnotation : string := "reconcile.fluxcd.io/requestedAt".

(** [meta.ReconcileAnnotationValue]: the value of the annotation and whether
    it is present. *)
Definition ReconcileAnnotationValue (annotations : list (string * string)) : option string :=
  map_lookup annotations ReconcileRequestAnnotation.

End meta.

(** [github.com/fluxcd/pkg/runtime/conditions] on the condition list of an
    object of generation [gen]. The list keeps one condition per type; the
    sort the library applies for display is not modelled. *)
Module condition_list.
Import metav1.

Definition Get (cs : list Condition) (t : string) : option Condition :=
  find (fun c => String.eqb (Type_ c) t) cs.

Definition Has (cs : list Condition) (t : string) : bool :=
  match Get cs t with Some _ => true | None => false end.

Definition Delete (cs : list Condition) (t : string) : list Condition :=
  filter (fun c => negb (String.eqb (Type_ c) t)) cs.

(** [conditions.Set]: the observed generation of the condition is always the
    generation of the object; an existing condition of the type is replaced
    where it stands, a new one is appended. *)
Fixpoint replace (c : Condition) (cs : list Condition) : option (list Condition) :=
  match cs with
  | [] => None
  | x :: rest =>
      if String.eqb (Type_ x) (Type_ c) then Some (c :: rest)
      else match replace c rest with
           | Some rest' => Some (x :: rest')
           | None => None
           end
  end.

Definition Set_ (gen : Z) (cs : list Condition) (c : Condition) : list Condition :=
  let c' := mkCondition (Type_ c) (Status c) (Reason c) (Message c) gen in
  match replace c' cs with
  | Some cs' => cs'
  | None => (cs ++ [c'])%list
  end.

Definition MarkTrue (gen : Z) (cs : list Condition) (t reason msg : string) : list Condition :=
  Set_ gen cs (mkCondition t ConditionTrue reason msg 0).

Definition MarkFalse (gen : Z) (cs : list Condition) (t reason msg : string) : list Condition :=
  Set_ gen cs (mkCondition t ConditionFalse reason msg 0).

Definition MarkUnknown (gen : Z) (cs : list Condition) (t reason msg : string) : list Condition :=
  Set_ gen cs (mkCondition t ConditionUnknown reason msg 0).

(** [conditions.MarkStalled] removes Reconciling. *)
Definition MarkStalled (gen : Z) (cs : list Condition) (reason msg : string) : list Condition :=
  MarkTrue gen (Delete cs meta.ReconcilingCondition) meta.StalledCondition reason msg.

Definition IsTrue (cs : list Condition) (t : string) : bool :=
  match Get cs t with
  | Some c => ConditionStatus_eqb (Status c) ConditionTrue
  | None => false
  end.

Definition IsFalse (cs : list Condition) (t : string) : bool :=
  match Get cs t with
  | Some c => ConditionStatus_eqb (Status c) ConditionFalse
  | None => false
  end.

Definition IsStalled (cs : list Condition) : bool :=
  negb (IsTrue cs meta.ReconcilingCondition) && IsTrue cs meta.StalledCondition.

Definition IsReconciling (cs : list Condition) : bool :=
  negb (IsTrue cs meta.StalledCondition) && IsTrue cs meta.ReconcilingCondition.

Definition IsReady (cs : list Condition) : bool :=
  negb (IsStalled cs) && negb (IsReconciling cs) && IsTrue cs meta.ReadyCondition.

Definition GetObservedGeneration (cs : list Condition) (t : string) : Z :=
  match Get cs t with
  | Some c => ObservedGeneration c
  | None => 0
  end.

Definition GetMessage (cs : list Condition) (t : string) : string :=
  match Get cs t with
  | Some c => Message c
  | None => ""
  end.

Definition GetReason (cs : list Condition) (t : string) : string :=
  match Get cs t with
  | Some c => Reason c
  | None => ""
  end.

End condition_list.

(** ** The source API ([api/v1beta2]) *)

(** The API package is not among the sources of the reconcilers; its
    constants and types are written out as the reconcilers use them. *)
Module sourcev1.

Definition SourceFinalizer : string := "finalizers.fluxcd.io".
Definition GroupVersion_Group : string := "source.toolkit.fluxcd.io".

Definition StorageOperationFailedCondition : string := "StorageOperationFailed".
Definition FetchFailedCondition : string := "FetchFailed".
Definition BuildFailedCondition : string := "BuildFailed".
Definition ArtifactOutdatedCondition : string := "ArtifactOutdated".
Definition ArtifactInStorageCondition : string := "ArtifactInStorage".
Definition SourceVerifiedCondition : string := "SourceVerified".

Definition URLInvalidReason : string := "URLInvalid".
Definition AuthenticationFailedReason : string := "AuthenticationFailed".
Definition VerificationError : string := "VerificationError".
Definition DirCreationFailedReason : string := "DirectoryCreationFailed".
Definition StatOperationFailedReason : string := "StatOperationFailed".
Definition ReadOperationFailedReason : string := "ReadOperationFailed".
Definition AcquireLockFailedReason : string := "AcquireLockFailed".
Definition InvalidPathReason : string := "InvalidPath".
Definition ArchiveOperationFailedReason : string := "ArchiveOperationFailed".
Definition SymlinkUpdateFailedReason : string := "SymlinkUpdateFailed".
Definition ArtifactUpToDateReason : string := "ArtifactUpToDate".
Definition CacheOperationFailedReason : string := "CacheOperationFailed".
Definition OCIPullFailedReason : string := "OCIArtifactPullFailed".
Definition OCILayerOperationFailedReason : string := "OCIArtifactLayerOperationFailed".
Definition ChartPullSucceededReason : string := "ChartPullSucceeded".
Definition ChartPackageSucceededReason : string := "ChartPackageSucceeded".

Definition HelmRepositoryTypeDefault : string := "default".
Definition HelmRepositoryTypeOCI : string := "oci".
Definition GenericOCIProvider : string := "generic".
Definition AmazonOCIProvider : string := "aws".
Definition AzureOCIProvider : string := "azure".
Definition GoogleOCIProvider : string := "gcp".
Definition OCIRepositoryPrefix : string := "oci://".
Definition OCILayerExtract : string := "extract".
Definition OCILayerCopy : string := "copy".

Definition HelmRepositoryKind : string := "HelmRepository".
Definition GitRepositoryKind : string := "GitRepository".
Definition BucketKind : string := "Bucket".
Definition HelmChartKind : string := "HelmChart".
Definition OCIRepositoryKind : string := "OCIRepository".
Definition ReconcileStrategyChartVersion : string := "ChartVersion".
Definition ReconcileStrategyRevision : string := "Revision".

(** [sourcev1.Artifact]. A nil metadata map is [None]. *)
Record Artifact : Type := mkArtifact {
  Path : string;
  URL : string;
  Revision : string;
  Checksum : string;
  LastUpdateTime : Z;
  Size : Z;
  Metadata : option (list (string * string))
}.

Definition Artifact_zero : Artifact := mkArtifact "" "" "" "" 0 0 None.

Definition set_URL (u : string) (a : Artifact) : Artifact :=
  mkArtifact (Path a) u (Revision a) (Checksum a) (LastUpdateTime a) (Size a) (Metadata a).

Definition set_Path (p : string) (a : Artifact) : Artifact :=
  mkArtifact p (URL a) (Revision a) (Checksum a) (LastUpdateTime a) (Size a) (Metadata a).

Definition set_Metadata (m : option (list (string * string))) (a : Artifact) : Artifact :=
  mkArtifact (Path a) (URL a) (Revision a) (Checksum a) (LastUpdateTime a) (Size a) m.

(** Modelled from the spec: [Artifact.HasRevision] of the API package, which
    is not among the sources. The revision is the identity of an artifact
    (section 3), so the method compares the revision of the artifact with the
    given one; a nil artifact has no revision. *)
Definition HasRevision (a : option Artifact) (revision : string) : bool :=
  match a with
  | None => false
  | Some a => String.eqb (Revision a) revision
  end.

End sourcev1.

(** The HelmRepository object. *)
Module HelmRepository.
Import metav1 sourcev1.

Record Spec : Type := mkSpec {
  URL : string;
  SecretRef : option string;
  PassCredentials : bool;
  Interval : Z;
  (* [spec.timeout] has a default in the CRD: it is set on every object read
     from the API server *)
  Timeout : Z;
  Suspend : bool;
  Type_ : string;
  Provider : string
}.

Record Status : Type := mkStatus {
  ObservedGeneration : Z;
  Conditions : list Condition;
  StatusURL : string;
  Artifact : option sourcev1.Artifact;
  LastHandledReconcileAt : string
}.

Record T : Type := mk {
  Kind : string;
  ObjectMeta : metav1.ObjectMeta;
  spec : Spec;
  status : Status
}.

Definition set_ObjectMeta (m : metav1.ObjectMeta) (o : T) : T := mk (Kind o) m (spec o) (status o).
Definition set_status (s : Status) (o : T) : T := mk (Kind o) (ObjectMeta o) (spec o) s.

Definition set_Conditions (cs : list Condition) (o : T) : T :=
  let s := status o in
  set_status (mkStatus (ObservedGeneration s) cs (StatusURL s) (Artifact s) (LastHandledReconcileAt s)) o.

Definition set_LastHandledReconcileAt (v : string) (o : T) : T :=
  let s := status o in
  set_status (mkStatus (ObservedGeneration s) (Conditions s) (StatusURL s) (Artifact s) v) o.

Definition set_ObservedGeneration (g : Z) (o : T) : T :=
  let s := status o in
  set_status (mkStatus g (Conditions s) (StatusURL s) (Artifact s) (LastHandledReconcileAt s)) o.

Definition GetConditions (o : T) : list Condition := Conditions (status o).
Definition GetArtifact (o : T) : option sourcev1.Artifact := Artifact (status o).
Definition GetRequeueAfter (o : T) : Z := Interval (spec o).
Definition GetLastHandledReconcileRequest (o : T) : string := LastHandledReconcileAt (status o).

End HelmRepository.

(** The OCIRepository object. *)
Module OCIRepository.
Import metav1 sourcev1.

Record OCIRepositoryRef : Type := mkRef {
  Digest : string;
  SemVer : string;
  Tag : string
}.

Record OCILayerSelector : Type := mkLayerSelector {
  MediaType : string;
  Operation : string
}.

Definition OCILayerSelector_eqb (a b : OCILayerSelector) : bool :=
  String.eqb (MediaType a) (MediaType b) && String.eqb (Operation a) (Operation b).

Record OCIRepositoryVerification : Type := mkVerification {
  VerifyProvider : string;
  VerifySecretRef : option string
}.

Record Spec : Type := mkSpec {
  URL : string;
  Reference : option OCIRepositoryRef;
  LayerSelector : option OCILayerSelector;
  Provider : string;
  SecretRef : option string;
  Verify : option OCIRepositoryVerification;
  ServiceAccountName : string;
  CertSecretRef : option string;
  Interval : Z;
  Timeout : Z;
  Ignore : option string;
  Insecure : bool;
  Suspend : bool
}.

Record Status : Type := mkStatus {
  ObservedGeneration : Z;
  Conditions : list Condition;
  StatusURL : string;
  Artifact : option sourcev1.Artifact;
  ContentConfigChecksum : string;
  ObservedIgnore : option string;
  ObservedLayerSelector : option OCILayerSelector;
  LastHandledReconcileAt : string
}.

Record T : Type := mk {
  Kind : string;
  ObjectMeta : metav1.ObjectMeta;
  spec : Spec;
  status : Status
}.

Definition set_ObjectMeta (m : metav1.ObjectMeta) (o : T) : T := mk (Kind o) m (spec o) (status o).
Definition set_status (s : Status) (o : T) : T := mk (Kind o) (ObjectMeta o) (spec o) s.

Definition set_Conditions (cs : list Condition) (o : T) : T :=
  let s := status o in
  set_status (mkStatus (ObservedGeneration s) cs (StatusURL s) (Artifact s)
                (ContentConfigChecksum s) (ObservedIgnore s) (ObservedLayerSelector s)
                (LastHandledReconcileAt s)) o.

Definition set_StatusURL (u : string) (o : T) : T :=
  let s := status o in
  set_status (mkStatus (ObservedGeneration s) (Conditions s) u (Artifact s)
                (ContentConfigChecksum s) (ObservedIgnore s) (ObservedLayerSelector s)
                (LastHandledReconcileAt s)) o.

Definition set_Artifact (a : option sourcev1.Artifact) (o : T) : T :=
  let s := status o in
  set_status (mkStatus (ObservedGeneration s) (Conditions s) (StatusURL s) a
                (ContentConfigChecksum s) (ObservedIgnore s) (ObservedLayerSelector s)
                (LastHandledReconcileAt s)) o.

Definition set_ContentConfigChecksum (c : string) (o : T) : T :=
  let s := status o in
  set_status (mkStatus (ObservedGeneration s) (Conditions s) (StatusURL s) (Artifact s)
                c (ObservedIgnore s) (ObservedLayerSelector s)
                (LastHandledReconcileAt s)) o.

Definition set_ObservedIgnore (i : option string) (o : T) : T :=
  let s := status o in
  set_status (mkStatus (ObservedGeneration s) (Conditions s) (StatusURL s) (Artifact s)
                (ContentConfigChecksum s) i (ObservedLayerSelector s)
                (LastHandledReconcileAt s)) o.

Definition set_ObservedLayerSelector (l : option OCILayerSelector) (o : T) : T :=
  let s := status o in
  set_status (mkStatus (ObservedGeneration s) (Conditions s) (StatusURL s) (Artifact s)
                (ContentConfigChecksum s) (ObservedIgnore s) l
                (LastHandledReconcileAt s)) o.

Definition GetConditions (o : T) : list Condition := Conditions (status o).
Definition GetArtifact (o : T) : option sourcev1.Artifact := Artifact (status o).
Definition GetRequeueAfter (o : T) : Z := Interval (spec o).
Definition GetLastHandledReconcileRequest (o : T) : string := LastHandledReconcileAt (status o).

(** [GetLayerMediaType] and [GetLayerOperation]: the selector is optional
    and the operation defaults to extract. *)
Definition GetLayerMediaType (o : T) : string :=
  match LayerSelector (spec o) with
  | None => ""
  | Some l => MediaType l
  end.

Definition GetLayerOperation (o : T) : string :=
  match LayerSelector (spec o) with
  | None => OCILayerExtract
  | Some l => if String.eqb (Operation l) "" then OCILayerExtract else Operation l
  end.

End OCIRepository.

(** The HelmChart object. *)
Module HelmChart.
Import metav1 sourcev1.

Record LocalHelmChartSourceReference : Type := mkSourceRef {
  SourceKind : string;
  SourceName : string
}.

Record Spec : Type := mkSpec {
  Chart : string;
  Version : string;
  SourceRef : LocalHelmChartSourceReference;
  Interval : Z;
  ReconcileStrategy : string;
  ValuesFiles : list string;
  ValuesFile : string;
  Suspend : bool;
  Verify : option OCIRepository.OCIRepositoryVerification
}.

Record Status : Type := mkStatus {
  ObservedGeneration : Z;
  ObservedSourceArtifactRevision : string;
  ObservedChartName : string;
  Conditions : list Condition;
  StatusURL : string;
  Artifact : option sourcev1.Artifact;
  LastHandledReconcileAt : string
}.

Record T : Type := mk {
  Kind : string;
  ObjectMeta : metav1.ObjectMeta;
  spec : Spec;
  status : Status
}.

Definition set_ObjectMeta (m : metav1.ObjectMeta) (o : T) : T := mk (Kind o) m (spec o) (status o).
Definition set_status (s : Status) (o : T) : T := mk (Kind o) (ObjectMeta o) (spec o) s.

Definition set_Conditions (cs : list Condition) (o : T) : T :=
  let s := status o in
  set_status (mkStatus (ObservedGeneration s) (ObservedSourceArtifactRevision s)
                (ObservedChartName s) cs (StatusURL s) (Artifact s)
                (LastHandledReconcileAt s)) o.

Definition set_StatusURL (u : string) (o : T) : T :=
  let s := status o in
  set_status (mkStatus (ObservedGeneration s) (ObservedSourceArtifactRevision s)
                (ObservedChartName s) (Conditions s) u (Artifact s)
                (LastHandledReconcileAt s)) o.

Definition set_Artifact (a : option sourcev1.Artifact) (o : T) : T :=
  let s := status o in
  set_status (mkStatus (ObservedGeneration s) (ObservedSourceArtifactRevision s)
                (ObservedChartName s) (Conditions s) (StatusURL s) a
                (LastHandledReconcileAt s)) o.

Definition set_ObservedSourceArtifactRevision (r : string) (o : T) : T :=
  let s := status o in
  set_status (mkStatus (ObservedGeneration s) r
                (ObservedChartName s) (Conditions s) (StatusURL s) (Artifact s)
                (LastHandledReconcileAt s)) o.

Definition set_ObservedChartName (n : string) (o : T) : T :=
  let s := status o in
  set_status (mkStatus (ObservedGeneration s) (ObservedSourceArtifactRevision s)
                n (Conditions s) (StatusURL s) (Artifact s)
                (LastHandledReconcileAt s)) o.

Definition GetConditions (o : T) : list Condition := Conditions (status o).
Definition GetArtifact (o : T) : option sourcev1.Artifact := Artifact (status o).
Definition GetRequeueAfter (o : T) : Z := Interval (spec o).
Definition GetLastHandledReconcileRequest (o : T) : string := LastHandledReconcileAt (status o).

(** [GetValuesFiles]: the deprecated single values file comes first. *)
Definition GetValuesFiles (o : T) : list string :=
  if String.eqb (ValuesFile (spec o)) "" then ValuesFiles (spec o)
  else ValuesFile (spec o) :: ValuesFiles (spec o).

End HelmChart.

(** ** The outside world *)

(** [authn.Keychain]: the anonymous keychain of [internal/oci] or any other. *)
Inductive Keychain : Type :=
| Anonymous
| OpaqueKeychain (id : string).

Definition Authenticator : Type := string.
Definition LoginOption : Type := string.
Definition Secret : Type := list (string * string).
Definition Verifier : Type := string.
Definition ChartRepo : Type := string.

(** [name.Reference]: the registry and repository of its context. *)
Record name_Reference : Type := mkReference {
  RegistryStr : string;
  RepositoryStr : string
}.

(** [ref.Context().Name()]. *)
Definition Context_Name (r : name_Reference) : string := RegistryStr r ++ "/" ++ RepositoryStr r.

(** [http.Transport] with the TLS configuration [transport] fills in. *)
Record Transport : Type := mkTransport {
  Certificates : list string;
  RootCAs : option string
}.

(** The options handed to [crane] and [remote]. *)
Inductive RegistryOption : Type :=
| WithContext
| WithUserAgent
| crane_Insecure
| WithTransport (t : Transport)
| WithAuth (a : Authenticator)
| WithAuthFromKeychain (k : Keychain).

(** [login.ProviderOptions]. *)
Record ProviderOptions : Type := mkProviderOptions {
  AwsAutoLogin : bool;
  AzureAutoLogin : bool;
  GcpAutoLogin : bool
}.

(** [gcrv1.Layer] and [gcrv1.Image] as the answers of their methods. *)
Record Layer : Type := mkLayer {
  Layer_MediaType : Err string;
  Layer_Compressed : Err string
}.

Record Image : Type := mkImage {
  Image_Manifest : Err (option (list (string * string)));
  Image_Layers : Err (list Layer)
}.

(** [chart.Build], [chart.BuildOptions] and the two chart references. *)
Record Build : Type := mkBuild {
  Build_Name : string;
  Build_Version : string;
  Build_Path : string;
  Build_ResolvedDependencies : Z;
  Build_Packaged : bool
}.

Definition Build_zero : Build := mkBuild "" "" "" 0 false.

Record BuildOptions : Type := mkBuildOptions {
  Opt_VersionMetadata : string;
  Opt_ValuesFiles : list string;
  Opt_CachedChart : string;
  Opt_Force : bool;
  Opt_Verify : bool
}.

Definition set_VersionMetadata (v : string) (o : BuildOptions) : BuildOptions :=
  mkBuildOptions v (Opt_ValuesFiles o) (Opt_CachedChart o) (Opt_Force o) (Opt_Verify o).

Definition set_CachedChart (c : string) (o : BuildOptions) : BuildOptions :=
  mkBuildOptions (Opt_VersionMetadata o) (Opt_ValuesFiles o) c (Opt_Force o) (Opt_Verify o).

(** The build error reasons of the chart package. *)
Module chart.
Definition ErrChartReference := mkBuildErrorReason "InvalidChartReference" "invalid chart reference".
Definition ErrChartPull := mkBuildErrorReason "ChartPullError" "chart pull error".
Definition ErrChartMetadataPatch := mkBuildErrorReason "MetadataPatchError" "chart metadata patch error".
Definition ErrValuesFilesMerge := mkBuildErrorReason "ValuesFilesError" "values files merge error".
Definition ErrDependencyBuild := mkBuildErrorReason "DependencyBuildError" "dependency build error".
Definition ErrChartPackage := mkBuildErrorReason "ChartPackageError" "chart package error".
Definition ErrChartVerification := mkBuildErrorReason "ChartVerificationError" "chart verification error".
Definition ErrUnknown := mkBuildErrorReason "Unknown" "unknown build error".

Definition BuildErrorReason_eqb (a b : BuildErrorReason) : bool :=
  String.eqb (ber_Reason a) (ber_Reason b) && String.eqb (ber_Summary a) (ber_Summary b).
End chart.

(** [errors.As(err, &buildErr)] for a [*chart.BuildError] target. *)
Fixpoint as_BuildError (e : error) : option (BuildErrorReason * error) :=
  match e with
  | chart_BuildError reason err => Some (reason, err)
  | Errorf_w _ err => as_BuildError err
  | serror_Generic _ err => as_BuildError err
  | serror_Stalling _ err => as_BuildError err
  | serror_Event _ err => as_BuildError err
  | url_Error err => as_BuildError err
  | _ => None
  end.

(** [sreconcile.Result]. *)
Inductive Result : Type := ResultEmpty | ResultRequeue | ResultSuccess.

Definition Result_eqb (a b : Result) : bool :=
  match a, b with
  | ResultEmpty, ResultEmpty => true
  | ResultRequeue, ResultRequeue => true
  | ResultSuccess, ResultSuccess => true
  | _, _ => false
  end.

(** Modelled from the spec: [sreconcile.LowestRequeuingResult] of
    [internal/reconcile], which is not among the sources. Of two phase
    results the one that asks for the earlier requeue wins (section 4.7): an
    empty result yields to the other, a requeue wins over a success. *)
Definition LowestRequeuingResult (i j : Result) : Result :=
  match i, j with
  | ResultEmpty, _ => j
  | _, ResultEmpty => i
  | ResultRequeue, _ => i
  | _, ResultRequeue => j
  | _, _ => j
  end.

(** [ctrl.Result]. *)
Record ctrl_Result : Type := mkCtrlResult {
  Requeue : bool;
  RequeueAfter : Z
}.

Definition ctrl_Result_zero : ctrl_Result := mkCtrlResult false 0.

(** The calls of a reconciler that change the outside: patches of the object
    ([T] is its kind), events, storage operations, and the registry calls
    that log in, pull, verify or build. *)
Inductive StorageOp : Type :=
| OpRemoveAll | OpGarbageCollect | OpMkdirAll | OpLock | OpUnlock
| OpArchive | OpCopyFromPath | OpSymlink.

Inductive RegistryOp : Type :=
| OpNewClient (isLogin : bool) | OpLogin | OpListTags | OpDigest | OpPull
| OpVerifySignatures | OpBuildChart.

Inductive Event (T : Type) : Type :=
| EvPatch (o : T) (statusObservedGeneration : bool)
| EvEvent (eventType reason : string) (annotations : list (string * string)) (msg : string)
| EvStorage (op : StorageOp) (path : string)
| EvRegistry (op : RegistryOp) (url : string).
Arguments EvPatch {T} o statusObservedGeneration.
Arguments EvEvent {T} eventType reason annotations msg.
Arguments EvStorage {T} op path.
Arguments EvRegistry {T} op url.

(** The state a reconciliation runs in: the object, the value the phases
    share through a pointer ([scratch]: the artifact metadata of an
    OCIRepository run, the chart build of a HelmChart run), the files of the
    storage and the content of the temporary working directory. The newest
    call is the head of [trace]. *)
Record World (T X : Type) : Type := mkWorld {
  obj : T;
  scratch : X;
  files : list string;
  workdir : list (string * string);
  trace : list (Event T)
}.
Arguments mkWorld {T X} obj scratch files workdir trace.
Arguments obj {T X} w.
Arguments scratch {T X} w.
Arguments files {T X} w.
Arguments workdir {T X} w.
Arguments trace {T X} w.

Definition set_obj {T X} (o : T) (w : World T X) : World T X :=
  mkWorld o (scratch w) (files w) (workdir w) (trace w).
Definition set_scratch {T X} (x : X) (w : World T X) : World T X :=
  mkWorld (obj w) x (files w) (workdir w) (trace w).
Definition set_files {T X} (fs : list string) (w : World T X) : World T X :=
  mkWorld (obj w) (scratch w) fs (workdir w) (trace w).
Definition set_workdir {T X} (d : list (string * string)) (w : World T X) : World T X :=
  mkWorld (obj w) (scratch w) (files w) d (trace w).
Definition log {T X} (e : Event T) (w : World T X) : World T X :=
  mkWorld (obj w) (scratch w) (files w) (workdir w) (e :: trace w).

(** Statements over a world. *)
Definition update {T X R} (f : T -> T) : Stmt (World T X) R unit :=
  modify (fun w => set_obj (f (obj w)) w).
Definition emit {T X R} (e : Event T) : Stmt (World T X) R unit := modify (log e).
Definition self {T X R} : Stmt (World T X) R T := fun w => Next (obj w) w.

(** A call that fails hands its error to a handler, which as a rule records
    it and returns. *)
Definition try {S R A} (r : Err A) (handler : error -> Stmt S R A) : Stmt S R A :=
  match r with
  | inl err => handler err
  | inr a => pure a
  end.

(** [eventLogf]: the event is recorded (and logged). *)
Definition eventLogf {T X R} (eventType reason msg : string) : Stmt (World T X) R unit :=
  emit (EvEvent eventType reason [] msg).

(** [semver] of Masterminds and [version.ParseVersion] of fluxcd/pkg: the
    versions, their parser, the constraints and the precedence order. *)
Record SemverLib : Type := mkSemverLib {
  Version : Type;
  Constraint : Type;
  ParseVersion : string -> Err Version;
  NewConstraint : string -> Err Constraint;
  Check : Constraint -> Version -> bool;
  Compare : Version -> Version -> comparison;
  Original : Version -> string
}.

(** [v.LessThan(o)]. *)
Definition LessThan (lib : SemverLib) (v o : Version lib) : bool :=
  match Compare lib v o with Lt => true | _ => false end.

(** The oracles of one unchanged outside world. *)
Record Env : Type := mkEnv {
  (* Kubernetes API *)
  client_Get_Secret : string -> string -> Err Secret;
  client_Get_ServiceAccount : string -> string -> Err (list string);
  client_Get_HelmRepository : string -> string -> Err HelmRepository.T;
  client_Get_GitRepository : string -> string -> Err (option sourcev1.Artifact);
  client_Get_Bucket : string -> string -> Err (option sourcev1.Artifact);
  Patch_error : option error;
  ProgressiveStatus : bool -> Z -> string -> string -> list metav1.Condition -> list metav1.Condition;
  FailureRecovery : list metav1.Condition -> list metav1.Condition -> list string -> bool;
  (* registries and credentials *)
  name_ParseReference : string -> Err name_Reference;
  url_Parse : string -> Err string;
  login_Login : string -> name_Reference -> ProviderOptions -> Err (option Authenticator);
  k8schain_NewFromPullSecrets : list Secret -> Err Keychain;
  registry_LoginOptionFromSecret : string -> Secret -> Err Keychain;
  registry_AuthAdaptHelper : Authenticator -> Err (option LoginOption);
  registry_KeychainAdaptHelper : Keychain -> string -> Err (option LoginOption);
  RegistryClientGenerator : bool -> Err (string * string);
  repository_NewOCIChartRepository : string -> Err ChartRepo;
  repository_NewChartRepository : string -> string -> Err ChartRepo;
  chartRepo_Login : ChartRepo -> LoginOption -> option error;
  crane_ListTags : string -> list RegistryOption -> Err (list string);
  crane_Digest : string -> list RegistryOption -> Err string;
  crane_Pull : string -> list RegistryOption -> Err Image;
  tls_X509KeyPair : string -> string -> Err string;
  x509_SystemCertPool : Err string;
  soci_NewCosignVerifier : list RegistryOption -> option string -> Err Verifier;
  VerifyImageSignatures : Verifier -> name_Reference -> Err (option (list string));
  semver : SemverLib;
  (* file system *)
  util_TempDirForObj : Err string;
  util_TempPathForObj : string;
  os_RemoveAll : string -> option error;
  os_Remove : string -> option error;
  os_Stat : string -> Err bool;
  os_Mkdir : string -> option error;
  os_Open : string -> Err string;
  os_Create : string -> option error;
  io_Copy : string -> option error;
  file_Close : option error;
  untar_Untar : string -> Err (list (string * string));
  sourceignore_LoadIgnorePatterns : list (string * string) -> Err (list string);
  sourceignore_ReadPatterns : string -> list string;
  (* artifact storage *)
  Hostname : string;
  BasePath : string;
  storage_SetHostname : string -> string;
  removeAll_stuck : string -> bool;
  gc_error : option error;
  gc_expired : string -> bool;
  MkdirAll_error : string -> option error;
  Lock_error : string -> option error;
  Archive_error : string -> option error;
  CopyFromPath_error : string -> option error;
  Symlink_error : string -> option error;
  content_checksum : list (string * string) -> list string -> string;
  file_checksum : string -> string;
  time_Now : Z;
  (* Helm *)
  repository_NormalizeURL : string -> string;
  getter_ClientOptionsFromSecret : Secret -> Err (list string);
  getter_TLSClientConfigFromSecret : Secret -> string -> Err (option string);
  remote_Build : ChartRepo -> string -> string -> BuildOptions -> Err Build;
  local_Build : string -> string -> BuildOptions -> Err Build;
  dm_Clear : option error;
  Build_Complete : Build -> bool;
  Build_HasMetadata : Build -> bool;
  Build_Summary : Build -> string;
  IsPersistentBuildErrorReason : BuildErrorReason -> bool;
  (* [opts.GetValuesFiles()] of [chart.BuildOptions] *)
  BuildOptions_GetValuesFiles : BuildOptions -> list string;
  (* the index cache of the HelmChart reconciler: [r.Cache != nil],
     [httpChartRepo.Index != nil] and [httpChartRepo.CacheIndexInMemory()] *)
  Cache_present : bool;
  chartRepo_Index_loaded : ChartRepo -> bool;
  chartRepo_CacheIndexInMemory : ChartRepo -> option error
}.

(** ** Objects with conditions *)

(** [conditions.Setter]: what the condition helpers and the patch helper
    need of an object. *)
Class Setter (T : Type) : Type := {
  GetGeneration : T -> Z;
  GetConditions : T -> list metav1.Condition;
  SetConditions : list metav1.Condition -> T -> T;
  GetDeletionTimestamp : T -> option Z;
  WithStatusObservedGeneration : Z -> T -> T
}.

#[export] Instance HelmRepository_Setter : Setter HelmRepository.T := {
  GetGeneration := fun o => metav1.Generation (HelmRepository.ObjectMeta o);
  GetConditions := HelmRepository.GetConditions;
  SetConditions := HelmRepository.set_Conditions;
  GetDeletionTimestamp := fun o => metav1.DeletionTimestamp (HelmRepository.ObjectMeta o);
  WithStatusObservedGeneration := HelmRepository.set_ObservedGeneration
}.

#[export] Instance OCIRepository_Setter : Setter OCIRepository.T := {
  GetGeneration := fun o => metav1.Generation (OCIRepository.ObjectMeta o);
  GetConditions := OCIRepository.GetConditions;
  SetConditions := OCIRepository.set_Conditions;
  GetDeletionTimestamp := fun o => metav1.DeletionTimestamp (OCIRepository.ObjectMeta o);
  WithStatusObservedGeneration := fun g o =>
    let s := OCIRepository.status o in
    OCIRepository.set_status
      (OCIRepository.mkStatus g (OCIRepository.Conditions s) (OCIRepository.StatusURL s)
         (OCIRepository.Artifact s) (OCIRepository.ContentConfigChecksum s)
         (OCIRepository.ObservedIgnore s) (OCIRepository.ObservedLayerSelector s)
         (OCIRepository.LastHandledReconcileAt s)) o
}.

#[export] Instance HelmChart_Setter : Setter HelmChart.T := {
  GetGeneration := fun o => metav1.Generation (HelmChart.ObjectMeta o);
  GetConditions := HelmChart.GetConditions;
  SetConditions := HelmChart.set_Conditions;
  GetDeletionTimestamp := fun o => metav1.DeletionTimestamp (HelmChart.ObjectMeta o);
  WithStatusObservedGeneration := fun g o =>
    let s := HelmChart.status o in
    HelmChart.set_status
      (HelmChart.mkStatus g (HelmChart.ObservedSourceArtifactRevision s)
         (HelmChart.ObservedChartName s) (HelmChart.Conditions s) (HelmChart.StatusURL s)
         (HelmChart.Artifact s) (HelmChart.LastHandledReconcileAt s)) o
}.

(** [github.com/fluxcd/pkg/runtime/conditions] on objects. *)
Module conditions.
Section WithSetter.
Context {T : Type} `{Setter T}.

Definition Get (o : T) (t : string) : option metav1.Condition :=
  condition_list.Get (GetConditions o) t.
Definition Delete (t : string) (o : T) : T :=
  SetConditions (condition_list.Delete (GetConditions o) t) o.
Definition Set_ (c : metav1.Condition) (o : T) : T :=
  SetConditions (condition_list.Set_ (GetGeneration o) (GetConditions o) c) o.
Definition MarkTrue (t reason msg : string) (o : T) : T :=
  SetConditions (condition_list.MarkTrue (GetGeneration o) (GetConditions o) t reason msg) o.
Definition MarkFalse (t reason msg : string) (o : T) : T :=
  SetConditions (condition_list.MarkFalse (GetGeneration o) (GetConditions o) t reason msg) o.
Definition MarkStalled (reason msg : string) (o : T) : T :=
  SetConditions (condition_list.MarkStalled (GetGeneration o) (GetConditions o) reason msg) o.
Definition IsTrue (o : T) (t : string) : bool := condition_list.IsTrue (GetConditions o) t.
Definition IsFalse (o : T) (t : string) : bool := condition_list.IsFalse (GetConditions o) t.
Definition IsStalled (o : T) : bool := condition_list.IsStalled (GetConditions o).
Definition IsReconciling (o : T) : bool := condition_list.IsReconciling (GetConditions o).
Definition IsReady (o : T) : bool := condition_list.IsReady (GetConditions o).
Definition GetObservedGeneration (o : T) (t : string) : Z :=
  condition_list.GetObservedGeneration (GetConditions o) t.
Definition GetMessage (o : T) (t : string) : string :=
  condition_list.GetMessage (GetConditions o) t.

End WithSetter.
End conditions.

(** [rreconcile.ProgressiveStatus] of fluxcd/pkg, an oracle on the conditions
    of the object. *)
Definition ProgressiveStatus_ {T} `{Setter T} (env : Env) (drift : bool) (reason msg : string)
    (o : T) : T :=
  SetConditions (ProgressiveStatus env drift (GetGeneration o) reason msg (GetConditions o)) o.

(** [sp.Patch(ctx, obj, opts...)]: the object goes to the API server as it
    stands; with [patch.WithStatusObservedGeneration] the observed generation
    of the patched status is the generation of the object. *)
Definition Patch {T X} `{Setter T} (env : Env) (withStatusObservedGeneration : bool)
    : Func (World T X) (option error) :=
  fun w =>
    let o := obj w in
    let persisted :=
      if withStatusObservedGeneration then WithStatusObservedGeneration (GetGeneration o) o
      else o in
    Done (Patch_error env) (log (EvPatch persisted withStatusObservedGeneration) w).

(** ** [internal/object] *)

(** The accessors of [internal/object/object.go] go through the unstructured
    form of a [runtime.Object]; the class gives the nested fields they read
    and write for each kind of object. *)
Class RuntimeObject (T : Type) : Type := {
  status_lastHandledReconcileAt : T -> string;
  with_status_lastHandledReconcileAt : string -> T -> T;
  spec_suspend : T -> bool
}.

#[export] Instance HelmRepository_RuntimeObject : RuntimeObject HelmRepository.T := {
  status_lastHandledReconcileAt := HelmRepository.GetLastHandledReconcileRequest;
  with_status_lastHandledReconcileAt := HelmRepository.set_LastHandledReconcileAt;
  spec_suspend := fun o => HelmRepository.Suspend (HelmRepository.spec o)
}.

Module object_.

Definition ErrLastHandledReconcileAtNotFound : error :=
  errors_New "last handled reconcile at not found".

(** [GetStatusLastHandledReconcileAt]: the field is left out of the
    unstructured form when it is empty. *)
Definition GetStatusLastHandledReconcileAt {T} `{RuntimeObject T} (o : T) : Err string :=
  if String.eqb (status_lastHandledReconcileAt o) "" then inl ErrLastHandledReconcileAtNotFound
  else inr (status_lastHandledReconcileAt o).

(** [SetStatusLastHandledReconcileAt]. *)
Definition SetStatusLastHandledReconcileAt {T} `{RuntimeObject T} (o : T) (val : string) : T :=
  with_status_lastHandledReconcileAt val o.

(** [GetSuspend]. *)
Definition GetSuspend {T} `{RuntimeObject T} (o : T) : bool := spec_suspend o.

End object_.

(** ** The artifact storage *)

(** [filepath.Dir] of a slash separated path with at least one slash. *)
Definition filepath_Dir (p : string) : string :=
  String.concat "/" (List.removelast (strings.Split p "/"%char)).

(** [filepath.Join] of two clean, non-empty paths. *)
Definition filepath_Join (a b : string) : string := a ++ "/" ++ b.

Module Storage.
Import sourcev1.

(** Modelled from the spec: the storage ([controllers/storage.go]) is not
    among the sources. Section 4.1 gives its interface and the layout
    [<root>/<kind>/<namespace>/<name>/<file>]; section 6 gives the URL of an
    artifact as [<storage-host>/<path>]. The path of an artifact is kept
    relative to the root, and [files] of a world are the relative paths of
    the regular files under the root. *)
Definition ArtifactDir (kind namespace name : string) : string :=
  strings.ToLower kind ++ "/" ++ namespace ++ "/" ++ name.

Definition ArtifactPath (kind namespace name filename : string) : string :=
  filepath_Join (ArtifactDir kind namespace name) filename.

(** Modelled from the spec: [SetArtifactURL] (section 6). An artifact
    without a path keeps its URL. *)
Definition SetArtifactURL (env : Env) (a : Artifact) : Artifact :=
  if String.eqb (Path a) "" then a
  else set_URL ("http://" ++ Hostname env ++ "/" ++ Path a) a.

(** Modelled from the spec: [NewArtifactFor] is [ArtifactFor] of section
    4.1: the artifact of the given revision and file name in the directory
    of the object, with its URL set. *)
Definition NewArtifactFor (env : Env) (kind : string) (m : metav1.ObjectMeta)
    (revision filename : string) : Artifact :=
  SetArtifactURL env
    (mkArtifact (ArtifactPath kind (metav1.Namespace m) (metav1.Name m) filename)
                "" revision "" 0 0 None).

(** Modelled from the spec: [LocalPath] (section 4.1). *)
Definition LocalPath (env : Env) (a : Artifact) : string :=
  if String.eqb (Path a) "" then "" else filepath_Join (BasePath env) (Path a).

(** Modelled from the spec: [ArtifactExist] is [Exists] of section 4.1: the
    file of the artifact is in the storage. *)
Definition ArtifactExist {T X} (w : World T X) (a : Artifact) : bool :=
  existsb (String.eqb (Path a)) (files w).

(** The files under a directory. *)
Definition under (dir f : string) : bool := String.prefix (dir ++ "/") f.

(** Modelled from the spec: [RemoveAll] removes the whole subtree of the
    directory of the artifact (section 4.1) and answers the directory it
    deleted, empty when there was none. Files the file system refuses to
    remove stay, and the call fails when one does. *)
Definition RemoveAll {T X} (env : Env) (a : Artifact) : Func (World T X) (string * option error) :=
  fun w =>
    let dir := filepath_Dir (Path a) in
    let present := existsb (under dir) (files w) in
    let stuck := existsb (fun f => under dir f && removeAll_stuck env f) (files w) in
    let remaining := filter (fun f => negb (under dir f) || removeAll_stuck env f) (files w) in
    Done (if present then dir else "",
          if stuck then Some (errors_New ("unlinkat " ++ dir ++ ": permission denied")) else None)
         (log (EvStorage OpRemoveAll dir) (set_files remaining w)).

(** Modelled from the spec: [GarbageCollect] keeps the advertised artifact
    and the files that are neither too old nor too many, deletes the rest of
    the directory of the artifact and answers the deleted paths; it fails
    when the lock is not acquired in time (sections 4.1 and 4.7). *)
Definition GarbageCollect {T X} (env : Env) (a : Artifact) : Func (World T X) (Err (list string)) :=
  fun w =>
    let dir := filepath_Dir (Path a) in
    match gc_error env with
    | Some e => Done (inl e) (log (EvStorage OpGarbageCollect (Path a)) w)
    | None =>
        let doomed f := under dir f && negb (String.eqb f (Path a)) && gc_expired env f in
        Done (inr (filter doomed (files w)))
             (log (EvStorage OpGarbageCollect (Path a))
                  (set_files (filter (fun f => negb (doomed f)) (files w)) w))
    end.

(** Modelled from the spec: [MkdirAll] and [Lock] (section 4.1); a lock that
    was acquired is released by the call the lock returns. *)
Definition MkdirAll {T X} (env : Env) (a : Artifact) : Func (World T X) (option error) :=
  fun w => Done (MkdirAll_error env (Path a)) (log (EvStorage OpMkdirAll (Path a)) w).

Definition Lock {T X} (env : Env) (a : Artifact) : Func (World T X) (option error) :=
  fun w => Done (Lock_error env (Path a)) (log (EvStorage OpLock (Path a)) w).

Definition unlock {T X} (a : Artifact) (w : World T X) : World T X :=
  log (EvStorage OpUnlock (Path a)) w.

(** Modelled from the spec: [Archive] writes the content of a directory,
    less what the filter ignores, to the file of the artifact and records
    checksum, time and size on the artifact (section 4.1); the write is
    atomic, so a failed call leaves no file. *)
Definition Archive {T X} (env : Env) (a : Artifact) (ignore : list string)
    : Func (World T X) (Artifact * option error) :=
  fun w =>
    match Archive_error env (Path a) with
    | Some e => Done (a, Some e) (log (EvStorage OpArchive (Path a)) w)
    | None =>
        let a' := mkArtifact (Path a) (URL a) (Revision a)
                    (content_checksum env (workdir w) ignore) (time_Now env)
                    (Z.of_nat (List.length (workdir w))) (Metadata a) in
        Done (a', None)
             (log (EvStorage OpArchive (Path a)) (set_files (Path a :: files w) w))
    end.

(** Modelled from the spec: [CopyFromPath] writes the file at a local path
    to the file of the artifact, as [Archive] does for a directory. *)
Definition CopyFromPath {T X} (env : Env) (a : Artifact) (path : string)
    : Func (World T X) (Artifact * option error) :=
  fun w =>
    match CopyFromPath_error env path with
    | Some e => Done (a, Some e) (log (EvStorage OpCopyFromPath (Path a)) w)
    | None =>
        let a' := mkArtifact (Path a) (URL a) (Revision a)
                    (file_checksum env path) (time_Now env) 0 (Metadata a) in
        Done (a', None)
             (log (EvStorage OpCopyFromPath (Path a)) (set_files (Path a :: files w) w))
    end.

(** Modelled from the spec: [Symlink] points the link of the given name in
    the directory of the artifact to its file and answers the URL of the
    link (section 4.1); the link is not one of the regular files. *)
Definition Symlink {T X} (env : Env) (a : Artifact) (linkName : string)
    : Func (World T X) (string * option error) :=
  fun w =>
    match Symlink_error env (Path a) with
    | Some e => Done ("", Some e) (log (EvStorage OpSymlink (Path a)) w)
    | None =>
        Done ("http://" ++ Hostname env ++ "/" ++ filepath_Join (filepath_Dir (Path a)) linkName, None)
             (log (EvStorage OpSymlink (Path a)) w)
    end.

End Storage.

(** ** Go library functions with a fixed meaning *)

(** [sort.Sort] by insertion: each element moves left while it is less than
    the one before it. Go's [sort.Sort] is this for slices of up to twelve
    elements; for longer ones it is another algorithm and not stable, so the
    properties below only rely on the result being ordered. *)
Module sort.

(** [x] enters the sorted prefix [before], given last element first. *)
Fixpoint sift {A} (less : A -> A -> bool) (x : A) (before : list A) : list A :=
  match before with
  | [] => [x]
  | y :: ys => if less x y then y :: sift less x ys else x :: before
  end.

Definition Sort {A} (less : A -> A -> bool) (data : list A) : list A :=
  List.rev (List.fold_left (fun before x => sift less x before) data []).

(** [sort.Reverse]. *)
Definition Reverse {A} (less : A -> A -> bool) : A -> A -> bool := fun a b => less b a.

End sort.

(** [sets.String] of apimachinery as the sorted list of its elements. *)
Module sets.

Fixpoint Insert (x : string) (s : list string) : list string :=
  match s with
  | [] => [x]
  | y :: rest =>
      match String.compare x y with
      | Eq => s
      | Lt => x :: s
      | Gt => y :: Insert x rest
      end
  end.

Definition List_ (s : list string) : list string := s.

End sets.

(** [gcrv1.NewHash]: [<algorithm>:<hex>] with lower case hex digits, the
    algorithm sha256 and 64 digits. *)
Record Hash : Type := mkHash {
  Algorithm : string;
  Hex : string
}.

Definition is_hex (c : ascii) : bool :=
  let n := nat_of_ascii c in
  ((48 <=? n) && (n <=? 57) || (97 <=? n) && (n <=? 102))%nat.

Fixpoint all_hex (s : string) : bool :=
  match s with
  | EmptyString => true
  | String c rest => is_hex c && all_hex rest
  end.

Definition NewHash (s : string) : Err Hash :=
  match strings.Split s ":"%char with
  | [alg; hex] =>
      if negb (all_hex hex) then inl (errors_New "found non-hex character in hash")
      else if negb (String.eqb alg "sha256") then inl (errors_New ("unsupported hash: " ++ alg))
      else if negb (String.length hex =? 64)%nat
           then inl (errors_New ("wrong number of hex digits for " ++ alg ++ ": " ++ hex))
      else inr (mkHash alg hex)
  | _ => inl (errors_New ("cannot parse hash: " ++ s))
  end.

(** [helmreg.IsOCI]. *)
Definition helmreg_IsOCI (url : string) : bool := strings.HasPrefix url "oci://".

(** [pointer.StringEqual]. *)
Definition pointer_StringEqual (a b : option string) : bool :=
  match a, b with
  | None, None => true
  | Some x, Some y => String.eqb x y
  | _, _ => false
  end.

Module oci.
Definition ClientCert : string := "certFile".
Definition ClientKey : string := "keyFile".
Definition CACert : string := "caFile".
Definition SourceAnnotation : string := "org.opencontainers.image.source".
Definition RevisionAnnotation : string := "org.opencontainers.image.revision".
End oci.

Module eventv1.
Definition EventTypeTrace : string := "Trace".
Definition MetaRevisionKey : string := "revision".
Definition MetaChecksumKey : string := "checksum".
End eventv1.

Module corev1.
Definition EventTypeNormal : string := "Normal".
Definition EventTypeWarning : string := "Warning".
End corev1.

(** ** Functions the reconcilers share *)

(** [oidcAuth]: the credential of the cloud provider for the registry of the
    URL. *)
Definition oidcAuth (env : Env) (url provider : string) : Err (option Authenticator) :=
  let u := strings.TrimPrefix url sourcev1.OCIRepositoryPrefix in
  match name_ParseReference env u with
  | inl err => inl (Errorf_w ("failed to parse URL '" ++ u ++ "'") err)
  | inr ref =>
      let opts :=
        if String.eqb provider sourcev1.AmazonOCIProvider then mkProviderOptions true false false
        else if String.eqb provider sourcev1.AzureOCIProvider then mkProviderOptions false true false
        else if String.eqb provider sourcev1.GoogleOCIProvider then mkProviderOptions false false true
        else mkProviderOptions false false false in
      login_Login env u ref opts
  end.

(** [makeLoginOption]: the authenticator comes before the keychain; without
    either there is no login option. *)
Definition makeLoginOption (env : Env) (auth : option Authenticator) (keychain : option Keychain)
    (registryURL : string) : Err (option LoginOption) :=
  match auth with
  | Some a => registry_AuthAdaptHelper env a
  | None =>
      match keychain with
      | Some k => registry_KeychainAdaptHelper env k registryURL
      | None => inr None
      end
  end.

(** ** The reconciler of HelmRepository objects of type OCI
    ([HelmRepositoryOCIReconciler]) *)

Module HelmRepositoryOCIReconciler.
Import metav1 sourcev1 HelmRepository.

(** The reconciler holds no storage; the files of the world are those of the
    storage the other reconcilers of the process write to. *)
Definition W : Type := World HelmRepository.T unit.
Definition R : Type := (ctrl_Result * option error)%type.

(** [authFromSecret]. *)
Definition authFromSecret (env : Env) (o : T) (secretRef : string) : Err Keychain :=
  let ns := Namespace (ObjectMeta o) in
  match client_Get_Secret env ns secretRef with
  | inl err => inl (Errorf_w ("failed to get secret '" ++ ns ++ "/" ++ secretRef ++ "'") err)
  | inr secret =>
      match registry_LoginOptionFromSecret env (URL (spec o)) secret with
      | inl err => inl (Errorf_w "failed to configure Helm client with secret data" err)
      | inr keychain => inr keychain
      end
  end.

(** The deferred summary of [reconcile] (lines 204-250). *)
Definition reconcile_summary (oldObj : T) (res : R) : Func W R :=
  body (
    let '(result, retErr) := res in
    o <- self ;;
    when (match conditions.Get o meta.StalledCondition with
          | Some sc => ConditionStatus_eqb (metav1.Status sc) ConditionTrue
          | None => false
          end)
         (update (conditions.Delete meta.ReconcilingCondition)) ;;
    o <- self ;;
    retErr <-
      (if (RequeueAfter result =? GetRequeueAfter o)%Z && negb (Requeue result) &&
          match retErr with None => true | Some _ => false end
       then
         update (conditions.Delete meta.ReconcilingCondition) ;;
         o <- self ;;
         match conditions.Get o meta.ReadyCondition with
         | Some ready =>
             if ConditionStatus_eqb (metav1.Status ready) ConditionFalse && negb (conditions.IsStalled o)
             then pure (Some (errors_New (conditions.GetMessage o meta.ReadyCondition)))
             else pure retErr
         | None => pure retErr
         end
       else pure retErr) ;;
    o <- self ;;
    (if conditions.IsReconciling o
     then match conditions.Get o meta.ReconcilingCondition with
          | Some reconciling =>
              update (conditions.Set_
                        (mkCondition (metav1.Type_ reconciling) (metav1.Status reconciling)
                           meta.ProgressingWithRetryReason (Message reconciling)
                           (metav1.ObservedGeneration reconciling)))
          | None => panic "nil pointer dereference"
          end
     else pure tt) ;;
    o <- self ;;
    when (negb (conditions.IsReconciling o) && negb (conditions.IsStalled o) &&
          match retErr with None => true | Some _ => false end &&
          (RequeueAfter result =? GetRequeueAfter o)%Z)
         (update (conditions.MarkTrue meta.ReadyCondition meta.SucceededReason
                    "Helm repository is ready")) ;;
    o <- self ;;
    let ready := conditions.Get o meta.ReadyCondition in
    (if negb (conditions.IsReady oldObj) && conditions.IsReady o
     then match ready with
          | Some ready => eventLogf corev1.EventTypeNormal (Reason ready) (Message ready)
          | None => panic "nil pointer dereference"
          end
     else pure tt) ;;
    (if conditions.IsReady oldObj && negb (conditions.IsReady o)
     then match ready with
          | Some ready => eventLogf corev1.EventTypeWarning (Reason ready) (Message ready)
          | None => panic "nil pointer dereference"
          end
     else pure tt) ;;
    pure (result, retErr))%go.

(** Lines 292-316 of [reconcile]: the credentials, from the secret the
    object names or else from the cloud provider. A failure is recorded on
    Ready and ends the run. *)
Definition reconcile_credentials (env : Env)
    : Stmt W R (option Authenticator * option Keychain) :=
  (o <- self ;;
   match SecretRef (spec o) with
   | Some secretRef =>
       keychain <- try (authFromSecret env o secretRef)
         (fun err =>
            update (conditions.MarkFalse meta.ReadyCondition AuthenticationFailedReason (Error err)) ;;
            return_ (ctrl_Result_zero, Some err)) ;;
       pure (None, Some keychain)
   | None =>
       if negb (String.eqb (Provider (spec o)) GenericOCIProvider) &&
          String.eqb (Type_ (spec o)) HelmRepositoryTypeOCI
       then
         match oidcAuth env (URL (spec o)) (Provider (spec o)) with
         | inl authErr =>
             if negb (is_ErrUnconfiguredProvider authErr)
             then
               let e := Errorf_w ("failed to get credential from " ++ Provider (spec o)) authErr in
               update (conditions.MarkFalse meta.ReadyCondition AuthenticationFailedReason (Error e)) ;;
               return_ (ctrl_Result_zero, Some e)
             else pure (None, None)
         | inr auth => pure (auth, None)
         end
       else pure (None, None)
   end)%go.

(** Lines 318-369 of [reconcile]: the registry client, the login and the
    result, with the credentials at hand. *)
Definition reconcile_login (env : Env) (authenticator : option Authenticator)
    (keychain : option Keychain) : Stmt W R R :=
  (o <- self ;;
   loginOpt <- try (makeLoginOption env authenticator keychain (URL (spec o)))
     (fun err =>
        update (conditions.MarkFalse meta.ReadyCondition AuthenticationFailedReason (Error err)) ;;
        return_ (ctrl_Result_zero, Some err)) ;;
   let isLogin := match loginOpt with Some _ => true | None => false end in
   emit (EvRegistry (OpNewClient isLogin) (URL (spec o))) ;;
   '(registryClient, file) <- try (RegistryClientGenerator env isLogin)
     (fun err =>
        let e := Errorf_w "failed to create registry client" err in
        update (conditions.MarkFalse meta.ReadyCondition meta.FailedReason (Error e)) ;;
        return_ (ctrl_Result_zero, Some e)) ;;
   let remove_file (r : R) : Func W R :=
     body (if String.eqb file "" then pure r
           else match os_Remove env file with
                | Some err =>
                    eventLogf corev1.EventTypeWarning meta.FailedReason
                      ("failed to delete temporary credentials file: " ++ Error err) ;;
                    pure r
                | None => pure r
                end) in
   r <- call (deferred (ctrl_Result_zero, None) remove_file (body (
     chartRepo <- try (repository_NewOCIChartRepository env (URL (spec o)))
       (fun err =>
          let e := Errorf_w ("failed to parse URL '" ++ URL (spec o) ++ "'") err in
          update (conditions.MarkStalled URLInvalidReason (Error e)) ;;
          update (conditions.MarkFalse meta.ReadyCondition URLInvalidReason (Error e)) ;;
          return_ (ctrl_Result_zero, None)) ;;
     update (conditions.Delete meta.StalledCondition) ;;
     match loginOpt with
     | Some opt =>
         emit (EvRegistry OpLogin (URL (spec o))) ;;
         match chartRepo_Login env chartRepo opt with
         | Some err =>
             let e := Errorf_w ("failed to login to registry '" ++ URL (spec o) ++ "'") err in
             update (conditions.MarkFalse meta.ReadyCondition AuthenticationFailedReason (Error e)) ;;
             return_ (ctrl_Result_zero, Some e)
         | None => pure tt
         end
     | None => pure tt
     end ;;
     update (conditions.Delete meta.ReadyCondition) ;;
     return_ (mkCtrlResult false (GetRequeueAfter o), None)))) ;;
   return_ r)%go.

(** Lines 252-290 of [reconcile]: the Reconciling condition, the patch that
    persists it on a new generation or a reconcile request, and the check of
    the URL. *)
Definition reconcile_prelude (env : Env) : Stmt W R unit :=
  (update (ProgressiveStatus_ env false meta.ProgressingReason "reconciliation in progress") ;;
   o <- self ;;
   let reconcileAtVal :=
     match meta.ReconcileAnnotationValue (Annotations (ObjectMeta o)) with
     | Some v => v
     | None => ""
     end in
   (if negb (Generation (ObjectMeta o) =? ObservedGeneration (status o))%Z
    then
      update (ProgressiveStatus_ env false meta.ProgressingReason
                ("processing object: new generation " ++
                 strconv_FormatInt (ObservedGeneration (status o)) ++ " -> " ++
                 strconv_FormatInt (Generation (ObjectMeta o)))) ;;
      err <- call (Patch env false) ;;
      match err with
      | Some err => return_ (ctrl_Result_zero, Some err)
      | None => pure tt
      end
    else if negb (String.eqb reconcileAtVal (GetLastHandledReconcileRequest o))
    then
      err <- call (Patch env false) ;;
      match err with
      | Some err => return_ (ctrl_Result_zero, Some err)
      | None => pure tt
      end
    else pure tt) ;;
   o <- self ;;
   (if negb (helmreg_IsOCI (URL (spec o)))
    then
      let err :=
        match url_Parse env (URL (spec o)) with
        | inl err => Errorf_w "failed to parse URL" err
        | inr scheme =>
            errors_New ("URL scheme '" ++ scheme ++ "' in '" ++ URL (spec o) ++ "' is not supported")
        end in
      update (conditions.MarkStalled URLInvalidReason (Error err)) ;;
      update (conditions.MarkFalse meta.ReadyCondition URLInvalidReason (Error err)) ;;
      return_ (ctrl_Result_zero, None)
    else pure tt) ;;
   update (conditions.Delete meta.StalledCondition))%go.

(** [reconcile]. *)
Definition reconcile (env : Env) : Func W R :=
  fun w =>
    deferred (ctrl_Result_zero, None) (reconcile_summary (obj w))
      (body (reconcile_prelude env ;;
             '(authenticator, keychain) <- reconcile_credentials env ;;
             reconcile_login env authenticator keychain)%go) w.

(** [reconcileDelete]. *)
Definition reconcileDelete : Func W R :=
  body (update (fun o => set_ObjectMeta (controllerutil.RemoveFinalizer (ObjectMeta o) SourceFinalizer) o) ;;
        return_ (ctrl_Result_zero, None))%go.

(** The deferred block of [Reconcile] (lines 133-160); metrics are not
    modelled. *)
Definition Reconcile_exit (env : Env) (res : R) : Func W R :=
  body (
    let '(result, retErr) := res in
    o <- self ;;
    match meta.ReconcileAnnotationValue (Annotations (ObjectMeta o)) with
    | Some v => update (fun o => object_.SetStatusLastHandledReconcileAt o v)
    | None => pure tt
    end ;;
    o <- self ;;
    err <- call (Patch env (conditions.IsStalled o || conditions.IsReady o)) ;;
    match err with
    | Some err =>
        let err' :=
          if negb (DeletionTimestamp_IsZero (ObjectMeta o)) then FilterOut err IsNotFound
          else Some err in
        pure (result, NewAggregate retErr err')
    | None => pure (result, retErr)
    end)%go.

(** [Reconcile], from the object [r.Get] fetched; [fetched] is the error of
    the fetch. *)
Definition Reconcile (env : Env) (fetched : option error) : Func W R :=
  match fetched with
  | Some err => fun w => Done (ctrl_Result_zero, IgnoreNotFound err) w
  | None =>
      deferred (ctrl_Result_zero, None) (Reconcile_exit env)
        (body (
          o <- self ;;
          (if negb (controllerutil.ContainsFinalizer (ObjectMeta o) SourceFinalizer)
           then
             update (fun o => set_ObjectMeta (controllerutil.AddFinalizer (ObjectMeta o) SourceFinalizer) o) ;;
             return_ (mkCtrlResult true 0, None)
           else pure tt) ;;
          (if negb (DeletionTimestamp_IsZero (ObjectMeta o))
           then r <- call reconcileDelete ;; return_ r
           else pure tt) ;;
          (if Suspend (spec o)
           then return_ (ctrl_Result_zero, None)
           else pure tt) ;;
          (if negb (String.eqb (Type_ (spec o)) HelmRepositoryTypeOCI)
           then
             update (set_Conditions []) ;;
             return_ (ctrl_Result_zero, None)
           else pure tt) ;;
          r <- call (reconcile env) ;;
          return_ r)%go)
  end.

End HelmRepositoryOCIReconciler.

(** ** The reconciler of OCIRepository objects ([OCIRepositoryReconciler]) *)

Module OCIRepositoryReconciler.
Import metav1 sourcev1 OCIRepository.

Definition W : Type := World OCIRepository.T sourcev1.Artifact.
Definition R : Type := (Result * option error)%type.

(** [remoteOptions]. *)
Record remoteOptions : Type := mkRemoteOptions {
  craneOpts : list RegistryOption;
  verifyOpts : list RegistryOption
}.

(** [ociRepositoryFailConditions]. *)
Definition ociRepositoryFailConditions : list string :=
  [FetchFailedCondition; StorageOperationFailedCondition].

(** [layerSelectorEqual]. *)
Definition layerSelectorEqual (a b : option OCILayerSelector) : bool :=
  match a, b with
  | None, None => true
  | Some x, Some y => OCILayerSelector_eqb x y
  | _, _ => false
  end.

(** [ociContentConfigChanged]. *)
Definition ociContentConfigChanged (o : T) : bool :=
  if negb (pointer_StringEqual (Ignore (spec o)) (ObservedIgnore (status o))) then true
  else if negb (layerSelectorEqual (LayerSelector (spec o)) (ObservedLayerSelector (status o)))
  then true
  else false.

(** [craneOptions]. *)
Definition craneOptions (insecure : bool) : list RegistryOption :=
  let options := [WithContext; WithUserAgent] in
  if insecure then (options ++ [crane_Insecure])%list else options.

(** [makeRemoteOptions]: the authenticator comes before the keychain. *)
Definition makeRemoteOptions (o : T) (transport : option Transport) (keychain : Keychain)
    (auth : option Authenticator) : remoteOptions :=
  let o0 := mkRemoteOptions (craneOptions (Insecure (spec o))) [] in
  let o1 :=
    match transport with
    | Some t => mkRemoteOptions (craneOpts o0 ++ [WithTransport t])%list
                                (verifyOpts o0 ++ [WithTransport t])%list
    | None => o0
    end in
  match auth with
  | Some a => mkRemoteOptions (craneOpts o1 ++ [WithAuth a])%list
                              (verifyOpts o1 ++ [WithAuth a])%list
  | None => mkRemoteOptions (craneOpts o1 ++ [WithAuthFromKeychain keychain])%list
                            (verifyOpts o1 ++ [WithAuthFromKeychain keychain])%list
  end.

(** [digestFromRevision]. *)
Definition digestFromRevision (revision : string) : string :=
  last_elem (strings.Split revision "/"%char).

(** [getRevision]: the revision is [<tag>/<digest hex>], or the digest hex
    alone for a URL without a tag. *)
Definition getRevision (env : Env) (url : string) (options : list RegistryOption) : Err string :=
  match name_ParseReference env url with
  | inl err => inl err
  | inr ref =>
      let repoName := strings.TrimPrefix url (RegistryStr ref) in
      let repoTag :=
        match strings.Split repoName ":"%char with
        | [_; s1] => if negb (strings.Contains repoName "@"%char) then s1 else ""
        | _ => ""
        end in
      let repoTag :=
        if String.eqb repoTag "" && negb (strings.Contains repoName "@"%char) then "latest"
        else repoTag in
      match crane_Digest env url options with
      | inl err => inl err
      | inr digest =>
          match NewHash digest with
          | inl err => inl err
          | inr digestHash =>
              let revision := Hex digestHash in
              inr (if negb (String.eqb repoTag "") then repoTag ++ "/" ++ Hex digestHash
                   else revision)
          end
      end
  end.

(** [parseRepositoryURL]. *)
Definition parseRepositoryURL (env : Env) (o : T) : Err string :=
  if negb (strings.HasPrefix (URL (spec o)) OCIRepositoryPrefix)
  then inl (errors_New "URL must be in format 'oci://<domain>/<org>/<repo>'")
  else
    let url := strings.TrimPrefix (URL (spec o)) OCIRepositoryPrefix in
    match name_ParseReference env url with
    | inl err => inl err
    | inr ref =>
        let imageName := strings.TrimPrefix url (RegistryStr ref) in
        match strings.Split imageName ":"%char with
        | _ :: s1 :: _ => inl (errors_New ("URL must not contain a tag; remove ':" ++ s1 ++ "'"))
        | _ => inr (Context_Name ref)
        end
    end.

(** [getTagBySemver]: the tags of the repository that parse as versions and
    satisfy the constraint are sorted in reverse order of precedence and the
    original string of the first is returned. *)
Definition getTagBySemver (env : Env) (url exp : string) (options : list RegistryOption)
    : Err string :=
  let lib := semver env in
  match crane_ListTags env url options with
  | inl err => inl err
  | inr tags =>
      match NewConstraint lib exp with
      | inl err => inl (Errorf_w ("semver '" ++ exp ++ "' parse error") err)
      | inr constraint =>
          let matchingVersions :=
            List.fold_left
              (fun (matching : list (Version lib)) (t : string) =>
                 match ParseVersion lib t with
                 | inl _ => matching
                 | inr v => if Check lib constraint v then (matching ++ [v])%list else matching
                 end)
              tags [] in
          if (List.length matchingVersions =? 0)%nat
          then inl (errors_New ("no match found for semver: " ++ exp))
          else
            match sort.Sort (sort.Reverse (LessThan lib)) matchingVersions with
            | v :: _ => inr (Original lib v)
            | [] => inl (errors_New "index out of range [0] with length 0")
            end
      end
  end.

(** [getArtifactURL]: digest before semver before tag; none of them leaves
    the repository URL, which the registry reads as the tag latest. *)
Definition getArtifactURL (env : Env) (o : T) (options : list RegistryOption) : Err string :=
  match parseRepositoryURL env o with
  | inl err => inl (invalidOCIURLError err)
  | inr url =>
      match Reference (spec o) with
      | Some ref =>
          if negb (String.eqb (Digest ref) "") then inr (url ++ "@" ++ Digest ref)
          else if negb (String.eqb (SemVer ref) "")
          then match getTagBySemver env url (SemVer ref) options with
               | inl err => inl err
               | inr tag => inr (url ++ ":" ++ tag)
               end
          else if negb (String.eqb (Tag ref) "") then inr (url ++ ":" ++ Tag ref)
          else inr url
      | None => inr url
      end
  end.

(** The loop of [keychain] over the names of the pull secrets. *)
Fixpoint get_pull_secrets (env : Env) (namespace : string) (names : list string)
    : Stmt W (Err Keychain) (list Secret) :=
  match names with
  | [] => pure []
  | imagePullSecretName :: rest =>
      match client_Get_Secret env namespace imagePullSecretName with
      | inl err =>
          (eventLogf eventv1.EventTypeTrace AuthenticationFailedReason
             ("auth secret '" ++ imagePullSecretName ++ "' not found") ;;
           return_ (inl err))%go
      | inr imagePullSecret =>
          (secrets <- get_pull_secrets env namespace rest ;;
           pure (imagePullSecret :: secrets))%go
      end
  end.

(** [keychain]: the keychain of the pull secrets of the object and of its
    service account, the anonymous one when there is none. *)
Definition keychain (env : Env) : Func W (Err Keychain) :=
  body (
    o <- self ;;
    let pullSecretNames :=
      match SecretRef (spec o) with
      | Some name => sets.Insert name []
      | None => []
      end in
    pullSecretNames <-
      (if negb (String.eqb (ServiceAccountName (spec o)) "")
       then
         match client_Get_ServiceAccount env (Namespace (ObjectMeta o)) (ServiceAccountName (spec o)) with
         | inl err => return_ (inl err)
         | inr imagePullSecrets =>
             pure (List.fold_left (fun s ips => sets.Insert ips s) imagePullSecrets pullSecretNames)
         end
       else pure pullSecretNames) ;;
    if (List.length pullSecretNames =? 0)%nat then return_ (inr Anonymous)
    else
      imagePullSecrets <- get_pull_secrets env (Namespace (ObjectMeta o)) (sets.List_ pullSecretNames) ;;
      return_ (k8schain_NewFromPullSecrets env imagePullSecrets))%go.

(** [transport]: none without a certificate secret; else the default
    transport with the client certificate and the CA of the secret. *)
Definition transport (env : Env) (o : T) : Err (option Transport) :=
  match CertSecretRef (spec o) with
  | None => inr None
  | Some name =>
      if String.eqb name "" then inr None
      else
        match client_Get_Secret env (Namespace (ObjectMeta o)) name with
        | inl err => inl err
        | inr certSecret =>
            let with_ca (certs : list string) : Err (option Transport) :=
              match map_lookup certSecret oci.CACert with
              | Some caCert =>
                  match x509_SystemCertPool env with
                  | inl err => inl err
                  | inr syscerts => inr (Some (mkTransport certs (Some (syscerts ++ caCert))))
                  end
              | None => inr (Some (mkTransport certs None))
              end in
            match map_lookup certSecret oci.ClientCert with
            | Some clientCert =>
                match map_lookup certSecret oci.ClientKey with
                | Some clientKey =>
                    match tls_X509KeyPair env clientCert clientKey with
                    | inl err => inl err
                    | inr cert => with_ca [cert]
                    end
                | None =>
                    inl (errors_New ("'" ++ oci.ClientCert ++ "' found in secret, but no " ++ oci.ClientKey))
                end
            | None => with_ca []
            end
        end
  end.

(** The loop of [verifySignature] over the entries of the secret, in the
    order Go visits the map; it yields [signatureVerified]. *)
Fixpoint verify_with_keys (env : Env) (url : string) (ref : name_Reference)
    (opts : list RegistryOption) (entries : list (string * string))
    : Stmt W (option error) bool :=
  match entries with
  | [] => pure false
  | (k, data) :: rest =>
      if strings.HasSuffix k ".pub"
      then
        match soci_NewCosignVerifier env opts (Some data) with
        | inl err => return_ (Some err)
        | inr verifier =>
            (emit (EvRegistry OpVerifySignatures url) ;;
             match VerifyImageSignatures env verifier ref with
             | inl _ => verify_with_keys env url ref opts rest
             | inr (Some _) => pure true
             | inr None => verify_with_keys env url ref opts rest
             end)%go
        end
      else verify_with_keys env url ref opts rest
  end.

(** [verifySignature]: with the public keys of the secret the object names,
    keyless without a secret. *)
Definition verifySignature (env : Env) (url : string) (opt : list RegistryOption)
    : Func W (option error) :=
  body (
    o <- self ;;
    match Verify (spec o) with
    | None => panic "nil pointer dereference"
    | Some verify =>
        if String.eqb (VerifyProvider verify) "cosign"
        then
          match name_ParseReference env url with
          | inl err => return_ (Some err)
          | inr ref =>
              match VerifySecretRef verify with
              | Some secretRef =>
                  match client_Get_Secret env (Namespace (ObjectMeta o)) secretRef with
                  | inl err => return_ (Some err)
                  | inr pubSecret =>
                      signatureVerified <- verify_with_keys env url ref opt pubSecret ;;
                      if negb signatureVerified
                      then return_ (Some (errors_New ("no matching signatures were found for '" ++ url ++ "'")))
                      else return_ None
                  end
              | None =>
                  match soci_NewCosignVerifier env opt None with
                  | inl err => return_ (Some err)
                  | inr verifier =>
                      emit (EvRegistry OpVerifySignatures url) ;;
                      match VerifyImageSignatures env verifier ref with
                      | inl err => return_ (Some err)
                      | inr (Some (_ :: _)) => return_ None
                      | inr _ =>
                          return_ (Some (errors_New ("no matching signatures were found for '" ++ url ++ "'")))
                      end
                  end
              end
          end
        else return_ None
    end)%go.

(** The loop of [selectLayer] over the layers. *)
Fixpoint find_layer (mediaType : string) (i : nat) (layers : list Layer) : Err (option Layer) :=
  match layers with
  | [] => inr None
  | l :: rest =>
      match Layer_MediaType l with
      | inl err => inl (Errorf_w "failed to determine the media type of layer from artifact" err)
      | inr md => if String.eqb md mediaType then inr (Some l) else find_layer mediaType (S i) rest
      end
  end.

(** [selectLayer]: the first layer of the media type of the selector, the
    first layer without a selector. *)
Definition selectLayer (o : T) (image : Image) : Err string :=
  match Image_Layers image with
  | inl err => inl (Errorf_w "failed to parse artifact layers" err)
  | inr layers =>
      match layers with
      | [] => inl (errors_New "no layers found in artifact")
      | first :: _ =>
          let selected :=
            if negb (String.eqb (GetLayerMediaType o) "")
            then match find_layer (GetLayerMediaType o) 0 layers with
                 | inl err => inl err
                 | inr (Some l) => inr l
                 | inr None =>
                     inl (errors_New ("failed to find layer with media type '" ++
                                      GetLayerMediaType o ++ "' in artifact"))
                 end
            else inr first in
          match selected with
          | inl err => inl err
          | inr layer =>
              match Layer_Compressed layer with
              | inl err => inl (Errorf_w "failed to extract the first layer from artifact" err)
              | inr blob => inr blob
              end
          end
      end
  end.

(** [garbageCollect]: all artifacts of an object under deletion, the
    outdated ones otherwise. *)
Definition garbageCollect (env : Env) : Func W (option error) :=
  body (
    o <- self ;;
    if negb (DeletionTimestamp_IsZero (ObjectMeta o))
    then
      '(deleted, err) <- call (Storage.RemoveAll env
                                 (Storage.NewArtifactFor env (Kind o) (ObjectMeta o) "" "*")) ;;
      match err with
      | Some err =>
          return_ (Some (serror_Generic "GarbageCollectionFailed"
                           (Errorf_w "garbage collection for deleted resource failed" err)))
      | None =>
          when (negb (String.eqb deleted ""))
               (eventLogf eventv1.EventTypeTrace "GarbageCollectionSucceeded"
                  "garbage collected artifacts for deleted resource") ;;
          update (set_Artifact None) ;;
          return_ None
      end
    else
      match GetArtifact o with
      | Some artifact =>
          r <- call (Storage.GarbageCollect env artifact) ;;
          match r with
          | inl err =>
              return_ (Some (serror_Generic "GarbageCollectionFailed"
                               (Errorf_w "garbage collection of artifacts failed" err)))
          | inr delFiles =>
              if (0 <? List.length delFiles)%nat
              then
                eventLogf eventv1.EventTypeTrace "GarbageCollectionSucceeded"
                  ("garbage collected " ++ strconv_FormatInt (Z.of_nat (List.length delFiles)) ++
                   " artifacts") ;;
                return_ None
              else return_ None
          end
      | None => return_ None
      end)%go.

(** [reconcileStorage]. *)
Definition reconcileStorage (env : Env) (dir : string) : Func W R :=
  body (
    _ <- call (garbageCollect env) ;;
    o <- self ;;
    w <- get ;;
    artifactMissing <-
      match GetArtifact o with
      | Some artifact =>
          if negb (Storage.ArtifactExist w artifact)
          then
            update (set_Artifact None) ;;
            update (set_StatusURL "") ;;
            update (conditions.Delete ArtifactInStorageCondition) ;;
            pure true
          else pure false
      | None => pure false
      end ;;
    o <- self ;;
    match GetArtifact o with
    | None =>
        let msg := "building artifact" in
        let msg := if artifactMissing then msg ++ ": disappeared from storage" else msg in
        update (ProgressiveStatus_ env true meta.ProgressingReason msg) ;;
        update (conditions.Delete ArtifactInStorageCondition) ;;
        err <- call (Patch env false) ;;
        match err with
        | Some err => return_ (ResultEmpty, Some err)
        | None => return_ (ResultSuccess, None)
        end
    | Some artifact =>
        update (set_Artifact (Some (Storage.SetArtifactURL env artifact))) ;;
        update (fun o => set_StatusURL (storage_SetHostname env (StatusURL (status o))) o) ;;
        return_ (ResultSuccess, None)
    end)%go.

(** [reconcileDelete]. *)
Definition reconcileDelete (env : Env) : Func W R :=
  body (
    err <- call (garbageCollect env) ;;
    match err with
    | Some err => return_ (ResultEmpty, Some err)
    | None =>
        update (fun o => set_ObjectMeta (controllerutil.RemoveFinalizer (ObjectMeta o) SourceFinalizer) o) ;;
        return_ (ResultEmpty, None)
    end)%go.

(** A failed fetch: the error is recorded on FetchFailed and returned. *)
Definition fetchFailed {A} (reason : string) (err : error) (e : error) : Stmt W R A :=
  (update (conditions.MarkTrue FetchFailedCondition reason (Error err)) ;;
   return_ (ResultEmpty, Some e))%go.

(** Lines 766-788 of [reconcileSource]: the keychain of the object and, for
    an anonymous keychain and a cloud provider, the credential of the
    provider. *)
Definition reconcileSource_credentials (env : Env) : Stmt W R (Keychain * option Authenticator) :=
  (r <- call (keychain env) ;;
   keychain <- try r
     (fun err =>
        let e := Errorf_w "failed to get credential" err in
        fetchFailed AuthenticationFailedReason e (serror_Generic AuthenticationFailedReason e)) ;;
   o <- self ;;
   if negb (String.eqb (Provider (spec o)) GenericOCIProvider) &&
      match keychain with Anonymous => true | _ => false end
   then
     match oidcAuth env (URL (spec o)) (Provider (spec o)) with
     | inl authErr =>
         if negb (is_ErrUnconfiguredProvider authErr)
         then
           let e := Errorf_w ("failed to get credential from " ++ Provider (spec o)) authErr in
           fetchFailed AuthenticationFailedReason e (serror_Generic AuthenticationFailedReason e)
         else pure (keychain, None)
     | inr auth => pure (keychain, auth)
     end
   else pure (keychain, None))%go.

(** The observation [reconcileSource] defers once the revision is known
    (lines 835-847). *)
Definition observe_revision (env : Env) (revision url : string) (r : R) : Func W R :=
  body (
    o <- self ;;
    if negb (HasRevision (GetArtifact o) revision)
    then
      let message := "new revision '" ++ revision ++ "' for '" ++ url ++ "'" in
      when (match GetArtifact o with Some _ => true | None => false end)
           (update (conditions.MarkTrue ArtifactOutdatedCondition "NewRevision" message)) ;;
      update (ProgressiveStatus_ env true meta.ProgressingReason ("building artifact: " ++ message)) ;;
      _ <- call (Patch env false) ;;
      pure r
    else pure r)%go.

(** Lines 849-968 of [reconcileSource]: verification, then the pull of the
    artifact unless revision and content configuration are unchanged. *)
Definition reconcileSource_pull (env : Env) (dir url revision : string) (opts : remoteOptions)
    : Stmt W R R :=
  (o <- self ;;
   match Verify (spec o) with
   | None => update (conditions.Delete SourceVerifiedCondition)
   | Some verify =>
       if negb (HasRevision (GetArtifact o) revision) ||
          negb (conditions.GetObservedGeneration o SourceVerifiedCondition =? Generation (ObjectMeta o))%Z ||
          conditions.IsFalse o SourceVerifiedCondition
       then
         (if Insecure (spec o)
          then
            let e := errors_New "cosign does not support insecure registries" in
            update (conditions.MarkFalse SourceVerifiedCondition VerificationError (Error e)) ;;
            return_ (ResultEmpty, Some (serror_Generic VerificationError e))
          else pure tt) ;;
         err <- call (verifySignature env url (verifyOpts opts)) ;;
         match err with
         | Some err =>
             let provider :=
               match VerifySecretRef verify with
               | None => VerifyProvider verify ++ " keyless"
               | Some _ => VerifyProvider verify
               end in
             let e := Errorf_w ("failed to verify the signature using provider '" ++ provider ++ "'") err in
             update (conditions.MarkFalse SourceVerifiedCondition VerificationError (Error e)) ;;
             return_ (ResultEmpty, Some (serror_Generic VerificationError e))
         | None =>
             update (conditions.MarkTrue SourceVerifiedCondition meta.SucceededReason
                       ("verified signature of revision " ++ revision))
         end
       else pure tt
   end ;;
   o <- self ;;
   (if HasRevision (GetArtifact o) revision && negb (ociContentConfigChanged o)
    then
      update (conditions.Delete FetchFailedCondition) ;;
      return_ (ResultSuccess, None)
    else pure tt) ;;
   emit (EvRegistry OpPull url) ;;
   img <- try (crane_Pull env url (craneOpts opts))
     (fun err =>
        let e := Errorf_w ("failed to pull artifact from '" ++ URL (spec o) ++ "'") err in
        fetchFailed OCIPullFailedReason e (serror_Generic OCIPullFailedReason e)) ;;
   manifest <- try (Image_Manifest img)
     (fun err =>
        let e := Errorf_w "failed to parse artifact manifest" err in
        fetchFailed OCILayerOperationFailedReason e (serror_Generic OCILayerOperationFailedReason e)) ;;
   modify (fun w => set_scratch (set_Metadata manifest (scratch w)) w) ;;
   blob <- try (selectLayer o img)
     (fun err =>
        fetchFailed OCILayerOperationFailedReason err (serror_Generic OCILayerOperationFailedReason err)) ;;
   (if String.eqb (GetLayerOperation o) OCILayerExtract
    then
      extracted <- try (untar_Untar env blob)
        (fun err =>
           let e := Errorf_w "failed to extract layer contents from artifact" err in
           fetchFailed OCILayerOperationFailedReason e (serror_Generic OCILayerOperationFailedReason e)) ;;
      modify (set_workdir extracted)
    else if String.eqb (GetLayerOperation o) OCILayerCopy
    then
      w <- get ;;
      let path := digestFromRevision (sourcev1.Revision (scratch w)) ++ ".tgz" in
      modify (fun w => set_scratch (set_Path path (scratch w)) w) ;;
      match os_Create env (filepath_Join dir path) with
      | Some err =>
          let e := Errorf_w "failed to create file to copy layer to" err in
          fetchFailed OCILayerOperationFailedReason e (serror_Generic OCILayerOperationFailedReason e)
      | None => modify (set_workdir [(path, "")])
      end ;;
      match io_Copy env blob with
      | Some err =>
          let e := Errorf_w "failed to copy layer from artifact" err in
          fetchFailed OCILayerOperationFailedReason e (serror_Generic OCILayerOperationFailedReason e)
      | None => modify (set_workdir [(path, blob)])
      end
    else
      let e := errors_New ("unsupported layer operation: " ++ GetLayerOperation o) in
      fetchFailed OCILayerOperationFailedReason e (serror_Generic OCILayerOperationFailedReason e)) ;;
   update (conditions.Delete FetchFailedCondition) ;;
   return_ (ResultSuccess, None))%go.

(** Lines 790-847 of [reconcileSource]: transport and options, the URL of
    the artifact and its revision; the rest runs under the deferred
    observation of the revision. *)
Definition reconcileSource_fetch (env : Env) (dir : string) (keychain : Keychain)
    (auth : option Authenticator) : Stmt W R R :=
  (o <- self ;;
   transport <- try (transport env o)
     (fun err =>
        let e := Errorf_w ("failed to generate transport for '" ++ URL (spec o) ++ "'") err in
        fetchFailed AuthenticationFailedReason e (serror_Generic AuthenticationFailedReason e)) ;;
   let opts := makeRemoteOptions o transport keychain auth in
   url <- try (getArtifactURL env o (craneOpts opts))
     (fun err =>
        match err with
        | invalidOCIURLError _ =>
            let e := Errorf_w ("URL validation failed for '" ++ URL (spec o) ++ "'") err in
            fetchFailed URLInvalidReason e (serror_Stalling URLInvalidReason e)
        | _ =>
            let e := Errorf_w ("failed to determine the artifact tag for '" ++ URL (spec o) ++ "'") err in
            fetchFailed ReadOperationFailedReason e (serror_Generic ReadOperationFailedReason e)
        end) ;;
   revision <- try (getRevision env url (craneOpts opts))
     (fun err =>
        let e := Errorf_w "failed to determine artifact digest" err in
        fetchFailed OCIPullFailedReason e (serror_Generic OCIPullFailedReason e)) ;;
   modify (fun w => set_scratch (mkArtifact "" "" revision "" 0 0 None) w) ;;
   r <- call (deferred (ResultEmpty, None) (observe_revision env revision url)
                (body (reconcileSource_pull env dir url revision opts))) ;;
   return_ r)%go.

(** [reconcileSource]. *)
Definition reconcileSource (env : Env) (dir : string) : Func W R :=
  body (
    o <- self ;;
    when (conditions.IsFalse o SourceVerifiedCondition)
         (update (conditions.Delete SourceVerifiedCondition)) ;;
    '(keychain, auth) <- reconcileSource_credentials env ;;
    reconcileSource_fetch env dir keychain auth)%go.

(** A failed storage operation: the error is recorded on
    StorageOperationFailed and returned. *)
Definition storageFailed {A} (reason : string) (err : error) : Stmt W R A :=
  (update (conditions.MarkTrue StorageOperationFailedCondition reason (Error err)) ;;
   return_ (ResultEmpty, Some (serror_Generic reason err)))%go.

(** [reconcileArtifact]. *)
Definition reconcileArtifact (env : Env) (dir : string) : Func W R :=
  fun w0 =>
    let metadata := scratch w0 in
    let revision := sourcev1.Revision metadata in
    let artifact := Storage.NewArtifactFor env (Kind (obj w0)) (ObjectMeta (obj w0)) revision
                      (digestFromRevision revision ++ ".tar.gz") in
    let in_storage (r : R) : Func W R :=
      body (
        o <- self ;;
        if HasRevision (GetArtifact o) (sourcev1.Revision artifact) && negb (ociContentConfigChanged o)
        then
          update (conditions.Delete ArtifactOutdatedCondition) ;;
          update (conditions.MarkTrue ArtifactInStorageCondition meta.SucceededReason
                    ("stored artifact for digest '" ++ sourcev1.Revision artifact ++ "'")) ;;
          pure r
        else pure r)%go in
    deferred (ResultEmpty, None) in_storage (body (
      o <- self ;;
      (if HasRevision (GetArtifact o) (sourcev1.Revision artifact) && negb (ociContentConfigChanged o)
       then
         eventLogf eventv1.EventTypeTrace ArtifactUpToDateReason
           ("artifact up-to-date with remote revision: '" ++ sourcev1.Revision artifact ++ "'") ;;
         return_ (ResultSuccess, None)
       else pure tt) ;;
      match os_Stat env dir with
      | inl err => storageFailed StatOperationFailedReason (Errorf_w "failed to stat source path" err)
      | inr isDir =>
          if negb isDir
          then storageFailed InvalidPathReason (errors_New ("source path '" ++ dir ++ "' is not a directory"))
          else pure tt
      end ;;
      err <- call (Storage.MkdirAll env artifact) ;;
      match err with
      | Some err => storageFailed DirCreationFailedReason (Errorf_w "failed to create artifact directory" err)
      | None => pure tt
      end ;;
      err <- call (Storage.Lock env artifact) ;;
      match err with
      | Some err =>
          return_ (ResultEmpty,
                   Some (serror_Generic meta.FailedReason (Errorf_w "failed to acquire lock for artifact" err)))
      | None => pure tt
      end ;;
      r <- call (deferred (ResultEmpty, None)
                   (fun r w => Done r (Storage.unlock artifact w)) (body (
        artifact <-
          (if String.eqb (GetLayerOperation o) OCILayerCopy
           then
             '(artifact', err) <- call (Storage.CopyFromPath env artifact
                                          (filepath_Join dir (sourcev1.Path metadata))) ;;
             match err with
             | Some err =>
                 storageFailed ArchiveOperationFailedReason (Errorf_w "unable to copy artifact to storage" err)
             | None => pure artifact'
             end
           else
             w <- get ;;
             ps <- try (sourceignore_LoadIgnorePatterns env (workdir w))
               (fun err =>
                  return_ (ResultEmpty,
                           Some (serror_Generic "SourceIgnoreError"
                                   (Errorf_w "failed to load source ignore patterns from repository" err)))) ;;
             let ps :=
               match Ignore (spec o) with
               | Some ignore => (ps ++ sourceignore_ReadPatterns env ignore)%list
               | None => ps
               end in
             '(artifact', err) <- call (Storage.Archive env artifact ps) ;;
             match err with
             | Some err =>
                 storageFailed ArchiveOperationFailedReason
                   (errors_New ("unable to archive artifact to storage: " ++ Error err))
             | None => pure artifact'
             end) ;;
        update (set_Artifact (Some (set_Metadata (sourcev1.Metadata metadata) artifact))) ;;
        update (set_ContentConfigChecksum "") ;;
        update (set_ObservedIgnore (Ignore (spec o))) ;;
        update (set_ObservedLayerSelector (LayerSelector (spec o))) ;;
        '(url, err) <- call (Storage.Symlink env artifact "latest.tar.gz") ;;
        match err with
        | Some err =>
            eventLogf eventv1.EventTypeTrace SymlinkUpdateFailedReason
              ("failed to update status URL symlink: " ++ Error err)
        | None => pure tt
        end ;;
        when (negb (String.eqb url "")) (update (set_StatusURL url)) ;;
        update (conditions.Delete StorageOperationFailedCondition) ;;
        return_ (ResultSuccess, None)))) ;;
      return_ r)%go) w0.

(** [notify]: an event for a new artifact, or for the recovery from a
    failure. *)
Definition notify (env : Env) (oldObj : T) (res : Result) (resErr : option error)
    : Stmt W R unit :=
  (newObj <- self ;;
   match resErr, res, Artifact (status newObj) with
   | None, ResultSuccess, Some newArtifact =>
       let annotations :=
         [(GroupVersion_Group ++ "/" ++ eventv1.MetaRevisionKey, sourcev1.Revision newArtifact);
          (GroupVersion_Group ++ "/" ++ eventv1.MetaChecksumKey, sourcev1.Checksum newArtifact)] in
       let oldChecksum :=
         match GetArtifact oldObj with
         | Some a => sourcev1.Checksum a
         | None => ""
         end in
       let message := "stored artifact with revision '" ++ sourcev1.Revision newArtifact ++
                      "' from '" ++ URL (spec newObj) ++ "'" in
       let message :=
         match sourcev1.Metadata newArtifact with
         | Some info =>
             let source := match map_lookup info oci.SourceAnnotation with Some v => v | None => "" end in
             let revision := match map_lookup info oci.RevisionAnnotation with Some v => v | None => "" end in
             if negb (String.eqb source "") && negb (String.eqb revision "")
             then message ++ ", origin source '" ++ source ++ "', origin revision '" ++ revision ++ "'"
             else message
         | None => message
         end in
       if negb (String.eqb oldChecksum (sourcev1.Checksum newArtifact))
       then emit (EvEvent corev1.EventTypeNormal "NewArtifact" annotations message)
       else
         when (FailureRecovery env (GetConditions oldObj) (GetConditions newObj) ociRepositoryFailConditions)
              (emit (EvEvent corev1.EventTypeNormal meta.SucceededReason annotations message))
   | _, _, _ => pure tt
   end)%go.

(** The loop of [reconcile] over the phases: a requeue returns at once, an
    error ends the loop. It yields [res] and [resErr]. *)
Fixpoint run_reconcilers (reconcilers : list (Func W R)) (res : Result) : Stmt W R R :=
  match reconcilers with
  | [] => pure (res, None)
  | rec :: rest =>
      ('(recResult, err) <- call rec ;;
       if Result_eqb recResult ResultRequeue then return_ (ResultRequeue, None)
       else match err with
            | Some err => pure (recResult, Some err)
            | None => run_reconcilers rest (LowestRequeuingResult res recResult)
            end)%go
  end.

(** Lines 718-746 of [reconcile], with the working directory at hand: the
    phases in their order, then the notification. *)
Definition reconcile_phases (env : Env) (oldObj : T) (tmpDir : string)
    (reconcilers : list (string -> Func W R)) : Func W R :=
  body (
    update (conditions.Delete StorageOperationFailedCondition) ;;
    modify (set_scratch Artifact_zero) ;;
    '(res, resErr) <- run_reconcilers (List.map (fun rec => rec tmpDir) reconcilers) ResultEmpty ;;
    notify env oldObj res resErr ;;
    return_ (res, resErr))%go.

(** [reconcile]. *)
Definition reconcile (env : Env) (reconcilers : list (string -> Func W R)) : Func W R :=
  body (
    oldObj <- self ;;
    update (ProgressiveStatus_ env false meta.ProgressingReason "reconciliation in progress") ;;
    o <- self ;;
    let reconcileAtVal :=
      match meta.ReconcileAnnotationValue (Annotations (ObjectMeta o)) with
      | Some v => v
      | None => ""
      end in
    (if negb (Generation (ObjectMeta o) =? ObservedGeneration (status o))%Z
     then
       update (ProgressiveStatus_ env false meta.ProgressingReason
                 ("processing object: new generation " ++
                  strconv_FormatInt (ObservedGeneration (status o)) ++ " -> " ++
                  strconv_FormatInt (Generation (ObjectMeta o)))) ;;
       err <- call (Patch env false) ;;
       match err with
       | Some err => return_ (ResultEmpty, Some err)
       | None => pure tt
       end
     else if negb (String.eqb reconcileAtVal (GetLastHandledReconcileRequest o))
     then
       err <- call (Patch env false) ;;
       match err with
       | Some err => return_ (ResultEmpty, Some err)
       | None => pure tt
       end
     else pure tt) ;;
    tmpDir <- try (util_TempDirForObj env)
      (fun err =>
         storageFailed DirCreationFailedReason (Errorf_w "failed to create temporary working directory" err)) ;;
    modify (set_workdir []) ;;
    r <- call (deferred (ResultEmpty, None)
                 (fun r w => Done r (set_workdir [] w))
                 (reconcile_phases env oldObj tmpDir reconcilers)) ;;
    return_ r)%go.

(** [Reconcile], from the object [r.Get] fetched; [fetched] is the error of
    the fetch. [SummarizeAndPatch] of [internal/reconcile/summarize], which
    the deferred block calls with the result and the error of the run, is
    not among the sources and is a parameter; metrics are not modelled. *)
Definition Reconcile_run (env : Env) : Func W R :=
  body (
    o <- self ;;
    (if negb (controllerutil.ContainsFinalizer (ObjectMeta o) SourceFinalizer)
     then
       update (fun o => set_ObjectMeta (controllerutil.AddFinalizer (ObjectMeta o) SourceFinalizer) o) ;;
       return_ (ResultRequeue, None)
     else pure tt) ;;
    (if negb (DeletionTimestamp_IsZero (ObjectMeta o))
     then r <- call (reconcileDelete env) ;; return_ r
     else pure tt) ;;
    (if Suspend (spec o)
     then return_ (ResultEmpty, None)
     else pure tt) ;;
    r <- call (reconcile env [reconcileStorage env; reconcileSource env; reconcileArtifact env]) ;;
    return_ r)%go.

Definition Reconcile (env : Env)
    (SummarizeAndPatch : Result -> option error -> Func W (ctrl_Result * option error))
    (fetched : option error) : Func W (ctrl_Result * option error) :=
  match fetched with
  | Some err => fun w => Done (ctrl_Result_zero, IgnoreNotFound err) w
  | None =>
      fun w =>
        match Reconcile_run env w with
        | Done (recResult, retErr) w' => SummarizeAndPatch recResult retErr w'
        | Panicked msg w' =>
            match SummarizeAndPatch ResultEmpty None w' with
            | Done _ w'' => Panicked msg w''
            | Panicked msg' w'' => Panicked msg' w''
            end
        end
  end.

End OCIRepositoryReconciler.

(** ** The reconciler of HelmChart objects ([HelmChartReconciler]) *)

Module HelmChartReconciler.
Import metav1 sourcev1 HelmChart.

Definition W : Type := World HelmChart.T Build.
Definition R : Type := (Result * option error)%type.

(** [sourcev1.Source]: the three kinds of object a chart can come from. *)
Inductive Source : Type :=
| SourceHelmRepository (repo : HelmRepository.T)
| SourceGitRepository (artifact : option sourcev1.Artifact)
| SourceBucket (artifact : option sourcev1.Artifact).

Definition Source_GetArtifact (s : Source) : option sourcev1.Artifact :=
  match s with
  | SourceHelmRepository repo => HelmRepository.GetArtifact repo
  | SourceGitRepository a => a
  | SourceBucket a => a
  end.

(** [helmChartFailConditions]. *)
Definition helmChartFailConditions : list string :=
  [BuildFailedCondition; FetchFailedCondition; StorageOperationFailedCondition].

(** [reasonForBuild]. *)
Definition reasonForBuild (env : Env) (build : Build) : string :=
  if negb (Build_Complete env build) then ""
  else if Build_Packaged build then ChartPackageSucceededReason
  else ChartPullSucceededReason.

(** [getSource]. *)
Definition getSource (env : Env) (o : T) : Err Source :=
  let ns := Namespace (ObjectMeta o) in
  let name := SourceName (SourceRef (spec o)) in
  let kind := SourceKind (SourceRef (spec o)) in
  if String.eqb kind HelmRepositoryKind
  then match client_Get_HelmRepository env ns name with
       | inl err => inl err
       | inr repo => inr (SourceHelmRepository repo)
       end
  else if String.eqb kind GitRepositoryKind
  then match client_Get_GitRepository env ns name with
       | inl err => inl err
       | inr a => inr (SourceGitRepository a)
       end
  else if String.eqb kind BucketKind
  then match client_Get_Bucket env ns name with
       | inl err => inl err
       | inr a => inr (SourceBucket a)
       end
  else inl (errors_New ("unsupported source kind '" ++ kind ++
                        "', must be one of: [HelmRepository GitRepository Bucket]")).

(** [getHelmRepositorySecret]. *)
Definition getHelmRepositorySecret (env : Env) (repository : HelmRepository.T) : Err (option Secret) :=
  match HelmRepository.SecretRef (HelmRepository.spec repository) with
  | None => inr None
  | Some name =>
      match client_Get_Secret env (Namespace (HelmRepository.ObjectMeta repository)) name with
      | inl err => inl err
      | inr secret => inr (Some secret)
      end
  end.

(** [clientOptionsFromSecret]. *)
Definition clientOptionsFromSecret (env : Env) (secret : Secret) (normalizedURL : string)
    : Err (list string * option string) :=
  match getter_ClientOptionsFromSecret env secret with
  | inl err => inl (Errorf_w "failed to configure Helm client with secret data" err)
  | inr opts =>
      match getter_TLSClientConfigFromSecret env secret normalizedURL with
      | inl err => inl (Errorf_w "failed to create TLS client config with secret data" err)
      | inr tlsConfig => inr (opts, tlsConfig)
      end
  end.

(** A failed fetch: the error is recorded on FetchFailed and returned as an
    event error. *)
Definition fetchFailed {A} (reason : string) (err : error) : Stmt W R A :=
  (update (conditions.MarkTrue FetchFailedCondition reason (Error err)) ;;
   return_ (ResultEmpty, Some (serror_Event reason err)))%go.

(** [chartRepoConfigErrorReturn]. *)
Definition chartRepoConfigErrorReturn {A} (err : error) : Stmt W R A :=
  match err with
  | url_Error _ =>
      let e := Errorf_w "invalid Helm repository URL" err in
      (update (conditions.MarkTrue FetchFailedCondition URLInvalidReason (Error e)) ;;
       return_ (ResultEmpty, Some (serror_Stalling URLInvalidReason e)))%go
  | _ =>
      let e := Errorf_w "failed to construct Helm client" err in
      (update (conditions.MarkTrue FetchFailedCondition meta.FailedReason (Error e)) ;;
       return_ (ResultEmpty, Some (serror_Stalling meta.FailedReason e)))%go
  end.

(** The loop of [makeVerifiers] over the entries of the secret. *)
Fixpoint verifiers_of_keys (env : Env) (opts : list RegistryOption)
    (entries : list (string * string)) : Err (list Verifier) :=
  match entries with
  | [] => inr []
  | (k, data) :: rest =>
      if strings.HasSuffix k ".pub"
      then match soci_NewCosignVerifier env opts (Some data) with
           | inl err => inl err
           | inr verifier =>
               match verifiers_of_keys env opts rest with
               | inl err => inl err
               | inr vs => inr (verifier :: vs)
               end
           end
      else verifiers_of_keys env opts rest
  end.

(** [makeVerifiers]; it is only called on an object that asks for
    verification. A nil keychain resolves no credential, as the anonymous
    one. *)
Definition makeVerifiers (env : Env) (o : T) (verify : OCIRepository.OCIRepositoryVerification)
    (auth : option Authenticator) (keychain : option Keychain) : Err (list Verifier) :=
  let verifyOpts :=
    match auth with
    | Some a => [WithAuth a]
    | None => [WithAuthFromKeychain (match keychain with Some k => k | None => Anonymous end)]
    end in
  if String.eqb (OCIRepository.VerifyProvider verify) "cosign"
  then
    match OCIRepository.VerifySecretRef verify with
    | Some secretRef =>
        match client_Get_Secret env (Namespace (ObjectMeta o)) secretRef with
        | inl err => inl err
        | inr pubSecret =>
            match verifiers_of_keys env verifyOpts pubSecret with
            | inl err => inl err
            | inr [] =>
                inl (errors_New ("no public keys found in secret '" ++
                                 Namespace (ObjectMeta o) ++ "/" ++ secretRef ++ "'"))
            | inr verifiers => inr verifiers
            end
        end
    | None =>
        match soci_NewCosignVerifier env verifyOpts None with
        | inl err => inl err
        | inr verifier => inr [verifier]
        end
    end
  else inl (errors_New ("unsupported verification provider: " ++ OCIRepository.VerifyProvider verify)).

(** [garbageCollect]. *)
Definition garbageCollect (env : Env) : Func W (option error) :=
  body (
    o <- self ;;
    if negb (DeletionTimestamp_IsZero (ObjectMeta o))
    then
      '(deleted, err) <- call (Storage.RemoveAll env
                                 (Storage.NewArtifactFor env (Kind o) (ObjectMeta o) "" "*")) ;;
      match err with
      | Some err =>
          return_ (Some (serror_Event "GarbageCollectionFailed"
                           (Errorf_w "garbage collection for deleted resource failed" err)))
      | None =>
          when (negb (String.eqb deleted ""))
               (eventLogf eventv1.EventTypeTrace "GarbageCollectionSucceeded"
                  "garbage collected artifacts for deleted resource") ;;
          update (set_Artifact None) ;;
          return_ None
      end
    else
      match GetArtifact o with
      | Some artifact =>
          r <- call (Storage.GarbageCollect env artifact) ;;
          match r with
          | inl err =>
              return_ (Some (serror_Event "GarbageCollectionFailed"
                               (Errorf_w "garbage collection of artifacts failed" err)))
          | inr delFiles =>
              if (0 <? List.length delFiles)%nat
              then
                eventLogf eventv1.EventTypeTrace "GarbageCollectionSucceeded"
                  ("garbage collected " ++ strconv_FormatInt (Z.of_nat (List.length delFiles)) ++
                   " artifacts") ;;
                return_ None
              else return_ None
          end
      | None => return_ None
      end)%go.

(** [reconcileStorage]. *)
Definition reconcileStorage (env : Env) : Func W R :=
  body (
    _ <- call (garbageCollect env) ;;
    o <- self ;;
    w <- get ;;
    artifactMissing <-
      match GetArtifact o with
      | Some artifact =>
          if negb (Storage.ArtifactExist w artifact)
          then
            update (set_Artifact None) ;;
            update (set_StatusURL "") ;;
            update (conditions.Delete ArtifactInStorageCondition) ;;
            pure true
          else pure false
      | None => pure false
      end ;;
    o <- self ;;
    match GetArtifact o with
    | None =>
        let msg := "building artifact" in
        let msg := if artifactMissing then msg ++ ": disappeared from storage" else msg in
        update (ProgressiveStatus_ env true meta.ProgressingReason msg) ;;
        update (conditions.Delete ArtifactInStorageCondition) ;;
        err <- call (Patch env false) ;;
        match err with
        | Some err => return_ (ResultEmpty, Some err)
        | None => return_ (ResultSuccess, None)
        end
    | Some artifact =>
        update (set_Artifact (Some (Storage.SetArtifactURL env artifact))) ;;
        update (fun o => set_StatusURL (storage_SetHostname env (StatusURL (status o))) o) ;;
        return_ (ResultSuccess, None)
    end)%go.

(** [reconcileDelete]. *)
Definition reconcileDelete (env : Env) : Func W R :=
  body (
    err <- call (garbageCollect env) ;;
    match err with
    | Some err => return_ (ResultEmpty, Some err)
    | None =>
        update (fun o => set_ObjectMeta (controllerutil.RemoveFinalizer (ObjectMeta o) SourceFinalizer) o) ;;
        return_ (ResultEmpty, None)
    end)%go.

(** [observeChartBuild]. *)
Definition observeChartBuild (env : Env) (err : option error) : Stmt W R unit :=
  (o <- self ;;
   w <- get ;;
   let build := scratch w in
   (if Build_HasMetadata env build
    then
      if negb (String.eqb (Build_Name build) (ObservedChartName (status o))) ||
         negb (HasRevision (GetArtifact o) (Build_Version build))
      then
        when (match GetArtifact o with Some _ => true | None => false end)
             (update (conditions.MarkTrue ArtifactOutdatedCondition "NewChart" (Build_Summary env build))) ;;
        update (ProgressiveStatus_ env true meta.ProgressingReason
                  ("building artifact: " ++ Build_Summary env build)) ;;
        _ <- call (Patch env false) ;;
        pure tt
      else pure tt
    else pure tt) ;;
   when (Build_Complete env build)
        (update (conditions.Delete FetchFailedCondition) ;;
         update (conditions.Delete BuildFailedCondition) ;;
         update (conditions.MarkTrue SourceVerifiedCondition meta.SucceededReason
                   ("verified signature of version " ++ Build_Version build))) ;;
   when (match Verify (spec o) with None => true | Some _ => false end)
        (update (conditions.Delete SourceVerifiedCondition)) ;;
   match err with
   | Some err =>
       let '(reason, buildErr) :=
         match as_BuildError err with
         | Some (reason, inner) => (reason, chart_BuildError reason inner)
         | None => (chart.ErrUnknown, chart_BuildError chart.ErrUnknown err)
         end in
       if chart.BuildErrorReason_eqb reason chart.ErrChartMetadataPatch ||
          chart.BuildErrorReason_eqb reason chart.ErrValuesFilesMerge ||
          chart.BuildErrorReason_eqb reason chart.ErrDependencyBuild ||
          chart.BuildErrorReason_eqb reason chart.ErrChartPackage
       then
         update (conditions.Delete FetchFailedCondition) ;;
         update (conditions.MarkTrue BuildFailedCondition (ber_Reason reason) (Error buildErr))
       else if chart.BuildErrorReason_eqb reason chart.ErrChartVerification
       then
         update (conditions.Delete FetchFailedCondition) ;;
         update (conditions.MarkTrue BuildFailedCondition (ber_Reason reason) (Error buildErr)) ;;
         update (conditions.MarkFalse SourceVerifiedCondition VerificationError (Error buildErr))
       else
         update (conditions.Delete BuildFailedCondition) ;;
         update (conditions.MarkTrue FetchFailedCondition (ber_Reason reason) (Error buildErr))
   | None => pure tt
   end)%go.

(** Lines 512-561 of [buildFromHelmRepository]: the client options and the
    credentials, from the secret the repository names or else from the cloud
    provider. It yields the client options, the TLS configuration, the
    authenticator and the keychain. *)
Definition buildFromHelmRepository_credentials (env : Env) (repo : HelmRepository.T)
    (normalizedURL : string)
    : Stmt W R (list string * option string * option Authenticator * option Keychain) :=
  let clientOpts := [normalizedURL] in
  match getHelmRepositorySecret env repo with
  | inl err =>
      fetchFailed AuthenticationFailedReason
        (Errorf_w ("failed to get secret '" ++
                   match HelmRepository.SecretRef (HelmRepository.spec repo) with
                   | Some n => n
                   | None => ""
                   end ++ "'") err)
  | inr (Some secret) =>
      ('(opts, tls) <- try (clientOptionsFromSecret env secret normalizedURL)
         (fun err => fetchFailed AuthenticationFailedReason err) ;;
       keychain <- try (registry_LoginOptionFromSecret env normalizedURL secret)
         (fun err =>
            fetchFailed AuthenticationFailedReason
              (Errorf_w "failed to configure Helm client with secret data" err)) ;;
       pure ((clientOpts ++ opts)%list, tls, None, Some keychain))%go
  | inr None =>
      if negb (String.eqb (HelmRepository.Provider (HelmRepository.spec repo)) GenericOCIProvider) &&
         String.eqb (HelmRepository.Type_ (HelmRepository.spec repo)) HelmRepositoryTypeOCI
      then
        match oidcAuth env (HelmRepository.URL (HelmRepository.spec repo))
                (HelmRepository.Provider (HelmRepository.spec repo)) with
        | inl authErr =>
            if negb (is_ErrUnconfiguredProvider authErr)
            then
              fetchFailed AuthenticationFailedReason
                (Errorf_w ("failed to get credential from " ++
                           HelmRepository.Provider (HelmRepository.spec repo)) authErr)
            else pure (clientOpts, None, None, None)
        | inr auth => pure (clientOpts, None, auth, None)
        end
      else pure (clientOpts, None, None, None)
  end.

(** Lines 563-707 of [buildFromHelmRepository]: the chart repository for the
    type of the HelmRepository, the login, and the build of the chart. For an
    HTTP repository the deferred block of lines 656-676 caches the index when
    the reconciler has a cache and the index was loaded, and records a failure
    to do so as a trace event. *)
Definition buildFromHelmRepository_build (env : Env) (repo : HelmRepository.T)
    (normalizedURL : string) (clientOpts : list string) (tlsConfig : option string)
    (authenticator : option Authenticator) (keychain : option Keychain) : Stmt W R R :=
  (o <- self ;;
   loginOpt <- try (makeLoginOption env authenticator keychain normalizedURL)
     (fun err => fetchFailed AuthenticationFailedReason err) ;;
   let build_chart (chartRepo : ChartRepo) : Stmt W R R :=
     (let opts := mkBuildOptions "" (GetValuesFiles o) ""
                    (negb (Generation (ObjectMeta o) =? ObservedGeneration (status o))%Z)
                    (match Verify (spec o) with
                     | Some v => negb (String.eqb (OCIRepository.VerifyProvider v) "")
                     | None => false
                     end) in
      let opts :=
        match GetArtifact o with
        | Some artifact => set_CachedChart (Storage.LocalPath env artifact) opts
        | None => opts
        end in
      let opts :=
        if (0 <? List.length (BuildOptions_GetValuesFiles env opts))%nat
        then set_VersionMetadata (strconv_FormatInt (Generation (ObjectMeta o))) opts
        else opts in
      emit (EvRegistry OpBuildChart normalizedURL) ;;
      match remote_Build env chartRepo (Chart (spec o)) (Version (spec o)) opts with
      | inl err => return_ (ResultEmpty, Some err)
      | inr build =>
          modify (set_scratch build) ;;
          return_ (ResultSuccess, None)
      end)%go in
   if String.eqb (HelmRepository.Type_ (HelmRepository.spec repo)) HelmRepositoryTypeOCI
   then
     (if negb (helmreg_IsOCI normalizedURL)
      then chartRepoConfigErrorReturn (errors_New ("invalid OCI registry URL: " ++ normalizedURL))
      else pure tt) ;;
     let isLogin := match loginOpt with Some _ => true | None => false end in
     emit (EvRegistry (OpNewClient isLogin) normalizedURL) ;;
     '(registryClient, credentialsFile) <- try (RegistryClientGenerator env isLogin)
       (fun err =>
          let e := Errorf_w "failed to construct Helm client" err in
          update (conditions.MarkTrue FetchFailedCondition meta.FailedReason (Error e)) ;;
          return_ (ResultEmpty, Some (serror_Event meta.FailedReason e))) ;;
     let remove_file (r : R) : Func W R :=
       body (if String.eqb credentialsFile "" then pure r
             else match os_Remove env credentialsFile with
                  | Some err =>
                      eventLogf corev1.EventTypeWarning meta.FailedReason
                        ("failed to delete temporary credentials file: " ++ Error err) ;;
                      pure r
                  | None => pure r
                  end) in
     r <- call (deferred (ResultEmpty, None) remove_file (body (
       match Verify (spec o) with
       | Some verify =>
           match makeVerifiers env o verify authenticator keychain with
           | inl err =>
               let provider :=
                 match OCIRepository.VerifySecretRef verify with
                 | None => OCIRepository.VerifyProvider verify ++ " keyless"
                 | Some _ => OCIRepository.VerifyProvider verify
                 end in
               let e := Errorf_w ("failed to verify the signature using provider '" ++ provider ++ "'") err in
               update (conditions.MarkFalse SourceVerifiedCondition VerificationError (Error e)) ;;
               return_ (ResultEmpty, Some (serror_Event VerificationError e))
           | inr _ => pure tt
           end
       | None => pure tt
       end ;;
       ociChartRepo <- try (repository_NewOCIChartRepository env normalizedURL)
         (fun err => chartRepoConfigErrorReturn err) ;;
       match loginOpt with
       | Some opt =>
           emit (EvRegistry OpLogin normalizedURL) ;;
           match chartRepo_Login env ociChartRepo opt with
           | Some err =>
               fetchFailed AuthenticationFailedReason (Errorf_w "failed to login to OCI registry" err)
           | None => pure tt
           end
       | None => pure tt
       end ;;
       build_chart ociChartRepo))) ;;
     return_ r
   else
     match HelmRepository.GetArtifact repo with
     | None => panic "nil pointer dereference"
     | Some repoArtifact =>
         httpChartRepo <- try (repository_NewChartRepository env normalizedURL
                                 (Storage.LocalPath env repoArtifact))
           (fun err => chartRepoConfigErrorReturn err) ;;
         let cache_index (r : R) : Func W R :=
           body (if Cache_present env && chartRepo_Index_loaded env httpChartRepo
                 then match chartRepo_CacheIndexInMemory env httpChartRepo with
                      | Some err =>
                          eventLogf eventv1.EventTypeTrace CacheOperationFailedReason
                            ("failed to cache index: " ++ Error err) ;;
                          pure r
                      | None => pure r
                      end
                 else pure r) in
         r <- call (deferred (ResultEmpty, None) cache_index (body (build_chart httpChartRepo))) ;;
         return_ r
     end)%go.

(** [buildFromHelmRepository]. *)
Definition buildFromHelmRepository (env : Env) (repo : HelmRepository.T) : Func W R :=
  body (
    let normalizedURL := repository_NormalizeURL env (HelmRepository.URL (HelmRepository.spec repo)) in
    '(clientOpts, tlsConfig, authenticator, keychain) <-
      buildFromHelmRepository_credentials env repo normalizedURL ;;
    buildFromHelmRepository_build env repo normalizedURL clientOpts tlsConfig authenticator keychain)%go.

(** Lines 784-807 of [buildFromTarballArtifact]: with the reconcile strategy
    Revision the version metadata of the build is the revision of the source
    artifact, for a GitRepository the part after the last slash, cut to its
    first twelve bytes for a GitRepository or a Bucket. The cut [rev[0:12]]
    panics on a shorter string. *)
Definition revision_metadata {S R'} (o : T) (source : sourcev1.Artifact) (opts : BuildOptions)
    : Stmt S R' BuildOptions :=
  if String.eqb (ReconcileStrategy (spec o)) ReconcileStrategyRevision
  then
    let rev := sourcev1.Revision source in
    let rev :=
      if String.eqb (SourceKind (SourceRef (spec o))) GitRepositoryKind
      then last_elem (strings.Split (sourcev1.Revision source) "/"%char)
      else rev in
    let kind := SourceKind (SourceRef (spec o)) in
    (rev <-
       (if String.eqb kind GitRepositoryKind || String.eqb kind BucketKind
        then match slice_to rev 12 with
             | Some short => pure short
             | None => panic "slice bounds out of range"
             end
        else pure rev) ;;
     pure (set_VersionMetadata rev opts))%go
  else pure opts.

(** Lines 808-815 of [buildFromTarballArtifact]: when [opts.GetValuesFiles()]
    is not empty the generation of the object is appended to the version
    metadata. The method of [chart.BuildOptions] is not among the sources
    and is an oracle of the outside world. *)
Definition generation_metadata (env : Env) (o : T) (opts : BuildOptions) : BuildOptions :=
  if (0 <? List.length (BuildOptions_GetValuesFiles env opts))%nat
  then
    let vm := Opt_VersionMetadata opts in
    let vm := if negb (String.eqb vm "") then vm ++ "." else vm in
    set_VersionMetadata (vm ++ strconv_FormatInt (Generation (ObjectMeta o))) opts
  else opts.

(** [buildFromTarballArtifact]. *)
Definition buildFromTarballArtifact (env : Env) (source : sourcev1.Artifact) : Func W R :=
  body (
    o <- self ;;
    tmpDir <- try (util_TempDirForObj env)
      (fun err =>
         fetchFailed DirCreationFailedReason
           (Errorf_w "failed to create temporary working directory" err)) ;;
    r <- call (deferred (ResultEmpty, None) (fun r w => Done r (set_workdir [] w)) (body (
      let sourceDir := filepath_Join tmpDir "source" in
      match os_Mkdir env sourceDir with
      | Some err =>
          fetchFailed DirCreationFailedReason
            (Errorf_w "failed to create directory to untar source into" err)
      | None => pure tt
      end ;;
      f <- try (os_Open env (Storage.LocalPath env source))
        (fun err =>
           fetchFailed ReadOperationFailedReason (Errorf_w "failed to open source artifact" err)) ;;
      extracted <- try (untar_Untar env f)
        (fun err =>
           return_ (ResultEmpty, Some (serror_Event meta.FailedReason (Errorf_w "artifact untar error" err)))) ;;
      modify (set_workdir extracted) ;;
      match file_Close env with
      | Some err =>
          return_ (ResultEmpty, Some (serror_Event meta.FailedReason (Errorf_w "artifact close error" err)))
      | None => pure tt
      end ;;
      let clear (r : R) : Func W R :=
        body (match dm_Clear env with
              | Some err =>
                  eventLogf corev1.EventTypeWarning meta.FailedReason
                    ("dependency manager cleanup error: " ++ Error err) ;;
                  pure r
              | None => pure r
              end) in
      r <- call (deferred (ResultEmpty, None) clear (body (
        let opts := mkBuildOptions "" (GetValuesFiles o) ""
                      (negb (Generation (ObjectMeta o) =? ObservedGeneration (status o))%Z) false in
        let opts :=
          match Artifact (status o) with
          | Some artifact => set_CachedChart (Storage.LocalPath env artifact) opts
          | None => opts
          end in
        opts <- revision_metadata o source opts ;;
        let opts := generation_metadata env o opts in
        emit (EvRegistry OpBuildChart sourceDir) ;;
        match local_Build env sourceDir (Chart (spec o)) opts with
        | inl err => return_ (ResultEmpty, Some err)
        | inr build =>
            modify (set_scratch build) ;;
            return_ (ResultSuccess, None)
        end))) ;;
      return_ r))) ;;
    return_ r)%go.

(** The observation of the build [reconcileSource] defers (lines 446-474). *)
Definition observe_build (env : Env) (r : R) : Func W R :=
  body (
    let '(res, retErr) := r in
    observeChartBuild env retErr ;;
    w <- get ;;
    let build := scratch w in
    when (Build_Complete env build && (0 <? Build_ResolvedDependencies build)%Z)
         (emit (EvEvent eventv1.EventTypeTrace "ResolvedDependencies" []
                  ("resolved " ++ strconv_FormatInt (Build_ResolvedDependencies build) ++
                   " chart dependencies"))) ;;
    match retErr with
    | Some err =>
        match as_BuildError err with
        | Some (reason, inner) =>
            if IsPersistentBuildErrorReason env reason
            then pure (res, Some (serror_Stalling (ber_Reason reason) (chart_BuildError reason inner)))
            else pure (res, Some (serror_Event (ber_Reason reason) (chart_BuildError reason inner)))
        | None => pure (res, retErr)
        end
    | None => pure (res, retErr)
    end)%go.

(** [reconcileSource]. *)
Definition reconcileSource (env : Env) : Func W R :=
  body (
    o <- self ;;
    when (conditions.IsFalse o SourceVerifiedCondition)
         (update (conditions.Delete SourceVerifiedCondition)) ;;
    s <- try (getSource env o)
      (fun err =>
         let e := Errorf_w "failed to get source" err in
         update (conditions.MarkTrue FetchFailedCondition "SourceUnavailable" (Error e)) ;;
         if String.eqb (ReasonForError err) StatusReasonUnknown
         then return_ (ResultEmpty, Some (serror_Stalling "UnsupportedSourceKind" e))
         else return_ (ResultEmpty, Some (serror_Event "SourceUnavailable" e))) ;;
    w <- get ;;
    (if match Source_GetArtifact s with
        | None => true
        | Some a => negb (Storage.ArtifactExist w a)
        end
     then
       if match s with
          | SourceHelmRepository helmRepo =>
              negb (String.eqb (HelmRepository.Type_ (HelmRepository.spec helmRepo)) HelmRepositoryTypeOCI)
          | _ => true
          end
       then
         let msg := "no artifact available for " ++ SourceKind (SourceRef (spec o)) ++
                    " source '" ++ SourceName (SourceRef (spec o)) ++ "'" in
         update (conditions.MarkTrue FetchFailedCondition "NoSourceArtifact" msg) ;;
         eventLogf eventv1.EventTypeTrace "NoSourceArtifact" msg ;;
         return_ (ResultRequeue, None)
       else pure tt
     else pure tt) ;;
    match Source_GetArtifact s with
    | Some a => update (set_ObservedSourceArtifactRevision (sourcev1.Revision a))
    | None => pure tt
    end ;;
    r <- call (deferred (ResultEmpty, None) (observe_build env)
      (match s with
       | SourceHelmRepository typedSource => buildFromHelmRepository env typedSource
       | SourceGitRepository a | SourceBucket a =>
           match a with
           | Some artifact => buildFromTarballArtifact env artifact
           | None => fun w => Panicked "nil pointer dereference" w
           end
       end)) ;;
    return_ r)%go.

(** A failed storage operation: the error is recorded on
    StorageOperationFailed and returned as an event error. *)
Definition storageFailed {A} (reason : string) (err : error) : Stmt W R A :=
  (update (conditions.MarkTrue StorageOperationFailedCondition reason (Error err)) ;;
   return_ (ResultEmpty, Some (serror_Event reason err)))%go.

(** [reconcileArtifact]. *)
Definition reconcileArtifact (env : Env) : Func W R :=
  fun w0 =>
    let b := scratch w0 in
    if negb (Build_Complete env b) then Done (ResultRequeue, None) w0
    else
      let in_storage (r : R) : Func W R :=
        body (
          o <- self ;;
          if String.eqb (ObservedChartName (status o)) (Build_Name b) &&
             HasRevision (GetArtifact o) (Build_Version b)
          then
            update (conditions.Delete ArtifactOutdatedCondition) ;;
            update (conditions.MarkTrue ArtifactInStorageCondition (reasonForBuild env b)
                      (Build_Summary env b)) ;;
            pure r
          else pure r)%go in
      deferred (ResultEmpty, None) in_storage (body (
        o <- self ;;
        let artifact := Storage.NewArtifactFor env (Kind o) (ObjectMeta o) (Build_Version b)
                          (Build_Name b ++ "-" ++ Build_Version b ++ ".tgz") in
        match GetArtifact o with
        | Some curArtifact =>
            if String.eqb (Storage.LocalPath env curArtifact) (Build_Path b)
            then
              eventLogf eventv1.EventTypeTrace ArtifactUpToDateReason
                ("artifact up-to-date with remote revision: '" ++ sourcev1.Revision artifact ++ "'") ;;
              return_ (ResultSuccess, None)
            else pure tt
        | None => pure tt
        end ;;
        err <- call (Storage.MkdirAll env artifact) ;;
        match err with
        | Some err => storageFailed DirCreationFailedReason (Errorf_w "failed to create artifact directory" err)
        | None => pure tt
        end ;;
        err <- call (Storage.Lock env artifact) ;;
        match err with
        | Some err => storageFailed AcquireLockFailedReason (Errorf_w "failed to acquire lock for artifact" err)
        | None => pure tt
        end ;;
        r <- call (deferred (ResultEmpty, None)
                     (fun r w => Done r (Storage.unlock artifact w)) (body (
          '(artifact, err) <- call (Storage.CopyFromPath env artifact (Build_Path b)) ;;
          match err with
          | Some err => storageFailed ArchiveOperationFailedReason (Errorf_w "unable to copy Helm chart to storage" err)
          | None => pure tt
          end ;;
          update (set_Artifact (Some artifact)) ;;
          update (set_ObservedChartName (Build_Name b)) ;;
          '(symURL, err) <- call (Storage.Symlink env artifact "latest.tar.gz") ;;
          match err with
          | Some err =>
              eventLogf eventv1.EventTypeTrace SymlinkUpdateFailedReason
                ("failed to update status URL symlink: " ++ Error err)
          | None => pure tt
          end ;;
          when (negb (String.eqb symURL "")) (update (set_StatusURL symURL)) ;;
          update (conditions.Delete StorageOperationFailedCondition) ;;
          return_ (ResultSuccess, None)))) ;;
        return_ r)%go) w0.

(** [notify]. *)
Definition notify (env : Env) (oldObj : T) (res : Result) (resErr : option error)
    : Stmt W R unit :=
  (newObj <- self ;;
   w <- get ;;
   let build := scratch w in
   match resErr, res, Artifact (status newObj) with
   | None, ResultSuccess, Some newArtifact =>
       let annotations :=
         [(GroupVersion_Group ++ "/" ++ eventv1.MetaRevisionKey, sourcev1.Revision newArtifact);
          (GroupVersion_Group ++ "/" ++ eventv1.MetaChecksumKey, sourcev1.Checksum newArtifact)] in
       let oldChecksum :=
         match GetArtifact oldObj with
         | Some a => sourcev1.Checksum a
         | None => ""
         end in
       if negb (String.eqb oldChecksum (sourcev1.Checksum newArtifact))
       then emit (EvEvent corev1.EventTypeNormal (reasonForBuild env build) annotations
                    (Build_Summary env build))
       else
         when (FailureRecovery env (GetConditions oldObj) (GetConditions newObj) helmChartFailConditions)
              (emit (EvEvent corev1.EventTypeNormal (reasonForBuild env build) annotations
                       (Build_Summary env build)))
   | _, _, _ => pure tt
   end)%go.

(** The loop of [reconcile] over the phases. *)
Fixpoint run_reconcilers (reconcilers : list (Func W R)) (res : Result) : Stmt W R R :=
  match reconcilers with
  | [] => pure (res, None)
  | rec :: rest =>
      ('(recResult, err) <- call rec ;;
       if Result_eqb recResult ResultRequeue then return_ (ResultRequeue, None)
       else match err with
            | Some err => pure (recResult, Some err)
            | None => run_reconcilers rest (LowestRequeuingResult res recResult)
            end)%go
  end.

(** [reconcile]. *)
Definition reconcile (env : Env) (reconcilers : list (Func W R)) : Func W R :=
  body (
    oldObj <- self ;;
    update (ProgressiveStatus_ env false meta.ProgressingReason "reconciliation in progress") ;;
    o <- self ;;
    let reconcileAtVal :=
      match meta.ReconcileAnnotationValue (Annotations (ObjectMeta o)) with
      | Some v => v
      | None => ""
      end in
    (if negb (Generation (ObjectMeta o) =? ObservedGeneration (status o))%Z
     then
       update (ProgressiveStatus_ env false meta.ProgressingReason
                 ("processing object: new generation " ++
                  strconv_FormatInt (ObservedGeneration (status o)) ++ " -> " ++
                  strconv_FormatInt (Generation (ObjectMeta o)))) ;;
       err <- call (Patch env false) ;;
       match err with
       | Some err => return_ (ResultEmpty, Some err)
       | None => pure tt
       end
     else if negb (String.eqb reconcileAtVal (GetLastHandledReconcileRequest o))
     then
       err <- call (Patch env false) ;;
       match err with
       | Some err => return_ (ResultEmpty, Some err)
       | None => pure tt
       end
     else pure tt) ;;
    modify (set_scratch Build_zero) ;;
    '(res, resErr) <- run_reconcilers reconcilers ResultEmpty ;;
    notify env oldObj res resErr ;;
    return_ (res, resErr))%go.

(** [Reconcile], from the object [r.Get] fetched; [SummarizeAndPatch] is a
    parameter as for the OCIRepository reconciler. *)
Definition Reconcile_run (env : Env) : Func W R :=
  body (
    o <- self ;;
    (if negb (controllerutil.ContainsFinalizer (ObjectMeta o) SourceFinalizer)
     then
       update (fun o => set_ObjectMeta (controllerutil.AddFinalizer (ObjectMeta o) SourceFinalizer) o) ;;
       return_ (ResultRequeue, None)
     else pure tt) ;;
    (if negb (DeletionTimestamp_IsZero (ObjectMeta o))
     then r <- call (reconcileDelete env) ;; return_ r
     else pure tt) ;;
    (if Suspend (spec o)
     then return_ (ResultEmpty, None)
     else pure tt) ;;
    r <- call (reconcile env [reconcileStorage env; reconcileSource env; reconcileArtifact env]) ;;
    return_ r)%go.

Definition Reconcile (env : Env)
    (SummarizeAndPatch : Result -> option error -> Func W (ctrl_Result * option error))
    (fetched : option error) : Func W (ctrl_Result * option error) :=
  match fetched with
  | Some err => fun w => Done (ctrl_Result_zero, IgnoreNotFound err) w
  | None =>
      fun w =>
        match Reconcile_run env w with
        | Done (recResult, retErr) w' => SummarizeAndPatch recResult retErr w'
        | Panicked msg w' =>
            match SummarizeAndPatch ResultEmpty None w' with
            | Done _ w'' => Panicked msg w''
            | Panicked msg' w'' => Panicked msg' w''
            end
        end
  end.

End HelmChartReconciler.

(** ** The watches and indexes of the HelmChart reconciler *)

Module HelmChartWatches.
Import metav1 sourcev1 HelmChart.

(** [reconcile.Request]: the key of the object to reconcile. *)
Record Request : Type := mkRequest {
  Request_Namespace : string;
  Request_Name : string
}.

(** [client.ObjectKeyFromObject]. *)
Definition ObjectKeyFromObject (o : T) : Request :=
  mkRequest (Namespace (ObjectMeta o)) (Name (ObjectMeta o)).

(** [indexHelmRepositoryByURL]. *)
Definition indexHelmRepositoryByURL (env : Env) (repo : HelmRepository.T) : list string :=
  let u := repository_NormalizeURL env (HelmRepository.URL (HelmRepository.spec repo)) in
  if negb (String.eqb u "") then [u] else [].

(** [indexHelmChartBySource]. *)
Definition indexHelmChartBySource (hc : T) : list string :=
  [SourceKind (SourceRef (spec hc)) ++ "/" ++ SourceName (SourceRef (spec hc))].

(** [r.List] with [client.MatchingFields] on an index of the cache: the
    objects whose index values, as the function registered for the index in
    [SetupWithManagerAndOptions] gives them, hold the value. [cached] are
    the objects of the cache, of every namespace, and [failure] is the error
    of the call. *)
Definition List_MatchingFields {A} (failure : option error) (cached : list A)
    (index : A -> list string) (value : string) : Err (list A) :=
  match failure with
  | Some err => inl err
  | None => inr (filter (fun o => existsb (String.eqb value) (index o)) cached)
  end.

(** The loop of the three [requestsFor...Change] functions over the charts
    the index gives: a request for each chart that has not observed the
    revision. *)
Definition requests (items : list T) (revision : string) : list Request :=
  List.fold_left
    (fun reqs i =>
       if negb (String.eqb (ObservedSourceArtifactRevision (status i)) revision)
       then (reqs ++ [ObjectKeyFromObject i])%list
       else reqs)
    items [].

(** [requestsForHelmRepositoryChange]. *)
Definition requestsForHelmRepositoryChange (failure : option error) (cached : list T)
    (repo : HelmRepository.T) : list Request :=
  match HelmRepository.GetArtifact repo with
  | None => []
  | Some artifact =>
      match List_MatchingFields failure cached indexHelmChartBySource
              (HelmRepositoryKind ++ "/" ++ Name (HelmRepository.ObjectMeta repo)) with
      | inl _ => []
      | inr items => requests items (Revision artifact)
      end
  end.

(** [requestsForGitRepositoryChange]; of the GitRepository the function
    reads the name and the artifact. *)
Definition requestsForGitRepositoryChange (failure : option error) (cached : list T)
    (name : string) (artifact : option sourcev1.Artifact) : list Request :=
  match artifact with
  | None => []
  | Some artifact =>
      match List_MatchingFields failure cached indexHelmChartBySource
              (GitRepositoryKind ++ "/" ++ name) with
      | inl _ => []
      | inr items => requests items (Revision artifact)
      end
  end.

(** [requestsForBucketChange]; of the Bucket the function reads the name and
    the artifact. *)
Definition requestsForBucketChange (failure : option error) (cached : list T)
    (name : string) (artifact : option sourcev1.Artifact) : list Request :=
  match artifact with
  | None => []
  | Some artifact =>
      match List_MatchingFields failure cached indexHelmChartBySource
              (BucketKind ++ "/" ++ name) with
      | inl _ => []
      | inr items => requests items (Revision artifact)
      end
  end.

(** [resolveDependencyRepository]: the first HelmRepository of the namespace
    that the URL index gives for the URL. *)
Definition resolveDependencyRepository (env : Env) (failure : option error)
    (cached : list HelmRepository.T) (url namespace : string) : Err HelmRepository.T :=
  match List_MatchingFields failure
          (filter (fun repo =>
                     String.eqb (Namespace (HelmRepository.ObjectMeta repo)) namespace)
                  cached)
          (indexHelmRepositoryByURL env) url with
  | inl err => inl (Errorf_w "unable to retrieve HelmRepositoryList" err)
  | inr (repo :: _) => inr repo
  | inr [] =>
      inl (errors_New ("no HelmRepository found for '" ++ url ++ "' in '" ++ namespace ++
                       "' namespace"))
  end.

End HelmChartWatches.

(** ** Feature gates ([internal/features]) *)

Module features.

Definition OptimizedGitClones : string := "OptimizedGitClones".

(** The package variable [features] at start-up; the functions below take
    and give its current value. A Go map has one entry for a key. *)
Definition features : list (string * bool) := [(OptimizedGitClones, true)].

(** [m[k] = v] on a map that holds the key [k]. *)
Fixpoint map_assign (m : list (string * bool)) (k : string) (v : bool)
    : list (string * bool) :=
  match m with
  | [] => []
  | (k', v') :: rest =>
      if String.eqb k' k then (k', v) :: rest else (k', v') :: map_assign rest k v
  end.

(** [FeatureGates]. *)
Definition FeatureGates (features : list (string * bool)) : list (string * bool) := features.

(** [Disable]. *)
Definition Disable (feature : string) (features : list (string * bool))
    : list (string * bool) :=
  match map_lookup features feature with
  | Some _ => map_assign features feature false
  | None => features
  end.

End features.

(** ** Semantic version resolution as the specification words it *)

(** What the reconciler relies on of the version library: precedence is a
    total preorder, and a parsed version remembers the string it was parsed
    from. *)
Record SemverLaws (lib : SemverLib) : Prop := mkSemverLaws {
  Compare_antisym : forall a b, Compare lib a b = CompOpp (Compare lib b a);
  Compare_trans : forall a b c,
    Compare lib a b <> Gt -> Compare lib b c <> Gt -> Compare lib a c <> Gt;
  ParseVersion_Original : forall t v, ParseVersion lib t = inr v -> Original lib v = t
}.

(** "Parse as semantic versions (tags that fail to parse are silently
    skipped)". *)
Definition parse_tags (lib : SemverLib) (tags : list string) : list (Version lib) :=
  List.flat_map (fun t => match ParseVersion lib t with inr v => [v] | inl _ => [] end) tags.

(** "Apply the constraint". *)
Definition matching_versions (lib : SemverLib) (c : Constraint lib) (tags : list string)
    : list (Version lib) :=
  List.filter (Check lib c) (parse_tags lib tags).

(** The tags that parse and match. *)
Definition matching_tags (lib : SemverLib) (c : Constraint lib) (tags : list string)
    : list string :=
  List.filter (fun t => match ParseVersion lib t with
                        | inr v => Check lib c v
                        | inl _ => false
                        end) tags.

(** A list of versions in descending order of precedence. *)
Definition descending (lib : SemverLib) (vs : list (Version lib)) : Prop :=
  StronglySorted (fun a b => Compare lib a b <> Lt) vs.

(** The greatest string of a list in the order of [String.compare], which
    compares byte by byte. *)
Definition lexicographic_maximum (tag : string) (candidates : list string) : Prop :=
  In tag candidates /\ forall t, In t candidates -> String.leb t tag = true.

(** "For any tag set the chosen tag is the lexicographic-maximum of the
    subset that parses and matches." *)
Definition chosen_tag_is_lexicographic_maximum : Prop :=
  forall (env : Env) (url exp : string) (options : list RegistryOption)
         (tags : list string) (c : Constraint (semver env)) (tag : string),
    crane_ListTags env url options = inr tags ->
    NewConstraint (semver env) exp = inr c ->
    OCIRepositoryReconciler.getTagBySemver env url exp options = inr tag ->
    lexicographic_maximum tag (matching_tags (semver env) c tags).

(** ** A small outside world *)

(** Versions [MAJOR[.MINOR[.PATCH]]] with an optional leading [v], ordered by
    their numbers, and the constraints [*] and [>=VERSION]: the part of the
    version library the examples below run on. *)
Module SimpleSemver.

Record V : Type := mkV {
  major : N;
  minor : N;
  patch : N;
  original : string
}.

Definition digit (c : ascii) : option N :=
  let n := nat_of_ascii c in
  if ((48 <=? n) && (n <=? 57))%nat then Some (N.of_nat (n - 48)) else None.

Fixpoint number_from (acc : N) (s : string) : option N :=
  match s with
  | EmptyString => Some acc
  | String c rest =>
      match digit c with
      | Some d => number_from (10 * acc + d)%N rest
      | None => None
      end
  end.

Definition number (s : string) : option N :=
  match s with
  | EmptyString => None
  | _ => number_from 0%N s
  end.

Definition parse_numbers (s : string) : option (N * N * N) :=
  let s := match s with
           | String "v"%char rest => rest
           | _ => s
           end in
  match List.map number (strings.Split s "."%char) with
  | [Some a] => Some (a, 0%N, 0%N)
  | [Some a; Some b] => Some (a, b, 0%N)
  | [Some a; Some b; Some c] => Some (a, b, c)
  | _ => None
  end.

Definition parse (s : string) : Err V :=
  match parse_numbers s with
  | Some (a, b, c) => inr (mkV a b c s)
  | None => inl (errors_New "Invalid Semantic Version")
  end.

Definition compare_numbers (x y : N * N * N) : comparison :=
  let '(a, b, c) := x in
  let '(a', b', c') := y in
  match N.compare a a' with
  | Eq => match N.compare b b' with
          | Eq => N.compare c c'
          | r => r
          end
  | r => r
  end.

Definition compare (v w : V) : comparison :=
  compare_numbers (major v, minor v, patch v) (major w, minor w, patch w).

(** A constraint is a lower bound, if any. *)
Definition C : Type := option (N * N * N).

Definition constraint (s : string) : Err C :=
  if String.eqb s "*" then inr None
  else if String.prefix ">=" s
  then match parse_numbers (substring 2 (String.length s - 2) s) with
       | Some b => inr (Some b)
       | None => inl (errors_New "improper constraint")
       end
  else inl (errors_New "improper constraint").

Definition check (c : C) (v : V) : bool :=
  match c with
  | None => true
  | Some b =>
      match compare_numbers b (major v, minor v, patch v) with
      | Gt => false
      | _ => true
      end
  end.

Definition lib : SemverLib := mkSemverLib V C parse constraint check compare original.

End SimpleSemver.

Module Example.
Import metav1 sourcev1.

Definition digest : string :=
  "sha256:0123456789abcdef0123456789abcdef0123456789abcdef0123456789abcdef".
Definition digest_hex : string :=
  "0123456789abcdef0123456789abcdef0123456789abcdef0123456789abcdef".

(** A reference parser for URLs whose registry is [ghcr.io]. *)
Definition parse_reference (url : string) : Err name_Reference :=
  if String.prefix "ghcr.io/" url
  then inr (mkReference "ghcr.io"
              (List.hd "" (strings.Split
                 (List.hd "" (strings.Split (substring 8 (String.length url - 8) url) "@"%char))
                 ":"%char)))
  else inl (errors_New "could not parse reference").

(** An outside world where every call succeeds: a registry without
    credentials that serves the tags [1.9.0] and [1.10.0] of every
    repository under one digest, a storage that loses nothing, and the cloud
    login it is given. *)
Definition env_with_login
    (login : string -> name_Reference -> ProviderOptions -> Err (option Authenticator))
    : Env := {|
  client_Get_Secret := fun _ _ => inl (StatusError "NotFound" "secret not found");
  client_Get_ServiceAccount := fun _ _ => inl (StatusError "NotFound" "service account not found");
  client_Get_HelmRepository := fun _ _ => inl (StatusError "NotFound" "helm repository not found");
  client_Get_GitRepository := fun _ _ => inl (StatusError "NotFound" "git repository not found");
  client_Get_Bucket := fun _ _ => inl (StatusError "NotFound" "bucket not found");
  Patch_error := None;
  ProgressiveStatus := fun drift gen reason msg cs =>
    let cs := condition_list.MarkTrue gen (condition_list.Delete cs meta.StalledCondition)
                meta.ReconcilingCondition reason msg in
    if drift then condition_list.MarkUnknown gen cs meta.ReadyCondition reason msg else cs;
  FailureRecovery := fun _ _ _ => false;
  name_ParseReference := parse_reference;
  url_Parse := fun u => inr "https";
  login_Login := login;
  k8schain_NewFromPullSecrets := fun _ => inr (OpaqueKeychain "k8schain");
  registry_LoginOptionFromSecret := fun _ _ => inr (OpaqueKeychain "secret");
  registry_AuthAdaptHelper := fun a => inr (Some a);
  registry_KeychainAdaptHelper := fun _ _ => inr (Some "basic");
  RegistryClientGenerator := fun _ => inr ("client", "");
  repository_NewOCIChartRepository := fun u => inr u;
  repository_NewChartRepository := fun u _ => inr u;
  chartRepo_Login := fun _ _ => None;
  crane_ListTags := fun _ _ => inr ["1.9.0"; "latest"; "1.10.0"];
  crane_Digest := fun _ _ => inr digest;
  crane_Pull := fun _ _ =>
    inr (mkImage (inr None) (inr [mkLayer (inr "application/vnd.cncf.flux.content.v1.tar+gzip")
                                          (inr "layer")]));
  tls_X509KeyPair := fun c _ => inr c;
  x509_SystemCertPool := inr "system";
  soci_NewCosignVerifier := fun _ _ => inr "cosign";
  VerifyImageSignatures := fun _ _ => inr (Some ["signature"]);
  semver := SimpleSemver.lib;
  util_TempDirForObj := inr "/tmp/obj";
  util_TempPathForObj := "/tmp/obj.tgz";
  os_RemoveAll := fun _ => None;
  os_Remove := fun _ => None;
  os_Stat := fun _ => inr true;
  os_Mkdir := fun _ => None;
  os_Open := fun p => inr p;
  os_Create := fun _ => None;
  io_Copy := fun _ => None;
  file_Close := None;
  untar_Untar := fun blob => inr [("manifest.yaml", blob)];
  sourceignore_LoadIgnorePatterns := fun _ => inr [];
  sourceignore_ReadPatterns := fun s => [s];
  Hostname := "source-controller.flux-system";
  BasePath := "/data";
  storage_SetHostname := fun u => u;
  removeAll_stuck := fun _ => false;
  gc_error := None;
  gc_expired := fun _ => false;
  MkdirAll_error := fun _ => None;
  Lock_error := fun _ => None;
  Archive_error := fun _ => None;
  CopyFromPath_error := fun _ => None;
  Symlink_error := fun _ => None;
  content_checksum := fun _ _ => "c0ffee";
  file_checksum := fun _ => "c0ffee";
  time_Now := 1700000000;
  repository_NormalizeURL := fun u => u;
  getter_ClientOptionsFromSecret := fun _ => inr [];
  getter_TLSClientConfigFromSecret := fun _ _ => inr None;
  remote_Build := fun _ name version _ => inr (mkBuild name version "/tmp/obj.tgz" 0 false);
  local_Build := fun _ name opts =>
    inr (mkBuild name ("0.1.0+" ++ Opt_VersionMetadata opts) "/tmp/obj.tgz" 0 true);
  dm_Clear := None;
  Build_Complete := fun b =>
    negb (String.eqb (Build_Path b) "") && negb (String.eqb (Build_Name b) "") &&
    negb (String.eqb (Build_Version b) "");
  Build_HasMetadata := fun b =>
    negb (String.eqb (Build_Name b) "") && negb (String.eqb (Build_Version b) "");
  Build_Summary := fun b => "chart " ++ Build_Name b ++ " " ++ Build_Version b;
  IsPersistentBuildErrorReason := fun r =>
    chart.BuildErrorReason_eqb r chart.ErrChartReference ||
    chart.BuildErrorReason_eqb r chart.ErrChartMetadataPatch ||
    chart.BuildErrorReason_eqb r chart.ErrValuesFilesMerge;
  BuildOptions_GetValuesFiles := fun o =>
    match Opt_ValuesFiles o with
    | [f] => if String.eqb f "values.yaml" then [] else [f]
    | fs => fs
    end;
  Cache_present := true;
  chartRepo_Index_loaded := fun _ => true;
  chartRepo_CacheIndexInMemory := fun _ => None
|}.

(** The outside world in which no cloud provider is configured. *)
Definition env : Env := env_with_login (fun _ _ _ => inl ErrUnconfiguredProvider).

Definition object_meta (deletion : option Z) (finalizers : list string)
    (annotations : list (string * string)) : ObjectMeta :=
  mkObjectMeta "flux-system" "podinfo" 1 deletion finalizers annotations.

(** A HelmRepository of type OCI and a world for it. *)
Definition helm_repository (deletion : option Z) (finalizers : list string)
    (annotations : list (string * string)) (suspend : bool) (provider : string)
    : HelmRepository.T :=
  HelmRepository.mk HelmRepositoryKind (object_meta deletion finalizers annotations)
    (HelmRepository.mkSpec "oci://ghcr.io/org/charts" None false 600 60 suspend
       HelmRepositoryTypeOCI provider)
    (HelmRepository.mkStatus 1 [] "" None "").

Definition helm_repository_world (o : HelmRepository.T) (fs : list string)
    : HelmRepositoryOCIReconciler.W :=
  mkWorld o tt fs [] [].

(** An OCIRepository and a world for it. *)
Definition oci_repository (deletion : option Z) (finalizers : list string)
    (suspend insecure : bool) (provider : string) (ref : option OCIRepository.OCIRepositoryRef)
    (verify : option OCIRepository.OCIRepositoryVerification)
    (artifact : option Artifact) : OCIRepository.T :=
  OCIRepository.mk OCIRepositoryKind (object_meta deletion finalizers [])
    (OCIRepository.mkSpec "oci://ghcr.io/org/repo" ref None provider None verify "" None
       600 60 None insecure suspend)
    (OCIRepository.mkStatus 1 [] "" artifact "" None None "").

Definition oci_repository_world (o : OCIRepository.T) (fs : list string)
    : OCIRepositoryReconciler.W :=
  mkWorld o Artifact_zero fs [] [].

(** A HelmChart and a world for it. *)
Definition helm_chart (deletion : option Z) (finalizers : list string) (suspend : bool)
    (sourceKind strategy : string) (artifact : option Artifact) : HelmChart.T :=
  HelmChart.mk HelmChartKind (object_meta deletion finalizers [])
    (HelmChart.mkSpec "charts/podinfo" "*" (HelmChart.mkSourceRef sourceKind "podinfo")
       600 strategy [] "" suspend None)
    (HelmChart.mkStatus 1 "" "" [] "" artifact "").

Definition helm_chart_world (o : HelmChart.T) (fs : list string) : HelmChartReconciler.W :=
  mkWorld o Build_zero fs [] [].

(** An artifact at a path of the storage. *)
Definition artifact (path : string) : Artifact :=
  mkArtifact path "" "6.0.0" "" 0 0 None.

(** The artifact of a source at a revision. *)
Definition source_artifact (path revision : string) : Artifact :=
  mkArtifact path "" revision "" 0 0 None.

(** An OCIRepository that was never reconciled, the world its first run
    leaves, and the artifact of that run. *)
Definition fresh_world : OCIRepositoryReconciler.W :=
  oci_repository_world
    (oci_repository None [SourceFinalizer] false false "generic" None None None) [].

Definition after_first_run : OCIRepositoryReconciler.W :=
  match OCIRepositoryReconciler.reconcile env
          [OCIRepositoryReconciler.reconcileStorage env;
           OCIRepositoryReconciler.reconcileSource env;
           OCIRepositoryReconciler.reconcileArtifact env] fresh_world with
  | Done _ w | Panicked _ w => w
  end.

Definition stored_artifact : Artifact :=
  mkArtifact
    ("ocirepository/flux-system/podinfo/" ++ digest_hex ++ ".tar.gz")
    ("http://source-controller.flux-system/ocirepository/flux-system/podinfo/" ++
     digest_hex ++ ".tar.gz")
    ("latest/" ++ digest_hex) "c0ffee" 1700000000 1 None.

(** An OCIRepository with a layer selector. *)
Definition oci_repository_with_selector (selector : OCIRepository.OCILayerSelector)
    : OCIRepository.T :=
  OCIRepository.mk OCIRepositoryKind (object_meta None [SourceFinalizer] [])
    (OCIRepository.mkSpec "oci://ghcr.io/org/repo" None (Some selector) "generic" None None ""
       None 600 60 None false false)
    (OCIRepository.mkStatus 1 [] "" None "" None None "").

(** The outside world of [env] with a cluster that holds the given secrets
    and sources. *)
Definition env_with_cluster (secrets : string -> string -> Err Secret)
    (repositories : string -> string -> Err HelmRepository.T)
    (gits : string -> string -> Err (option Artifact)) : Env := {|
  client_Get_Secret := secrets;
  client_Get_ServiceAccount := client_Get_ServiceAccount env;
  client_Get_HelmRepository := repositories;
  client_Get_GitRepository := gits;
  client_Get_Bucket := client_Get_Bucket env;
  Patch_error := Patch_error env;
  ProgressiveStatus := ProgressiveStatus env;
  FailureRecovery := FailureRecovery env;
  name_ParseReference := name_ParseReference env;
  url_Parse := url_Parse env;
  login_Login := login_Login env;
  k8schain_NewFromPullSecrets := k8schain_NewFromPullSecrets env;
  registry_LoginOptionFromSecret := registry_LoginOptionFromSecret env;
  registry_AuthAdaptHelper := registry_AuthAdaptHelper env;
  registry_KeychainAdaptHelper := registry_KeychainAdaptHelper env;
  RegistryClientGenerator := RegistryClientGenerator env;
  repository_NewOCIChartRepository := repository_NewOCIChartRepository env;
  repository_NewChartRepository := repository_NewChartRepository env;
  chartRepo_Login := chartRepo_Login env;
  crane_ListTags := crane_ListTags env;
  crane_Digest := crane_Digest env;
  crane_Pull := crane_Pull env;
  tls_X509KeyPair := tls_X509KeyPair env;
  x509_SystemCertPool := x509_SystemCertPool env;
  soci_NewCosignVerifier := soci_NewCosignVerifier env;
  VerifyImageSignatures := VerifyImageSignatures env;
  semver := semver env;
  util_TempDirForObj := util_TempDirForObj env;
  util_TempPathForObj := util_TempPathForObj env;
  os_RemoveAll := os_RemoveAll env;
  os_Remove := os_Remove env;
  os_Stat := os_Stat env;
  os_Mkdir := os_Mkdir env;
  os_Open := os_Open env;
  os_Create := os_Create env;
  io_Copy := io_Copy env;
  file_Close := file_Close env;
  untar_Untar := untar_Untar env;
  sourceignore_LoadIgnorePatterns := sourceignore_LoadIgnorePatterns env;
  sourceignore_ReadPatterns := sourceignore_ReadPatterns env;
  Hostname := Hostname env;
  BasePath := BasePath env;
  storage_SetHostname := storage_SetHostname env;
  removeAll_stuck := removeAll_stuck env;
  gc_error := gc_error env;
  gc_expired := gc_expired env;
  MkdirAll_error := MkdirAll_error env;
  Lock_error := Lock_error env;
  Archive_error := Archive_error env;
  CopyFromPath_error := CopyFromPath_error env;
  Symlink_error := Symlink_error env;
  content_checksum := content_checksum env;
  file_checksum := file_checksum env;
  time_Now := time_Now env;
  repository_NormalizeURL := repository_NormalizeURL env;
  getter_ClientOptionsFromSecret := getter_ClientOptionsFromSecret env;
  getter_TLSClientConfigFromSecret := getter_TLSClientConfigFromSecret env;
  remote_Build := remote_Build env;
  local_Build := local_Build env;
  dm_Clear := dm_Clear env;
  Build_Complete := Build_Complete env;
  Build_HasMetadata := Build_HasMetadata env;
  Build_Summary := Build_Summary env;
  IsPersistentBuildErrorReason := IsPersistentBuildErrorReason env;
  BuildOptions_GetValuesFiles := BuildOptions_GetValuesFiles env;
  Cache_present := Cache_present env;
  chartRepo_Index_loaded := chartRepo_Index_loaded env;
  chartRepo_CacheIndexInMemory := chartRepo_CacheIndexInMemory env
|}.

(** A secret under one name of the namespace [flux-system]. *)
Definition one_secret (name : string) (data : Secret) (ns n : string) : Err Secret :=
  if String.eqb ns "flux-system" && String.eqb n name then inr data
  else inl (StatusError "NotFound" "secret not found").

Definition no_repository (ns n : string) : Err HelmRepository.T :=
  inl (StatusError "NotFound" "helm repository not found").

Definition no_git (ns n : string) : Err (option Artifact) :=
  inl (StatusError "NotFound" "git repository not found").

(** An OCIRepository with a certificate secret. *)
Definition oci_repository_with_cert (name : string) : OCIRepository.T :=
  OCIRepository.mk OCIRepositoryKind (object_meta None [SourceFinalizer] [])
    (OCIRepository.mkSpec "oci://ghcr.io/org/repo" None None "generic" None None ""
       (Some name) 600 60 None false false)
    (OCIRepository.mkStatus 1 [] "" None "" None None "").

(** A HelmChart with values files. *)
Definition helm_chart_with_values (sourceKind strategy : string) (valuesFiles : list string)
    : HelmChart.T :=
  HelmChart.mk HelmChartKind (object_meta None [SourceFinalizer] [])
    (HelmChart.mkSpec "charts/podinfo" "*" (HelmChart.mkSourceRef sourceKind "podinfo")
       600 strategy valuesFiles "" false None)
    (HelmChart.mkStatus 1 "" "" [] "" None "").

End Example.

(** ** Deletion *)




(** ** The storage phase *)

(** What the storage phase does with an advertised artifact [a] of an
    object that is not under deletion: the phase returns; when the file of
    [a] is in the storage the phase succeeds, the artifact stays with its
    URL set for the current host, the URL of the status goes through
    [SetHostname] and the file is still there; when the file is gone the
    artifact and the URL of the status are cleared and no ArtifactInStorage
    condition is left. *)
Definition storage_phase_follows_file {T X : Type} `{Setter T}
    (ObjectMeta : T -> metav1.ObjectMeta)
    (GetArtifact : T -> option sourcev1.Artifact) (StatusURL : T -> string)
    (env : Env) (phase : Func (World T X) (Result * option error)) : Prop :=
  forall (w : World T X) (a : sourcev1.Artifact),
    metav1.DeletionTimestamp_IsZero (ObjectMeta (obj w)) = true ->
    GetArtifact (obj w) = Some a ->
    exists r w',
      phase w = Done r w' /\
      if Storage.ArtifactExist w a
      then r = (ResultSuccess, None) /\
           GetArtifact (obj w') = Some (Storage.SetArtifactURL env a) /\
           StatusURL (obj w') = storage_SetHostname env (StatusURL (obj w)) /\
           Storage.ArtifactExist w' a = true
      else GetArtifact (obj w') = None /\
           StatusURL (obj w') = "" /\
           conditions.Get (obj w') sourcev1.ArtifactInStorageCondition = None.

(** ** Suspension *)

(** The calls of the storage, source and artifact phases: operations on the
    storage and on a registry. *)
Definition is_phase_event {T : Type} (e : Event T) : bool :=
  match e with
  | EvStorage _ _ | EvRegistry _ _ => true
  | EvPatch _ _ | EvEvent _ _ _ _ => false
  end.

(** A run on a suspended object makes no call of a phase and returns the
    object with the status it had. *)
Definition suspended_run_keeps_status {T X R S : Type}
    (Suspend : T -> bool) (status : T -> S) (run : Func (World T X) R) : Prop :=
  forall (w : World T X) (r : R) (w' : World T X),
    Suspend (obj w) = true ->
    run w = Done r w' ->
    status (obj w') = status (obj w) /\
    exists added,
      trace w' = (added ++ trace w)%list /\
      forallb (fun e => negb (is_phase_event e)) added = true.

(** "For every object with spec.suspend=true, the reconciler executes no
    phase beyond the fetch/finalizer step and the object's status is not
    modified by the run", for the three reconcilers. *)
Definition suspend_halts_work : Prop :=
  forall env : Env,
    suspended_run_keeps_status
      (fun o => OCIRepository.Suspend (OCIRepository.spec o)) OCIRepository.status
      (OCIRepositoryReconciler.Reconcile_run env) /\
    suspended_run_keeps_status
      (fun o => HelmChart.Suspend (HelmChart.spec o)) HelmChart.status
      (HelmChartReconciler.Reconcile_run env) /\
    suspended_run_keeps_status
      (fun o => HelmRepository.Suspend (HelmRepository.spec o)) HelmRepository.status
      (HelmRepositoryOCIReconciler.Reconcile env None).

(** ** Conditions of an object *)

(** The object carries a condition of the type with the status and the
    reason. *)
Definition has_condition {T : Type} `{Setter T} (o : T) (t : string)
    (status : metav1.ConditionStatus) (reason : string) : Prop :=
  exists c,
    conditions.Get o t = Some c /\ metav1.Status c = status /\ metav1.Reason c = reason.

(** ** The revision of an OCI artifact as the specification words it *)

(** The tag the resolved reference of an OCIRepository carries, for the
    repository URL [url]: none for a reference pinned by digest, the tag the
    semver range selects, the tag of the reference, and the implicit tag
    [latest] when the reference gives neither. *)
Definition resolved_tag (env : Env) (o : OCIRepository.T) (url : string)
    (options : list RegistryOption) : option string :=
  match OCIRepository.Reference (OCIRepository.spec o) with
  | Some ref =>
      if negb (String.eqb (OCIRepository.Digest ref) "") then None
      else if negb (String.eqb (OCIRepository.SemVer ref) "")
      then match OCIRepositoryReconciler.getTagBySemver env url (OCIRepository.SemVer ref)
                   options with
           | inr tag => Some tag
           | inl _ => None
           end
      else if negb (String.eqb (OCIRepository.Tag ref) "") then Some (OCIRepository.Tag ref)
      else Some "latest"
  | None => Some "latest"
  end.

(** [tag "/" digestHex], or just [digestHex] when there is no tag. *)
Definition revision_format (tag : option string) (digestHex : string) : string :=
  match tag with
  | Some tag => tag ++ "/" ++ digestHex
  | None => digestHex
  end.

(** A tag is not empty and has no colon and no at sign. *)
Definition well_formed_tag (tag : option string) : bool :=
  match tag with
  | Some tag =>
      negb (String.eqb tag "") && negb (strings.Contains tag ":"%char) &&
      negb (strings.Contains tag "@"%char)
  | None => true
  end.

(** ** Verification *)

(** Verification of the revision is due for the object: the revision is new,
    the generation has moved since the last verification, or the last
    verification failed (lines 856-858 of [reconcileSource]). *)
Definition verification_due (o : OCIRepository.T) (revision : string) : bool :=
  negb (sourcev1.HasRevision (OCIRepository.GetArtifact o) revision) ||
  negb (conditions.GetObservedGeneration o sourcev1.SourceVerifiedCondition =?
        metav1.Generation (OCIRepository.ObjectMeta o))%Z ||
  conditions.IsFalse o sourcev1.SourceVerifiedCondition.

(** A call of the registry that verifies signatures or pulls an artifact. *)
Definition is_verify_or_pull {T : Type} (e : Event T) : bool :=
  match e with
  | EvRegistry OpVerifySignatures _ | EvRegistry OpPull _ => true
  | _ => false
  end.

(** [ProgressiveStatus] of fluxcd/pkg works on Reconciling, Stalled and
    Ready: it leaves the condition of another type as it is. *)
Definition ProgressiveStatus_keeps (env : Env) (t : string) : Prop :=
  forall drift gen reason msg cs,
    condition_list.Get (ProgressiveStatus env drift gen reason msg cs) t =
    condition_list.Get cs t.

(** ** A run on an unchanged input *)

(** The calls and events C3 rules out: a pull from the registry, a new file
    in the storage (an archive or a copy), and a NewArtifact event. *)
Definition fetches_or_announces {T : Type} (e : Event T) : bool :=
  match e with
  | EvRegistry OpPull _ => true
  | EvStorage OpArchive _ | EvStorage OpCopyFromPath _ => true
  | EvEvent _ reason _ _ => String.eqb reason "NewArtifact"
  | _ => false
  end.

(** The trace [t] extends [t0] by calls and events that neither fetch nor
    announce an artifact. *)
Definition quiet_since {T : Type} (t0 t : list (Event T)) : Prop :=
  exists added,
    t = (added ++ t0)%list /\ forallb (fun e => negb (fetches_or_announces e)) added = true.

(** What a phase of the run keeps, from the world [w0] the run started in:
    specification and metadata, the artifact [a] in the status with its file
    in the storage, the observed content configuration, and a quiet
    trace. *)
Definition Frame (a : sourcev1.Artifact) (w0 w : OCIRepositoryReconciler.W) : Prop :=
  OCIRepository.spec (obj w) = OCIRepository.spec (obj w0) /\
  OCIRepository.ObjectMeta (obj w) = OCIRepository.ObjectMeta (obj w0) /\
  OCIRepository.Kind (obj w) = OCIRepository.Kind (obj w0) /\
  OCIRepository.Artifact (OCIRepository.status (obj w)) = Some a /\
  OCIRepository.ObservedIgnore (OCIRepository.status (obj w)) =
    OCIRepository.ObservedIgnore (OCIRepository.status (obj w0)) /\
  OCIRepository.ObservedLayerSelector (OCIRepository.status (obj w)) =
    OCIRepository.ObservedLayerSelector (OCIRepository.status (obj w0)) /\
  Storage.ArtifactExist w a = true /\
  quiet_since (trace w0) (trace w).

(** A world that differs from another by quiet events only. *)
Definition quiet_step (w w1 : OCIRepositoryReconciler.W) : Prop :=
  obj w1 = obj w /\ files w1 = files w /\ scratch w1 = scratch w /\
  quiet_since (trace w) (trace w1).

(** ** The version metadata of a chart built from a source artifact *)

(** The options [buildFromTarballArtifact] configures before it looks at
    the revision (lines 776-782). *)
Definition tarball_build_options (env : Env) (o : HelmChart.T) : BuildOptions :=
  let opts := mkBuildOptions "" (HelmChart.GetValuesFiles o) ""
                (negb (metav1.Generation (HelmChart.ObjectMeta o) =?
                       HelmChart.ObservedGeneration (HelmChart.status o))%Z) false in
  match HelmChart.Artifact (HelmChart.status o) with
  | Some artifact => set_CachedChart (Storage.LocalPath env artifact) opts
  | None => opts
  end.

(** The revision [buildFromTarballArtifact] cuts: the revision of the source
    artifact, for a GitRepository its part after the last slash. *)
Definition revision_to_cut (o : HelmChart.T) (source : sourcev1.Artifact) : string :=
  if String.eqb (HelmChart.SourceKind (HelmChart.SourceRef (HelmChart.spec o)))
       sourcev1.GitRepositoryKind
  then last_elem (strings.Split (sourcev1.Revision source) "/"%char)
  else sourcev1.Revision source.

(** The outcome of [buildFromTarballArtifact] is that of the builder called
    with the options. *)
Definition built_with (env : Env) (tmpDir : string) (o : HelmChart.T) (opts : BuildOptions)
    (r : HelmChartReconciler.R) (w' : HelmChartReconciler.W) : Prop :=
  match local_Build env (filepath_Join tmpDir "source") (HelmChart.Chart (HelmChart.spec o))
          opts with
  | inl err => r = (ResultEmpty, Some err)
  | inr build => r = (ResultSuccess, None) /\ scratch w' = build
  end.

(** "With the reconcile strategy Revision and a GitRepository or a Bucket as
    source, the version metadata is unconditionally the first 12 characters
    of the source revision; for any shorter revision the build phase
    panics", for a build whose working directory is set up and whose source
    artifact is extracted. *)
Definition version_metadata_is_revision_cut : Prop :=
  forall (env : Env) (source : sourcev1.Artifact) (w : HelmChartReconciler.W)
         (tmpDir f : string) (extracted : list (string * string)),
    HelmChart.ReconcileStrategy (HelmChart.spec (obj w)) = sourcev1.ReconcileStrategyRevision ->
    HelmChart.SourceKind (HelmChart.SourceRef (HelmChart.spec (obj w))) =
      sourcev1.GitRepositoryKind \/
    HelmChart.SourceKind (HelmChart.SourceRef (HelmChart.spec (obj w))) =
      sourcev1.BucketKind ->
    util_TempDirForObj env = inr tmpDir ->
    os_Mkdir env (filepath_Join tmpDir "source") = None ->
    os_Open env (Storage.LocalPath env source) = inr f ->
    untar_Untar env f = inr extracted ->
    file_Close env = None ->
    if (12 <=? String.length (revision_to_cut (obj w) source))%nat
    then
      exists opts r w',
        HelmChartReconciler.buildFromTarballArtifact env source w = Done r w' /\
        Opt_VersionMetadata opts = substring 0 12 (revision_to_cut (obj w) source) /\
        built_with env tmpDir (obj w) opts r w'
    else
      exists w',
        HelmChartReconciler.buildFromTarballArtifact env source w =
        Panicked "slice bounds out of range" w'.

(** * Properties *)

(** ** Sorting *)

Section SortFacts.
Context {A : Type} (less : A -> A -> bool).

(** The order [less] comes from: nothing is less than something less than
    it, and "not less" is transitive. *)
Hypothesis less_asym : forall a b, less a b = true -> less b a = false.
Hypothesis not_less_trans :
  forall a b c, less a b = false -> less b c = false -> less a c = false.

Lemma sift_Permutation (x : A) (before : list A) :
  Permutation (sort.sift less x before) (x :: before).
Proof.
  induction before as [|y ys IH]; simpl.
  - apply Permutation_refl.
  - destruct (less x y).
    + apply Permutation_trans with (y :: x :: ys).
      * apply perm_skip. exact IH.
      * apply perm_swap.
    + apply Permutation_refl.
Qed.

Lemma sift_In (x z : A) (before : list A) :
  In z (sort.sift less x before) -> z = x \/ In z before.
Proof.
  intros Hin.
  apply (Permutation_in _ (sift_Permutation x before)) in Hin.
  destruct Hin as [H | H]; [left; symmetry; exact H | right; exact H].
Qed.

(** The prefix, last element first: no element is less than one that stands
    before it in the slice. *)
Definition prefix_sorted (before : list A) : Prop :=
  StronglySorted (fun y y' => less y y' = false) before.

Lemma sift_sorted (x : A) (before : list A) :
  prefix_sorted before -> prefix_sorted (sort.sift less x before).
Proof.
  unfold prefix_sorted.
  induction before as [|y ys IH]; simpl; intros Hs.
  - constructor; constructor.
  - apply StronglySorted_inv in Hs. destruct Hs as [Hys Hy].
    destruct (less x y) eqn:Hxy.
    + constructor.
      * apply IH. exact Hys.
      * rewrite Forall_forall in *. intros z Hz.
        apply sift_In in Hz. destruct Hz as [-> | Hz].
        -- apply less_asym. exact Hxy.
        -- apply Hy. exact Hz.
    + constructor.
      * constructor; assumption.
      * constructor; [exact Hxy|].
        rewrite Forall_forall in *. intros z Hz.
        apply not_less_trans with y; [exact Hxy | apply Hy; exact Hz].
Qed.

Lemma fold_sift_Permutation (data before : list A) :
  Permutation (fold_left (fun b x => sort.sift less x b) data before) (List.rev data ++ before).
Proof.
  revert before. induction data as [|x xs IH]; intros before; simpl.
  - apply Permutation_refl.
  - eapply Permutation_trans; [apply IH|].
    rewrite <- app_assoc. simpl.
    apply Permutation_app_head. apply sift_Permutation.
Qed.

Lemma fold_sift_sorted (data before : list A) :
  prefix_sorted before ->
  prefix_sorted (fold_left (fun b x => sort.sift less x b) data before).
Proof.
  revert before. induction data as [|x xs IH]; intros before Hs; simpl.
  - exact Hs.
  - apply IH. apply sift_sorted. exact Hs.
Qed.

Lemma StronglySorted_snoc (Q : A -> A -> Prop) (r : list A) (a : A) :
  StronglySorted Q r -> Forall (fun z => Q z a) r -> StronglySorted Q (r ++ [a])%list.
Proof.
  induction 1 as [|z r Hs IH Hz]; simpl; intros Hall.
  - constructor; constructor.
  - apply Forall_cons_iff in Hall. destruct Hall as [Hza Hall].
    constructor.
    + apply IH. exact Hall.
    + apply Forall_app. split; [exact Hz | constructor; [exact Hza | constructor]].
Qed.

Lemma StronglySorted_rev_flip (Q : A -> A -> Prop) (l : list A) :
  StronglySorted Q l -> StronglySorted (fun a b => Q b a) (List.rev l).
Proof.
  induction 1 as [|a l Hs IH Ha]; simpl.
  - constructor.
  - apply StronglySorted_snoc; [exact IH|].
    rewrite Forall_forall in *. intros z Hz. apply Ha. apply in_rev. exact Hz.
Qed.

(** The sorted slice is a rearrangement of the data in which no element is
    less than one before it. *)
Lemma Sort_Permutation (data : list A) : Permutation (sort.Sort less data) data.
Proof.
  unfold sort.Sort.
  eapply Permutation_trans; [apply Permutation_sym, Permutation_rev|].
  eapply Permutation_trans; [apply fold_sift_Permutation|].
  rewrite app_nil_r. apply Permutation_sym, Permutation_rev.
Qed.

Lemma Sort_sorted (data : list A) :
  StronglySorted (fun a b => less b a = false) (sort.Sort less data).
Proof.
  unfold sort.Sort.
  apply (StronglySorted_rev_flip (fun y y' => less y y' = false)).
  apply fold_sift_sorted. constructor.
Qed.

End SortFacts.

(** ** Resolution of a semantic version constraint *)

Lemma StronglySorted_impl {A : Type} (P Q : A -> A -> Prop) (l : list A) :
  (forall a b, P a b -> Q a b) -> StronglySorted P l -> StronglySorted Q l.
Proof.
  intros HPQ. induction 1 as [|a l Hs IH Ha]; constructor.
  - exact IH.
  - rewrite Forall_forall in *. intros z Hz. apply HPQ, Ha, Hz.
Qed.

Section SemverFacts.
Variable lib : SemverLib.
Hypothesis laws : SemverLaws lib.

Lemma Compare_refl (v : Version lib) : Compare lib v v = Eq.
Proof.
  pose proof (Compare_antisym lib laws v v) as H.
  destruct (Compare lib v v); simpl in H; congruence.
Qed.

Lemma Reverse_LessThan_asym (a b : Version lib) :
  sort.Reverse (LessThan lib) a b = true -> sort.Reverse (LessThan lib) b a = false.
Proof.
  unfold sort.Reverse, LessThan. intros H.
  rewrite (Compare_antisym lib laws a b).
  destruct (Compare lib b a); simpl; congruence.
Qed.

Lemma Reverse_LessThan_trans (a b c : Version lib) :
  sort.Reverse (LessThan lib) a b = false ->
  sort.Reverse (LessThan lib) b c = false ->
  sort.Reverse (LessThan lib) a c = false.
Proof.
  unfold sort.Reverse, LessThan. intros Hab Hbc.
  assert (H1 : Compare lib a b <> Gt).
  { rewrite (Compare_antisym lib laws a b). destruct (Compare lib b a); simpl; congruence. }
  assert (H2 : Compare lib b c <> Gt).
  { rewrite (Compare_antisym lib laws b c). destruct (Compare lib c b); simpl; congruence. }
  pose proof (Compare_trans lib laws a b c H1 H2) as H3.
  rewrite (Compare_antisym lib laws a c) in H3.
  destruct (Compare lib c a); simpl in H3; congruence.
Qed.

(** The loop of [getTagBySemver] collects the versions that parse and
    match, in the order of the tags. *)
Lemma matching_loop (c : Constraint lib) (tags : list string) (acc : list (Version lib)) :
  List.fold_left
    (fun (matching : list (Version lib)) (t : string) =>
       match ParseVersion lib t with
       | inl _ => matching
       | inr v => if Check lib c v then (matching ++ [v])%list else matching
       end) tags acc
  = (acc ++ matching_versions lib c tags)%list.
Proof.
  unfold matching_versions, parse_tags.
  revert acc. induction tags as [|t ts IH]; intros acc; simpl.
  - now rewrite app_nil_r.
  - rewrite IH, filter_app.
    destruct (ParseVersion lib t) as [e | v]; simpl.
    + reflexivity.
    + destruct (Check lib c v); simpl.
      * now rewrite <- app_assoc.
      * reflexivity.
Qed.

Lemma In_matching_versions (c : Constraint lib) (tags : list string) (v : Version lib) :
  In v (matching_versions lib c tags) <->
  exists t, In t tags /\ ParseVersion lib t = inr v /\ Check lib c v = true.
Proof.
  unfold matching_versions, parse_tags.
  rewrite filter_In, in_flat_map. split.
  - intros [[t [Ht Hv]] Hc]. exists t.
    destruct (ParseVersion lib t) as [e | v'] eqn:Hp; simpl in Hv.
    + contradiction.
    + destruct Hv as [-> | []]. auto.
  - intros [t [Ht [Hp Hc]]]. split; [|exact Hc].
    exists t. split; [exact Ht|]. rewrite Hp. now left.
Qed.

Lemma In_matching_tags (c : Constraint lib) (tags : list string) (t : string) :
  In t (matching_tags lib c tags) <->
  In t tags /\ exists v, ParseVersion lib t = inr v /\ Check lib c v = true.
Proof.
  unfold matching_tags. rewrite filter_In. split.
  - intros [Ht Hc]. split; [exact Ht|].
    destruct (ParseVersion lib t) as [e | v]; [discriminate|].
    exists v. auto.
  - intros [Ht [v [Hp Hc]]]. split; [exact Ht|]. now rewrite Hp.
Qed.

Lemma Sort_descending (vs : list (Version lib)) :
  descending lib (sort.Sort (sort.Reverse (LessThan lib)) vs).
Proof.
  unfold descending.
  apply StronglySorted_impl with
    (P := fun a b => sort.Reverse (LessThan lib) b a = false).
  - unfold sort.Reverse, LessThan. intros a b H.
    destruct (Compare lib a b); congruence.
  - apply Sort_sorted.
    + exact Reverse_LessThan_asym.
    + exact Reverse_LessThan_trans.
Qed.

(** The head of a descending list is a maximum of it. *)
Lemma descending_head (v : Version lib) (vs : list (Version lib)) (w : Version lib) :
  descending lib (v :: vs) -> In w (v :: vs) -> Compare lib w v <> Gt.
Proof.
  unfold descending. intros Hs Hin.
  apply StronglySorted_inv in Hs. destruct Hs as [_ Hv].
  destruct Hin as [<- | Hin].
  - rewrite Compare_refl. discriminate.
  - rewrite Forall_forall in Hv. specialize (Hv w Hin).
    rewrite (Compare_antisym lib laws w v).
    destruct (Compare lib v w); simpl; congruence.
Qed.

End SemverFacts.

(** What [getTagBySemver] computes from the tags the registry lists and a
    valid constraint. *)
Lemma getTagBySemver_sorted (env : Env) (url exp : string) (options : list RegistryOption)
    (tags : list string) (c : Constraint (semver env)) :
  crane_ListTags env url options = inr tags ->
  NewConstraint (semver env) exp = inr c ->
  OCIRepositoryReconciler.getTagBySemver env url exp options =
    match sort.Sort (sort.Reverse (LessThan (semver env))) (matching_versions (semver env) c tags) with
    | [] => inl (errors_New ("no match found for semver: " ++ exp))
    | v :: _ => inr (Original (semver env) v)
    end.
Proof.
  intros Htags Hc. unfold OCIRepositoryReconciler.getTagBySemver.
  rewrite Htags, Hc, matching_loop. simpl.
  destruct (matching_versions (semver env) c tags) as [|v vs] eqn:Hm.
  - reflexivity.
  - simpl Nat.eqb. cbv iota.
    destruct (sort.Sort (sort.Reverse (LessThan (semver env))) (v :: vs)) as [|s ss] eqn:Hs.
    + exfalso.
      pose proof (Sort_Permutation (sort.Reverse (LessThan (semver env))) (v :: vs)) as Hp.
      rewrite Hs in Hp. apply Permutation_nil in Hp. discriminate.
    + reflexivity.
Qed.

(** C5. Resolution of a semantic version reference lists the tags, parses
    each as a version and skips those that fail to parse, keeps the versions
    that satisfy the constraint, sorts them in descending order of
    precedence and returns the first; it returns an error when no tag parses
    and matches. *)
Theorem getTagBySemver_steps (env : Env) (url exp : string) (options : list RegistryOption)
    (tags : list string) (c : Constraint (semver env)) :
  SemverLaws (semver env) ->
  crane_ListTags env url options = inr tags ->
  NewConstraint (semver env) exp = inr c ->
  exists sorted : list (Version (semver env)),
    Permutation sorted (matching_versions (semver env) c tags) /\
    descending (semver env) sorted /\
    OCIRepositoryReconciler.getTagBySemver env url exp options =
      match sorted with
      | [] => inl (errors_New ("no match found for semver: " ++ exp))
      | v :: _ => inr (Original (semver env) v)
      end.
Proof.
  intros laws Htags Hc.
  exists (sort.Sort (sort.Reverse (LessThan (semver env))) (matching_versions (semver env) c tags)).
  split; [|split].
  - apply Sort_Permutation.
  - apply Sort_descending. exact laws.
  - apply getTagBySemver_sorted; assumption.
Qed.

(** C4, amended. The tag resolution chooses is a tag of the list that parses
    and matches the constraint, and no tag that parses and matches has a
    version of higher precedence. *)
Theorem getTagBySemver_precedence_maximum (env : Env) (url exp : string)
    (options : list RegistryOption) (tags : list string) (c : Constraint (semver env))
    (tag : string) :
  SemverLaws (semver env) ->
  crane_ListTags env url options = inr tags ->
  NewConstraint (semver env) exp = inr c ->
  OCIRepositoryReconciler.getTagBySemver env url exp options = inr tag ->
  exists v : Version (semver env),
    In tag (matching_tags (semver env) c tags) /\
    ParseVersion (semver env) tag = inr v /\
    forall t w,
      In t (matching_tags (semver env) c tags) ->
      ParseVersion (semver env) t = inr w ->
      Compare (semver env) w v <> Gt.
Proof.
  intros laws Htags Hc Hres.
  rewrite (getTagBySemver_sorted env url exp options tags c Htags Hc) in Hres.
  pose proof (Sort_Permutation (sort.Reverse (LessThan (semver env)))
                (matching_versions (semver env) c tags)) as Hperm.
  pose proof (Sort_descending (semver env) laws (matching_versions (semver env) c tags)) as Hdesc.
  destruct (sort.Sort (sort.Reverse (LessThan (semver env)))
              (matching_versions (semver env) c tags)) as [|v vs]; [discriminate|].
  injection Hres as <-.
  assert (Hv : In v (matching_versions (semver env) c tags)).
  { apply (Permutation_in _ Hperm). now left. }
  apply In_matching_versions in Hv. destruct Hv as [t [Ht [Hp Hchk]]].
  pose proof (ParseVersion_Original _ laws t v Hp) as Ho.
  exists v. rewrite Ho. split; [|split].
  - apply In_matching_tags. split; [exact Ht|]. exists v. auto.
  - exact Hp.
  - intros t' w Ht' Hp'.
    apply In_matching_tags in Ht'. destruct Ht' as [Hin [w' [Hpw Hcw]]].
    rewrite Hp' in Hpw. injection Hpw as <-.
    apply descending_head with vs; [exact laws | exact Hdesc |].
    apply (Permutation_in _ (Permutation_sym Hperm)).
    apply In_matching_versions. exists t'. auto.
Qed.

(** The small version library satisfies the laws. *)
Lemma compare_numbers_le (x y : N * N * N) :
  SimpleSemver.compare_numbers x y <> Gt <->
  (let '(a, b, c) := x in
   let '(a', b', c') := y in
   (a < a' \/ (a = a' /\ (b < b' \/ (b = b' /\ c <= c'))))%N).
Proof.
  destruct x as [[a b] c], y as [[a' b'] c']. unfold SimpleSemver.compare_numbers.
  destruct (N.compare_spec a a') as [Ha | Ha | Ha];
    [destruct (N.compare_spec b b') as [Hb | Hb | Hb];
     [destruct (N.compare_spec c c') as [Hc | Hc | Hc]| |]| |];
    split; intros H; try congruence; try lia.
Qed.

Lemma SimpleSemver_compare_antisym (v w : SimpleSemver.V) :
  SimpleSemver.compare v w = CompOpp (SimpleSemver.compare w v).
Proof.
  destruct v as [a b c o], w as [a' b' c' o'].
  unfold SimpleSemver.compare, SimpleSemver.compare_numbers; simpl.
  rewrite (N.compare_antisym a' a), (N.compare_antisym b' b), (N.compare_antisym c' c).
  destruct (a' ?= a)%N; simpl; try reflexivity.
  destruct (b' ?= b)%N; simpl; reflexivity.
Qed.

Lemma SimpleSemver_compare_trans (u v w : SimpleSemver.V) :
  SimpleSemver.compare u v <> Gt -> SimpleSemver.compare v w <> Gt ->
  SimpleSemver.compare u w <> Gt.
Proof.
  unfold SimpleSemver.compare. rewrite !compare_numbers_le. lia.
Qed.

Lemma SimpleSemver_laws : SemverLaws SimpleSemver.lib.
Proof.
  constructor.
  - exact SimpleSemver_compare_antisym.
  - exact SimpleSemver_compare_trans.
  - intros t v. simpl. unfold SimpleSemver.parse.
    destruct (SimpleSemver.parse_numbers t) as [[[a b] c]|]; [|discriminate].
    intros H. injection H as <-. reflexivity.
Qed.

Lemma getTagBySemver_steps_witness :
  exists sorted : list SimpleSemver.V,
    Permutation sorted
      (matching_versions SimpleSemver.lib None ["1.9.0"; "latest"; "1.10.0"]) /\
    descending SimpleSemver.lib sorted /\
    OCIRepositoryReconciler.getTagBySemver Example.env "ghcr.io/org/repo" "*" [] =
      match sorted with
      | [] => inl (errors_New ("no match found for semver: " ++ "*"))
      | v :: _ => inr (SimpleSemver.original v)
      end.
Proof.
  exact (getTagBySemver_steps Example.env "ghcr.io/org/repo" "*" []
           ["1.9.0"; "latest"; "1.10.0"] None SimpleSemver_laws eq_refl eq_refl).
Defined.

Lemma getTagBySemver_precedence_maximum_witness :
  exists v : SimpleSemver.V,
    In "1.10.0" (matching_tags SimpleSemver.lib None ["1.9.0"; "latest"; "1.10.0"]) /\
    SimpleSemver.parse "1.10.0" = inr v /\
    forall t w,
      In t (matching_tags SimpleSemver.lib None ["1.9.0"; "latest"; "1.10.0"]) ->
      SimpleSemver.parse t = inr w ->
      SimpleSemver.compare w v <> Gt.
Proof.
  exact (getTagBySemver_precedence_maximum Example.env "ghcr.io/org/repo" "*" []
           ["1.9.0"; "latest"; "1.10.0"] None "1.10.0" SimpleSemver_laws
           eq_refl eq_refl eq_refl).
Defined.

(** C4 as stated fails: of the tags [1.9.0] and [1.10.0], both of which
    parse and match [*], resolution chooses [1.10.0], and [1.9.0] is the
    greater string. *)
Lemma getTagBySemver_not_lexicographic : ~ chosen_tag_is_lexicographic_maximum.
Proof.
  intros claim.
  destruct (claim Example.env "ghcr.io/org/repo" "*" []
              ["1.9.0"; "latest"; "1.10.0"] None "1.10.0" eq_refl eq_refl eq_refl)
    as [_ Hmax].
  specialize (Hmax "1.9.0" (or_introl eq_refl)).
  vm_compute in Hmax. discriminate.
Qed.


(** ** Symbolic evaluation of statements *)

(** Projections of the records of the model and the accessors built on
    them; the functions on strings and condition lists stay folded. *)
Ltac proj :=
  cbv beta delta
    [conditions.Get conditions.Delete conditions.Set_ conditions.MarkTrue
     conditions.MarkFalse conditions.MarkStalled conditions.IsTrue conditions.IsFalse
     conditions.IsStalled conditions.IsReconciling conditions.IsReady
     conditions.GetObservedGeneration conditions.GetMessage ProgressiveStatus_
     object_.SetStatusLastHandledReconcileAt];
  cbn [negb andb orb fst snd
       obj files scratch workdir trace set_obj set_files set_scratch set_workdir log
       metav1.Namespace metav1.Name metav1.Generation metav1.DeletionTimestamp
       metav1.Finalizers metav1.Annotations metav1.set_Finalizers
       metav1.Type_ metav1.Status metav1.Reason metav1.Message metav1.ObservedGeneration
       sourcev1.Path sourcev1.URL sourcev1.Revision sourcev1.Checksum
       sourcev1.LastUpdateTime sourcev1.Size sourcev1.Metadata
       sourcev1.set_URL sourcev1.set_Path sourcev1.set_Metadata
       HelmRepository.Kind HelmRepository.ObjectMeta HelmRepository.spec HelmRepository.status
       HelmRepository.URL HelmRepository.SecretRef HelmRepository.PassCredentials
       HelmRepository.Interval HelmRepository.Timeout HelmRepository.Suspend
       HelmRepository.Type_ HelmRepository.Provider
       HelmRepository.ObservedGeneration HelmRepository.Conditions HelmRepository.StatusURL
       HelmRepository.Artifact HelmRepository.LastHandledReconcileAt
       HelmRepository.set_ObjectMeta HelmRepository.set_status HelmRepository.set_Conditions
       HelmRepository.set_LastHandledReconcileAt HelmRepository.set_ObservedGeneration
       HelmRepository.GetConditions HelmRepository.GetArtifact HelmRepository.GetRequeueAfter
       HelmRepository.GetLastHandledReconcileRequest
       OCIRepository.Kind OCIRepository.ObjectMeta OCIRepository.spec OCIRepository.status
       OCIRepository.URL OCIRepository.Reference OCIRepository.LayerSelector
       OCIRepository.Provider OCIRepository.SecretRef OCIRepository.Verify
       OCIRepository.ServiceAccountName OCIRepository.CertSecretRef OCIRepository.Interval
       OCIRepository.Timeout OCIRepository.Ignore OCIRepository.Insecure OCIRepository.Suspend
       OCIRepository.ObservedGeneration OCIRepository.Conditions OCIRepository.StatusURL
       OCIRepository.Artifact OCIRepository.ContentConfigChecksum OCIRepository.ObservedIgnore
       OCIRepository.ObservedLayerSelector OCIRepository.LastHandledReconcileAt
       OCIRepository.set_ObjectMeta OCIRepository.set_status OCIRepository.set_Conditions
       OCIRepository.set_StatusURL OCIRepository.set_Artifact
       OCIRepository.set_ContentConfigChecksum OCIRepository.set_ObservedIgnore
       OCIRepository.set_ObservedLayerSelector
       OCIRepository.GetConditions OCIRepository.GetArtifact OCIRepository.GetRequeueAfter
       OCIRepository.GetLastHandledReconcileRequest
       HelmChart.Kind HelmChart.ObjectMeta HelmChart.spec HelmChart.status
       HelmChart.Chart HelmChart.Version HelmChart.SourceRef HelmChart.Interval
       HelmChart.ReconcileStrategy HelmChart.ValuesFiles HelmChart.ValuesFile
       HelmChart.Suspend HelmChart.Verify HelmChart.SourceKind HelmChart.SourceName
       HelmChart.ObservedGeneration HelmChart.ObservedSourceArtifactRevision
       HelmChart.ObservedChartName HelmChart.Conditions HelmChart.StatusURL
       HelmChart.Artifact HelmChart.LastHandledReconcileAt
       HelmChart.set_ObjectMeta HelmChart.set_status HelmChart.set_Conditions
       HelmChart.set_StatusURL HelmChart.set_Artifact
       HelmChart.set_ObservedSourceArtifactRevision HelmChart.set_ObservedChartName
       HelmChart.GetConditions HelmChart.GetArtifact HelmChart.GetRequeueAfter
       HelmChart.GetLastHandledReconcileRequest
       GetGeneration GetConditions SetConditions GetDeletionTimestamp
       WithStatusObservedGeneration
       HelmRepository_Setter OCIRepository_Setter HelmChart_Setter
       status_lastHandledReconcileAt with_status_lastHandledReconcileAt spec_suspend
       HelmRepository_RuntimeObject object_.SetStatusLastHandledReconcileAt
       conditions.Get conditions.Delete conditions.Set_ conditions.MarkTrue
       conditions.MarkFalse conditions.MarkStalled conditions.IsTrue conditions.IsFalse
       conditions.IsStalled conditions.IsReconciling conditions.IsReady
       conditions.GetObservedGeneration conditions.GetMessage ProgressiveStatus_].

Ltac proj_in H :=
  cbv beta delta
    [conditions.Get conditions.Delete conditions.Set_ conditions.MarkTrue
     conditions.MarkFalse conditions.MarkStalled conditions.IsTrue conditions.IsFalse
     conditions.IsStalled conditions.IsReconciling conditions.IsReady
     conditions.GetObservedGeneration conditions.GetMessage ProgressiveStatus_
     object_.SetStatusLastHandledReconcileAt] in H;
  cbn [negb andb orb fst snd
       obj files scratch workdir trace set_obj set_files set_scratch set_workdir log
       metav1.Namespace metav1.Name metav1.Generation metav1.DeletionTimestamp
       metav1.Finalizers metav1.Annotations metav1.set_Finalizers
       metav1.Type_ metav1.Status metav1.Reason metav1.Message metav1.ObservedGeneration
       sourcev1.Path sourcev1.URL sourcev1.Revision sourcev1.Checksum
       sourcev1.LastUpdateTime sourcev1.Size sourcev1.Metadata
       sourcev1.set_URL sourcev1.set_Path sourcev1.set_Metadata
       HelmRepository.Kind HelmRepository.ObjectMeta HelmRepository.spec HelmRepository.status
       HelmRepository.URL HelmRepository.SecretRef HelmRepository.PassCredentials
       HelmRepository.Interval HelmRepository.Timeout HelmRepository.Suspend
       HelmRepository.Type_ HelmRepository.Provider
       HelmRepository.ObservedGeneration HelmRepository.Conditions HelmRepository.StatusURL
       HelmRepository.Artifact HelmRepository.LastHandledReconcileAt
       HelmRepository.set_ObjectMeta HelmRepository.set_status HelmRepository.set_Conditions
       HelmRepository.set_LastHandledReconcileAt HelmRepository.set_ObservedGeneration
       HelmRepository.GetConditions HelmRepository.GetArtifact HelmRepository.GetRequeueAfter
       HelmRepository.GetLastHandledReconcileRequest
       OCIRepository.Kind OCIRepository.ObjectMeta OCIRepository.spec OCIRepository.status
       OCIRepository.URL OCIRepository.Reference OCIRepository.LayerSelector
       OCIRepository.Provider OCIRepository.SecretRef OCIRepository.Verify
       OCIRepository.ServiceAccountName OCIRepository.CertSecretRef OCIRepository.Interval
       OCIRepository.Timeout OCIRepository.Ignore OCIRepository.Insecure OCIRepository.Suspend
       OCIRepository.ObservedGeneration OCIRepository.Conditions OCIRepository.StatusURL
       OCIRepository.Artifact OCIRepository.ContentConfigChecksum OCIRepository.ObservedIgnore
       OCIRepository.ObservedLayerSelector OCIRepository.LastHandledReconcileAt
       OCIRepository.set_ObjectMeta OCIRepository.set_status OCIRepository.set_Conditions
       OCIRepository.set_StatusURL OCIRepository.set_Artifact
       OCIRepository.set_ContentConfigChecksum OCIRepository.set_ObservedIgnore
       OCIRepository.set_ObservedLayerSelector
       OCIRepository.GetConditions OCIRepository.GetArtifact OCIRepository.GetRequeueAfter
       OCIRepository.GetLastHandledReconcileRequest
       HelmChart.Kind HelmChart.ObjectMeta HelmChart.spec HelmChart.status
       HelmChart.Chart HelmChart.Version HelmChart.SourceRef HelmChart.Interval
       HelmChart.ReconcileStrategy HelmChart.ValuesFiles HelmChart.ValuesFile
       HelmChart.Suspend HelmChart.Verify HelmChart.SourceKind HelmChart.SourceName
       HelmChart.ObservedGeneration HelmChart.ObservedSourceArtifactRevision
       HelmChart.ObservedChartName HelmChart.Conditions HelmChart.StatusURL
       HelmChart.Artifact HelmChart.LastHandledReconcileAt
       HelmChart.set_ObjectMeta HelmChart.set_status HelmChart.set_Conditions
       HelmChart.set_StatusURL HelmChart.set_Artifact
       HelmChart.set_ObservedSourceArtifactRevision HelmChart.set_ObservedChartName
       HelmChart.GetConditions HelmChart.GetArtifact HelmChart.GetRequeueAfter
       HelmChart.GetLastHandledReconcileRequest
       GetGeneration GetConditions SetConditions GetDeletionTimestamp
       WithStatusObservedGeneration
       HelmRepository_Setter OCIRepository_Setter HelmChart_Setter
       status_lastHandledReconcileAt with_status_lastHandledReconcileAt spec_suspend
       HelmRepository_RuntimeObject object_.SetStatusLastHandledReconcileAt
       conditions.Get conditions.Delete conditions.Set_ conditions.MarkTrue
       conditions.MarkFalse conditions.MarkStalled conditions.IsTrue conditions.IsFalse
       conditions.IsStalled conditions.IsReconciling conditions.IsReady
       conditions.GetObservedGeneration conditions.GetMessage ProgressiveStatus_] in H.

(** One pass over a statement: the sequencing of statements is unfolded and
    the projections are computed. *)
Ltac run :=
  cbv beta iota zeta delta
    [body bind call pure return_ panic get modify when self update emit try eventLogf
     deferred Patch];
  proj.

Ltac run_in H :=
  cbv beta iota zeta delta
    [body bind call pure return_ panic get modify when self update emit try eventLogf
     deferred Patch] in H;
  proj_in H.

(** ** Strings and paths *)

Lemma Split_nonempty (s : string) (sep : ascii) : strings.Split s sep <> [].
Proof.
  destruct s as [|c s]; simpl; [discriminate|].
  destruct (Ascii.eqb c sep); [discriminate|].
  destruct (strings.Split s sep); discriminate.
Qed.

Lemma Split_app_sep (s t : string) (sep : ascii) :
  strings.Split (s ++ String sep t) sep = (strings.Split s sep ++ strings.Split t sep)%list.
Proof.
  induction s as [|c s IH]; simpl.
  - rewrite Ascii.eqb_refl. reflexivity.
  - destruct (Ascii.eqb c sep).
    + rewrite IH. reflexivity.
    + rewrite IH. destruct (strings.Split s sep) as [|p ps] eqn:Hs.
      * exfalso. exact (Split_nonempty _ _ Hs).
      * reflexivity.
Qed.


Lemma Split_no_sep (t : string) (sep : ascii) :
  strings.Contains t sep = false -> strings.Split t sep = [t].
Proof.
  induction t as [|c t IH]; simpl; intros H.
  - reflexivity.
  - apply orb_false_elim in H. destruct H as [Hc Ht].
    rewrite Hc, (IH Ht). reflexivity.
Qed.



(** ** The delete path *)















(** ** The storage phase *)

Lemma existsb_filter_keeps {A : Type} (p q : A -> bool) (l : list A) :
  (forall x, p x = true -> q x = true) ->
  existsb p (filter q l) = existsb p l.
Proof.
  intros Hpq. induction l as [|x l IH]; [reflexivity|].
  simpl. destruct (p x) eqn:Hp.
  - rewrite (Hpq x Hp). simpl. rewrite Hp. reflexivity.
  - destruct (q x); simpl; [rewrite Hp|]; exact IH.
Qed.

(** [Storage.GarbageCollect] keeps the file of the artifact it is given. *)
Lemma GarbageCollect_keeps_artifact {T X : Type} (env : Env) (a : sourcev1.Artifact)
    (w : World T X) :
  exists r w',
    Storage.GarbageCollect env a w = Done r w' /\ obj w' = obj w /\
    Storage.ArtifactExist w' a = Storage.ArtifactExist w a.
Proof.
  unfold Storage.GarbageCollect. destruct (gc_error env) as [e|].
  - eexists _, _. split; [reflexivity|]. split; reflexivity.
  - eexists _, _. split; [reflexivity|]. split; [reflexivity|].
    unfold Storage.ArtifactExist. cbn [files set_files log].
    apply existsb_filter_keeps. intros f Hf.
    apply String.eqb_eq in Hf. subst f. rewrite String.eqb_refl.
    rewrite andb_false_r. reflexivity.
Qed.

Lemma OCIRepository_garbageCollect_live (env : Env) (w : OCIRepositoryReconciler.W)
    (a : sourcev1.Artifact) :
  metav1.DeletionTimestamp_IsZero (OCIRepository.ObjectMeta (obj w)) = true ->
  OCIRepository.GetArtifact (obj w) = Some a ->
  exists err w',
    OCIRepositoryReconciler.garbageCollect env w = Done err w' /\ obj w' = obj w /\
    Storage.ArtifactExist w' a = Storage.ArtifactExist w a.
Proof.
  intros Hlive Ha. unfold OCIRepositoryReconciler.garbageCollect. run.
  rewrite Hlive. run. rewrite Ha. run.
  destruct (GarbageCollect_keeps_artifact env a w) as [r [w1 [Hgc [Hobj Hex]]]].
  rewrite Hgc. destruct r as [err|delFiles]; run.
  - eexists _, _. split; [reflexivity|]. split; assumption.
  - destruct (0 <? List.length delFiles)%nat; run;
      (eexists _, _; split; [reflexivity|]; split; assumption).
Qed.

Lemma HelmChart_garbageCollect_live (env : Env) (w : HelmChartReconciler.W)
    (a : sourcev1.Artifact) :
  metav1.DeletionTimestamp_IsZero (HelmChart.ObjectMeta (obj w)) = true ->
  HelmChart.GetArtifact (obj w) = Some a ->
  exists err w',
    HelmChartReconciler.garbageCollect env w = Done err w' /\ obj w' = obj w /\
    Storage.ArtifactExist w' a = Storage.ArtifactExist w a.
Proof.
  intros Hlive Ha. unfold HelmChartReconciler.garbageCollect. run.
  rewrite Hlive. run. rewrite Ha. run.
  destruct (GarbageCollect_keeps_artifact env a w) as [r [w1 [Hgc [Hobj Hex]]]].
  rewrite Hgc. destruct r as [err|delFiles]; run.
  - eexists _, _. split; [reflexivity|]. split; assumption.
  - destruct (0 <? List.length delFiles)%nat; run;
      (eexists _, _; split; [reflexivity|]; split; assumption).
Qed.

Lemma Get_Delete (cs : list metav1.Condition) (t : string) :
  condition_list.Get (condition_list.Delete cs t) t = None.
Proof.
  unfold condition_list.Get, condition_list.Delete.
  induction cs as [|c cs IH]; [reflexivity|].
  simpl. destruct (String.eqb (metav1.Type_ c) t) eqn:E; simpl; [exact IH|].
  rewrite E. exact IH.
Qed.

Lemma OCIRepository_reconcileStorage_spec (env : Env) (dir : string) :
  storage_phase_follows_file OCIRepository.ObjectMeta OCIRepository.GetArtifact
    (fun o => OCIRepository.StatusURL (OCIRepository.status o))
    env (OCIRepositoryReconciler.reconcileStorage env dir).
Proof.
  intros w a Hlive Ha.
  destruct (OCIRepository_garbageCollect_live env w a Hlive Ha) as [err [w1 [Hgc [Hobj Hex]]]].
  unfold OCIRepositoryReconciler.reconcileStorage. run. rewrite Hgc. run.
  rewrite Hobj, Ha. run. rewrite Hex.
  destruct (Storage.ArtifactExist w a); run.
  - rewrite Hobj, Ha. run.
    eexists _, _. split; [reflexivity|]. proj. rewrite Hobj.
    repeat split. unfold Storage.ArtifactExist in *. exact Hex.
  - destruct (Patch_error env) as [perr|]; run;
      (eexists _, _; split; [reflexivity|]; proj; repeat split; apply Get_Delete).
Qed.

Lemma HelmChart_reconcileStorage_spec (env : Env) :
  storage_phase_follows_file HelmChart.ObjectMeta HelmChart.GetArtifact
    (fun o => HelmChart.StatusURL (HelmChart.status o))
    env (HelmChartReconciler.reconcileStorage env).
Proof.
  intros w a Hlive Ha.
  destruct (HelmChart_garbageCollect_live env w a Hlive Ha) as [err [w1 [Hgc [Hobj Hex]]]].
  unfold HelmChartReconciler.reconcileStorage. run. rewrite Hgc. run.
  rewrite Hobj, Ha. run. rewrite Hex.
  destruct (Storage.ArtifactExist w a); run.
  - rewrite Hobj, Ha. run.
    eexists _, _. split; [reflexivity|]. proj. rewrite Hobj.
    repeat split. unfold Storage.ArtifactExist in *. exact Hex.
  - destruct (Patch_error env) as [perr|]; run;
      (eexists _, _; split; [reflexivity|]; proj; repeat split; apply Get_Delete).
Qed.

(** C2. In the storage phase of an OCIRepository and of a HelmChart that is
    not under deletion, an advertised artifact whose file is no longer in
    the storage is cleared from the status together with the URL of the
    status and the ArtifactInStorage condition; an artifact whose file is in
    the storage stays, with its URL and the URL of the status set for the
    current host of the storage. *)
Theorem reconcileStorage_follows_artifact_file (env : Env) (dir : string) :
  storage_phase_follows_file OCIRepository.ObjectMeta OCIRepository.GetArtifact
    (fun o => OCIRepository.StatusURL (OCIRepository.status o))
    env (OCIRepositoryReconciler.reconcileStorage env dir) /\
  storage_phase_follows_file HelmChart.ObjectMeta HelmChart.GetArtifact
    (fun o => HelmChart.StatusURL (HelmChart.status o))
    env (HelmChartReconciler.reconcileStorage env).
Proof.
  split.
  - apply OCIRepository_reconcileStorage_spec.
  - apply HelmChart_reconcileStorage_spec.
Qed.

Lemma reconcileStorage_follows_artifact_file_witness :
  (exists r w',
     OCIRepositoryReconciler.reconcileStorage Example.env "/tmp/work"
       (Example.oci_repository_world
          (Example.oci_repository None [sourcev1.SourceFinalizer] false false "generic"
             None None (Some (Example.artifact "ocirepository/flux-system/podinfo/0123.tar.gz")))
          ["ocirepository/flux-system/podinfo/4567.tar.gz"]) = Done r w' /\
     OCIRepository.GetArtifact (obj w') = None /\
     OCIRepository.StatusURL (OCIRepository.status (obj w')) = "" /\
     conditions.Get (obj w') sourcev1.ArtifactInStorageCondition = None) /\
  (exists r w',
     HelmChartReconciler.reconcileStorage Example.env
       (Example.helm_chart_world
          (Example.helm_chart None [sourcev1.SourceFinalizer] false "HelmRepository" "ChartVersion"
             (Some (Example.artifact "helmchart/flux-system/podinfo/podinfo-6.0.0.tgz")))
          ["helmchart/flux-system/podinfo/podinfo-6.0.0.tgz"]) = Done r w' /\
     r = (ResultSuccess, None) /\
     HelmChart.GetArtifact (obj w') =
       Some (sourcev1.set_URL
               ("http://" ++ Hostname Example.env ++
                "/helmchart/flux-system/podinfo/podinfo-6.0.0.tgz")
               (Example.artifact "helmchart/flux-system/podinfo/podinfo-6.0.0.tgz")) /\
     HelmChart.StatusURL (HelmChart.status (obj w')) = storage_SetHostname Example.env "" /\
     Storage.ArtifactExist w'
       (Example.artifact "helmchart/flux-system/podinfo/podinfo-6.0.0.tgz") = true).
Proof.
  split.
  - exact (proj1 (reconcileStorage_follows_artifact_file Example.env "/tmp/work")
             (Example.oci_repository_world
                (Example.oci_repository None [sourcev1.SourceFinalizer] false false "generic"
                   None None
                   (Some (Example.artifact "ocirepository/flux-system/podinfo/0123.tar.gz")))
                ["ocirepository/flux-system/podinfo/4567.tar.gz"])
             (Example.artifact "ocirepository/flux-system/podinfo/0123.tar.gz")
             eq_refl eq_refl).
  - exact (proj2 (reconcileStorage_follows_artifact_file Example.env "/tmp/work")
             (Example.helm_chart_world
                (Example.helm_chart None [sourcev1.SourceFinalizer] false "HelmRepository"
                   "ChartVersion"
                   (Some (Example.artifact "helmchart/flux-system/podinfo/podinfo-6.0.0.tgz")))
                ["helmchart/flux-system/podinfo/podinfo-6.0.0.tgz"])
             (Example.artifact "helmchart/flux-system/podinfo/podinfo-6.0.0.tgz")
             eq_refl eq_refl).
Defined.

(** ** Suspension *)

Lemma OCIRepository_suspended (env : Env) (w : OCIRepositoryReconciler.W) :
  OCIRepository.Suspend (OCIRepository.spec (obj w)) = true ->
  metav1.DeletionTimestamp_IsZero (OCIRepository.ObjectMeta (obj w)) = true ->
  OCIRepositoryReconciler.Reconcile_run env w =
    if controllerutil.ContainsFinalizer (OCIRepository.ObjectMeta (obj w))
         sourcev1.SourceFinalizer
    then Done (ResultEmpty, None) w
    else Done (ResultRequeue, None)
           (set_obj (OCIRepository.set_ObjectMeta
                       (controllerutil.AddFinalizer (OCIRepository.ObjectMeta (obj w))
                          sourcev1.SourceFinalizer) (obj w)) w).
Proof.
  intros Hs Hlive. unfold OCIRepositoryReconciler.Reconcile_run. run.
  destruct (controllerutil.ContainsFinalizer _ _); run; [|reflexivity].
  rewrite Hlive. run. rewrite Hs. reflexivity.
Qed.

Lemma HelmChart_suspended (env : Env) (w : HelmChartReconciler.W) :
  HelmChart.Suspend (HelmChart.spec (obj w)) = true ->
  metav1.DeletionTimestamp_IsZero (HelmChart.ObjectMeta (obj w)) = true ->
  HelmChartReconciler.Reconcile_run env w =
    if controllerutil.ContainsFinalizer (HelmChart.ObjectMeta (obj w))
         sourcev1.SourceFinalizer
    then Done (ResultEmpty, None) w
    else Done (ResultRequeue, None)
           (set_obj (HelmChart.set_ObjectMeta
                       (controllerutil.AddFinalizer (HelmChart.ObjectMeta (obj w))
                          sourcev1.SourceFinalizer) (obj w)) w).
Proof.
  intros Hs Hlive. unfold HelmChartReconciler.Reconcile_run. run.
  destruct (controllerutil.ContainsFinalizer _ _); run; [|reflexivity].
  rewrite Hlive. run. rewrite Hs. reflexivity.
Qed.

Lemma DeletionTimestamp_AddFinalizer (m : metav1.ObjectMeta) (f : string) :
  metav1.DeletionTimestamp_IsZero (controllerutil.AddFinalizer m f) =
  metav1.DeletionTimestamp_IsZero m.
Proof.
  unfold controllerutil.AddFinalizer.
  destruct (controllerutil.ContainsFinalizer m f); reflexivity.
Qed.

Lemma Annotations_AddFinalizer (m : metav1.ObjectMeta) (f : string) :
  metav1.Annotations (controllerutil.AddFinalizer m f) = metav1.Annotations m.
Proof.
  unfold controllerutil.AddFinalizer.
  destruct (controllerutil.ContainsFinalizer m f); reflexivity.
Qed.

(** C9, amended. On a suspended object that is not under deletion no
    reconciler runs a phase. The body of [Reconcile] of the OCIRepository
    and of the HelmChart reconciler returns at once, with the object and the
    world it found and with no call made (without the finalizer only the
    finalizer is added), and the whole [Reconcile] is then the deferred
    [SummarizeAndPatch] on that object, with the empty result (a requeue
    when the finalizer was added) and no error. [Reconcile] of the OCI
    HelmRepository reconciler leaves the object it found, with the finalizer
    added when it was missing and with the value of the reconcile request
    annotation as [lastHandledReconcileAt] when the object carries one; its
    one call is the patch of its exit block, which carries the option
    [WithStatusObservedGeneration] exactly when that object is stalled or
    ready. *)
Theorem suspended_run_stops_after_finalizer (env : Env) :
  (forall (SummarizeAndPatch :
             Result -> option error ->
             Func OCIRepositoryReconciler.W (ctrl_Result * option error))
          (w : OCIRepositoryReconciler.W),
     OCIRepository.Suspend (OCIRepository.spec (obj w)) = true ->
     metav1.DeletionTimestamp_IsZero (OCIRepository.ObjectMeta (obj w)) = true ->
     let added :=
       set_obj (OCIRepository.set_ObjectMeta
                  (controllerutil.AddFinalizer (OCIRepository.ObjectMeta (obj w))
                     sourcev1.SourceFinalizer) (obj w)) w in
     if controllerutil.ContainsFinalizer (OCIRepository.ObjectMeta (obj w))
          sourcev1.SourceFinalizer
     then OCIRepositoryReconciler.Reconcile_run env w = Done (ResultEmpty, None) w /\
          OCIRepositoryReconciler.Reconcile env SummarizeAndPatch None w =
            SummarizeAndPatch ResultEmpty None w
     else OCIRepositoryReconciler.Reconcile_run env w = Done (ResultRequeue, None) added /\
          OCIRepositoryReconciler.Reconcile env SummarizeAndPatch None w =
            SummarizeAndPatch ResultRequeue None added) /\
  (forall (SummarizeAndPatch :
             Result -> option error ->
             Func HelmChartReconciler.W (ctrl_Result * option error))
          (w : HelmChartReconciler.W),
     HelmChart.Suspend (HelmChart.spec (obj w)) = true ->
     metav1.DeletionTimestamp_IsZero (HelmChart.ObjectMeta (obj w)) = true ->
     let added :=
       set_obj (HelmChart.set_ObjectMeta
                  (controllerutil.AddFinalizer (HelmChart.ObjectMeta (obj w))
                     sourcev1.SourceFinalizer) (obj w)) w in
     if controllerutil.ContainsFinalizer (HelmChart.ObjectMeta (obj w))
          sourcev1.SourceFinalizer
     then HelmChartReconciler.Reconcile_run env w = Done (ResultEmpty, None) w /\
          HelmChartReconciler.Reconcile env SummarizeAndPatch None w =
            SummarizeAndPatch ResultEmpty None w
     else HelmChartReconciler.Reconcile_run env w = Done (ResultRequeue, None) added /\
          HelmChartReconciler.Reconcile env SummarizeAndPatch None w =
            SummarizeAndPatch ResultRequeue None added) /\
  (forall w : HelmRepositoryOCIReconciler.W,
     HelmRepository.Suspend (HelmRepository.spec (obj w)) = true ->
     metav1.DeletionTimestamp_IsZero (HelmRepository.ObjectMeta (obj w)) = true ->
     let finalized :=
       controllerutil.ContainsFinalizer (HelmRepository.ObjectMeta (obj w))
         sourcev1.SourceFinalizer in
     let o0 :=
       if finalized then obj w
       else HelmRepository.set_ObjectMeta
              (controllerutil.AddFinalizer (HelmRepository.ObjectMeta (obj w))
                 sourcev1.SourceFinalizer) (obj w) in
     let o1 :=
       match meta.ReconcileAnnotationValue
               (metav1.Annotations (HelmRepository.ObjectMeta (obj w))) with
       | Some v => object_.SetStatusLastHandledReconcileAt o0 v
       | None => o0
       end in
     let flag := conditions.IsStalled o1 || conditions.IsReady o1 in
     let persisted := if flag then WithStatusObservedGeneration (GetGeneration o1) o1 else o1 in
     exists w',
       HelmRepositoryOCIReconciler.Reconcile env None w =
         Done (if finalized then ctrl_Result_zero else mkCtrlResult true 0,
               match Patch_error env with
               | Some err => NewAggregate None (Some err)
               | None => None
               end) w' /\
       obj w' = o1 /\
       HelmRepository.status (obj w') =
         match meta.ReconcileAnnotationValue
                 (metav1.Annotations (HelmRepository.ObjectMeta (obj w))) with
         | Some v => HelmRepository.status
                       (object_.SetStatusLastHandledReconcileAt (obj w) v)
         | None => HelmRepository.status (obj w)
         end /\
       files w' = files w /\
       trace w' = EvPatch persisted flag :: trace w).
Proof.
  split; [|split].
  - intros SP w Hs Hlive added.
    pose proof (OCIRepository_suspended env w Hs Hlive) as Hrun.
    unfold OCIRepositoryReconciler.Reconcile. rewrite Hrun.
    destruct (controllerutil.ContainsFinalizer _ _); split; reflexivity.
  - intros SP w Hs Hlive added.
    pose proof (HelmChart_suspended env w Hs Hlive) as Hrun.
    unfold HelmChartReconciler.Reconcile. rewrite Hrun.
    destruct (controllerutil.ContainsFinalizer _ _); split; reflexivity.
  - intros w Hs Hlive finalized o0 o1 flag persisted.
    subst finalized o0 o1 flag persisted.
    unfold HelmRepositoryOCIReconciler.Reconcile. run.
    destruct (controllerutil.ContainsFinalizer _ _) eqn:Hfin; run.
    + rewrite Hlive. run. rewrite Hs. run.
      unfold HelmRepositoryOCIReconciler.Reconcile_exit. run.
      destruct (meta.ReconcileAnnotationValue _) as [v|]; run;
        (destruct (Patch_error env) as [perr|]; run;
         rewrite ?Hlive; cbn [negb];
         eexists; (split; [reflexivity|]); proj; repeat split).
    + unfold HelmRepositoryOCIReconciler.Reconcile_exit. run.
      rewrite Annotations_AddFinalizer.
      destruct (meta.ReconcileAnnotationValue _) as [v|]; run;
        (destruct (Patch_error env) as [perr|]; run;
         rewrite ?DeletionTimestamp_AddFinalizer, ?Hlive; cbn [negb];
         eexists; (split; [reflexivity|]); proj; repeat split).
Qed.

Lemma suspended_run_stops_after_finalizer_witness :
  OCIRepositoryReconciler.Reconcile_run Example.env
    (Example.oci_repository_world
       (Example.oci_repository None [sourcev1.SourceFinalizer] true false "generic"
          None None (Some (Example.artifact "ocirepository/flux-system/podinfo/0123.tar.gz")))
       []) =
  Done (ResultEmpty, None)
    (Example.oci_repository_world
       (Example.oci_repository None [sourcev1.SourceFinalizer] true false "generic"
          None None (Some (Example.artifact "ocirepository/flux-system/podinfo/0123.tar.gz")))
       []) /\
  exists w',
    HelmRepositoryOCIReconciler.Reconcile Example.env None
      (Example.helm_repository_world
         (conditions.MarkTrue meta.ReadyCondition meta.SucceededReason "stored artifact"
            (Example.helm_repository None [sourcev1.SourceFinalizer]
               [(meta.ReconcileRequestAnnotation, "2022-10-01T12:00:00Z")] true "generic"))
         []) = Done (ctrl_Result_zero, None) w' /\
    HelmRepository.LastHandledReconcileAt (HelmRepository.status (obj w')) =
      "2022-10-01T12:00:00Z" /\
    trace w' = [EvPatch (WithStatusObservedGeneration 1 (obj w')) true].
Proof.
  split.
  - exact (proj1
             (proj1 (suspended_run_stops_after_finalizer Example.env)
                (fun _ _ w => Done (ctrl_Result_zero, None) w)
                (Example.oci_repository_world
                   (Example.oci_repository None [sourcev1.SourceFinalizer] true false
                      "generic" None None
                      (Some (Example.artifact
                               "ocirepository/flux-system/podinfo/0123.tar.gz")))
                   [])
                eq_refl eq_refl)).
  - pose proof (proj2 (proj2 (suspended_run_stops_after_finalizer Example.env))
                (Example.helm_repository_world
                   (conditions.MarkTrue meta.ReadyCondition meta.SucceededReason
                      "stored artifact"
                      (Example.helm_repository None [sourcev1.SourceFinalizer]
                         [(meta.ReconcileRequestAnnotation, "2022-10-01T12:00:00Z")] true
                         "generic"))
                   []))
      as H.
    specialize (H ltac:(vm_compute; reflexivity) ltac:(vm_compute; reflexivity)).
    destruct H as (w' & Hrun & Hobj & _ & _ & Htrace).
    exists w'. split; [exact Hrun|].
    split; [rewrite Hobj; reflexivity|].
    rewrite Htrace, Hobj. reflexivity.
Defined.

(** C9 as stated fails for the OCI HelmRepository reconciler: the run on a
    suspended object that carries a reconcile request annotation writes the
    value of the annotation to [status.lastHandledReconcileAt]. *)
Lemma suspended_run_records_reconcile_request : ~ suspend_halts_work.
Proof.
  intros claim. destruct (claim Example.env) as [_ [_ H]].
  destruct (H (Example.helm_repository_world
                 (Example.helm_repository None [sourcev1.SourceFinalizer]
                    [(meta.ReconcileRequestAnnotation, "2022-10-01T12:00:00Z")]
                    true "generic")
                 [])
              _ _ eq_refl eq_refl) as [Hstatus _].
  vm_compute in Hstatus. discriminate.
Qed.

(** ** The version metadata of a chart built from a source artifact *)

Lemma length_substring_prefix (n : nat) (s : string) :
  (n <= String.length s)%nat -> String.length (substring 0 n s) = n.
Proof.
  revert s. induction n as [|n IH]; intros s Hn.
  - destruct s; reflexivity.
  - destruct s as [|c s]; simpl in *; [lia|]. rewrite IH; [reflexivity | lia].
Qed.

Lemma string_append_assoc (a b c : string) : ((a ++ b) ++ c = a ++ (b ++ c))%string.
Proof. induction a as [|x a IH]; simpl; [reflexivity | now rewrite IH]. Qed.

Lemma slice_to_long (s : string) (n : nat) :
  (n <=? String.length s)%nat = true -> slice_to s n = Some (substring 0 n s).
Proof. intros H. unfold slice_to. rewrite H. reflexivity. Qed.

Lemma slice_to_short (s : string) (n : nat) :
  (n <=? String.length s)%nat = false -> slice_to s n = None.
Proof. intros H. unfold slice_to. rewrite H. reflexivity. Qed.

Lemma substring_12_not_empty (s : string) :
  (12 <=? String.length s)%nat = true -> String.eqb (substring 0 12 s) "" = false.
Proof.
  intros H. apply Nat.leb_le in H. apply String.eqb_neq. intros E.
  pose proof (length_substring_prefix 12 s H) as L. rewrite E in L. discriminate.
Qed.

(** C10, amended. With the reconcile strategy Revision and a GitRepository
    or a Bucket as source, [buildFromTarballArtifact] cuts the revision of
    the source artifact (for a GitRepository its part after the last slash)
    to its first twelve bytes without a look at its length. On a revision of
    twelve bytes or more the function returns with the outcome of the
    builder, and the version metadata the builder gets is these twelve
    bytes, followed by a dot and the generation of the object when
    [opts.GetValuesFiles()] is not empty; on a shorter one the function
    panics. *)
Theorem buildFromTarballArtifact_revision_cut (env : Env) (source : sourcev1.Artifact)
    (w : HelmChartReconciler.W) (tmpDir f : string) (extracted : list (string * string)) :
  HelmChart.ReconcileStrategy (HelmChart.spec (obj w)) = sourcev1.ReconcileStrategyRevision ->
  HelmChart.SourceKind (HelmChart.SourceRef (HelmChart.spec (obj w))) = sourcev1.GitRepositoryKind \/
  HelmChart.SourceKind (HelmChart.SourceRef (HelmChart.spec (obj w))) = sourcev1.BucketKind ->
  util_TempDirForObj env = inr tmpDir ->
  os_Mkdir env (filepath_Join tmpDir "source") = None ->
  os_Open env (Storage.LocalPath env source) = inr f ->
  untar_Untar env f = inr extracted ->
  file_Close env = None ->
  let rev := revision_to_cut (obj w) source in
  let cut := set_VersionMetadata (substring 0 12 rev) (tarball_build_options env (obj w)) in
  if (12 <=? String.length rev)%nat
  then
    exists r w',
      HelmChartReconciler.buildFromTarballArtifact env source w = Done r w' /\
      built_with env tmpDir (obj w) (HelmChartReconciler.generation_metadata env (obj w) cut)
        r w' /\
      Opt_VersionMetadata (HelmChartReconciler.generation_metadata env (obj w) cut) =
        if (0 <? List.length (BuildOptions_GetValuesFiles env cut))%nat
        then substring 0 12 rev ++ "." ++
             strconv_FormatInt (metav1.Generation (HelmChart.ObjectMeta (obj w)))
        else substring 0 12 rev
  else
    exists w',
      HelmChartReconciler.buildFromTarballArtifact env source w =
      Panicked "slice bounds out of range" w'.
Proof.
  intros Hstrategy Hkind Htmp Hmkdir Hopen Huntar Hclose rev cut.
  assert (Hk : String.eqb (HelmChart.SourceKind (HelmChart.SourceRef (HelmChart.spec (obj w))))
                 sourcev1.GitRepositoryKind ||
               String.eqb (HelmChart.SourceKind (HelmChart.SourceRef (HelmChart.spec (obj w))))
                 sourcev1.BucketKind = true).
  { destruct Hkind as [-> | ->]; reflexivity. }
  unfold HelmChartReconciler.buildFromTarballArtifact. run.
  rewrite Htmp. run. rewrite Hmkdir. run. rewrite Hopen. run. rewrite Huntar. run.
  rewrite Hclose. run.
  unfold HelmChartReconciler.revision_metadata. run.
  rewrite Hstrategy. rewrite String.eqb_refl. rewrite Hk.
  change (if String.eqb (HelmChart.SourceKind (HelmChart.SourceRef (HelmChart.spec (obj w))))
               sourcev1.GitRepositoryKind
          then last_elem (strings.Split (sourcev1.Revision source) "/"%char)
          else sourcev1.Revision source) with rev.
  destruct (12 <=? String.length rev)%nat eqn:Hlen.
  - rewrite (slice_to_long _ _ Hlen). run.
    change (set_VersionMetadata (substring 0 12 rev)
              match HelmChart.Artifact (HelmChart.status (obj w)) with
              | Some artifact =>
                  set_CachedChart (Storage.LocalPath env artifact)
                    (mkBuildOptions "" (HelmChart.GetValuesFiles (obj w)) ""
                       (negb (metav1.Generation (HelmChart.ObjectMeta (obj w)) =?
                              HelmChart.ObservedGeneration (HelmChart.status (obj w)))%Z) false)
              | None =>
                  mkBuildOptions "" (HelmChart.GetValuesFiles (obj w)) ""
                    (negb (metav1.Generation (HelmChart.ObjectMeta (obj w)) =?
                           HelmChart.ObservedGeneration (HelmChart.status (obj w)))%Z) false
              end) with cut.
    assert (Hvm : Opt_VersionMetadata (HelmChartReconciler.generation_metadata env (obj w) cut) =
                  if (0 <? List.length (BuildOptions_GetValuesFiles env cut))%nat
                  then substring 0 12 rev ++ "." ++
                       strconv_FormatInt (metav1.Generation (HelmChart.ObjectMeta (obj w)))
                  else substring 0 12 rev).
    { unfold HelmChartReconciler.generation_metadata.
      destruct (0 <? List.length (BuildOptions_GetValuesFiles env cut))%nat.
      - subst cut. unfold tarball_build_options.
        destruct (HelmChart.Artifact (HelmChart.status (obj w)));
          cbn [Opt_VersionMetadata set_VersionMetadata set_CachedChart];
          rewrite (substring_12_not_empty _ Hlen); cbn [negb];
          rewrite string_append_assoc; reflexivity.
      - subst cut. unfold tarball_build_options.
        destruct (HelmChart.Artifact (HelmChart.status (obj w))); reflexivity. }
    unfold built_with.
    destruct (local_Build env _ _ _) as [err|build]; run;
      (destruct (dm_Clear env) as [cerr|]; run;
       eexists _, _; (split; [reflexivity|]); (split; [|exact Hvm]); proj; auto).
  - rewrite (slice_to_short _ _ Hlen). run.
    destruct (dm_Clear env) as [cerr|]; run; eexists; reflexivity.
Qed.

Lemma buildFromTarballArtifact_revision_cut_witness :
  (exists w',
     HelmChartReconciler.buildFromTarballArtifact Example.env
       (Example.source_artifact "gitrepository/flux-system/podinfo/latest.tar.gz" "main/abc123")
       (Example.helm_chart_world
          (Example.helm_chart_with_values "GitRepository" "Revision" []) []) =
     Panicked "slice bounds out of range" w') /\
  (exists r w',
     HelmChartReconciler.buildFromTarballArtifact Example.env
       (Example.source_artifact "bucket/flux-system/podinfo/latest.tar.gz"
          "0123456789abcdef0123456789abcdef")
       (Example.helm_chart_world
          (Example.helm_chart_with_values "Bucket" "Revision" []) []) = Done r w' /\
     r = (ResultSuccess, None) /\
     scratch w' = mkBuild "charts/podinfo" "0.1.0+0123456789ab" "/tmp/obj.tgz" 0 true) /\
  (exists r w',
     HelmChartReconciler.buildFromTarballArtifact Example.env
       (Example.source_artifact "gitrepository/flux-system/podinfo/latest.tar.gz"
          "main/0123456789abcdef0123456789abcdef")
       (Example.helm_chart_world
          (Example.helm_chart_with_values "GitRepository" "Revision" ["override.yaml"]) []) =
       Done r w' /\
     r = (ResultSuccess, None) /\
     scratch w' = mkBuild "charts/podinfo" "0.1.0+0123456789ab.1" "/tmp/obj.tgz" 0 true).
Proof.
  split; [|split].
  - exact (buildFromTarballArtifact_revision_cut Example.env
             (Example.source_artifact "gitrepository/flux-system/podinfo/latest.tar.gz"
                "main/abc123")
             (Example.helm_chart_world
                (Example.helm_chart_with_values "GitRepository" "Revision" []) [])
             "/tmp/obj"
             (Storage.LocalPath Example.env
                (Example.source_artifact "gitrepository/flux-system/podinfo/latest.tar.gz"
                   "main/abc123"))
             [("manifest.yaml",
               Storage.LocalPath Example.env
                 (Example.source_artifact "gitrepository/flux-system/podinfo/latest.tar.gz"
                    "main/abc123"))]
             eq_refl (or_introl eq_refl) eq_refl eq_refl eq_refl eq_refl eq_refl).
  - destruct (buildFromTarballArtifact_revision_cut Example.env
                (Example.source_artifact "bucket/flux-system/podinfo/latest.tar.gz"
                   "0123456789abcdef0123456789abcdef")
                (Example.helm_chart_world
                   (Example.helm_chart_with_values "Bucket" "Revision" []) [])
                "/tmp/obj"
                (Storage.LocalPath Example.env
                   (Example.source_artifact "bucket/flux-system/podinfo/latest.tar.gz"
                      "0123456789abcdef0123456789abcdef"))
                [("manifest.yaml",
                  Storage.LocalPath Example.env
                    (Example.source_artifact "bucket/flux-system/podinfo/latest.tar.gz"
                       "0123456789abcdef0123456789abcdef"))]
                eq_refl (or_intror eq_refl) eq_refl eq_refl eq_refl eq_refl eq_refl)
      as (r & w' & Hrun & Hbuilt & _).
    exists r, w'. split; [exact Hrun|]. exact Hbuilt.
  - destruct (buildFromTarballArtifact_revision_cut Example.env
                (Example.source_artifact "gitrepository/flux-system/podinfo/latest.tar.gz"
                   "main/0123456789abcdef0123456789abcdef")
                (Example.helm_chart_world
                   (Example.helm_chart_with_values "GitRepository" "Revision"
                      ["override.yaml"]) [])
                "/tmp/obj"
                (Storage.LocalPath Example.env
                   (Example.source_artifact "gitrepository/flux-system/podinfo/latest.tar.gz"
                      "main/0123456789abcdef0123456789abcdef"))
                [("manifest.yaml",
                  Storage.LocalPath Example.env
                    (Example.source_artifact "gitrepository/flux-system/podinfo/latest.tar.gz"
                       "main/0123456789abcdef0123456789abcdef"))]
                eq_refl (or_introl eq_refl) eq_refl eq_refl eq_refl eq_refl eq_refl)
      as (r & w' & Hrun & Hbuilt & _).
    exists r, w'. split; [exact Hrun|]. exact Hbuilt.
Defined.

(** C10 as stated fails for a chart with values files: the builder gets the
    twelve bytes followed by a dot and the generation of the object, not the
    twelve bytes alone. *)
Lemma revision_cut_followed_by_generation : ~ version_metadata_is_revision_cut.
Proof.
  intros claim.
  pose proof (claim Example.env
                (Example.source_artifact "gitrepository/flux-system/podinfo/latest.tar.gz"
                   "main/0123456789abcdef0123456789abcdef")
                (Example.helm_chart_world
                   (Example.helm_chart_with_values "GitRepository" "Revision"
                      ["override.yaml"]) [])
                "/tmp/obj"
                (Storage.LocalPath Example.env
                   (Example.source_artifact "gitrepository/flux-system/podinfo/latest.tar.gz"
                      "main/0123456789abcdef0123456789abcdef"))
                [("manifest.yaml",
                  Storage.LocalPath Example.env
                    (Example.source_artifact "gitrepository/flux-system/podinfo/latest.tar.gz"
                       "main/0123456789abcdef0123456789abcdef"))]
                eq_refl (or_introl eq_refl) eq_refl eq_refl eq_refl eq_refl eq_refl) as H.
  cbv beta iota in H.
  destruct H as (opts & r & w' & Hrun & Hvm & Hbuilt).
  vm_compute in Hrun. injection Hrun as <- <-.
  unfold built_with in Hbuilt. cbn [local_Build Example.env Example.env_with_login] in Hbuilt.
  destruct Hbuilt as [_ Hscratch]. rewrite Hvm in Hscratch.
  vm_compute in Hscratch. discriminate Hscratch.
Qed.

(** ** Conditions *)

Lemma Get_replace_Some (c : metav1.Condition) (cs cs' : list metav1.Condition) :
  condition_list.replace c cs = Some cs' ->
  condition_list.Get cs' (metav1.Type_ c) = Some c.
Proof.
  revert cs'. induction cs as [|x cs IH]; intros cs' H; simpl in H; [discriminate|].
  destruct (String.eqb (metav1.Type_ x) (metav1.Type_ c)) eqn:E.
  - injection H as <-. unfold condition_list.Get. simpl. rewrite String.eqb_refl. reflexivity.
  - destruct (condition_list.replace c cs) as [rest|] eqn:R; [|discriminate].
    injection H as <-. unfold condition_list.Get. simpl. rewrite E.
    apply (IH rest eq_refl).
Qed.

Lemma Get_replace_None (c : metav1.Condition) (cs : list metav1.Condition) :
  condition_list.replace c cs = None ->
  condition_list.Get (cs ++ [c]) (metav1.Type_ c) = Some c.
Proof.
  induction cs as [|x cs IH]; intros H; simpl in H.
  - unfold condition_list.Get. simpl. rewrite String.eqb_refl. reflexivity.
  - destruct (String.eqb (metav1.Type_ x) (metav1.Type_ c)) eqn:E; [discriminate|].
    destruct (condition_list.replace c cs) eqn:R; [discriminate|].
    unfold condition_list.Get. simpl. rewrite E. apply (IH eq_refl).
Qed.

(** [conditions.Set] leaves the condition it is given, at the generation of
    the object. *)
Lemma Get_Set_ (gen : Z) (cs : list metav1.Condition) (c : metav1.Condition) :
  condition_list.Get (condition_list.Set_ gen cs c) (metav1.Type_ c) =
  Some (metav1.mkCondition (metav1.Type_ c) (metav1.Status c) (metav1.Reason c)
          (metav1.Message c) gen).
Proof.
  unfold condition_list.Set_.
  set (c' := metav1.mkCondition _ _ _ _ gen).
  change (metav1.Type_ c) with (metav1.Type_ c').
  destruct (condition_list.replace c' cs) as [cs'|] eqn:R.
  - apply (Get_replace_Some _ _ _ R).
  - apply (Get_replace_None _ _ R).
Qed.

Lemma Get_MarkTrue (gen : Z) (cs : list metav1.Condition) (t reason msg : string) :
  condition_list.Get (condition_list.MarkTrue gen cs t reason msg) t =
  Some (metav1.mkCondition t metav1.ConditionTrue reason msg gen).
Proof. unfold condition_list.MarkTrue. apply (Get_Set_ gen cs (metav1.mkCondition t _ _ _ 0)). Qed.

Lemma Get_MarkFalse (gen : Z) (cs : list metav1.Condition) (t reason msg : string) :
  condition_list.Get (condition_list.MarkFalse gen cs t reason msg) t =
  Some (metav1.mkCondition t metav1.ConditionFalse reason msg gen).
Proof. unfold condition_list.MarkFalse. apply (Get_Set_ gen cs (metav1.mkCondition t _ _ _ 0)). Qed.

(** ** Credentials *)

Lemma get_pull_secrets_obj (env : Env) (namespace : string) (names : list string)
    (w : OCIRepositoryReconciler.W) :
  match OCIRepositoryReconciler.get_pull_secrets env namespace names w with
  | Next _ s | Return _ s | Panic _ s =>
      obj s = obj w /\ files s = files w /\ scratch s = scratch w
  end.
Proof.
  induction names as [|n names IH]; simpl; [repeat split|].
  destruct (client_Get_Secret env namespace n) as [err|secret]; run; [repeat split|].
  destruct (OCIRepositoryReconciler.get_pull_secrets env namespace names w); exact IH.
Qed.

Lemma keychain_obj (env : Env) (w w1 : OCIRepositoryReconciler.W) (r : Err Keychain) :
  OCIRepositoryReconciler.keychain env w = Done r w1 ->
  obj w1 = obj w /\ files w1 = files w /\ scratch w1 = scratch w.
Proof.
  unfold OCIRepositoryReconciler.keychain. run. intros H.
  destruct (negb (String.eqb (OCIRepository.ServiceAccountName _) "")); run_in H.
  - destruct (client_Get_ServiceAccount env _ _) as [err|ips]; run_in H.
    + injection H as _ <-. repeat split.
    + destruct (Nat.eqb _ 0); run_in H; [injection H as _ <-; repeat split|].
      match type of H with
      | context [OCIRepositoryReconciler.get_pull_secrets env ?ns ?names w] =>
          pose proof (get_pull_secrets_obj env ns names w) as G;
          destruct (OCIRepositoryReconciler.get_pull_secrets env ns names w)
      end; run_in H; try discriminate; injection H as _ <-; exact G.
  - destruct (Nat.eqb _ 0); run_in H; [injection H as _ <-; repeat split|].
    match type of H with
    | context [OCIRepositoryReconciler.get_pull_secrets env ?ns ?names w] =>
        pose proof (get_pull_secrets_obj env ns names w) as G;
        destruct (OCIRepositoryReconciler.get_pull_secrets env ns names w)
    end; run_in H; try discriminate; injection H as _ <-; exact G.
Qed.

(** C7. In the three places that ask the cloud provider for a credential
    (the object names no secret and its provider is not the generic one), an
    error of the login that is "unconfigured provider" is dropped: the
    statement falls through with no authenticator and leaves the object and
    the world as they were. Any other error ends the run with an error and
    is recorded with the reason AuthenticationFailed, on Ready for an OCI
    HelmRepository and on FetchFailed for an OCIRepository and a
    HelmChart. *)
Theorem unconfigured_provider_falls_through (env : Env) (authErr : error) :
  (forall w : HelmRepositoryOCIReconciler.W,
     HelmRepository.SecretRef (HelmRepository.spec (obj w)) = None ->
     String.eqb (HelmRepository.Provider (HelmRepository.spec (obj w)))
       sourcev1.GenericOCIProvider = false ->
     HelmRepository.Type_ (HelmRepository.spec (obj w)) = sourcev1.HelmRepositoryTypeOCI ->
     oidcAuth env (HelmRepository.URL (HelmRepository.spec (obj w)))
       (HelmRepository.Provider (HelmRepository.spec (obj w))) = inl authErr ->
     if is_ErrUnconfiguredProvider authErr
     then HelmRepositoryOCIReconciler.reconcile_credentials env w = Next (None, None) w
     else exists e w',
         HelmRepositoryOCIReconciler.reconcile_credentials env w =
           Return (ctrl_Result_zero, Some e) w' /\
         has_condition (obj w') meta.ReadyCondition metav1.ConditionFalse
           sourcev1.AuthenticationFailedReason) /\
  (forall w w1 : OCIRepositoryReconciler.W,
     OCIRepositoryReconciler.keychain env w = Done (inr Anonymous) w1 ->
     String.eqb (OCIRepository.Provider (OCIRepository.spec (obj w)))
       sourcev1.GenericOCIProvider = false ->
     oidcAuth env (OCIRepository.URL (OCIRepository.spec (obj w)))
       (OCIRepository.Provider (OCIRepository.spec (obj w))) = inl authErr ->
     if is_ErrUnconfiguredProvider authErr
     then OCIRepositoryReconciler.reconcileSource_credentials env w = Next (Anonymous, None) w1 /\
          obj w1 = obj w
     else exists e w',
         OCIRepositoryReconciler.reconcileSource_credentials env w =
           Return (ResultEmpty, Some e) w' /\
         has_condition (obj w') sourcev1.FetchFailedCondition metav1.ConditionTrue
           sourcev1.AuthenticationFailedReason) /\
  (forall (w : HelmChartReconciler.W) (repo : HelmRepository.T) (normalizedURL : string),
     HelmRepository.SecretRef (HelmRepository.spec repo) = None ->
     String.eqb (HelmRepository.Provider (HelmRepository.spec repo))
       sourcev1.GenericOCIProvider = false ->
     HelmRepository.Type_ (HelmRepository.spec repo) = sourcev1.HelmRepositoryTypeOCI ->
     oidcAuth env (HelmRepository.URL (HelmRepository.spec repo))
       (HelmRepository.Provider (HelmRepository.spec repo)) = inl authErr ->
     if is_ErrUnconfiguredProvider authErr
     then HelmChartReconciler.buildFromHelmRepository_credentials env repo normalizedURL w =
            Next ([normalizedURL], None, None, None) w
     else exists e w',
         HelmChartReconciler.buildFromHelmRepository_credentials env repo normalizedURL w =
           Return (ResultEmpty, Some e) w' /\
         has_condition (obj w') sourcev1.FetchFailedCondition metav1.ConditionTrue
           sourcev1.AuthenticationFailedReason).
Proof.
  split; [|split].
  - intros w Hsecret Hprov Htype Hauth.
    unfold HelmRepositoryOCIReconciler.reconcile_credentials. run.
    rewrite Hsecret, Hprov, Htype, Hauth. rewrite String.eqb_refl. proj.
    destruct (is_ErrUnconfiguredProvider authErr); run; [reflexivity|].
    eexists _, _. split; [reflexivity|]. proj.
    eexists. split; [apply Get_MarkFalse|]. split; reflexivity.
  - intros w w1 Hkey Hprov Hauth.
    destruct (keychain_obj _ _ _ _ Hkey) as [Hobj _].
    unfold OCIRepositoryReconciler.reconcileSource_credentials. run.
    rewrite Hkey. run. rewrite Hobj, Hprov, Hauth. proj.
    destruct (is_ErrUnconfiguredProvider authErr); run; [split; reflexivity|].
    unfold OCIRepositoryReconciler.fetchFailed. run.
    eexists _, _. split; [reflexivity|]. proj.
    eexists. split; [apply Get_MarkTrue|]. split; reflexivity.
  - intros w repo normalizedURL Hsecret Hprov Htype Hauth.
    unfold HelmChartReconciler.buildFromHelmRepository_credentials,
      HelmChartReconciler.getHelmRepositorySecret.
    rewrite Hsecret, Hprov, Htype, Hauth. rewrite String.eqb_refl. proj.
    destruct (is_ErrUnconfiguredProvider authErr); run; [reflexivity|].
    unfold HelmChartReconciler.fetchFailed. run.
    eexists _, _. split; [reflexivity|]. proj.
    eexists. split; [apply Get_MarkTrue|]. split; reflexivity.
Qed.

Lemma unconfigured_provider_falls_through_witness :
  HelmRepositoryOCIReconciler.reconcile_credentials Example.env
    (Example.helm_repository_world
       (Example.helm_repository None [sourcev1.SourceFinalizer] [] false "aws") []) =
  Next (None, None)
    (Example.helm_repository_world
       (Example.helm_repository None [sourcev1.SourceFinalizer] [] false "aws") []) /\
  (exists e w',
     OCIRepositoryReconciler.reconcileSource_credentials
       (Example.env_with_login (fun _ _ _ => inl (errors_New "token expired")))
       (Example.oci_repository_world
          (Example.oci_repository None [sourcev1.SourceFinalizer] false false "aws"
             None None None) []) =
     Return (ResultEmpty, Some e) w' /\
     has_condition (obj w') sourcev1.FetchFailedCondition metav1.ConditionTrue
       sourcev1.AuthenticationFailedReason).
Proof.
  split.
  - exact (proj1 (unconfigured_provider_falls_through Example.env ErrUnconfiguredProvider)
             (Example.helm_repository_world
                (Example.helm_repository None [sourcev1.SourceFinalizer] [] false "aws") [])
             eq_refl eq_refl eq_refl eq_refl).
  - exact (proj1 (proj2 (unconfigured_provider_falls_through
                           (Example.env_with_login (fun _ _ _ => inl (errors_New "token expired")))
                           (errors_New "token expired")))
             (Example.oci_repository_world
                (Example.oci_repository None [sourcev1.SourceFinalizer] false false "aws"
                   None None None) [])
             (Example.oci_repository_world
                (Example.oci_repository None [sourcev1.SourceFinalizer] false false "aws"
                   None None None) [])
             eq_refl eq_refl eq_refl).
Defined.

(** ** The revision of an OCI artifact *)

Lemma prefix_app (p s : string) : String.prefix p (p ++ s) = true.
Proof.
  induction p as [|c p IH]; simpl; [destruct s; reflexivity|].
  destruct (ascii_dec c c); [exact IH | contradiction].
Qed.

Lemma substring_all (s : string) : substring 0 (String.length s) s = s.
Proof. induction s as [|c s IH]; simpl; [reflexivity | now rewrite IH]. Qed.

Lemma substring_skip_app (p s : string) (n : nat) :
  substring (String.length p) n (p ++ s) = substring 0 n s.
Proof. induction p as [|c p IH]; simpl; [reflexivity | exact IH]. Qed.

Lemma length_app (p s : string) :
  String.length (p ++ s) = (String.length p + String.length s)%nat.
Proof. induction p as [|c p IH]; simpl; [reflexivity | now rewrite IH]. Qed.

Lemma TrimPrefix_app (p s : string) : strings.TrimPrefix (p ++ s) p = s.
Proof.
  unfold strings.TrimPrefix. rewrite prefix_app, substring_skip_app, length_app.
  replace (String.length p + String.length s - String.length p)%nat
    with (String.length s) by lia.
  apply substring_all.
Qed.

Lemma Contains_app (s t : string) (c : ascii) :
  strings.Contains (s ++ t) c = strings.Contains s c || strings.Contains t c.
Proof.
  induction s as [|x s IH]; simpl; [reflexivity|].
  rewrite IH. apply orb_assoc.
Qed.

(** The revision of a URL whose path ends in [:tag]. *)
Lemma getRevision_tagged (env : Env) (ref : name_Reference) (tag digest : string) (h : Hash)
    (options : list RegistryOption) :
  let url := Context_Name ref ++ ":" ++ tag in
  name_ParseReference env url = inr ref ->
  strings.Contains (RepositoryStr ref) ":"%char = false ->
  strings.Contains (RepositoryStr ref) "@"%char = false ->
  well_formed_tag (Some tag) = true ->
  crane_Digest env url options = inr digest ->
  NewHash digest = inr h ->
  OCIRepositoryReconciler.getRevision env url options = inr (tag ++ "/" ++ Hex h).
Proof.
  intros url Hparse Hcolon Hat Htag Hdigest Hhash.
  unfold well_formed_tag in Htag.
  apply andb_prop in Htag. destruct Htag as [Htag Htat].
  apply andb_prop in Htag. destruct Htag as [Hne Htcolon].
  apply negb_true_iff in Hne, Htcolon, Htat.
  unfold OCIRepositoryReconciler.getRevision. rewrite Hparse, Hdigest, Hhash.
  assert (Hname : strings.TrimPrefix url (RegistryStr ref) =
                  ("/" ++ RepositoryStr ref) ++ String ":"%char tag).
  { unfold url, Context_Name. rewrite !string_append_assoc. rewrite TrimPrefix_app.
    reflexivity. }
  rewrite Hname.
  rewrite Split_app_sep.
  rewrite (Split_no_sep ("/" ++ RepositoryStr ref)) by (simpl; exact Hcolon).
  rewrite (Split_no_sep tag _ Htcolon).
  cbn [app].
  assert (Hnoat : strings.Contains (("/" ++ RepositoryStr ref) ++ String ":"%char tag) "@"%char
                  = false).
  { rewrite Contains_app. simpl. rewrite Hat, Htat. reflexivity. }
  rewrite Hnoat. cbn [negb]. rewrite Hne. cbn [negb andb]. rewrite Hne. reflexivity.
Qed.

(** The revision of the repository URL alone: the implicit tag. *)
Lemma getRevision_untagged (env : Env) (ref : name_Reference) (digest : string) (h : Hash)
    (options : list RegistryOption) :
  let url := Context_Name ref in
  name_ParseReference env url = inr ref ->
  strings.Contains (RepositoryStr ref) ":"%char = false ->
  strings.Contains (RepositoryStr ref) "@"%char = false ->
  crane_Digest env url options = inr digest ->
  NewHash digest = inr h ->
  OCIRepositoryReconciler.getRevision env url options = inr ("latest" ++ "/" ++ Hex h).
Proof.
  intros url Hparse Hcolon Hat Hdigest Hhash.
  unfold OCIRepositoryReconciler.getRevision. rewrite Hparse, Hdigest, Hhash.
  assert (Hname : strings.TrimPrefix url (RegistryStr ref) = "/" ++ RepositoryStr ref).
  { unfold url, Context_Name. apply TrimPrefix_app. }
  rewrite Hname.
  rewrite (Split_no_sep ("/" ++ RepositoryStr ref)) by (simpl; exact Hcolon).
  assert (Hnoat : strings.Contains ("/" ++ RepositoryStr ref) "@"%char = false).
  { simpl. exact Hat. }
  rewrite Hnoat. reflexivity.
Qed.

(** The revision of a URL pinned by digest: no tag. *)
Lemma getRevision_pinned (env : Env) (ref : name_Reference) (pin digest : string) (h : Hash)
    (options : list RegistryOption) :
  let url := Context_Name ref ++ "@" ++ pin in
  name_ParseReference env url = inr ref ->
  crane_Digest env url options = inr digest ->
  NewHash digest = inr h ->
  OCIRepositoryReconciler.getRevision env url options = inr (Hex h).
Proof.
  intros url Hparse Hdigest Hhash.
  unfold OCIRepositoryReconciler.getRevision. rewrite Hparse, Hdigest, Hhash.
  assert (Hname : strings.TrimPrefix url (RegistryStr ref) =
                  ("/" ++ RepositoryStr ref) ++ String "@"%char pin).
  { unfold url, Context_Name. rewrite !string_append_assoc. rewrite TrimPrefix_app.
    reflexivity. }
  rewrite Hname.
  assert (Hat : strings.Contains (("/" ++ RepositoryStr ref) ++ String "@"%char pin) "@"%char
                = true).
  { rewrite Contains_app. simpl. apply orb_true_r. }
  rewrite Hat. cbn [negb andb].
  destruct (strings.Split _ ":"%char) as [|a [|b [|c l]]]; reflexivity.
Qed.

(** C6. The revision the source phase computes for the artifact URL of an
    OCIRepository is [tag "/" digestHex] when the resolved reference carries
    a tag (the tag of a semver range, the tag of the reference, or the
    implicit [latest]) and [digestHex] alone when the reference is pinned by
    digest. The reference parser is taken to split the artifact URL into the
    registry and the repository of the object, the repository and the tag to
    be free of colon and at sign. *)
Theorem getRevision_tag_and_digest (env : Env) (o : OCIRepository.T)
    (options : list RegistryOption) (ref : name_Reference) (url digest : string) (h : Hash) :
  OCIRepositoryReconciler.parseRepositoryURL env o = inr (Context_Name ref) ->
  OCIRepositoryReconciler.getArtifactURL env o options = inr url ->
  name_ParseReference env url = inr ref ->
  strings.Contains (RepositoryStr ref) ":"%char = false ->
  strings.Contains (RepositoryStr ref) "@"%char = false ->
  well_formed_tag (resolved_tag env o (Context_Name ref) options) = true ->
  crane_Digest env url options = inr digest ->
  NewHash digest = inr h ->
  OCIRepositoryReconciler.getRevision env url options =
    inr (revision_format (resolved_tag env o (Context_Name ref) options) (Hex h)).
Proof.
  intros Hrepo Hurl Hparse Hcolon Hat Htag Hdigest Hhash.
  unfold OCIRepositoryReconciler.getArtifactURL in Hurl. rewrite Hrepo in Hurl.
  unfold resolved_tag in *.
  destruct (OCIRepository.Reference (OCIRepository.spec o)) as [r|].
  - destruct (negb (String.eqb (OCIRepository.Digest r) "")).
    + injection Hurl as <-. cbn [revision_format].
      eapply getRevision_pinned; eassumption.
    + destruct (negb (String.eqb (OCIRepository.SemVer r) "")).
      * destruct (OCIRepositoryReconciler.getTagBySemver env _ _ options) as [err|tag];
          [discriminate|].
        injection Hurl as <-. cbn [revision_format].
        eapply getRevision_tagged; eassumption.
      * destruct (negb (String.eqb (OCIRepository.Tag r) "")).
        -- injection Hurl as <-. cbn [revision_format].
           eapply getRevision_tagged; eassumption.
        -- injection Hurl as <-. cbn [revision_format].
           eapply getRevision_untagged; eassumption.
  - injection Hurl as <-. cbn [revision_format].
    eapply getRevision_untagged; eassumption.
Qed.

Lemma getRevision_tag_and_digest_witness :
  OCIRepositoryReconciler.getRevision Example.env "ghcr.io/org/repo:1.10.0" [] =
    inr ("1.10.0/" ++ Example.digest_hex) /\
  OCIRepositoryReconciler.getRevision Example.env
    ("ghcr.io/org/repo@" ++ Example.digest) [] = inr Example.digest_hex.
Proof.
  split.
  - exact (getRevision_tag_and_digest Example.env
             (Example.oci_repository None [sourcev1.SourceFinalizer] false false "generic"
                (Some (OCIRepository.mkRef "" "*" "")) None None)
             [] (mkReference "ghcr.io" "org/repo") "ghcr.io/org/repo:1.10.0" Example.digest
             (mkHash "sha256" Example.digest_hex)
             eq_refl eq_refl eq_refl eq_refl eq_refl eq_refl eq_refl eq_refl).
  - exact (getRevision_tag_and_digest Example.env
             (Example.oci_repository None [sourcev1.SourceFinalizer] false false "generic"
                (Some (OCIRepository.mkRef Example.digest "" "")) None None)
             [] (mkReference "ghcr.io" "org/repo") ("ghcr.io/org/repo@" ++ Example.digest)
             Example.digest (mkHash "sha256" Example.digest_hex)
             eq_refl eq_refl eq_refl eq_refl eq_refl eq_refl eq_refl eq_refl).
Defined.

(** ** Verification *)

(** The loop over the pull secrets works the same in every world: it yields
    the secrets and leaves the world, or it records one event and returns
    the error. *)
Lemma get_pull_secrets_cases (env : Env) (namespace : string) (names : list string) :
  (exists secrets, forall w : OCIRepositoryReconciler.W,
     OCIRepositoryReconciler.get_pull_secrets env namespace names w = Next secrets w) \/
  (exists err ev, forall w : OCIRepositoryReconciler.W,
     OCIRepositoryReconciler.get_pull_secrets env namespace names w =
     Return (inl err) (log ev w)).
Proof.
  induction names as [|n names IH]; simpl.
  - left. exists []. reflexivity.
  - destruct (client_Get_Secret env namespace n) as [err|secret].
    + right. eexists _, _. intros w. run. reflexivity.
    + destruct IH as [[secrets Hall]|[err [ev Hall]]].
      * left. exists (secret :: secrets). intros w. run. rewrite Hall. reflexivity.
      * right. exists err, ev. intros w. run. rewrite Hall. reflexivity.
Qed.

(** A keychain comes without a change of the world, and from the
    specification and the metadata of the object alone. *)
Lemma keychain_Done_inr (env : Env) (w w1 : OCIRepositoryReconciler.W) (k : Keychain) :
  OCIRepositoryReconciler.keychain env w = Done (inr k) w1 ->
  w1 = w /\
  forall w' : OCIRepositoryReconciler.W,
    OCIRepository.spec (obj w') = OCIRepository.spec (obj w) ->
    OCIRepository.ObjectMeta (obj w') = OCIRepository.ObjectMeta (obj w) ->
    OCIRepositoryReconciler.keychain env w' = Done (inr k) w'.
Proof.
  unfold OCIRepositoryReconciler.keychain. run. intros H.
  destruct (negb (String.eqb (OCIRepository.ServiceAccountName _) "")) eqn:Hsa; run_in H.
  - destruct (client_Get_ServiceAccount env _ _) as [err|ips] eqn:Hget; run_in H;
      [discriminate|].
    destruct (Nat.eqb _ 0) eqn:Hlen; run_in H.
    + injection H as <- <-. split; [reflexivity|]. intros w' Hspec Hmeta.
      rewrite Hspec, Hmeta, Hsa. run. rewrite Hget. run. rewrite Hlen. reflexivity.
    + match type of H with
      | context [OCIRepositoryReconciler.get_pull_secrets env ?ns ?names w] =>
          destruct (get_pull_secrets_cases env ns names) as [[secrets Hall]|[err [ev Hall]]]
      end; rewrite Hall in H; run_in H; [|discriminate].
      injection H as H <-. split; [reflexivity|]. intros w' Hspec Hmeta.
      rewrite Hspec, Hmeta, Hsa. run. rewrite Hget. run. rewrite Hlen. run.
      rewrite Hall, H. reflexivity.
  - destruct (Nat.eqb _ 0) eqn:Hlen; run_in H.
    + injection H as <- <-. split; [reflexivity|]. intros w' Hspec Hmeta.
      rewrite Hspec, Hmeta, Hsa. run. rewrite Hlen. reflexivity.
    + match type of H with
      | context [OCIRepositoryReconciler.get_pull_secrets env ?ns ?names w] =>
          destruct (get_pull_secrets_cases env ns names) as [[secrets Hall]|[err [ev Hall]]]
      end; rewrite Hall in H; run_in H; [|discriminate].
      injection H as H <-. split; [reflexivity|]. intros w' Hspec Hmeta.
      rewrite Hspec, Hmeta, Hsa. run. rewrite Hlen. run.
      rewrite Hall, H. reflexivity.
Qed.

(** The credentials of the source phase, once obtained, come without a
    change of the world and from the specification and the metadata of the
    object alone. *)
Lemma reconcileSource_credentials_Next (env : Env) (w w1 : OCIRepositoryReconciler.W)
    (k : Keychain) (auth : option Authenticator) :
  OCIRepositoryReconciler.reconcileSource_credentials env w = Next (k, auth) w1 ->
  w1 = w /\
  forall w' : OCIRepositoryReconciler.W,
    OCIRepository.spec (obj w') = OCIRepository.spec (obj w) ->
    OCIRepository.ObjectMeta (obj w') = OCIRepository.ObjectMeta (obj w) ->
    OCIRepositoryReconciler.reconcileSource_credentials env w' = Next (k, auth) w'.
Proof.
  intros H.
  enough (X : forall w' : OCIRepositoryReconciler.W,
            OCIRepository.spec (obj w') = OCIRepository.spec (obj w) ->
            OCIRepository.ObjectMeta (obj w') = OCIRepository.ObjectMeta (obj w) ->
            w1 = w /\
            OCIRepositoryReconciler.reconcileSource_credentials env w' = Next (k, auth) w').
  { split; [exact (proj1 (X w eq_refl eq_refl))|].
    intros w' Hspec Hmeta. exact (proj2 (X w' Hspec Hmeta)). }
  intros w' Hspec Hmeta.
  unfold OCIRepositoryReconciler.reconcileSource_credentials in *. run_in H. run.
  destruct (OCIRepositoryReconciler.keychain env w) as [[err|k0] w0|msg w0] eqn:Hkey;
    run_in H; try discriminate.
  destruct (keychain_Done_inr _ _ _ _ Hkey) as [-> Hall].
  rewrite (Hall w' Hspec Hmeta). run. rewrite Hspec.
  destruct (negb (String.eqb (OCIRepository.Provider _) _) &&
            match k0 with Anonymous => true | _ => false end); run_in H; run.
  - destruct (oidcAuth env _ _) as [authErr|a]; run_in H; run.
    + destruct (negb (is_ErrUnconfiguredProvider authErr)); run_in H; run.
      * unfold OCIRepositoryReconciler.fetchFailed in H. run_in H. discriminate.
      * injection H as <- <- <-. split; reflexivity.
    + injection H as <- <- <-. split; reflexivity.
  - injection H as <- <- <-. split; reflexivity.
Qed.

Lemma Get_Delete_other (cs : list metav1.Condition) (t u : string) :
  String.eqb u t = false ->
  condition_list.Get (condition_list.Delete cs u) t = condition_list.Get cs t.
Proof.
  intros Hne. unfold condition_list.Get, condition_list.Delete.
  induction cs as [|c cs IH]; [reflexivity|].
  simpl. destruct (String.eqb (metav1.Type_ c) u) eqn:E; simpl.
  - apply String.eqb_eq in E. rewrite E, Hne. exact IH.
  - destruct (String.eqb (metav1.Type_ c) t); [reflexivity | exact IH].
Qed.

(** After the stale SourceVerified=False is gone verification is still due,
    for an object of a generation other than zero. *)
Lemma verification_due_after_cleanup (o : OCIRepository.T) (revision : string) :
  metav1.Generation (OCIRepository.ObjectMeta o) <> 0%Z ->
  verification_due o revision = true ->
  verification_due
    (if conditions.IsFalse o sourcev1.SourceVerifiedCondition
     then conditions.Delete sourcev1.SourceVerifiedCondition o else o) revision = true.
Proof.
  intros Hgen Hdue.
  destruct (conditions.IsFalse o sourcev1.SourceVerifiedCondition) eqn:Hfalse; [|exact Hdue].
  unfold verification_due. proj.
  unfold condition_list.GetObservedGeneration. rewrite Get_Delete.
  apply Z.eqb_neq in Hgen. rewrite Z.eqb_sym in Hgen. rewrite Hgen.
  rewrite orb_true_r. reflexivity.
Qed.

Lemma Get_replace_other (c : metav1.Condition) (cs cs' : list metav1.Condition)
    (t : string) :
  String.eqb (metav1.Type_ c) t = false ->
  condition_list.replace c cs = Some cs' ->
  condition_list.Get cs' t = condition_list.Get cs t.
Proof.
  intros Hne. revert cs'. induction cs as [|x cs IH]; intros cs' H; simpl in H; [discriminate|].
  destruct (String.eqb (metav1.Type_ x) (metav1.Type_ c)) eqn:E.
  - injection H as <-. unfold condition_list.Get. simpl. rewrite Hne.
    apply String.eqb_eq in E. rewrite E, Hne. reflexivity.
  - destruct (condition_list.replace c cs) as [rest|]; [|discriminate].
    injection H as <-. unfold condition_list.Get in *. simpl.
    destruct (String.eqb (metav1.Type_ x) t); [reflexivity|]. apply (IH rest eq_refl).
Qed.

Lemma Get_app_other (c : metav1.Condition) (cs : list metav1.Condition) (t : string) :
  String.eqb (metav1.Type_ c) t = false ->
  condition_list.Get (cs ++ [c]) t = condition_list.Get cs t.
Proof.
  intros Hne. unfold condition_list.Get.
  induction cs as [|x cs IH]; simpl; [rewrite Hne; reflexivity|].
  destruct (String.eqb (metav1.Type_ x) t); [reflexivity | exact IH].
Qed.

(** [conditions.Set] leaves the conditions of the other types. *)
Lemma Get_Set_other (gen : Z) (cs : list metav1.Condition) (c : metav1.Condition)
    (t : string) :
  String.eqb (metav1.Type_ c) t = false ->
  condition_list.Get (condition_list.Set_ gen cs c) t = condition_list.Get cs t.
Proof.
  intros Hne. unfold condition_list.Set_.
  set (c' := metav1.mkCondition _ _ _ _ gen).
  destruct (condition_list.replace c' cs) as [cs'|] eqn:R.
  - apply (Get_replace_other c' _ _ _ Hne R).
  - apply (Get_app_other c' _ _ Hne).
Qed.

Lemma Get_MarkTrue_other (gen : Z) (cs : list metav1.Condition) (u t reason msg : string) :
  String.eqb u t = false ->
  condition_list.Get (condition_list.MarkTrue gen cs u reason msg) t =
  condition_list.Get cs t.
Proof.
  intros Hne. unfold condition_list.MarkTrue.
  apply (Get_Set_other gen cs (metav1.mkCondition u _ _ _ 0) t Hne).
Qed.

(** The source phase from the transport on, for an insecure object with a
    verification that is due. *)
Lemma reconcileSource_fetch_insecure (env : Env) (dir : string)
    (w : OCIRepositoryReconciler.W) (k : Keychain) (auth : option Authenticator)
    (tr : option Transport) (url revision : string)
    (verify : OCIRepository.OCIRepositoryVerification) :
  OCIRepository.Verify (OCIRepository.spec (obj w)) = Some verify ->
  OCIRepository.Insecure (OCIRepository.spec (obj w)) = true ->
  OCIRepositoryReconciler.transport env (obj w) = inr tr ->
  OCIRepositoryReconciler.getArtifactURL env (obj w)
    (OCIRepositoryReconciler.craneOpts
       (OCIRepositoryReconciler.makeRemoteOptions (obj w) tr k auth)) = inr url ->
  OCIRepositoryReconciler.getRevision env url
    (OCIRepositoryReconciler.craneOpts
       (OCIRepositoryReconciler.makeRemoteOptions (obj w) tr k auth)) = inr revision ->
  verification_due (obj w) revision = true ->
  ProgressiveStatus_keeps env sourcev1.SourceVerifiedCondition ->
  exists w' added,
    OCIRepositoryReconciler.reconcileSource_fetch env dir k auth w =
      Return (ResultEmpty,
              Some (serror_Generic sourcev1.VerificationError
                      (errors_New "cosign does not support insecure registries"))) w' /\
    has_condition (obj w') sourcev1.SourceVerifiedCondition metav1.ConditionFalse
      sourcev1.VerificationError /\
    trace w' = (added ++ trace w)%list /\
    forallb (fun e => negb (is_verify_or_pull e)) added = true.
Proof.
  intros Hverify Hinsecure Htr Hurl Hrev Hdue Hkeeps.
  unfold OCIRepositoryReconciler.reconcileSource_fetch. run.
  rewrite Htr. run. rewrite Hurl. run. rewrite Hrev. run.
  unfold OCIRepositoryReconciler.reconcileSource_pull. run.
  rewrite Hverify.
  unfold verification_due in Hdue. proj_in Hdue. rewrite Hdue. rewrite Hinsecure. run.
  unfold OCIRepositoryReconciler.observe_revision. run.
  destruct (negb (sourcev1.HasRevision _ revision)); run.
  - destruct (OCIRepository.Artifact (OCIRepository.status (obj w))); run;
      (eexists _, [_]; split; [reflexivity|]; proj;
       split; [|split; reflexivity];
       unfold has_condition; proj; eexists; rewrite Hkeeps;
       rewrite ?Get_MarkTrue_other by reflexivity;
       split; [apply Get_MarkFalse | split; reflexivity]).
  - eexists _, []. split; [reflexivity|]. proj.
    split; [|split; reflexivity].
    eexists. split; [apply Get_MarkFalse | split; reflexivity].
Qed.

(** C8. An OCIRepository with a verification and [insecure] set, for which
    verification of the revision is due, whose credentials, transport,
    artifact URL and revision are obtained: the source phase returns the
    error of reason VerificationError, leaves SourceVerified=False with that
    reason, and calls the registry neither to verify signatures nor to
    pull. *)
Theorem reconcileSource_insecure_verification (env : Env) (dir : string)
    (w w1 : OCIRepositoryReconciler.W) (k : Keychain) (auth : option Authenticator)
    (tr : option Transport) (url revision : string)
    (verify : OCIRepository.OCIRepositoryVerification) :
  OCIRepository.Verify (OCIRepository.spec (obj w)) = Some verify ->
  OCIRepository.Insecure (OCIRepository.spec (obj w)) = true ->
  OCIRepositoryReconciler.reconcileSource_credentials env w = Next (k, auth) w1 ->
  OCIRepositoryReconciler.transport env (obj w) = inr tr ->
  OCIRepositoryReconciler.getArtifactURL env (obj w)
    (OCIRepositoryReconciler.craneOpts
       (OCIRepositoryReconciler.makeRemoteOptions (obj w) tr k auth)) = inr url ->
  OCIRepositoryReconciler.getRevision env url
    (OCIRepositoryReconciler.craneOpts
       (OCIRepositoryReconciler.makeRemoteOptions (obj w) tr k auth)) = inr revision ->
  verification_due (obj w) revision = true ->
  metav1.Generation (OCIRepository.ObjectMeta (obj w)) <> 0%Z ->
  ProgressiveStatus_keeps env sourcev1.SourceVerifiedCondition ->
  exists w' added,
    OCIRepositoryReconciler.reconcileSource env dir w =
      Done (ResultEmpty,
            Some (serror_Generic sourcev1.VerificationError
                    (errors_New "cosign does not support insecure registries"))) w' /\
    has_condition (obj w') sourcev1.SourceVerifiedCondition metav1.ConditionFalse
      sourcev1.VerificationError /\
    trace w' = (added ++ trace w)%list /\
    forallb (fun e => negb (is_verify_or_pull e)) added = true.
Proof.
  intros Hverify Hinsecure Hcred Htr Hurl Hrev Hdue Hgen Hkeeps.
  pose proof (verification_due_after_cleanup _ _ Hgen Hdue) as Hdue'.
  destruct (reconcileSource_credentials_Next _ _ _ _ _ Hcred) as [_ Hall].
  unfold OCIRepositoryReconciler.reconcileSource. run.
  change (condition_list.IsFalse (OCIRepository.GetConditions (obj w))
            sourcev1.SourceVerifiedCondition)
    with (conditions.IsFalse (obj w) sourcev1.SourceVerifiedCondition).
  destruct (conditions.IsFalse (obj w) sourcev1.SourceVerifiedCondition).
  - set (w0 := set_obj (conditions.Delete sourcev1.SourceVerifiedCondition (obj w)) w).
    change (set_obj _ w) with w0.
    rewrite (Hall w0 eq_refl eq_refl).
    destruct (reconcileSource_fetch_insecure env dir w0 k auth tr url revision verify
                Hverify Hinsecure Htr Hurl Hrev Hdue' Hkeeps)
      as [w' [added [Hrun Hrest]]].
    rewrite Hrun. exists w', added. split; [reflexivity | exact Hrest].
  - rewrite (Hall w eq_refl eq_refl).
    destruct (reconcileSource_fetch_insecure env dir w k auth tr url revision verify
                Hverify Hinsecure Htr Hurl Hrev Hdue' Hkeeps)
      as [w' [added [Hrun Hrest]]].
    rewrite Hrun. exists w', added. split; [reflexivity | exact Hrest].
Qed.

Lemma Example_ProgressiveStatus_keeps :
  ProgressiveStatus_keeps Example.env sourcev1.SourceVerifiedCondition.
Proof.
  intros drift gen reason msg cs.
  change (ProgressiveStatus Example.env drift gen reason msg cs)
    with (let cs' := condition_list.MarkTrue gen
                       (condition_list.Delete cs meta.StalledCondition)
                       meta.ReconcilingCondition reason msg in
          if drift then condition_list.MarkUnknown gen cs' meta.ReadyCondition reason msg
          else cs').
  cbv zeta. destruct drift.
  - unfold condition_list.MarkUnknown. rewrite Get_Set_other by reflexivity.
    rewrite Get_MarkTrue_other by reflexivity. apply Get_Delete_other. reflexivity.
  - rewrite Get_MarkTrue_other by reflexivity. apply Get_Delete_other. reflexivity.
Qed.

Lemma reconcileSource_insecure_verification_witness :
  exists w' added,
    OCIRepositoryReconciler.reconcileSource Example.env "/tmp/work"
      (Example.oci_repository_world
         (Example.oci_repository None [sourcev1.SourceFinalizer] false true "generic" None
            (Some (OCIRepository.mkVerification "cosign" None)) None) []) =
      Done (ResultEmpty,
            Some (serror_Generic sourcev1.VerificationError
                    (errors_New "cosign does not support insecure registries"))) w' /\
    has_condition (obj w') sourcev1.SourceVerifiedCondition metav1.ConditionFalse
      sourcev1.VerificationError /\
    trace w' = (added ++ [])%list /\
    forallb (fun e => negb (is_verify_or_pull e)) added = true.
Proof.
  apply (reconcileSource_insecure_verification Example.env "/tmp/work"
           (Example.oci_repository_world
              (Example.oci_repository None [sourcev1.SourceFinalizer] false true "generic"
                 None (Some (OCIRepository.mkVerification "cosign" None)) None) [])
           (Example.oci_repository_world
              (Example.oci_repository None [sourcev1.SourceFinalizer] false true "generic"
                 None (Some (OCIRepository.mkVerification "cosign" None)) None) [])
           Anonymous None None "ghcr.io/org/repo" ("latest/" ++ Example.digest_hex)
           (OCIRepository.mkVerification "cosign" None)).
  - reflexivity.
  - reflexivity.
  - reflexivity.
  - reflexivity.
  - reflexivity.
  - reflexivity.
  - reflexivity.
  - discriminate.
  - exact Example_ProgressiveStatus_keeps.
Defined.

(** ** A run on an unchanged input *)

Lemma quiet_since_refl {T : Type} (t : list (Event T)) : quiet_since t t.
Proof. exists []. split; reflexivity. Qed.

Lemma quiet_since_cons {T : Type} (e : Event T) (t0 t : list (Event T)) :
  fetches_or_announces e = false -> quiet_since t0 t -> quiet_since t0 (e :: t).
Proof.
  intros He [added [-> Hq]]. exists (e :: added). split; [reflexivity|].
  simpl. rewrite He, Hq. reflexivity.
Qed.

Lemma quiet_since_trans {T : Type} (t0 t1 t2 : list (Event T)) :
  quiet_since t0 t1 -> quiet_since t1 t2 -> quiet_since t0 t2.
Proof.
  intros [a1 [-> H1]] [a2 [-> H2]]. exists (a2 ++ a1)%list. split.
  - now rewrite app_assoc.
  - rewrite forallb_app, H1, H2. reflexivity.
Qed.

Ltac quiet :=
  repeat (apply quiet_since_cons; [reflexivity|]);
  first [assumption | apply quiet_since_refl].

(** [frame H]: the frame holds of a world built from the world of [H] by
    updates of the conditions and of the URL of the status, and by quiet
    events. *)
Ltac frame H :=
  let Hs := fresh in let Hm := fresh in let Hk := fresh in let Ha := fresh in
  let Hi := fresh in let Hl := fresh in let He := fresh in let Hq := fresh in
  destruct H as (Hs & Hm & Hk & Ha & Hi & Hl & He & Hq);
  unfold Frame, Storage.ArtifactExist in *; proj;
  repeat split; first [assumption | quiet].

Lemma Frame_refl (a : sourcev1.Artifact) (w : OCIRepositoryReconciler.W) :
  OCIRepository.Artifact (OCIRepository.status (obj w)) = Some a ->
  Storage.ArtifactExist w a = true ->
  Frame a w w.
Proof. intros Ha He. repeat split; try assumption. apply quiet_since_refl. Qed.

Lemma quiet_step_refl (w : OCIRepositoryReconciler.W) : quiet_step w w.
Proof. repeat split. apply quiet_since_refl. Qed.

Lemma quiet_step_log (e : Event OCIRepository.T) (w : OCIRepositoryReconciler.W) :
  fetches_or_announces e = false -> quiet_step w (log e w).
Proof.
  intros He. repeat split. apply quiet_since_cons; [exact He | apply quiet_since_refl].
Qed.

Lemma quiet_step_trans (w w1 w2 : OCIRepositoryReconciler.W) :
  quiet_step w w1 -> quiet_step w1 w2 -> quiet_step w w2.
Proof.
  intros (Ho & Hf & Hs & Hq) (Ho' & Hf' & Hs' & Hq').
  repeat split; try congruence. eapply quiet_since_trans; eassumption.
Qed.

Lemma Frame_quiet_step (a : sourcev1.Artifact) (w0 w w1 : OCIRepositoryReconciler.W) :
  Frame a w0 w -> quiet_step w w1 -> Frame a w0 w1.
Proof.
  intros (Hs & Hm & Hk & Ha & Hi & Hl & He & Hq) (Ho & Hf & _ & Hq').
  unfold Frame, Storage.ArtifactExist in *. rewrite Ho, Hf.
  repeat split; try assumption. eapply quiet_since_trans; eassumption.
Qed.

(** The loop over the pull secrets leaves the world, or records that a
    secret was not found. *)
Lemma get_pull_secrets_quiet (env : Env) (namespace : string) (names : list string)
    (w : OCIRepositoryReconciler.W) :
  match OCIRepositoryReconciler.get_pull_secrets env namespace names w with
  | Next _ s | Return _ s => quiet_step w s
  | Panic _ _ => False
  end.
Proof.
  induction names as [|n names IH]; simpl; [apply quiet_step_refl|].
  destruct (client_Get_Secret env namespace n) as [err|secret]; run.
  - apply quiet_step_log. reflexivity.
  - destruct (OCIRepositoryReconciler.get_pull_secrets env namespace names w); exact IH.
Qed.

Lemma keychain_quiet (env : Env) (w : OCIRepositoryReconciler.W) :
  exists r w1, OCIRepositoryReconciler.keychain env w = Done r w1 /\ quiet_step w w1.
Proof.
  unfold OCIRepositoryReconciler.keychain. run.
  destruct (negb (String.eqb (OCIRepository.ServiceAccountName _) "")); run.
  - destruct (client_Get_ServiceAccount env _ _) as [err|ips]; run.
    + eexists _, _. split; [reflexivity | apply quiet_step_refl].
    + destruct (Nat.eqb _ 0); run; [eexists _, _; split; [reflexivity | apply quiet_step_refl]|].
      match goal with
      | |- context [OCIRepositoryReconciler.get_pull_secrets env ?ns ?names w] =>
          pose proof (get_pull_secrets_quiet env ns names w) as G;
          destruct (OCIRepositoryReconciler.get_pull_secrets env ns names w)
      end; [| |contradiction]; eexists _, _; (split; [reflexivity | exact G]).
  - destruct (Nat.eqb _ 0); run; [eexists _, _; split; [reflexivity | apply quiet_step_refl]|].
    match goal with
    | |- context [OCIRepositoryReconciler.get_pull_secrets env ?ns ?names w] =>
        pose proof (get_pull_secrets_quiet env ns names w) as G;
        destruct (OCIRepositoryReconciler.get_pull_secrets env ns names w)
    end; [| |contradiction]; eexists _, _; (split; [reflexivity | exact G]).
Qed.

Lemma verify_with_keys_quiet (env : Env) (url : string) (ref : name_Reference)
    (opts : list RegistryOption) (entries : list (string * string))
    (w : OCIRepositoryReconciler.W) :
  match OCIRepositoryReconciler.verify_with_keys env url ref opts entries w with
  | Next _ s | Return _ s => quiet_step w s
  | Panic _ _ => False
  end.
Proof.
  revert w. induction entries as [|[k data] rest IH]; intros w; simpl;
    [apply quiet_step_refl|].
  destruct (strings.HasSuffix k ".pub"); [|apply IH].
  destruct (soci_NewCosignVerifier env opts (Some data)) as [err|verifier]; run;
    [apply quiet_step_refl|].
  assert (Hlog : quiet_step w (log (EvRegistry OpVerifySignatures url) w))
    by (apply quiet_step_log; reflexivity).
  destruct (VerifyImageSignatures env verifier ref) as [err|[sigs|]].
  - specialize (IH (log (EvRegistry OpVerifySignatures url) w)).
    destruct (OCIRepositoryReconciler.verify_with_keys env url ref opts rest _);
      try contradiction; eapply quiet_step_trans; eassumption.
  - exact Hlog.
  - specialize (IH (log (EvRegistry OpVerifySignatures url) w)).
    destruct (OCIRepositoryReconciler.verify_with_keys env url ref opts rest _);
      try contradiction; eapply quiet_step_trans; eassumption.
Qed.

Lemma verifySignature_quiet (env : Env) (url : string) (opts : list RegistryOption)
    (w : OCIRepositoryReconciler.W) (verify : OCIRepository.OCIRepositoryVerification) :
  OCIRepository.Verify (OCIRepository.spec (obj w)) = Some verify ->
  exists err w1,
    OCIRepositoryReconciler.verifySignature env url opts w = Done err w1 /\ quiet_step w w1.
Proof.
  intros Hverify. unfold OCIRepositoryReconciler.verifySignature. run. rewrite Hverify.
  destruct (String.eqb (OCIRepository.VerifyProvider verify) "cosign"); run;
    [|eexists _, _; split; [reflexivity | apply quiet_step_refl]].
  destruct (name_ParseReference env url) as [err|ref]; run;
    [eexists _, _; split; [reflexivity | apply quiet_step_refl]|].
  destruct (OCIRepository.VerifySecretRef verify) as [secretRef|].
  - destruct (client_Get_Secret env _ secretRef) as [err|pubSecret]; run;
      [eexists _, _; split; [reflexivity | apply quiet_step_refl]|].
    pose proof (verify_with_keys_quiet env url ref opts pubSecret w) as G.
    destruct (OCIRepositoryReconciler.verify_with_keys env url ref opts pubSecret w)
      as [b s|r s|msg s]; [| |contradiction].
    + destruct b; run; eexists _, _; (split; [reflexivity | exact G]).
    + eexists _, _; (split; [reflexivity | exact G]).
  - destruct (soci_NewCosignVerifier env opts None) as [err|verifier]; run;
      [eexists _, _; split; [reflexivity | apply quiet_step_refl]|].
    destruct (VerifyImageSignatures env verifier ref) as [err|[[|sig sigs]|]]; run;
      (eexists _, _; split; [reflexivity | apply quiet_step_log; reflexivity]).
Qed.

Lemma garbageCollect_Frame (env : Env) (a : sourcev1.Artifact)
    (w0 w : OCIRepositoryReconciler.W) :
  metav1.DeletionTimestamp_IsZero (OCIRepository.ObjectMeta (obj w0)) = true ->
  Frame a w0 w ->
  exists err w1,
    OCIRepositoryReconciler.garbageCollect env w = Done err w1 /\
    Frame a w0 w1 /\ scratch w1 = scratch w.
Proof.
  intros Hlive HF.
  assert (Hlive' : metav1.DeletionTimestamp_IsZero (OCIRepository.ObjectMeta (obj w)) = true).
  { destruct HF as (_ & -> & _). exact Hlive. }
  assert (Ha : OCIRepository.GetArtifact (obj w) = Some a).
  { destruct HF as (_ & _ & _ & Ha & _). exact Ha. }
  unfold OCIRepositoryReconciler.garbageCollect. run. rewrite Hlive'. run.
  change (OCIRepository.Artifact (OCIRepository.status (obj w)))
    with (OCIRepository.GetArtifact (obj w)).
  rewrite Ha. unfold Storage.GarbageCollect.
  destruct (gc_error env) as [e|]; run.
  - eexists _, _. split; [reflexivity|]. split; [frame HF | reflexivity].
  - assert (Hkeep :
      existsb (String.eqb (sourcev1.Path a))
        (filter (fun f => negb (Storage.under (filepath_Dir (sourcev1.Path a)) f &&
                                negb (String.eqb f (sourcev1.Path a)) && gc_expired env f))
                (files w)) = true).
    { rewrite existsb_filter_keeps.
      - destruct HF as (_ & _ & _ & _ & _ & _ & He & _). exact He.
      - intros f Hf. apply String.eqb_eq in Hf. subst f. rewrite String.eqb_refl.
        rewrite andb_false_r. reflexivity. }
    destruct (0 <? List.length _)%nat; run;
      (eexists _, _; split; [reflexivity|]; split; [|reflexivity];
       destruct HF as (Hs & Hm & Hk & Ha' & Hi & Hl & He & Hq);
       unfold Frame, Storage.ArtifactExist; proj;
       repeat split; first [assumption | quiet]).
Qed.

(** The storage phase keeps an artifact whose file is in the storage. *)
Lemma reconcileStorage_Frame (env : Env) (dir : string) (a : sourcev1.Artifact)
    (w0 w : OCIRepositoryReconciler.W) :
  metav1.DeletionTimestamp_IsZero (OCIRepository.ObjectMeta (obj w0)) = true ->
  Storage.SetArtifactURL env a = a ->
  Frame a w0 w ->
  exists w1,
    OCIRepositoryReconciler.reconcileStorage env dir w = Done (ResultSuccess, None) w1 /\
    Frame a w0 w1 /\ scratch w1 = scratch w.
Proof.
  intros Hlive Hurl HF.
  destruct (garbageCollect_Frame env a w0 w Hlive HF) as [err [w1 [Hgc [HF1 Hscratch]]]].
  unfold OCIRepositoryReconciler.reconcileStorage. run. rewrite Hgc. run.
  assert (Ha : OCIRepository.GetArtifact (obj w1) = Some a).
  { destruct HF1 as (_ & _ & _ & Ha & _). exact Ha. }
  assert (He : Storage.ArtifactExist w1 a = true).
  { destruct HF1 as (_ & _ & _ & _ & _ & _ & He & _). exact He. }
  rewrite Ha, He. run. rewrite Ha. run. rewrite Hurl.
  eexists. split; [reflexivity|]. split; [frame HF1 | exact Hscratch].
Qed.

Lemma Frame_HasRevision (a : sourcev1.Artifact) (w0 w : OCIRepositoryReconciler.W) :
  Frame a w0 w ->
  sourcev1.HasRevision (OCIRepository.GetArtifact (obj w)) (sourcev1.Revision a) = true.
Proof.
  intros (_ & _ & _ & Ha & _). unfold OCIRepository.GetArtifact. rewrite Ha.
  apply String.eqb_refl.
Qed.

Lemma Frame_unchanged (a : sourcev1.Artifact) (w0 w : OCIRepositoryReconciler.W) :
  Frame a w0 w ->
  OCIRepositoryReconciler.ociContentConfigChanged (obj w0) = false ->
  OCIRepositoryReconciler.ociContentConfigChanged (obj w) = false.
Proof.
  intros (Hs & _ & _ & _ & Hi & Hl & _) H.
  unfold OCIRepositoryReconciler.ociContentConfigChanged in *.
  rewrite Hs, Hi, Hl. exact H.
Qed.

(** With the revision of the artifact in the status the deferred
    observation has nothing to record. *)
Lemma observe_revision_Frame (env : Env) (a : sourcev1.Artifact) (url : string)
    (r : OCIRepositoryReconciler.R) (w0 w : OCIRepositoryReconciler.W) :
  Frame a w0 w ->
  OCIRepositoryReconciler.observe_revision env (sourcev1.Revision a) url r w = Done r w.
Proof.
  intros HF. unfold OCIRepositoryReconciler.observe_revision. run.
  rewrite (Frame_HasRevision a w0 w HF). reflexivity.
Qed.

(** Verification and the check of the revision: with the revision of the
    artifact in the status and the content configuration unchanged the
    statement returns before the pull. *)
Lemma reconcileSource_pull_Frame (env : Env) (dir url : string)
    (opts : OCIRepositoryReconciler.remoteOptions) (a : sourcev1.Artifact)
    (w0 w : OCIRepositoryReconciler.W) :
  Frame a w0 w ->
  OCIRepositoryReconciler.ociContentConfigChanged (obj w0) = false ->
  exists r w1,
    OCIRepositoryReconciler.reconcileSource_pull env dir url (sourcev1.Revision a) opts w =
      Return r w1 /\
    Frame a w0 w1 /\ scratch w1 = scratch w /\
    (r = (ResultSuccess, None) \/ exists e, r = (ResultEmpty, Some e)).
Proof.
  intros HF Hsame.
  pose proof (Frame_HasRevision a w0 w HF) as Hrev.
  pose proof (Frame_unchanged a w0 w HF Hsame) as Hsame'.
  unfold OCIRepositoryReconciler.reconcileSource_pull. run.
  change (OCIRepository.Artifact (OCIRepository.status (obj w)))
    with (OCIRepository.GetArtifact (obj w)).
  destruct (OCIRepository.Verify (OCIRepository.spec (obj w))) as [verify|] eqn:Hverify; run.
  - rewrite Hrev. cbn [negb orb].
    destruct (negb (Z.eqb _ _) || condition_list.IsFalse _ _); run.
    + destruct (OCIRepository.Insecure (OCIRepository.spec (obj w))); run.
      * eexists _, _. split; [reflexivity|]. split; [frame HF|].
        split; [reflexivity | right; eexists; reflexivity].
      * destruct (verifySignature_quiet env url
                    (OCIRepositoryReconciler.verifyOpts opts) w verify Hverify)
          as [err [w1 [Hrun Hstep]]].
        rewrite Hrun.
        pose proof (Frame_quiet_step a w0 w w1 HF Hstep) as HF1.
        destruct Hstep as (Hobj & _ & Hscratch & _).
        destruct err as [err|]; run.
        -- eexists _, _. split; [reflexivity|]. split; [frame HF1|].
           split; [exact Hscratch | right; eexists; reflexivity].
        -- change (OCIRepository.Artifact (OCIRepository.status (obj w1)))
             with (OCIRepository.GetArtifact (obj w1)).
           rewrite (Frame_HasRevision a w0 w1 HF1).
           change (OCIRepositoryReconciler.ociContentConfigChanged
                     (OCIRepository.set_Conditions _ (obj w1)))
             with (OCIRepositoryReconciler.ociContentConfigChanged (obj w1)).
           rewrite (Frame_unchanged a w0 w1 HF1 Hsame). run.
           eexists _, _. split; [reflexivity|]. split; [frame HF1|].
           split; [exact Hscratch | left; reflexivity].
    + rewrite Hrev, Hsame'. run.
      eexists _, _. split; [reflexivity|]. split; [frame HF|].
      split; [reflexivity | left; reflexivity].
  - change (OCIRepository.Artifact (OCIRepository.status (obj w)))
      with (OCIRepository.GetArtifact (obj w)).
    rewrite Hrev.
    change (OCIRepositoryReconciler.ociContentConfigChanged
              (OCIRepository.set_Conditions _ (obj w)))
      with (OCIRepositoryReconciler.ociContentConfigChanged (obj w)).
    rewrite Hsame'. run.
    eexists _, _. split; [reflexivity|]. split; [frame HF|].
    split; [reflexivity | left; reflexivity].
Qed.

Lemma getArtifactURL_spec (env : Env) (o o' : OCIRepository.T)
    (options : list RegistryOption) :
  OCIRepository.spec o = OCIRepository.spec o' ->
  OCIRepositoryReconciler.getArtifactURL env o options =
  OCIRepositoryReconciler.getArtifactURL env o' options.
Proof.
  intros H. unfold OCIRepositoryReconciler.getArtifactURL,
    OCIRepositoryReconciler.parseRepositoryURL. rewrite H. reflexivity.
Qed.

(** The credentials: obtained in a world that differs by quiet events, or
    failed with the error recorded. *)
Lemma reconcileSource_credentials_Frame (env : Env) (a : sourcev1.Artifact)
    (w0 w : OCIRepositoryReconciler.W) :
  Frame a w0 w ->
  match OCIRepositoryReconciler.reconcileSource_credentials env w with
  | Next _ s => Frame a w0 s /\ scratch s = scratch w
  | Return r s => Frame a w0 s /\ exists e, r = (ResultEmpty, Some e)
  | Panic _ _ => False
  end.
Proof.
  intros HF. unfold OCIRepositoryReconciler.reconcileSource_credentials. run.
  destruct (keychain_quiet env w) as [r [w1 [Hkey Hstep]]]. rewrite Hkey.
  pose proof (Frame_quiet_step a w0 w w1 HF Hstep) as HF1.
  destruct Hstep as (_ & _ & Hscratch & _).
  destruct r as [err|k]; run.
  - unfold OCIRepositoryReconciler.fetchFailed. run.
    split; [frame HF1 | eexists; reflexivity].
  - destruct (negb (String.eqb (OCIRepository.Provider _) _) &&
              match k with Anonymous => true | _ => false end); run;
      [|split; assumption].
    destruct (oidcAuth env _ _) as [authErr|auth]; run; [|split; assumption].
    destruct (negb (is_ErrUnconfiguredProvider authErr)); run; [|split; assumption].
    unfold OCIRepositoryReconciler.fetchFailed. run.
    split; [frame HF1 | eexists; reflexivity].
Qed.

(** The source phase from the transport on. *)
Lemma reconcileSource_fetch_Frame (env : Env) (dir : string) (k : Keychain)
    (auth : option Authenticator) (a : sourcev1.Artifact)
    (w0 w : OCIRepositoryReconciler.W) :
  Frame a w0 w ->
  OCIRepositoryReconciler.ociContentConfigChanged (obj w0) = false ->
  (forall options url revision,
     OCIRepositoryReconciler.getArtifactURL env (obj w0) options = inr url ->
     OCIRepositoryReconciler.getRevision env url options = inr revision ->
     revision = sourcev1.Revision a) ->
  exists r w1,
    OCIRepositoryReconciler.reconcileSource_fetch env dir k auth w = Return r w1 /\
    Frame a w0 w1 /\
    (r = (ResultSuccess, None) /\ sourcev1.Revision (scratch w1) = sourcev1.Revision a \/
     exists e, r = (ResultEmpty, Some e)).
Proof.
  intros HF Hsame Hupstream.
  assert (Hspec : OCIRepository.spec (obj w) = OCIRepository.spec (obj w0))
    by (destruct HF as (Hs & _); exact Hs).
  unfold OCIRepositoryReconciler.reconcileSource_fetch. run.
  unfold OCIRepositoryReconciler.fetchFailed.
  destruct (OCIRepositoryReconciler.transport env (obj w)) as [err|tr]; run.
  { eexists _, _. split; [reflexivity|]. split; [frame HF | right; eexists; reflexivity]. }
  destruct (OCIRepositoryReconciler.getArtifactURL env (obj w) _) as [err|url] eqn:Hurl; run.
  { destruct err; run;
      (eexists _, _; split; [reflexivity|]; split; [frame HF | right; eexists; reflexivity]). }
  destruct (OCIRepositoryReconciler.getRevision env url _) as [err|revision] eqn:Hrev; run.
  { eexists _, _. split; [reflexivity|]. split; [frame HF | right; eexists; reflexivity]. }
  rewrite (getArtifactURL_spec env _ _ _ Hspec) in Hurl.
  rewrite (Hupstream _ _ _ Hurl Hrev).
  set (w' := set_scratch _ w).
  assert (HF' : Frame a w0 w') by (unfold w'; frame HF).
  destruct (reconcileSource_pull_Frame env dir url
              (OCIRepositoryReconciler.makeRemoteOptions (obj w) tr k auth) a w0 w' HF' Hsame)
    as [r [w1 [Hrun [HF1 [Hscratch Hres]]]]].
  unfold deferred. run. rewrite Hrun.
  rewrite (observe_revision_Frame env a url r w0 w1 HF1).
  eexists _, _. split; [reflexivity|]. split; [exact HF1|].
  destruct Hres as [-> | He]; [left | right; exact He].
  split; [reflexivity|]. rewrite Hscratch. reflexivity.
Qed.

(** The source phase. *)
Lemma reconcileSource_Frame (env : Env) (dir : string) (a : sourcev1.Artifact)
    (w0 w : OCIRepositoryReconciler.W) :
  Frame a w0 w ->
  OCIRepositoryReconciler.ociContentConfigChanged (obj w0) = false ->
  (forall options url revision,
     OCIRepositoryReconciler.getArtifactURL env (obj w0) options = inr url ->
     OCIRepositoryReconciler.getRevision env url options = inr revision ->
     revision = sourcev1.Revision a) ->
  exists r w1,
    OCIRepositoryReconciler.reconcileSource env dir w = Done r w1 /\
    Frame a w0 w1 /\
    (r = (ResultSuccess, None) /\ sourcev1.Revision (scratch w1) = sourcev1.Revision a \/
     exists e, r = (ResultEmpty, Some e)).
Proof.
  intros HF Hsame Hupstream.
  unfold OCIRepositoryReconciler.reconcileSource. run.
  destruct (condition_list.IsFalse _ _); run;
    match goal with
    | |- context [OCIRepositoryReconciler.reconcileSource_credentials env ?s] =>
        assert (HFs : Frame a w0 s) by frame HF;
        pose proof (reconcileSource_credentials_Frame env a w0 s HFs) as Hcred;
        destruct (OCIRepositoryReconciler.reconcileSource_credentials env s)
          as [[k auth] s1|r s1|msg s1]; [| |contradiction]
    end.
  - destruct Hcred as [HF1 _].
    destruct (reconcileSource_fetch_Frame env dir k auth a w0 s1 HF1 Hsame Hupstream)
      as [r [w1 [Hrun Hrest]]].
    rewrite Hrun. exists r, w1. split; [reflexivity | exact Hrest].
  - destruct Hcred as [HF1 He]. exists r, s1. split; [reflexivity|].
    split; [exact HF1 | right; exact He].
  - destruct Hcred as [HF1 _].
    destruct (reconcileSource_fetch_Frame env dir k auth a w0 s1 HF1 Hsame Hupstream)
      as [r [w1 [Hrun Hrest]]].
    rewrite Hrun. exists r, w1. split; [reflexivity | exact Hrest].
  - destruct Hcred as [HF1 He]. exists r, s1. split; [reflexivity|].
    split; [exact HF1 | right; exact He].
Qed.

Lemma Revision_NewArtifactFor (env : Env) (kind : string) (m : metav1.ObjectMeta)
    (revision filename : string) :
  sourcev1.Revision (Storage.NewArtifactFor env kind m revision filename) = revision.
Proof.
  unfold Storage.NewArtifactFor, Storage.SetArtifactURL.
  destruct (String.eqb _ _); reflexivity.
Qed.

(** The artifact phase: the artifact in the status is up to date. *)
Lemma reconcileArtifact_Frame (env : Env) (dir : string) (a : sourcev1.Artifact)
    (w0 w : OCIRepositoryReconciler.W) :
  Frame a w0 w ->
  OCIRepositoryReconciler.ociContentConfigChanged (obj w0) = false ->
  sourcev1.Revision (scratch w) = sourcev1.Revision a ->
  exists w1,
    OCIRepositoryReconciler.reconcileArtifact env dir w = Done (ResultSuccess, None) w1 /\
    Frame a w0 w1.
Proof.
  intros HF Hsame Hscratch.
  pose proof (Frame_HasRevision a w0 w HF) as Hrev.
  pose proof (Frame_unchanged a w0 w HF Hsame) as Hsame'.
  unfold OCIRepositoryReconciler.reconcileArtifact. unfold deferred at 1. run.
  rewrite !Revision_NewArtifactFor, Hscratch, Hrev, Hsame'. run.
  change (OCIRepository.Artifact (OCIRepository.status (obj w)))
    with (OCIRepository.GetArtifact (obj w)).
  rewrite Hrev, Hsame'. run.
  eexists. split; [reflexivity | frame HF].
Qed.

(** The three phases in a row. *)
Lemma run_reconcilers_Frame (env : Env) (dir : string) (a : sourcev1.Artifact)
    (w0 w : OCIRepositoryReconciler.W) :
  metav1.DeletionTimestamp_IsZero (OCIRepository.ObjectMeta (obj w0)) = true ->
  Storage.SetArtifactURL env a = a ->
  OCIRepositoryReconciler.ociContentConfigChanged (obj w0) = false ->
  (forall options url revision,
     OCIRepositoryReconciler.getArtifactURL env (obj w0) options = inr url ->
     OCIRepositoryReconciler.getRevision env url options = inr revision ->
     revision = sourcev1.Revision a) ->
  Frame a w0 w ->
  exists r w1,
    OCIRepositoryReconciler.run_reconcilers
      (List.map (fun rec => rec dir)
         [OCIRepositoryReconciler.reconcileStorage env;
          OCIRepositoryReconciler.reconcileSource env;
          OCIRepositoryReconciler.reconcileArtifact env]) ResultEmpty w = Next r w1 /\
    Frame a w0 w1.
Proof.
  intros Hlive Hurl Hsame Hupstream HF.
  destruct (reconcileStorage_Frame env dir a w0 w Hlive Hurl HF) as [w1 [Hst [HF1 _]]].
  destruct (reconcileSource_Frame env dir a w0 w1 HF1 Hsame Hupstream)
    as [r2 [w2 [Hso [HF2 Hres]]]].
  cbn [List.map OCIRepositoryReconciler.run_reconcilers]. run.
  rewrite Hst. cbn [Result_eqb LowestRequeuingResult]. run. rewrite Hso.
  destruct Hres as [[-> Hscratch] | [e ->]]; cbn [Result_eqb LowestRequeuingResult]; run.
  - destruct (reconcileArtifact_Frame env dir a w0 w2 HF2 Hsame Hscratch) as [w3 [Har HF3]].
    rewrite Har. cbn [Result_eqb LowestRequeuingResult]. run.
    eexists _, _. split; [reflexivity | exact HF3].
  - eexists _, _. split; [reflexivity | exact HF2].
Qed.

(** [notify] on an artifact with the checksum of the old one: no NewArtifact
    event. *)
Lemma notify_Frame (env : Env) (oldObj : OCIRepository.T) (res : Result)
    (resErr : option error) (a : sourcev1.Artifact) (w0 w : OCIRepositoryReconciler.W) :
  OCIRepository.GetArtifact oldObj = Some a ->
  Frame a w0 w ->
  exists w1,
    OCIRepositoryReconciler.notify env oldObj res resErr w = Next tt w1 /\ Frame a w0 w1.
Proof.
  intros Hold HF.
  assert (Ha : OCIRepository.Artifact (OCIRepository.status (obj w)) = Some a)
    by (destruct HF as (_ & _ & _ & Ha & _); exact Ha).
  unfold OCIRepositoryReconciler.notify. run. rewrite Ha, Hold.
  destruct resErr as [err|]; [eexists; split; [reflexivity | exact HF]|].
  destruct res; try (eexists; split; [reflexivity | exact HF]).
  rewrite String.eqb_refl. cbn [negb].
  destruct (FailureRecovery env _ _ _); run;
    (eexists; split; [reflexivity | frame HF]).
Qed.

(** C3. A reconciliation of an OCIRepository on an unchanged input: the
    object is not under deletion, the artifact of its status has its file in
    the storage and its URL on the current host, the content configuration
    (ignore patterns and layer selector) is the observed one, and the
    revision the registry reports for the reference is the revision of that
    artifact. The run returns with the same artifact in the status; it
    neither pulls nor archives nor copies a file, and emits no NewArtifact
    event. *)
Theorem reconcile_unchanged_input (env : Env) (w : OCIRepositoryReconciler.W)
    (a : sourcev1.Artifact) :
  metav1.DeletionTimestamp_IsZero (OCIRepository.ObjectMeta (obj w)) = true ->
  OCIRepository.GetArtifact (obj w) = Some a ->
  Storage.ArtifactExist w a = true ->
  Storage.SetArtifactURL env a = a ->
  OCIRepositoryReconciler.ociContentConfigChanged (obj w) = false ->
  (forall options url revision,
     OCIRepositoryReconciler.getArtifactURL env (obj w) options = inr url ->
     OCIRepositoryReconciler.getRevision env url options = inr revision ->
     revision = sourcev1.Revision a) ->
  exists r w',
    OCIRepositoryReconciler.reconcile env
      [OCIRepositoryReconciler.reconcileStorage env;
       OCIRepositoryReconciler.reconcileSource env;
       OCIRepositoryReconciler.reconcileArtifact env] w = Done r w' /\
    OCIRepository.GetArtifact (obj w') = Some a /\
    quiet_since (trace w) (trace w').
Proof.
  intros Hlive Ha Hexist Hurl Hsame Hupstream.
  pose proof (Frame_refl a w Ha Hexist) as HF.
  assert (Hend : forall (r : OCIRepositoryReconciler.R) (s : OCIRepositoryReconciler.W),
            Frame a w s ->
            exists r' w',
              @Done OCIRepositoryReconciler.W OCIRepositoryReconciler.R r s = Done r' w' /\
              OCIRepository.GetArtifact (obj w') = Some a /\
              quiet_since (trace w) (trace w')).
  { intros r s (_ & _ & _ & Has & _ & _ & _ & Hq). exists r, s.
    split; [reflexivity|]. split; assumption. }
  assert (Hphases : forall tmpDir s,
            Frame a w s ->
            exists r s',
              OCIRepositoryReconciler.reconcile_phases env (obj w) tmpDir
                [OCIRepositoryReconciler.reconcileStorage env;
                 OCIRepositoryReconciler.reconcileSource env;
                 OCIRepositoryReconciler.reconcileArtifact env] s = Done r s' /\
              Frame a w s').
  { intros tmpDir s HFs. unfold OCIRepositoryReconciler.reconcile_phases. run.
    match goal with
    | |- context [OCIRepositoryReconciler.run_reconcilers ?l ResultEmpty ?s1] =>
        assert (HF1 : Frame a w s1) by frame HFs;
        destruct (run_reconcilers_Frame env tmpDir a w s1 Hlive Hurl Hsame Hupstream HF1)
          as [[res resErr] [s2 [Hrun HF2]]]
    end.
    rewrite Hrun.
    destruct (notify_Frame env (obj w) res resErr a w s2 Ha HF2) as [s3 [Hn HF3]].
    rewrite Hn. eexists _, _. split; [reflexivity | exact HF3]. }
  unfold OCIRepositoryReconciler.reconcile. run. unfold deferred.
  destruct (negb (Z.eqb _ _)); run;
    [destruct (Patch_error env); run
    |destruct (negb (String.eqb _ _)); run; [destruct (Patch_error env); run|]];
    try (apply Hend; frame HF);
    (destruct (util_TempDirForObj env) as [err|tmpDir]; run;
     [unfold OCIRepositoryReconciler.storageFailed; run; apply Hend; frame HF
     |match goal with
      | |- context [OCIRepositoryReconciler.reconcile_phases env (obj w) tmpDir ?l ?s] =>
          assert (HFs : Frame a w s) by frame HF;
          destruct (Hphases tmpDir s HFs) as [r [s' [Hrun HF']]];
          rewrite Hrun; apply Hend; frame HF'
      end]).
Qed.

Lemma reconcile_unchanged_input_witness :
  OCIRepository.GetArtifact (obj Example.after_first_run) = Some Example.stored_artifact /\
  exists r w',
    OCIRepositoryReconciler.reconcile Example.env
      [OCIRepositoryReconciler.reconcileStorage Example.env;
       OCIRepositoryReconciler.reconcileSource Example.env;
       OCIRepositoryReconciler.reconcileArtifact Example.env]
      Example.after_first_run = Done r w' /\
    OCIRepository.GetArtifact (obj w') = Some Example.stored_artifact /\
    quiet_since (trace Example.after_first_run) (trace w').
Proof.
  split; [vm_compute; reflexivity|].
  apply (reconcile_unchanged_input Example.env Example.after_first_run
           Example.stored_artifact).
  - vm_compute. reflexivity.
  - vm_compute. reflexivity.
  - vm_compute. reflexivity.
  - vm_compute. reflexivity.
  - vm_compute. reflexivity.
  - intros options url revision Hurl Hrev.
    vm_compute in Hurl. injection Hurl as <-.
    vm_compute in Hrev. injection Hrev as <-.
    reflexivity.
Defined.

(** ** Revisions, URLs, layers and options of an OCIRepository *)

Lemma all_hex_no_slash (s : string) :
  all_hex s = true -> strings.Contains s "/"%char = false.
Proof.
  induction s as [|c s IH]; simpl; [reflexivity|].
  intros H. apply andb_prop in H. destruct H as [Hc Hs].
  rewrite (IH Hs), orb_false_r.
  destruct (Ascii.eqb c "/"%char) eqn:E; [|reflexivity].
  apply Ascii.eqb_eq in E. subst c. discriminate.
Qed.

Lemma NewHash_all_hex (s : string) (h : Hash) :
  NewHash s = inr h -> all_hex (Hex h) = true.
Proof.
  unfold NewHash. destruct (strings.Split s ":"%char) as [|alg [|hex [|x l]]];
    try discriminate.
  destruct (all_hex hex) eqn:Hh; [|discriminate]. cbn [negb].
  destruct (negb (String.eqb alg "sha256")); [discriminate|].
  destruct (negb (Nat.eqb (String.length hex) 64)); [discriminate|].
  intros H. injection H as <-. exact Hh.
Qed.

Lemma last_elem_Split_app (t hex : string) :
  strings.Contains hex "/"%char = false ->
  last_elem (strings.Split (t ++ String "/"%char hex) "/"%char) = hex.
Proof.
  intros H. unfold last_elem. rewrite Split_app_sep, (Split_no_sep hex _ H).
  apply last_last.
Qed.

(** X1. [digestFromRevision] gives back the digest of every revision
    [getRevision] builds: the hex of the digest the registry reported,
    whether the revision carries a tag or not. *)
Theorem digestFromRevision_getRevision (env : Env) (url revision : string)
    (options : list RegistryOption) :
  OCIRepositoryReconciler.getRevision env url options = inr revision ->
  exists digest h,
    crane_Digest env url options = inr digest /\
    NewHash digest = inr h /\
    OCIRepositoryReconciler.digestFromRevision revision = Hex h.
Proof.
  unfold OCIRepositoryReconciler.getRevision.
  destruct (name_ParseReference env url) as [err|ref]; [discriminate|].
  destruct (crane_Digest env url options) as [err|digest]; [discriminate|].
  destruct (NewHash digest) as [err|h] eqn:Hhash; [discriminate|].
  intros H. injection H as <-. exists digest, h. split; [reflexivity|]. split; [exact Hhash|].
  pose proof (all_hex_no_slash _ (NewHash_all_hex _ _ Hhash)) as Hslash.
  unfold OCIRepositoryReconciler.digestFromRevision.
  destruct (negb (String.eqb _ "")).
  - apply last_elem_Split_app. exact Hslash.
  - unfold last_elem. rewrite (Split_no_sep _ _ Hslash). reflexivity.
Qed.

Lemma digestFromRevision_getRevision_witness :
  exists digest h,
    crane_Digest Example.env "ghcr.io/org/repo:1.10.0" [] = inr digest /\
    NewHash digest = inr h /\
    OCIRepositoryReconciler.digestFromRevision ("1.10.0/" ++ Example.digest_hex) = Hex h.
Proof.
  exact (digestFromRevision_getRevision Example.env "ghcr.io/org/repo:1.10.0"
           ("1.10.0/" ++ Example.digest_hex) [] eq_refl).
Defined.

Lemma Split_Contains (s : string) (sep : ascii) :
  match strings.Split s sep with
  | _ :: _ :: _ => strings.Contains s sep = true
  | _ => strings.Contains s sep = false
  end.
Proof.
  induction s as [|c s IH]; simpl; [reflexivity|].
  destruct (Ascii.eqb c sep); simpl.
  - pose proof (Split_nonempty s sep). destruct (strings.Split s sep); [contradiction|reflexivity].
  - destruct (strings.Split s sep) as [|p [|q ps]]; exact IH.
Qed.

(** X2. [parseRepositoryURL] accepts exactly the URLs that start with
    [oci://], parse as a reference and have no colon after the registry
    (no tag); the URL it gives is the registry and the repository of the
    reference. *)
Theorem parseRepositoryURL_accepts (env : Env) (o : OCIRepository.T) (url : string) :
  OCIRepositoryReconciler.parseRepositoryURL env o = inr url <->
  strings.HasPrefix (OCIRepository.URL (OCIRepository.spec o))
    sourcev1.OCIRepositoryPrefix = true /\
  exists ref,
    name_ParseReference env
      (strings.TrimPrefix (OCIRepository.URL (OCIRepository.spec o))
         sourcev1.OCIRepositoryPrefix) = inr ref /\
    strings.Contains
      (strings.TrimPrefix
         (strings.TrimPrefix (OCIRepository.URL (OCIRepository.spec o))
            sourcev1.OCIRepositoryPrefix)
         (RegistryStr ref)) ":"%char = false /\
    url = Context_Name ref.
Proof.
  unfold OCIRepositoryReconciler.parseRepositoryURL.
  destruct (strings.HasPrefix _ sourcev1.OCIRepositoryPrefix); cbn [negb].
  2:{ split; [discriminate | intros [H _]; discriminate]. }
  destruct (name_ParseReference env _) as [err|ref].
  { split; [discriminate | intros [_ [ref [H _]]]; discriminate]. }
  pose proof (Split_Contains
                (strings.TrimPrefix
                   (strings.TrimPrefix (OCIRepository.URL (OCIRepository.spec o))
                      sourcev1.OCIRepositoryPrefix) (RegistryStr ref)) ":"%char) as HS.
  destruct (strings.Split _ ":"%char) as [|p [|q ps]].
  - split.
    + intros H. injection H as <-. split; [reflexivity|]. exists ref. repeat split. exact HS.
    + intros [_ [ref' [Hp [_ ->]]]]. injection Hp as <-. reflexivity.
  - split.
    + intros H. injection H as <-. split; [reflexivity|]. exists ref. repeat split. exact HS.
    + intros [_ [ref' [Hp [_ ->]]]]. injection Hp as <-. reflexivity.
  - split; [discriminate|].
    intros [_ [ref' [Hp [Hc _]]]]. injection Hp as <-. congruence.
Qed.

Lemma find_layer_Some (mediaType : string) (i : nat) (layers : list Layer) (l : Layer) :
  OCIRepositoryReconciler.find_layer mediaType i layers = inr (Some l) ->
  exists before after,
    layers = (before ++ l :: after)%list /\
    Layer_MediaType l = inr mediaType /\
    Forall (fun x => exists md, Layer_MediaType x = inr md /\ md <> mediaType) before.
Proof.
  revert i. induction layers as [|x rest IH]; intros i H; simpl in H; [discriminate|].
  destruct (Layer_MediaType x) as [err|md] eqn:Hmd; [discriminate|].
  destruct (String.eqb md mediaType) eqn:E.
  - injection H as <-. apply String.eqb_eq in E. subst md.
    exists [], rest. split; [reflexivity|]. split; [exact Hmd | constructor].
  - destruct (IH _ H) as [before [after [-> [Hl Hb]]]].
    exists (x :: before), after. split; [reflexivity|]. split; [exact Hl|].
    constructor; [|exact Hb]. exists md. split; [exact Hmd|].
    apply String.eqb_neq. exact E.
Qed.

(** X3. What [selectLayer] returns is the compressed content of a layer of
    the image: the first layer when the object selects no media type, else
    the first layer of the selected media type, every layer before it
    having a media type of its own that differs. *)
Theorem selectLayer_first_match (o : OCIRepository.T) (image : Image) (blob : string) :
  OCIRepositoryReconciler.selectLayer o image = inr blob ->
  exists before l after,
    Image_Layers image = inr (before ++ l :: after)%list /\
    Layer_Compressed l = inr blob /\
    if String.eqb (OCIRepository.GetLayerMediaType o) ""
    then before = []
    else Layer_MediaType l = inr (OCIRepository.GetLayerMediaType o) /\
         Forall (fun x => exists md, Layer_MediaType x = inr md /\
                                     md <> OCIRepository.GetLayerMediaType o) before.
Proof.
  unfold OCIRepositoryReconciler.selectLayer.
  destruct (Image_Layers image) as [err|[|first rest]]; try discriminate.
  destruct (String.eqb (OCIRepository.GetLayerMediaType o) ""); cbn [negb].
  - destruct (Layer_Compressed first) as [err|b] eqn:Hc; [discriminate|].
    intros H. injection H as <-. exists [], first, rest. repeat split. exact Hc.
  - destruct (OCIRepositoryReconciler.find_layer _ 0 (first :: rest)) as [err|[l|]] eqn:Hf;
      try discriminate.
    destruct (Layer_Compressed l) as [err|b] eqn:Hc; [discriminate|].
    intros H. injection H as <-.
    destruct (find_layer_Some _ _ _ _ Hf) as [before [after [Heq [Hmd Hb]]]].
    exists before, l, after. rewrite Heq. repeat split; assumption.
Qed.

Lemma selectLayer_first_match_witness :
  exists before l after,
    [mkLayer (inr "application/vnd.oci.image.layer.v1.tar+gzip") (inr "first");
     mkLayer (inr "application/vnd.cncf.helm.chart.content.v1.tar+gzip") (inr "chart");
     mkLayer (inr "application/vnd.cncf.helm.chart.content.v1.tar+gzip") (inr "other")] =
      (before ++ l :: after)%list /\
    Layer_Compressed l = inr "chart" /\
    Layer_MediaType l = inr "application/vnd.cncf.helm.chart.content.v1.tar+gzip" /\
    Forall (fun x => exists md, Layer_MediaType x = inr md /\
                                md <> "application/vnd.cncf.helm.chart.content.v1.tar+gzip")
           before.
Proof.
  destruct (selectLayer_first_match
              (Example.oci_repository_with_selector
                 (OCIRepository.mkLayerSelector
                    "application/vnd.cncf.helm.chart.content.v1.tar+gzip" "copy"))
              (mkImage (inr None)
                 (inr [mkLayer (inr "application/vnd.oci.image.layer.v1.tar+gzip") (inr "first");
                       mkLayer (inr "application/vnd.cncf.helm.chart.content.v1.tar+gzip")
                         (inr "chart");
                       mkLayer (inr "application/vnd.cncf.helm.chart.content.v1.tar+gzip")
                         (inr "other")]))
              "chart" eq_refl) as [before [l [after [Heq [Hc Hrest]]]]].
  exists before, l, after. injection Heq as Heq.
  split; [exact Heq|]. split; [exact Hc | exact Hrest].
Defined.

(** X4. The options [makeRemoteOptions] builds: the registry is called
    insecurely exactly when the object asks for it, and never by the
    verifier; a transport goes to both lists; an authenticator, when given,
    is the only credential and the keychain is left out, else the keychain
    is the credential. *)
Theorem makeRemoteOptions_credentials (o : OCIRepository.T) (tr : option Transport)
    (k : Keychain) (auth : option Authenticator) :
  let opts := OCIRepositoryReconciler.makeRemoteOptions o tr k auth in
  (In crane_Insecure (OCIRepositoryReconciler.craneOpts opts) <->
   OCIRepository.Insecure (OCIRepository.spec o) = true) /\
  ~ In crane_Insecure (OCIRepositoryReconciler.verifyOpts opts) /\
  (forall t, In (WithTransport t) (OCIRepositoryReconciler.craneOpts opts) <-> tr = Some t) /\
  (forall t, In (WithTransport t) (OCIRepositoryReconciler.verifyOpts opts) <-> tr = Some t) /\
  (forall a, In (WithAuth a) (OCIRepositoryReconciler.craneOpts opts) <-> auth = Some a) /\
  (forall a, In (WithAuth a) (OCIRepositoryReconciler.verifyOpts opts) <-> auth = Some a) /\
  (forall k', In (WithAuthFromKeychain k') (OCIRepositoryReconciler.craneOpts opts) <->
              auth = None /\ k' = k) /\
  (forall k', In (WithAuthFromKeychain k') (OCIRepositoryReconciler.verifyOpts opts) <->
              auth = None /\ k' = k).
Proof.
  unfold OCIRepositoryReconciler.makeRemoteOptions, OCIRepositoryReconciler.craneOptions.
  destruct (OCIRepository.Insecure (OCIRepository.spec o)), tr as [t0|], auth as [a0|];
    cbn [OCIRepositoryReconciler.craneOpts OCIRepositoryReconciler.verifyOpts app In];
    repeat split; intros;
    intuition (try discriminate; try congruence; subst; auto 10).
Qed.

(** ** Signatures and keychains *)

Lemma verify_with_keys_true (env : Env) (url : string) (ref : name_Reference)
    (opts : list RegistryOption) (entries : list (string * string))
    (w w' : OCIRepositoryReconciler.W) :
  OCIRepositoryReconciler.verify_with_keys env url ref opts entries w = Next true w' ->
  exists k data verifier sigs,
    In (k, data) entries /\ strings.HasSuffix k ".pub" = true /\
    soci_NewCosignVerifier env opts (Some data) = inr verifier /\
    VerifyImageSignatures env verifier ref = inr (Some sigs) /\
    In (EvRegistry OpVerifySignatures url) (trace w').
Proof.
  revert w. induction entries as [|[k data] rest IH]; intros w H; simpl in H;
    [discriminate|].
  assert (Hrest : forall s,
            OCIRepositoryReconciler.verify_with_keys env url ref opts rest s = Next true w' ->
            exists k0 data0 verifier sigs,
              In (k0, data0) ((k, data) :: rest) /\ strings.HasSuffix k0 ".pub" = true /\
              soci_NewCosignVerifier env opts (Some data0) = inr verifier /\
              VerifyImageSignatures env verifier ref = inr (Some sigs) /\
              In (EvRegistry OpVerifySignatures url) (trace w')).
  { intros s Hs. destruct (IH s Hs) as [k0 [d0 [v [sg [Hin Hr]]]]].
    exists k0, d0, v, sg. split; [right; exact Hin | exact Hr]. }
  destruct (strings.HasSuffix k ".pub") eqn:Hpub; [|exact (Hrest _ H)].
  destruct (soci_NewCosignVerifier env opts (Some data)) as [err|verifier] eqn:Hv;
    run_in H; [discriminate|].
  destruct (VerifyImageSignatures env verifier ref) as [err|[sigs|]] eqn:Hs.
  - exact (Hrest _ H).
  - injection H as <-. exists k, data, verifier, sigs.
    split; [left; reflexivity|]. repeat split; try assumption. left. reflexivity.
  - exact (Hrest _ H).
Qed.

(** X5. With the provider cosign, [verifySignature] answers without error
    only when a verifier has reported signatures for the reference, after a
    call that is on the trace: a verifier of a [.pub] entry of the secret
    the object names, or else the keyless verifier with at least one
    signature. *)
Theorem verifySignature_sound (env : Env) (url : string) (opt : list RegistryOption)
    (w w' : OCIRepositoryReconciler.W) (verify : OCIRepository.OCIRepositoryVerification) :
  OCIRepository.Verify (OCIRepository.spec (obj w)) = Some verify ->
  OCIRepository.VerifyProvider verify = "cosign" ->
  OCIRepositoryReconciler.verifySignature env url opt w = Done None w' ->
  exists ref verifier sigs,
    name_ParseReference env url = inr ref /\
    VerifyImageSignatures env verifier ref = inr (Some sigs) /\
    In (EvRegistry OpVerifySignatures url) (trace w') /\
    match OCIRepository.VerifySecretRef verify with
    | Some secretRef =>
        exists pubSecret k data,
          client_Get_Secret env (metav1.Namespace (OCIRepository.ObjectMeta (obj w)))
            secretRef = inr pubSecret /\
          In (k, data) pubSecret /\ strings.HasSuffix k ".pub" = true /\
          soci_NewCosignVerifier env opt (Some data) = inr verifier
    | None => soci_NewCosignVerifier env opt None = inr verifier /\ sigs <> []
    end.
Proof.
  intros Hverify Hprov. unfold OCIRepositoryReconciler.verifySignature. run.
  rewrite Hverify, Hprov. cbn [String.eqb Ascii.eqb Bool.eqb].
  destruct (name_ParseReference env url) as [err|ref]; run; [discriminate|].
  destruct (OCIRepository.VerifySecretRef verify) as [secretRef|].
  - destruct (client_Get_Secret env _ secretRef) as [err|pubSecret] eqn:Hsecret; run;
      [discriminate|].
    destruct (OCIRepositoryReconciler.verify_with_keys env url ref opt pubSecret w)
      as [b s|r s|msg s] eqn:Hkeys; [| |discriminate].
    + destruct b; run; [|discriminate]. intros H. injection H as <-.
      destruct (verify_with_keys_true _ _ _ _ _ _ _ Hkeys)
        as [k [data [verifier [sigs [Hin [Hpub [Hv [Hs Hev]]]]]]]].
      exists ref, verifier, sigs. split; [reflexivity|]. split; [exact Hs|].
      split; [exact Hev|]. exists pubSecret, k, data. repeat split; assumption.
    + intros H. injection H as -> <-. exfalso. clear - Hkeys.
      revert w Hkeys. induction pubSecret as [|[k data] rest IH]; intros w; simpl;
        [discriminate|].
      destruct (strings.HasSuffix k ".pub"); [|apply IH].
      destruct (soci_NewCosignVerifier env opt (Some data)); run; [discriminate|].
      destruct (VerifyImageSignatures env _ ref) as [err|[sigs|]];
        [apply IH | discriminate | apply IH].
  - destruct (soci_NewCosignVerifier env opt None) as [err|verifier] eqn:Hv; run;
      [discriminate|].
    destruct (VerifyImageSignatures env verifier ref) as [err|[[|sig sigs]|]] eqn:Hs; run;
      try discriminate.
    intros H. injection H as <-.
    exists ref, verifier, (sig :: sigs). split; [reflexivity|]. split; [exact Hs|].
    split; [left; reflexivity|]. split; [reflexivity | discriminate].
Qed.

Lemma verifySignature_sound_witness :
  exists ref verifier sigs,
    name_ParseReference Example.env "ghcr.io/org/repo" = inr ref /\
    VerifyImageSignatures Example.env verifier ref = inr (Some sigs) /\
    In (EvRegistry OpVerifySignatures "ghcr.io/org/repo")
       [EvRegistry (T := OCIRepository.T) OpVerifySignatures "ghcr.io/org/repo"] /\
    soci_NewCosignVerifier Example.env [] None = inr verifier /\ sigs <> [].
Proof.
  exact (verifySignature_sound Example.env "ghcr.io/org/repo" []
           (Example.oci_repository_world
              (Example.oci_repository None [sourcev1.SourceFinalizer] false false "generic"
                 None (Some (OCIRepository.mkVerification "cosign" None)) None) [])
           (log (EvRegistry OpVerifySignatures "ghcr.io/org/repo")
              (Example.oci_repository_world
                 (Example.oci_repository None [sourcev1.SourceFinalizer] false false "generic"
                    None (Some (OCIRepository.mkVerification "cosign" None)) None) []))
           (OCIRepository.mkVerification "cosign" None)
           eq_refl eq_refl eq_refl).
Defined.

(** The verification and the pull of [reconcileSource] (lines 849-892), for
    a provider other than cosign on an object whose artifact is up to date
    and whose verification is due. *)
Lemma reconcileSource_pull_not_verified (env : Env) (dir url revision : string)
    (opts : OCIRepositoryReconciler.remoteOptions) (w : OCIRepositoryReconciler.W)
    (verify : OCIRepository.OCIRepositoryVerification) :
  OCIRepository.Verify (OCIRepository.spec (obj w)) = Some verify ->
  String.eqb (OCIRepository.VerifyProvider verify) "cosign" = false ->
  OCIRepository.Insecure (OCIRepository.spec (obj w)) = false ->
  verification_due (obj w) revision = true ->
  sourcev1.HasRevision (OCIRepository.GetArtifact (obj w)) revision = true ->
  OCIRepositoryReconciler.ociContentConfigChanged (obj w) = false ->
  exists w',
    OCIRepositoryReconciler.reconcileSource_pull env dir url revision opts w =
      Return (ResultSuccess, None) w' /\
    has_condition (obj w') sourcev1.SourceVerifiedCondition metav1.ConditionTrue
      meta.SucceededReason /\
    OCIRepository.GetArtifact (obj w') = OCIRepository.GetArtifact (obj w) /\
    files w' = files w /\
    trace w' = trace w.
Proof.
  intros Hverify Hprov Hinsecure Hdue Hrev Hsame.
  unfold OCIRepositoryReconciler.reconcileSource_pull. run.
  rewrite Hverify. unfold verification_due in Hdue. proj_in Hdue. rewrite Hdue.
  rewrite Hinsecure. run.
  unfold OCIRepositoryReconciler.verifySignature. run. rewrite Hverify, Hprov. run.
  change (OCIRepository.Artifact (OCIRepository.status (obj w)))
    with (OCIRepository.GetArtifact (obj w)).
  rewrite Hrev.
  change (OCIRepositoryReconciler.ociContentConfigChanged
            (OCIRepository.set_Conditions _ (obj w)))
    with (OCIRepositoryReconciler.ociContentConfigChanged (obj w)).
  rewrite Hsame. run.
  eexists. split; [reflexivity|]. split; [|repeat split].
  unfold has_condition. proj. eexists.
  rewrite Get_Delete_other by reflexivity.
  split; [apply Get_MarkTrue | split; reflexivity].
Qed.

(** X6. A verification provider other than cosign is not verified at all.
    On a secure OCIRepository whose credentials, transport, artifact URL and
    revision are obtained, whose artifact is up to date and whose
    verification is due, the source phase returns success and records
    SourceVerified=True with the reason Succeeded, although it called no
    verifier; it pulls nothing, patches nothing and records no event. *)
Theorem reconcileSource_unknown_provider_not_verified (env : Env) (dir : string)
    (w w1 : OCIRepositoryReconciler.W) (k : Keychain) (auth : option Authenticator)
    (tr : option Transport) (url revision : string)
    (verify : OCIRepository.OCIRepositoryVerification) :
  OCIRepository.Verify (OCIRepository.spec (obj w)) = Some verify ->
  String.eqb (OCIRepository.VerifyProvider verify) "cosign" = false ->
  OCIRepository.Insecure (OCIRepository.spec (obj w)) = false ->
  OCIRepositoryReconciler.reconcileSource_credentials env w = Next (k, auth) w1 ->
  OCIRepositoryReconciler.transport env (obj w) = inr tr ->
  OCIRepositoryReconciler.getArtifactURL env (obj w)
    (OCIRepositoryReconciler.craneOpts
       (OCIRepositoryReconciler.makeRemoteOptions (obj w) tr k auth)) = inr url ->
  OCIRepositoryReconciler.getRevision env url
    (OCIRepositoryReconciler.craneOpts
       (OCIRepositoryReconciler.makeRemoteOptions (obj w) tr k auth)) = inr revision ->
  verification_due (obj w) revision = true ->
  metav1.Generation (OCIRepository.ObjectMeta (obj w)) <> 0%Z ->
  sourcev1.HasRevision (OCIRepository.GetArtifact (obj w)) revision = true ->
  OCIRepositoryReconciler.ociContentConfigChanged (obj w) = false ->
  exists w',
    OCIRepositoryReconciler.reconcileSource env dir w = Done (ResultSuccess, None) w' /\
    has_condition (obj w') sourcev1.SourceVerifiedCondition metav1.ConditionTrue
      meta.SucceededReason /\
    files w' = files w /\
    trace w' = trace w.
Proof.
  intros Hverify Hprov Hinsecure Hcred Htr Hurl Hrev Hdue Hgen Hhas Hsame.
  pose proof (verification_due_after_cleanup _ _ Hgen Hdue) as Hdue'.
  destruct (reconcileSource_credentials_Next _ _ _ _ _ Hcred) as [_ Hall].
  assert (Hfetch : forall w0 : OCIRepositoryReconciler.W,
            OCIRepository.spec (obj w0) = OCIRepository.spec (obj w) ->
            OCIRepository.ObjectMeta (obj w0) = OCIRepository.ObjectMeta (obj w) ->
            OCIRepository.GetArtifact (obj w0) = OCIRepository.GetArtifact (obj w) ->
            OCIRepositoryReconciler.ociContentConfigChanged (obj w0) =
              OCIRepositoryReconciler.ociContentConfigChanged (obj w) ->
            OCIRepositoryReconciler.transport env (obj w0) =
              OCIRepositoryReconciler.transport env (obj w) ->
            (forall opts, OCIRepositoryReconciler.getArtifactURL env (obj w0) opts =
                          OCIRepositoryReconciler.getArtifactURL env (obj w) opts) ->
            (forall t k' a, OCIRepositoryReconciler.makeRemoteOptions (obj w0) t k' a =
                            OCIRepositoryReconciler.makeRemoteOptions (obj w) t k' a) ->
            verification_due (obj w0) revision = true ->
            files w0 = files w -> trace w0 = trace w ->
            exists w',
              OCIRepositoryReconciler.reconcileSource_fetch env dir k auth w0 =
                Return (ResultSuccess, None) w' /\
              has_condition (obj w') sourcev1.SourceVerifiedCondition metav1.ConditionTrue
                meta.SucceededReason /\
              files w' = files w /\ trace w' = trace w).
  { intros w0 Hspec Hmeta Hart Hcfg Htr0 Hurl0 Hopts0 Hdue0 Hf0 Ht0.
    unfold OCIRepositoryReconciler.reconcileSource_fetch. run.
    rewrite Htr0, Htr. run. rewrite Hopts0, Hurl0, Hurl. run. rewrite Hrev. run.
    destruct (reconcileSource_pull_not_verified env dir url revision
                (OCIRepositoryReconciler.makeRemoteOptions (obj w) tr k auth)
                (set_scratch (sourcev1.mkArtifact "" "" revision "" 0 0 None) w0) verify)
      as (w' & Hpull & Hcond & Hart' & Hf' & Htrace).
    - proj. rewrite Hspec. exact Hverify.
    - exact Hprov.
    - proj. rewrite Hspec. exact Hinsecure.
    - proj. exact Hdue0.
    - proj. rewrite Hart. exact Hhas.
    - proj. rewrite Hcfg. exact Hsame.
    - cbv beta iota zeta delta [body bind call deferred] in *. rewrite Hpull.
      unfold OCIRepositoryReconciler.observe_revision. run.
      change (OCIRepository.Artifact (OCIRepository.status (obj w')))
        with (OCIRepository.GetArtifact (obj w')).
      proj_in Hart'. proj_in Hf'. proj_in Htrace.
      rewrite Hart', Hart. proj. rewrite Hhas. run.
      exists w'. split; [reflexivity|]. split; [exact Hcond|].
      split; congruence. }
  unfold OCIRepositoryReconciler.reconcileSource. run.
  change (condition_list.IsFalse (OCIRepository.GetConditions (obj w))
            sourcev1.SourceVerifiedCondition)
    with (conditions.IsFalse (obj w) sourcev1.SourceVerifiedCondition).
  destruct (conditions.IsFalse (obj w) sourcev1.SourceVerifiedCondition).
  - set (w0 := set_obj (conditions.Delete sourcev1.SourceVerifiedCondition (obj w)) w).
    change (set_obj _ w) with w0.
    rewrite (Hall w0 eq_refl eq_refl).
    destruct (Hfetch w0) as (w' & Hrun & Hrest); try reflexivity; [exact Hdue'|].
    rewrite Hrun. exists w'. split; [reflexivity | exact Hrest].
  - rewrite (Hall w eq_refl eq_refl).
    destruct (Hfetch w) as (w' & Hrun & Hrest); try reflexivity; [exact Hdue'|].
    rewrite Hrun. exists w'. split; [reflexivity | exact Hrest].
Qed.

Lemma reconcileSource_unknown_provider_not_verified_witness :
  exists w',
    OCIRepositoryReconciler.reconcileSource Example.env "/tmp/work"
      (Example.oci_repository_world
         (Example.oci_repository None [sourcev1.SourceFinalizer] false false "generic" None
            (Some (OCIRepository.mkVerification "notation" None))
            (Some Example.stored_artifact)) []) = Done (ResultSuccess, None) w' /\
    has_condition (obj w') sourcev1.SourceVerifiedCondition metav1.ConditionTrue
      meta.SucceededReason /\
    files w' = [] /\
    trace w' = [].
Proof.
  apply (reconcileSource_unknown_provider_not_verified Example.env "/tmp/work"
           (Example.oci_repository_world
              (Example.oci_repository None [sourcev1.SourceFinalizer] false false "generic"
                 None (Some (OCIRepository.mkVerification "notation" None))
                 (Some Example.stored_artifact)) [])
           (Example.oci_repository_world
              (Example.oci_repository None [sourcev1.SourceFinalizer] false false "generic"
                 None (Some (OCIRepository.mkVerification "notation" None))
                 (Some Example.stored_artifact)) [])
           Anonymous None None "ghcr.io/org/repo" ("latest/" ++ Example.digest_hex)
           (OCIRepository.mkVerification "notation" None)).
  - reflexivity.
  - reflexivity.
  - reflexivity.
  - reflexivity.
  - reflexivity.
  - reflexivity.
  - reflexivity.
  - reflexivity.
  - discriminate.
  - reflexivity.
  - reflexivity.
Defined.

Lemma get_pull_secrets_outcome (env : Env) (namespace : string) (names : list string)
    (w : OCIRepositoryReconciler.W) :
  match OCIRepositoryReconciler.get_pull_secrets env namespace names w with
  | Next _ s => s = w
  | Return r s =>
      exists name err,
        In name names /\ client_Get_Secret env namespace name = inl err /\ r = inl err /\
        s = log (EvEvent eventv1.EventTypeTrace sourcev1.AuthenticationFailedReason []
                   ("auth secret '" ++ name ++ "' not found")) w
  | Panic _ _ => False
  end.
Proof.
  induction names as [|n names IH]; simpl; [reflexivity|].
  destruct (client_Get_Secret env namespace n) as [err|secret] eqn:Hn; run.
  - exists n, err. split; [left; reflexivity|]. repeat split. exact Hn.
  - destruct (OCIRepositoryReconciler.get_pull_secrets env namespace names w)
      as [a s|r s|msg s]; [exact IH | | exact IH].
    destruct IH as [name [err [Hin Hr]]]. exists name, err.
    split; [right; exact Hin | exact Hr].
Qed.

(** X7. [keychain] always returns. It leaves the world as it is, except
    when a pull secret cannot be read: then it returns the error of that
    read and records one AuthenticationFailed trace event that names the
    secret. Without a secret reference and a service account the keychain is
    the anonymous one. *)
Theorem keychain_outcome (env : Env) (w : OCIRepositoryReconciler.W) :
  exists r w1,
    OCIRepositoryReconciler.keychain env w = Done r w1 /\
    (w1 = w \/
     exists name err,
       client_Get_Secret env (metav1.Namespace (OCIRepository.ObjectMeta (obj w))) name =
         inl err /\
       r = inl err /\
       w1 = log (EvEvent eventv1.EventTypeTrace sourcev1.AuthenticationFailedReason []
                   ("auth secret '" ++ name ++ "' not found")) w) /\
    (OCIRepository.SecretRef (OCIRepository.spec (obj w)) = None ->
     OCIRepository.ServiceAccountName (OCIRepository.spec (obj w)) = "" ->
     r = inr Anonymous).
Proof.
  unfold OCIRepositoryReconciler.keychain. run.
  destruct (OCIRepository.ServiceAccountName (OCIRepository.spec (obj w)) =? "") eqn:Hsa;
    cbn [negb]; run.
  - destruct (OCIRepository.SecretRef (OCIRepository.spec (obj w))) as [name|] eqn:Hsecret.
    + destruct (Nat.eqb _ 0); run.
      * eexists _, _. split; [reflexivity|]. split; [left; reflexivity | discriminate].
      * match goal with
        | |- context [OCIRepositoryReconciler.get_pull_secrets env ?ns ?names w] =>
            pose proof (get_pull_secrets_outcome env ns names w) as G;
            destruct (OCIRepositoryReconciler.get_pull_secrets env ns names w)
        end; [| |contradiction].
        -- subst. eexists _, _. split; [reflexivity|].
           split; [left; reflexivity | discriminate].
        -- destruct G as [n [err [_ [Hn [-> ->]]]]]. eexists _, _. split; [reflexivity|].
           split; [right; exists n, err; repeat split; exact Hn | discriminate].
    + cbn [List.length Nat.eqb]. run. eexists _, _. split; [reflexivity|].
      split; [left; reflexivity | reflexivity].
  - apply String.eqb_neq in Hsa.
    destruct (client_Get_ServiceAccount env _ _) as [err|ips]; run.
    + eexists _, _. split; [reflexivity|]. split; [left; reflexivity | contradiction].
    + destruct (Nat.eqb _ 0); run.
      * eexists _, _. split; [reflexivity|]. split; [left; reflexivity | contradiction].
      * match goal with
        | |- context [OCIRepositoryReconciler.get_pull_secrets env ?ns ?names w] =>
            pose proof (get_pull_secrets_outcome env ns names w) as G;
            destruct (OCIRepositoryReconciler.get_pull_secrets env ns names w)
        end; [| |contradiction].
        -- subst. eexists _, _. split; [reflexivity|].
           split; [left; reflexivity | contradiction].
        -- destruct G as [n [err [_ [Hn [-> ->]]]]]. eexists _, _. split; [reflexivity|].
           split; [right; exists n, err; repeat split; exact Hn | contradiction].
Qed.

(** ** The artifact phase of an OCIRepository *)

Lemma pointer_StringEqual_refl (a : option string) : pointer_StringEqual a a = true.
Proof. destruct a; simpl; [apply String.eqb_refl | reflexivity]. Qed.

Lemma layerSelectorEqual_refl (a : option OCIRepository.OCILayerSelector) :
  OCIRepositoryReconciler.layerSelectorEqual a a = true.
Proof.
  destruct a; simpl; [|reflexivity].
  unfold OCIRepository.OCILayerSelector_eqb. now rewrite !String.eqb_refl.
Qed.

Lemma SetArtifactURL_Revision (env : Env) (a : sourcev1.Artifact) :
  sourcev1.Revision (Storage.SetArtifactURL env a) = sourcev1.Revision a.
Proof. unfold Storage.SetArtifactURL. destruct (String.eqb _ _); reflexivity. Qed.

Lemma SetArtifactURL_Path (env : Env) (a : sourcev1.Artifact) :
  sourcev1.Path (Storage.SetArtifactURL env a) = sourcev1.Path a.
Proof. unfold Storage.SetArtifactURL. destruct (String.eqb _ _); reflexivity. Qed.

Ltac artifact_stored H :=
  unfold Storage.unlock in H; run_in H;
  let Hc := fresh "Hc" in
  match type of H with context [if ?c then _ else _] =>
    assert (Hc : c = true);
    [ unfold sourcev1.HasRevision, OCIRepositoryReconciler.ociContentConfigChanged; proj;
      rewrite Revision_NewArtifactFor, String.eqb_refl, pointer_StringEqual_refl,
        layerSelectorEqual_refl; reflexivity
    | rewrite Hc in H; run_in H; injection H as <-;
      eexists; proj; split; [reflexivity|];
      split; [apply Revision_NewArtifactFor|];
      split; [unfold OCIRepositoryReconciler.ociContentConfigChanged; proj;
              rewrite pointer_StringEqual_refl, layerSelectorEqual_refl; reflexivity|];
      split; [eexists; split; [apply Get_MarkTrue | split; reflexivity]|];
      split; [rewrite Get_MarkTrue_other by reflexivity; apply Get_Delete|];
      right; unfold Storage.ArtifactExist; proj;
      cbn [existsb]; rewrite String.eqb_refl; reflexivity ]
  end.

(** X8. After an artifact phase that succeeds, the status holds an artifact
    of the revision the source phase resolved, the content configuration of
    the spec is the observed one, ArtifactInStorage is True and
    ArtifactOutdated is gone. The artifact is the one the phase found, or
    one whose file the phase has written to the storage. *)
Theorem reconcileArtifact_success (env : Env) (dir : string)
    (w w' : OCIRepositoryReconciler.W) :
  OCIRepositoryReconciler.reconcileArtifact env dir w = Done (ResultSuccess, None) w' ->
  exists a,
    OCIRepository.GetArtifact (obj w') = Some a /\
    sourcev1.Revision a = sourcev1.Revision (scratch w) /\
    OCIRepositoryReconciler.ociContentConfigChanged (obj w') = false /\
    has_condition (obj w') sourcev1.ArtifactInStorageCondition metav1.ConditionTrue
      meta.SucceededReason /\
    conditions.Get (obj w') sourcev1.ArtifactOutdatedCondition = None /\
    (OCIRepository.GetArtifact (obj w') = OCIRepository.GetArtifact (obj w) \/
     Storage.ArtifactExist w' a = true).
Proof.
  intros H. unfold OCIRepositoryReconciler.reconcileArtifact in H.
  unfold deferred at 1 in H. run_in H.
  rewrite !Revision_NewArtifactFor in H.
  destruct (sourcev1.HasRevision (OCIRepository.GetArtifact (obj w))
              (sourcev1.Revision (scratch w)) &&
            negb (OCIRepositoryReconciler.ociContentConfigChanged (obj w))) eqn:Hup;
    run_in H.
  - change (OCIRepository.Artifact (OCIRepository.status (obj w)))
      with (OCIRepository.GetArtifact (obj w)) in H.
    rewrite Hup in H. run_in H. injection H as <-.
    apply andb_prop in Hup. destruct Hup as [Hrev Hsame]. apply negb_true_iff in Hsame.
    destruct (OCIRepository.GetArtifact (obj w)) as [a|] eqn:Ha; [|discriminate].
    exists a. proj. split; [exact Ha|].
    split; [apply String.eqb_eq; exact Hrev|].
    split; [exact Hsame|].
    split; [eexists; split; [apply Get_MarkTrue | split; reflexivity]|].
    split; [|left; exact Ha].
    rewrite Get_MarkTrue_other by reflexivity. apply Get_Delete.
  - unfold OCIRepositoryReconciler.storageFailed in H.
    destruct (os_Stat env dir) as [err|isDir]; run_in H;
      [destruct (_ && _) in H; discriminate|].
    destruct isDir; run_in H; [|destruct (_ && _) in H; discriminate].
    unfold Storage.MkdirAll in H. run_in H.
    destruct (MkdirAll_error env _); run_in H; [destruct (_ && _) in H; discriminate|].
    unfold Storage.Lock in H. run_in H.
    destruct (Lock_error env _); run_in H; [destruct (_ && _) in H; discriminate|].
    unfold deferred in H. run_in H.
    destruct (String.eqb (OCIRepository.GetLayerOperation (obj w)) sourcev1.OCILayerCopy).
    + unfold Storage.CopyFromPath in H. run_in H.
      destruct (CopyFromPath_error env _); run_in H;
        [destruct (_ && _) in H; discriminate|].
      unfold Storage.Symlink in H. run_in H.
      destruct (Symlink_error env _); run_in H.
      * change (negb ("" =? "")%string) with false in H. run_in H.
        artifact_stored H.
      * destruct (negb (String.eqb _ "")); run_in H; artifact_stored H.
    + destruct (sourceignore_LoadIgnorePatterns env _); run_in H;
        [destruct (_ && _) in H; discriminate|].
      unfold Storage.Archive in H. run_in H.
      destruct (Archive_error env _); run_in H;
        [destruct (_ && _) in H; discriminate|].
      unfold Storage.Symlink in H. run_in H.
      destruct (Symlink_error env _); run_in H.
      * change (negb ("" =? "")%string) with false in H. run_in H.
        artifact_stored H.
      * destruct (negb (String.eqb _ "")); run_in H; artifact_stored H.
Qed.

Lemma reconcileArtifact_success_witness :
  exists w',
    OCIRepositoryReconciler.reconcileArtifact Example.env "/tmp/work"
      (mkWorld
         (Example.oci_repository None [sourcev1.SourceFinalizer] false false "generic" None
            None None)
         (Example.source_artifact "" ("latest/" ++ Example.digest_hex)) [] [("app.yaml", "kind: Deployment")] []) =
      Done (ResultSuccess, None) w' /\
    exists a,
      OCIRepository.GetArtifact (obj w') = Some a /\
      sourcev1.Revision a = "latest/" ++ Example.digest_hex /\
      OCIRepositoryReconciler.ociContentConfigChanged (obj w') = false /\
      has_condition (obj w') sourcev1.ArtifactInStorageCondition metav1.ConditionTrue
        meta.SucceededReason /\
      conditions.Get (obj w') sourcev1.ArtifactOutdatedCondition = None /\
      (OCIRepository.GetArtifact (obj w') = None \/ Storage.ArtifactExist w' a = true).
Proof.
  eexists. split; [vm_compute; reflexivity|].
  apply (reconcileArtifact_success Example.env "/tmp/work"
           (mkWorld
              (Example.oci_repository None [sourcev1.SourceFinalizer] false false "generic"
                 None None None)
              (Example.source_artifact "" ("latest/" ++ Example.digest_hex)) []
              [("app.yaml", "kind: Deployment")] [])).
  vm_compute. reflexivity.
Defined.

(** ** The transport of an OCIRepository *)

(** X9. A transport that [transport] returns comes from the certificate
    secret the object names: it carries a client certificate exactly when
    the secret has a certificate, which then needs its key and parses as a
    pair with it (a key alone is ignored), and it trusts the CA of the
    secret on top of the system pool exactly when the secret has one. *)
Theorem transport_certificates (env : Env) (o : OCIRepository.T) (t : Transport) :
  OCIRepositoryReconciler.transport env o = inr (Some t) ->
  exists name secret,
    OCIRepository.CertSecretRef (OCIRepository.spec o) = Some name /\
    name <> "" /\
    client_Get_Secret env (metav1.Namespace (OCIRepository.ObjectMeta o)) name = inr secret /\
    match map_lookup secret oci.ClientCert with
    | Some cert =>
        exists key pair,
          map_lookup secret oci.ClientKey = Some key /\
          tls_X509KeyPair env cert key = inr pair /\
          Certificates t = [pair]
    | None => Certificates t = []
    end /\
    match map_lookup secret oci.CACert with
    | Some ca =>
        exists pool, x509_SystemCertPool env = inr pool /\ RootCAs t = Some (pool ++ ca)
    | None => RootCAs t = None
    end.
Proof.
  unfold OCIRepositoryReconciler.transport. intros H.
  destruct (OCIRepository.CertSecretRef (OCIRepository.spec o)) as [name|]; [|discriminate].
  destruct (String.eqb name "") eqn:Hname; [discriminate|].
  destruct (client_Get_Secret env _ name) as [err|secret] eqn:Hsecret; [discriminate|].
  exists name, secret. split; [reflexivity|].
  split; [intros ->; discriminate Hname|]. split; [exact Hsecret|].
  destruct (map_lookup secret oci.ClientCert) as [cert|].
  - destruct (map_lookup secret oci.ClientKey) as [key|]; [|discriminate].
    destruct (tls_X509KeyPair env cert key) as [err|pair] eqn:Hpair; [discriminate|].
    destruct (map_lookup secret oci.CACert) as [ca|].
    + destruct (x509_SystemCertPool env) as [err|pool] eqn:Hpool; [discriminate|].
      injection H as <-. split; [exists key, pair | exists pool]; auto.
    + injection H as <-. split; [exists key, pair|]; auto.
  - destruct (map_lookup secret oci.CACert) as [ca|].
    + destruct (x509_SystemCertPool env) as [err|pool] eqn:Hpool; [discriminate|].
      injection H as <-. split; [|exists pool]; auto.
    + injection H as <-. auto.
Qed.

Lemma transport_certificates_witness :
  exists name secret,
    Some "tls" = Some name /\ name <> "" /\
    Example.one_secret "tls" [("certFile", "cert"); ("keyFile", "key"); ("caFile", "ca")]
      "flux-system" name = inr secret /\
    match map_lookup secret oci.ClientCert with
    | Some cert =>
        exists key pair,
          map_lookup secret oci.ClientKey = Some key /\
          @inr error string cert = inr pair /\
          ["cert"] = [pair]
    | None => ["cert"] = []
    end /\
    match map_lookup secret oci.CACert with
    | Some ca => exists pool, @inr error string "system" = inr pool /\ Some "systemca" = Some (pool ++ ca)
    | None => Some "systemca" = None
    end.
Proof.
  exact (transport_certificates
           (Example.env_with_cluster
              (Example.one_secret "tls"
                 [("certFile", "cert"); ("keyFile", "key"); ("caFile", "ca")])
              Example.no_repository Example.no_git)
           (Example.oci_repository_with_cert "tls")
           (mkTransport ["cert"] (Some "systemca")) eq_refl).
Defined.

(** ** The notification of an OCIRepository run *)

Lemma cons_neq_self {A} (x : A) (l : list A) : x :: l <> l.
Proof.
  intros H. apply (f_equal (@List.length A)) in H. simpl in H. lia.
Qed.

Lemma string_append_nil_r (s : string) : (s ++ "")%string = s.
Proof. induction s as [|c s IH]; simpl; [reflexivity | now rewrite IH]. Qed.

(** X10. [notify] changes nothing but the events, and records at most one: a
    Normal event annotated with the revision and the checksum of the artifact
    of the object, whose message names that revision and the URL of the
    object. The reason of the event is NewArtifact when the run ended in
    success without error and the artifact has another checksum than the
    artifact of the object before the run (the empty checksum when there was
    none), and Succeeded when the checksum is the same and the run recovered
    from a failure; in every other case [notify] records nothing. *)
Theorem notify_new_artifact (env : Env) (oldObj : OCIRepository.T) (res : Result)
    (resErr : option error) (w : OCIRepositoryReconciler.W) :
  let oldChecksum :=
    match OCIRepository.GetArtifact oldObj with
    | Some a => sourcev1.Checksum a
    | None => ""
    end in
  let succeeded := resErr = None /\ res = ResultSuccess in
  let recovered :=
    FailureRecovery env (OCIRepository.GetConditions oldObj)
      (OCIRepository.GetConditions (obj w))
      OCIRepositoryReconciler.ociRepositoryFailConditions = true in
  let event (reason : string) (a : sourcev1.Artifact) (origin : string) :=
    EvEvent corev1.EventTypeNormal reason
      [(sourcev1.GroupVersion_Group ++ "/" ++ eventv1.MetaRevisionKey, sourcev1.Revision a);
       (sourcev1.GroupVersion_Group ++ "/" ++ eventv1.MetaChecksumKey, sourcev1.Checksum a)]
      (("stored artifact with revision '" ++ sourcev1.Revision a ++ "' from '" ++
        OCIRepository.URL (OCIRepository.spec (obj w)) ++ "'") ++ origin) in
  exists w',
    OCIRepositoryReconciler.notify env oldObj res resErr w = Next tt w' /\
    obj w' = obj w /\ files w' = files w /\ scratch w' = scratch w /\
    (forall a,
       succeeded -> OCIRepository.GetArtifact (obj w) = Some a ->
       sourcev1.Checksum a <> oldChecksum ->
       exists origin, trace w' = event "NewArtifact" a origin :: trace w) /\
    (forall a,
       succeeded -> OCIRepository.GetArtifact (obj w) = Some a ->
       sourcev1.Checksum a = oldChecksum -> recovered ->
       exists origin, trace w' = event meta.SucceededReason a origin :: trace w) /\
    (~ (succeeded /\
        exists a, OCIRepository.GetArtifact (obj w) = Some a /\
                  (sourcev1.Checksum a <> oldChecksum \/ recovered)) ->
     trace w' = trace w) /\
    ((exists annotations msg,
        trace w' = EvEvent corev1.EventTypeNormal "NewArtifact" annotations msg :: trace w) <->
     (succeeded /\
      exists a, OCIRepository.GetArtifact (obj w) = Some a /\
                sourcev1.Checksum a <> oldChecksum)) /\
    (trace w' = trace w <->
     ~ (succeeded /\
        exists a, OCIRepository.GetArtifact (obj w) = Some a /\
                  (sourcev1.Checksum a <> oldChecksum \/ recovered))).
Proof.
  intros oldChecksum succeeded recovered event.
  subst oldChecksum succeeded recovered event. cbv beta.
  unfold OCIRepositoryReconciler.notify. run.
  change (OCIRepository.Artifact (OCIRepository.status (obj w)))
    with (OCIRepository.GetArtifact (obj w)).
  destruct resErr as [e|].
  { exists w. do 4 (split; [reflexivity|]).
    split; [intros a (He & _); discriminate|].
    split; [intros a (He & _); discriminate|].
    split; [reflexivity|].
    split; split.
    - intros (ann & msg & Ht). symmetry in Ht. now apply cons_neq_self in Ht.
    - intros ((He & _) & _). discriminate.
    - intros _ ((He & _) & _). discriminate.
    - reflexivity. }
  destruct (OCIRepository.GetArtifact (obj w)) as [a|] eqn:Ha.
  2:{ exists w. split; [destruct res; reflexivity|]. do 3 (split; [reflexivity|]).
      split; [intros a _ Ha'; discriminate|].
      split; [intros a _ Ha'; discriminate|].
      split; [reflexivity|].
      split; split.
      - intros (ann & msg & Ht). symmetry in Ht. now apply cons_neq_self in Ht.
      - intros (_ & a & Ha' & _). discriminate.
      - intros _ (_ & a & Ha' & _). discriminate.
      - reflexivity. }
  destruct res.
  1,2: exists w; do 4 (split; [reflexivity|]);
    (split; [intros a' (_ & Hr); discriminate|]);
    (split; [intros a' (_ & Hr); discriminate|]);
    (split; [reflexivity|]);
    split; split;
    [ intros (ann & msg & Ht); symmetry in Ht; now apply cons_neq_self in Ht
    | intros ((_ & Hr) & _); discriminate
    | intros _ ((_ & Hr) & _); discriminate
    | reflexivity ].
  assert (Horigin : forall reason,
            exists origin,
              EvEvent corev1.EventTypeNormal reason
                [(sourcev1.GroupVersion_Group ++ "/" ++ eventv1.MetaRevisionKey,
                  sourcev1.Revision a);
                 (sourcev1.GroupVersion_Group ++ "/" ++ eventv1.MetaChecksumKey,
                  sourcev1.Checksum a)]
                match sourcev1.Metadata a with
                | Some info =>
                    if negb (String.eqb
                               match map_lookup info oci.SourceAnnotation with
                               | Some v => v
                               | None => ""
                               end "") &&
                       negb (String.eqb
                               match map_lookup info oci.RevisionAnnotation with
                               | Some v => v
                               | None => ""
                               end "")
                    then ("stored artifact with revision '" ++ sourcev1.Revision a ++
                          "' from '" ++ OCIRepository.URL (OCIRepository.spec (obj w)) ++ "'") ++
                         ", origin source '" ++
                         match map_lookup info oci.SourceAnnotation with
                         | Some v => v
                         | None => ""
                         end ++ "', origin revision '" ++
                         match map_lookup info oci.RevisionAnnotation with
                         | Some v => v
                         | None => ""
                         end ++ "'"
                    else "stored artifact with revision '" ++ sourcev1.Revision a ++
                         "' from '" ++ OCIRepository.URL (OCIRepository.spec (obj w)) ++ "'"
                | None => "stored artifact with revision '" ++ sourcev1.Revision a ++
                          "' from '" ++ OCIRepository.URL (OCIRepository.spec (obj w)) ++ "'"
                end =
              EvEvent (T := OCIRepository.T) corev1.EventTypeNormal reason
                [(sourcev1.GroupVersion_Group ++ "/" ++ eventv1.MetaRevisionKey,
                  sourcev1.Revision a);
                 (sourcev1.GroupVersion_Group ++ "/" ++ eventv1.MetaChecksumKey,
                  sourcev1.Checksum a)]
                (("stored artifact with revision '" ++ sourcev1.Revision a ++ "' from '" ++
                  OCIRepository.URL (OCIRepository.spec (obj w)) ++ "'") ++ origin)).
  { intros reason. destruct (sourcev1.Metadata a) as [info|].
    - destruct (negb _ && negb _).
      + eexists. reflexivity.
      + exists "". rewrite string_append_nil_r. reflexivity.
    - exists "". rewrite string_append_nil_r. reflexivity. }
  destruct (String.eqb _ (sourcev1.Checksum a)) eqn:Hsum; run.
  - apply String.eqb_eq in Hsum.
    destruct (FailureRecovery env _ _ _) eqn:Hrec; run.
    + eexists. split; [reflexivity|]. proj. do 3 (split; [reflexivity|]).
      split; [intros a' _ Ha' Hne; injection Ha' as <-; now elim Hne|].
      split.
      { intros a' _ Ha' _ _. injection Ha' as <-.
        destruct (Horigin meta.SucceededReason) as [origin Ho].
        exists origin. f_equal. exact Ho. }
      split; [intros Hn; elim Hn; split; [auto|]; exists a; auto|].
      split; split.
      * intros (ann & msg & Ht). injection Ht as Hreason _ _. discriminate.
      * intros (_ & a' & Ha' & Hne). injection Ha' as <-. now elim Hne.
      * intros Ht. now apply cons_neq_self in Ht.
      * intros Hn. elim Hn. split; [auto|]. exists a. auto.
    + exists w. do 4 (split; [reflexivity|]).
      split; [intros a' _ Ha' Hne; injection Ha' as <-; now elim Hne|].
      split; [intros a' _ _ _ Hr; discriminate Hr|].
      split; [reflexivity|].
      split; split.
      * intros (ann & msg & Ht). symmetry in Ht. now apply cons_neq_self in Ht.
      * intros (_ & a' & Ha' & Hne). injection Ha' as <-. now elim Hne.
      * intros _ (_ & a' & Ha' & [Hne | Hr]); injection Ha' as <-;
          [now elim Hne | congruence].
      * reflexivity.
  - apply String.eqb_neq in Hsum.
    eexists. split; [reflexivity|]. proj. do 3 (split; [reflexivity|]).
    split.
    { intros a' _ Ha' _. injection Ha' as <-.
      destruct (Horigin "NewArtifact") as [origin Ho].
      exists origin. f_equal. exact Ho. }
    split; [intros a' _ Ha' Heq; injection Ha' as <-; congruence|].
    split; [intros Hn; elim Hn; split; [auto|]; exists a; split; [reflexivity|];
            left; congruence|].
    split; split.
    + intros _. split; [auto|]. exists a. split; [reflexivity|]. congruence.
    + intros _. eexists. eexists. reflexivity.
    + intros Ht. now apply cons_neq_self in Ht.
    + intros Hn. elim Hn. split; [auto|]. exists a. split; [reflexivity|]. left. congruence.
Qed.

(** ** The run of an OCI HelmRepository *)

Ltac case_step H :=
  match type of H with
  | context [match ?x with _ => _ end] =>
      lazymatch x with
      | context [match _ with _ => _ end] => fail
      | _ => destruct x eqn:?; run_in H; try discriminate H
      end
  end.

Lemma IsTrue_MarkTrue (gen : Z) (cs : list metav1.Condition) (t reason msg : string) :
  condition_list.IsTrue (condition_list.MarkTrue gen cs t reason msg) t = true.
Proof. unfold condition_list.IsTrue. rewrite Get_MarkTrue. reflexivity. Qed.

Lemma IsTrue_MarkTrue_other (gen : Z) (cs : list metav1.Condition) (u t reason msg : string) :
  String.eqb u t = false ->
  condition_list.IsTrue (condition_list.MarkTrue gen cs u reason msg) t =
  condition_list.IsTrue cs t.
Proof. intros Hne. unfold condition_list.IsTrue. now rewrite Get_MarkTrue_other. Qed.

Lemma IsTrue_Delete (cs : list metav1.Condition) (t : string) :
  condition_list.IsTrue (condition_list.Delete cs t) t = false.
Proof. unfold condition_list.IsTrue. now rewrite Get_Delete. Qed.

Lemma IsTrue_Delete_other (cs : list metav1.Condition) (u t : string) :
  String.eqb u t = false ->
  condition_list.IsTrue (condition_list.Delete cs u) t = condition_list.IsTrue cs t.
Proof. intros Hne. unfold condition_list.IsTrue. now rewrite Get_Delete_other. Qed.

Lemma Get_MarkFalse_other (gen : Z) (cs : list metav1.Condition) (u t reason msg : string) :
  String.eqb u t = false ->
  condition_list.Get (condition_list.MarkFalse gen cs u reason msg) t =
  condition_list.Get cs t.
Proof.
  intros Hne. unfold condition_list.MarkFalse.
  apply (Get_Set_other gen cs (metav1.mkCondition u _ _ _ 0) t Hne).
Qed.

Lemma Get_MarkStalled (gen : Z) (cs : list metav1.Condition) (reason msg : string) :
  condition_list.Get (condition_list.MarkStalled gen cs reason msg) meta.StalledCondition =
    Some (metav1.mkCondition meta.StalledCondition metav1.ConditionTrue reason msg gen) /\
  condition_list.Get (condition_list.MarkStalled gen cs reason msg)
    meta.ReconcilingCondition = None.
Proof.
  unfold condition_list.MarkStalled. split; [apply Get_MarkTrue|].
  rewrite Get_MarkTrue_other by reflexivity. apply Get_Delete.
Qed.

Lemma HelmRepositoryOCI_body_outcome (env : Env) (w w1 : HelmRepositoryOCIReconciler.W)
    (res : ctrl_Result) :
  body (HelmRepositoryOCIReconciler.reconcile_prelude env ;;
        '(authenticator, keychain) <- HelmRepositoryOCIReconciler.reconcile_credentials env ;;
        HelmRepositoryOCIReconciler.reconcile_login env authenticator keychain)%go w =
    Done (res, None) w1 ->
  ((exists c, condition_list.Get (HelmRepository.GetConditions (obj w1)) meta.StalledCondition =
                Some c /\ metav1.Status c = metav1.ConditionTrue) /\
   condition_list.Get (HelmRepository.GetConditions (obj w1)) meta.ReconcilingCondition = None /\
   res = ctrl_Result_zero)
  \/
  condition_list.Get (HelmRepository.GetConditions (obj w1)) meta.StalledCondition = None /\
  condition_list.Get (HelmRepository.GetConditions (obj w1)) meta.ReadyCondition = None /\
  res = mkCtrlResult false (HelmRepository.GetRequeueAfter (obj w1)) /\
  HelmRepository.GetRequeueAfter (obj w1) = HelmRepository.GetRequeueAfter (obj w).
Proof.
  intros H.
  unfold HelmRepositoryOCIReconciler.reconcile_prelude,
    HelmRepositoryOCIReconciler.reconcile_credentials,
    HelmRepositoryOCIReconciler.reconcile_login in H.
  run_in H.
  repeat case_step H.
  all: injection H as <- <-; proj.
  all: first
    [ left; rewrite !Get_MarkFalse_other by reflexivity;
      split; [eexists; split; [apply Get_MarkStalled | reflexivity]
             | split; [apply Get_MarkStalled | reflexivity]]
    | right; split; [|split; [apply Get_Delete | split; reflexivity]];
      rewrite !Get_Delete_other by reflexivity; apply Get_Delete ].
Qed.

Lemma Delete_absent (cs : list metav1.Condition) (t : string) :
  condition_list.Get cs t = None -> condition_list.Delete cs t = cs.
Proof.
  unfold condition_list.Get, condition_list.Delete.
  induction cs as [|c cs IH]; simpl; [reflexivity|].
  destruct (String.eqb (metav1.Type_ c) t); [discriminate|].
  intros H. simpl. now rewrite IH.
Qed.

Lemma stalled_conditions (cs : list metav1.Condition) (c : metav1.Condition) :
  condition_list.Get cs meta.StalledCondition = Some c ->
  metav1.Status c = metav1.ConditionTrue ->
  condition_list.Get cs meta.ReconcilingCondition = None ->
  condition_list.IsStalled cs = true /\ condition_list.IsReconciling cs = false.
Proof.
  intros Hs Hc Hr.
  unfold condition_list.IsStalled, condition_list.IsReconciling, condition_list.IsTrue.
  rewrite Hs, Hr, Hc. split; reflexivity.
Qed.

Lemma ready_conditions (gen : Z) (cs : list metav1.Condition) (reason msg : string) :
  condition_list.Get cs meta.StalledCondition = None ->
  let cs1 := condition_list.Delete cs meta.ReconcilingCondition in
  condition_list.IsStalled cs1 = false /\ condition_list.IsReconciling cs1 = false /\
  condition_list.IsReady (condition_list.MarkTrue gen cs1 meta.ReadyCondition reason msg) = true.
Proof.
  intros Hs cs1.
  assert (H1 : condition_list.IsTrue cs1 meta.StalledCondition = false).
  { unfold cs1. rewrite IsTrue_Delete_other by reflexivity.
    unfold condition_list.IsTrue. now rewrite Hs. }
  assert (H2 : condition_list.IsTrue cs1 meta.ReconcilingCondition = false)
    by apply IsTrue_Delete.
  unfold condition_list.IsReady, condition_list.IsStalled, condition_list.IsReconciling.
  rewrite IsTrue_MarkTrue, !IsTrue_MarkTrue_other by reflexivity.
  rewrite H1, H2. repeat split; reflexivity.
Qed.

Lemma HelmRepositoryOCI_summary_error (oldObj : HelmRepository.T) (res result : ctrl_Result)
    (e : option error) (w1 w' : HelmRepositoryOCIReconciler.W) :
  HelmRepositoryOCIReconciler.reconcile_summary oldObj (res, e) w1 = Done (result, None) w' ->
  e = None /\ result = res.
Proof.
  intros H. unfold HelmRepositoryOCIReconciler.reconcile_summary in H. run_in H.
  repeat case_step H.
  all: injection H as <- <-; split; reflexivity.
Qed.

Ltac hr_in H :=
  run_in H;
  cbv beta delta
      [HelmRepository.set_Conditions HelmRepository.set_status HelmRepository.GetConditions
       HelmRepository.GetRequeueAfter] in H;
  cbn [HelmRepository.Kind HelmRepository.ObjectMeta
       HelmRepository.spec HelmRepository.status HelmRepository.Conditions
       HelmRepository.ObservedGeneration HelmRepository.StatusURL HelmRepository.Artifact
       HelmRepository.LastHandledReconcileAt metav1.ConditionStatus_eqb] in H;
  run_in H.

Lemma HelmRepositoryOCI_summary_stalled (oldObj : HelmRepository.T) (res result : ctrl_Result)
    (w1 w' : HelmRepositoryOCIReconciler.W) (c : metav1.Condition) :
  HelmRepositoryOCIReconciler.reconcile_summary oldObj (res, None) w1 = Done (result, None) w' ->
  condition_list.Get (HelmRepository.GetConditions (obj w1)) meta.StalledCondition = Some c ->
  metav1.Status c = metav1.ConditionTrue ->
  condition_list.Get (HelmRepository.GetConditions (obj w1)) meta.ReconcilingCondition = None ->
  conditions.IsStalled (obj w') = true.
Proof.
  intros H Hs Hc Hr.
  destruct w1 as [[kind m sp [og cs url a lh]] x fs wd tr]. proj_in Hs. proj_in Hr.
  cbn [HelmRepository.GetConditions HelmRepository.Conditions HelmRepository.status] in Hs, Hr.
  destruct (stalled_conditions _ c Hs Hc Hr) as [Hst Hrec].
  unfold HelmRepositoryOCIReconciler.reconcile_summary in H.
  repeat (repeat (progress (hr_in H;
                    rewrite ?Hs, ?Hc, ?(Delete_absent _ _ Hr), ?Hst, ?Hrec,
                      ?Bool.andb_false_r in H));
          try discriminate H;
          match type of H with
          | context [match ?x with _ => _ end] =>
              lazymatch x with
              | context [match _ with _ => _ end] => fail
              | _ => destruct x eqn:?
              end
          end).
  all: injection H as <- <-; proj; exact Hst.
Qed.

Lemma HelmRepositoryOCI_summary_ready (oldObj : HelmRepository.T) (res result : ctrl_Result)
    (w1 w' : HelmRepositoryOCIReconciler.W) :
  HelmRepositoryOCIReconciler.reconcile_summary oldObj (res, None) w1 = Done (result, None) w' ->
  condition_list.Get (HelmRepository.GetConditions (obj w1)) meta.StalledCondition = None ->
  condition_list.Get (HelmRepository.GetConditions (obj w1)) meta.ReadyCondition = None ->
  res = mkCtrlResult false (HelmRepository.GetRequeueAfter (obj w1)) ->
  conditions.IsReady (obj w') = true.
Proof.
  intros H Hs Hready ->.
  destruct w1 as [[kind m sp [og cs url a lh]] x fs wd tr]. proj_in Hs. proj_in Hready.
  cbn [HelmRepository.GetConditions HelmRepository.Conditions HelmRepository.status]
    in Hs, Hready.
  destruct (ready_conditions (metav1.Generation m) cs meta.SucceededReason
              "Helm repository is ready" Hs) as (Hst & Hrec & Hrdy).
  assert (Hready' : condition_list.Get
                      (condition_list.Delete cs meta.ReconcilingCondition)
                      meta.ReadyCondition = None).
  { rewrite Get_Delete_other by reflexivity. exact Hready. }
  unfold HelmRepositoryOCIReconciler.reconcile_summary in H.
  repeat (repeat (progress (hr_in H;
                    cbn [RequeueAfter Requeue] in H;
                    rewrite ?Hs, ?Hready', ?Hst, ?Hrec, ?Hrdy, ?Z.eqb_refl,
                      ?Bool.andb_false_r in H));
          try discriminate H;
          match type of H with
          | context [match ?x with _ => _ end] =>
              lazymatch x with
              | context [match _ with _ => _ end] => fail
              | _ => destruct x eqn:?
              end
          end).
  all: injection H as <- <-; proj; exact Hrdy.
Qed.

(** X11. A run of [reconcile] that returns no error leaves the
    HelmRepository stalled, or ready: either Stalled is True and Reconciling
    is not, or Ready is True with neither Stalled nor Reconciling and the
    result asks for the next run after the interval of the object. *)
Theorem HelmRepositoryOCI_reconcile_stalled_or_ready (env : Env)
    (w w' : HelmRepositoryOCIReconciler.W) (result : ctrl_Result) :
  HelmRepositoryOCIReconciler.reconcile env w = Done (result, None) w' ->
  conditions.IsStalled (obj w') = true /\ result = ctrl_Result_zero \/
  conditions.IsReady (obj w') = true /\
  result = mkCtrlResult false (HelmRepository.GetRequeueAfter (obj w)).
Proof.
  intros H. unfold HelmRepositoryOCIReconciler.reconcile, deferred in H.
  match type of H with
  | match ?b w with _ => _ end = _ => destruct (b w) as [[res e] w1 | msg w1] eqn:Hbody
  end.
  - destruct (HelmRepositoryOCI_summary_error _ _ _ _ _ _ H) as [-> ->].
    destruct (HelmRepositoryOCI_body_outcome env w w1 res Hbody)
      as [((c & Hs & Hc) & Hr & Hres) | (Hs & Hready & Hres & Hsame)].
    + left. split; [|exact Hres].
      exact (HelmRepositoryOCI_summary_stalled _ _ _ _ _ c H Hs Hc Hr).
    + right. split.
      * exact (HelmRepositoryOCI_summary_ready _ _ _ _ _ H Hs Hready Hres).
      * rewrite Hres, Hsame. reflexivity.
  - destruct (HelmRepositoryOCIReconciler.reconcile_summary _ _ w1); discriminate.
Qed.

Lemma HelmRepositoryOCI_reconcile_stalled_or_ready_witness :
  exists w',
    HelmRepositoryOCIReconciler.reconcile Example.env
      (Example.helm_repository_world
         (Example.helm_repository None [sourcev1.SourceFinalizer] [] false "generic") []) =
      Done (mkCtrlResult false 600, None) w' /\
    (conditions.IsStalled (obj w') = true /\ mkCtrlResult false 600 = ctrl_Result_zero \/
     conditions.IsReady (obj w') = true /\ mkCtrlResult false 600 = mkCtrlResult false 600).
Proof.
  eexists. split; [vm_compute; reflexivity|].
  apply (HelmRepositoryOCI_reconcile_stalled_or_ready Example.env
           (Example.helm_repository_world
              (Example.helm_repository None [sourcev1.SourceFinalizer] [] false "generic")
              [])).
  vm_compute. reflexivity.
Defined.

(** ** The verifiers of a HelmChart *)

Lemma verifiers_of_keys_Forall2 (env : Env) (opts : list RegistryOption)
    (entries : list (string * string)) (vs : list Verifier) :
  HelmChartReconciler.verifiers_of_keys env opts entries = inr vs ->
  Forall2 (fun kd v => soci_NewCosignVerifier env opts (Some (snd kd)) = inr v)
    (filter (fun kd => strings.HasSuffix (fst kd) ".pub") entries) vs.
Proof.
  revert vs. induction entries as [|[k data] rest IH]; intros vs H; simpl in H.
  - injection H as <-. constructor.
  - simpl. destruct (strings.HasSuffix k ".pub").
    + destruct (soci_NewCosignVerifier env opts (Some data)) as [err|v] eqn:Hv; [discriminate|].
      destruct (HelmChartReconciler.verifiers_of_keys env opts rest) as [err|vs'];
        [discriminate|].
      injection H as <-. constructor; [exact Hv | apply IH; reflexivity].
    + apply IH. exact H.
Qed.

(** X12. The verifiers [makeVerifiers] returns: the provider is cosign and
    the list is not empty; with a secret it holds one verifier for each
    entry of the secret whose key ends in .pub, built from the data of that
    entry, and without a secret the one keyless verifier. They carry the
    authenticator when there is one and the keychain otherwise. *)
Theorem makeVerifiers_sound (env : Env) (o : HelmChart.T)
    (verify : OCIRepository.OCIRepositoryVerification) (auth : option Authenticator)
    (keychain : option Keychain) (vs : list Verifier) :
  HelmChartReconciler.makeVerifiers env o verify auth keychain = inr vs ->
  let opts :=
    match auth with
    | Some a => [WithAuth a]
    | None => [WithAuthFromKeychain (match keychain with Some k => k | None => Anonymous end)]
    end in
  OCIRepository.VerifyProvider verify = "cosign" /\ vs <> [] /\
  match OCIRepository.VerifySecretRef verify with
  | Some name =>
      exists secret,
        client_Get_Secret env (metav1.Namespace (HelmChart.ObjectMeta o)) name = inr secret /\
        Forall2 (fun kd v => soci_NewCosignVerifier env opts (Some (snd kd)) = inr v)
          (filter (fun kd => strings.HasSuffix (fst kd) ".pub") secret) vs
  | None => exists v, soci_NewCosignVerifier env opts None = inr v /\ vs = [v]
  end.
Proof.
  intros H opts. unfold HelmChartReconciler.makeVerifiers in H. fold opts in H.
  destruct (String.eqb (OCIRepository.VerifyProvider verify) "cosign") eqn:Hp; [|discriminate].
  apply String.eqb_eq in Hp. split; [exact Hp|].
  destruct (OCIRepository.VerifySecretRef verify) as [name|].
  - destruct (client_Get_Secret env _ name) as [err|secret] eqn:Hsecret; [discriminate|].
    destruct (HelmChartReconciler.verifiers_of_keys env opts secret) as [err|vs'] eqn:Hvs;
      [discriminate|].
    destruct vs' as [|v vs']; [discriminate|]. injection H as <-.
    split; [discriminate|]. exists secret. split; [reflexivity|].
    apply verifiers_of_keys_Forall2. exact Hvs.
  - destruct (soci_NewCosignVerifier env opts None) as [err|v] eqn:Hv; [discriminate|].
    injection H as <-. split; [discriminate|]. exists v. split; reflexivity.
Qed.

Lemma makeVerifiers_sound_witness :
  "cosign" = "cosign" /\ ["cosign"] <> [] /\
  exists secret,
    Example.one_secret "keys" [("a.pub", "key"); ("notes", "text")] "flux-system" "keys" =
      inr secret /\
    Forall2 (fun (kd : string * string) (v : Verifier) => @inr error Verifier "cosign" = inr v)
      (filter (fun kd => strings.HasSuffix (fst kd) ".pub") secret) ["cosign"].
Proof.
  exact (makeVerifiers_sound
           (Example.env_with_cluster
              (Example.one_secret "keys" [("a.pub", "key"); ("notes", "text")])
              Example.no_repository Example.no_git)
           (Example.helm_chart None [sourcev1.SourceFinalizer] false "HelmRepository"
              "ChartVersion" None)
           (OCIRepository.mkVerification "cosign" (Some "keys")) None None ["cosign"]
           eq_refl).
Defined.

(** ** The conditions of a chart build *)

Ltac case_goal :=
  match goal with
  | |- context [match ?x with _ => _ end] =>
      lazymatch x with
      | context [match _ with _ => _ end] => fail
      | _ => destruct x eqn:?; run
      end
  end.

(** X13. [observeChartBuild] returns, and after an error exactly one of
    BuildFailed and FetchFailed is set, with the reason of the build error
    (Unknown when the error is none): BuildFailed for an error of the
    metadata patch, the values files, the dependencies, the packaging or the
    verification, FetchFailed for any other. Without error and with a
    complete build neither is left, and SourceVerified is True when the spec
    asks for verification and absent when it does not. *)
Theorem observeChartBuild_conditions (env : Env) (err : option error)
    (w : HelmChartReconciler.W) :
  exists w',
    HelmChartReconciler.observeChartBuild env err w = Next tt w' /\
    match err with
    | Some e =>
        let reason :=
          match as_BuildError e with
          | Some (reason, _) => reason
          | None => chart.ErrUnknown
          end in
        if chart.BuildErrorReason_eqb reason chart.ErrChartMetadataPatch ||
           chart.BuildErrorReason_eqb reason chart.ErrValuesFilesMerge ||
           chart.BuildErrorReason_eqb reason chart.ErrDependencyBuild ||
           chart.BuildErrorReason_eqb reason chart.ErrChartPackage ||
           chart.BuildErrorReason_eqb reason chart.ErrChartVerification
        then has_condition (obj w') sourcev1.BuildFailedCondition metav1.ConditionTrue
               (ber_Reason reason) /\
             conditions.Get (obj w') sourcev1.FetchFailedCondition = None
        else has_condition (obj w') sourcev1.FetchFailedCondition metav1.ConditionTrue
               (ber_Reason reason) /\
             conditions.Get (obj w') sourcev1.BuildFailedCondition = None
    | None =>
        Build_Complete env (scratch w) = true ->
        conditions.Get (obj w') sourcev1.BuildFailedCondition = None /\
        conditions.Get (obj w') sourcev1.FetchFailedCondition = None /\
        match HelmChart.Verify (HelmChart.spec (obj w)) with
        | Some _ => has_condition (obj w') sourcev1.SourceVerifiedCondition
                      metav1.ConditionTrue meta.SucceededReason
        | None => conditions.Get (obj w') sourcev1.SourceVerifiedCondition = None
        end
    end.
Proof.
  unfold HelmChartReconciler.observeChartBuild. run.
  destruct err as [e|].
  - destruct (as_BuildError e) as [[reason inner]|]; run.
    + repeat case_goal.
      all: eexists; (split; [reflexivity|]); proj; cbn [orb] in *.
      all: try match goal with H : ?b = _ |- context [if ?b then _ else _] => rewrite H end.
      all: unfold has_condition; proj.
      all: split;
        [ eexists; split;
          [ rewrite ?Get_MarkFalse_other by reflexivity; apply Get_MarkTrue
          | split; reflexivity ]
        | rewrite ?Get_MarkFalse_other, ?Get_MarkTrue_other by reflexivity; apply Get_Delete ].
    + change (chart.BuildErrorReason_eqb chart.ErrUnknown chart.ErrChartMetadataPatch)
        with false.
      change (chart.BuildErrorReason_eqb chart.ErrUnknown chart.ErrValuesFilesMerge)
        with false.
      change (chart.BuildErrorReason_eqb chart.ErrUnknown chart.ErrDependencyBuild)
        with false.
      change (chart.BuildErrorReason_eqb chart.ErrUnknown chart.ErrChartPackage) with false.
      change (chart.BuildErrorReason_eqb chart.ErrUnknown chart.ErrChartVerification)
        with false.
      run. repeat case_goal.
      all: eexists; (split; [reflexivity|]); proj.
      all: unfold has_condition; proj.
      all: split;
        [ eexists; split; [apply Get_MarkTrue | split; reflexivity]
        | rewrite ?Get_MarkTrue_other by reflexivity; apply Get_Delete ].
  - repeat case_goal.
    all: eexists; (split; [reflexivity|]); proj; intros Hcomplete; try discriminate.
    all: unfold has_condition; proj.
    all: split;
      [ repeat first [ rewrite Get_Delete_other by reflexivity
                     | rewrite Get_MarkTrue_other by reflexivity ];
        apply Get_Delete
      | split;
        [ repeat first [ rewrite Get_Delete_other by reflexivity
                       | rewrite Get_MarkTrue_other by reflexivity ];
          apply Get_Delete
        | first [ apply Get_Delete
                | eexists; split; [apply Get_MarkTrue | split; reflexivity] ] ] ].
Qed.

(** ** The source of a HelmChart *)

(** X14. When the source of a HelmChart cannot be fetched, the source phase
    ends with FetchFailed=True of reason SourceUnavailable and builds
    nothing. The error stalls the object, with the reason
    UnsupportedSourceKind, whenever it is not a status error of the API
    server (an unsupported kind, but also any other failure of the client
    that carries no status reason); a status error is returned as an event
    of reason SourceUnavailable. *)
Theorem reconcileSource_source_unavailable (env : Env) (w : HelmChartReconciler.W)
    (err : error) :
  HelmChartReconciler.getSource env (obj w) = inl err ->
  exists w',
    HelmChartReconciler.reconcileSource env w =
      Done (ResultEmpty,
            Some (if String.eqb (ReasonForError err) StatusReasonUnknown
                  then serror_Stalling "UnsupportedSourceKind"
                         (Errorf_w "failed to get source" err)
                  else serror_Event "SourceUnavailable"
                         (Errorf_w "failed to get source" err))) w' /\
    has_condition (obj w') sourcev1.FetchFailedCondition metav1.ConditionTrue
      "SourceUnavailable" /\
    HelmChart.GetArtifact (obj w') = HelmChart.GetArtifact (obj w) /\
    scratch w' = scratch w /\ files w' = files w /\ trace w' = trace w.
Proof.
  intros Hsource. unfold HelmChartReconciler.reconcileSource. run.
  rewrite Hsource.
  destruct (condition_list.IsFalse _ _); run;
    (destruct (String.eqb (ReasonForError err) StatusReasonUnknown); run;
     eexists; (split; [reflexivity|]); proj;
     (split; [eexists; split; [apply Get_MarkTrue | split; reflexivity]|]);
     repeat split).
Qed.

Lemma reconcileSource_source_unavailable_witness :
  exists w',
    HelmChartReconciler.reconcileSource Example.env
      (Example.helm_chart_world
         (Example.helm_chart None [sourcev1.SourceFinalizer] false "OCIRepository"
            "ChartVersion" None) []) =
      Done (ResultEmpty,
            Some (serror_Stalling "UnsupportedSourceKind"
                    (Errorf_w "failed to get source"
                       (errors_New
                          ("unsupported source kind 'OCIRepository'" ++
                           ", must be one of: [HelmRepository GitRepository Bucket]"))))) w' /\
    has_condition (obj w') sourcev1.FetchFailedCondition metav1.ConditionTrue
      "SourceUnavailable" /\
    HelmChart.GetArtifact (obj w') = None /\
    scratch w' = Build_zero /\ files w' = [] /\ trace w' = [].
Proof.
  exact (reconcileSource_source_unavailable Example.env
           (Example.helm_chart_world
              (Example.helm_chart None [sourcev1.SourceFinalizer] false "OCIRepository"
                 "ChartVersion" None) [])
           _ eq_refl).
Defined.

(** X15. A source that has no artifact in the storage, other than a
    HelmRepository of type OCI, makes the source phase ask for a requeue
    without error: FetchFailed is True with the reason NoSourceArtifact, one
    trace event says so, and nothing is built or stored. *)
Theorem reconcileSource_no_source_artifact (env : Env) (w : HelmChartReconciler.W)
    (s : HelmChartReconciler.Source) :
  HelmChartReconciler.getSource env (obj w) = inr s ->
  match HelmChartReconciler.Source_GetArtifact s with
  | Some a => Storage.ArtifactExist w a = false
  | None => True
  end ->
  match s with
  | HelmChartReconciler.SourceHelmRepository repo =>
      HelmRepository.Type_ (HelmRepository.spec repo) <> sourcev1.HelmRepositoryTypeOCI
  | _ => True
  end ->
  exists w' msg,
    HelmChartReconciler.reconcileSource env w = Done (ResultRequeue, None) w' /\
    has_condition (obj w') sourcev1.FetchFailedCondition metav1.ConditionTrue
      "NoSourceArtifact" /\
    HelmChart.GetArtifact (obj w') = HelmChart.GetArtifact (obj w) /\
    scratch w' = scratch w /\ files w' = files w /\
    trace w' = EvEvent eventv1.EventTypeTrace "NoSourceArtifact" [] msg :: trace w.
Proof.
  intros Hsource Hmissing Hkind. unfold HelmChartReconciler.reconcileSource. run.
  rewrite Hsource.
  assert (Hoci : match s with
                 | HelmChartReconciler.SourceHelmRepository helmRepo =>
                     negb (String.eqb (HelmRepository.Type_ (HelmRepository.spec helmRepo))
                             sourcev1.HelmRepositoryTypeOCI)
                 | _ => true
                 end = true).
  { destruct s; try reflexivity. apply negb_true_iff, String.eqb_neq. exact Hkind. }
  destruct (condition_list.IsFalse _ _); run.
  all: unfold Storage.ArtifactExist in *; proj.
  all: destruct (HelmChartReconciler.Source_GetArtifact s) as [a|];
    [rewrite Hmissing|]; run; rewrite Hoci; run.
  all: eexists; eexists; (split; [reflexivity|]); proj;
    (split; [eexists; split; [apply Get_MarkTrue | split; reflexivity]|]);
    repeat split.
Qed.

Lemma reconcileSource_no_source_artifact_witness :
  exists w' msg,
    HelmChartReconciler.reconcileSource
      (Example.env_with_cluster (Example.one_secret "none" []) Example.no_repository
         (fun _ _ => inr None))
      (Example.helm_chart_world
         (Example.helm_chart None [sourcev1.SourceFinalizer] false "GitRepository"
            "ChartVersion" None) []) = Done (ResultRequeue, None) w' /\
    has_condition (obj w') sourcev1.FetchFailedCondition metav1.ConditionTrue
      "NoSourceArtifact" /\
    HelmChart.GetArtifact (obj w') = None /\
    scratch w' = Build_zero /\ files w' = [] /\
    trace w' = [EvEvent eventv1.EventTypeTrace "NoSourceArtifact" [] msg].
Proof.
  exact (reconcileSource_no_source_artifact
           (Example.env_with_cluster (Example.one_secret "none" []) Example.no_repository
              (fun _ _ => inr None))
           (Example.helm_chart_world
              (Example.helm_chart None [sourcev1.SourceFinalizer] false "GitRepository"
                 "ChartVersion" None) [])
           (HelmChartReconciler.SourceGitRepository None) eq_refl I I).
Defined.

(** ** The artifact phase of a HelmChart *)

(** X16. The artifact phase of a HelmChart succeeds only on a complete
    build. The artifact of the status is then the one it found, whose local
    path is the path of the build (the cached chart), or a new artifact of
    the version of the build: its file is in the storage with the checksum
    of the packaged chart, the observed chart name is the name of the build,
    ArtifactInStorage is True with the reason of the build and
    ArtifactOutdated is gone. *)
Theorem HelmChart_reconcileArtifact_success (env : Env) (w w' : HelmChartReconciler.W) :
  HelmChartReconciler.reconcileArtifact env w = Done (ResultSuccess, None) w' ->
  let b := scratch w in
  Build_Complete env b = true /\
  exists a,
    HelmChart.GetArtifact (obj w') = Some a /\
    (HelmChart.GetArtifact (obj w) = Some a /\ Storage.LocalPath env a = Build_Path b \/
     sourcev1.Revision a = Build_Version b /\
     sourcev1.Checksum a = file_checksum env (Build_Path b) /\
     HelmChart.ObservedChartName (HelmChart.status (obj w')) = Build_Name b /\
     Storage.ArtifactExist w' a = true /\
     has_condition (obj w') sourcev1.ArtifactInStorageCondition metav1.ConditionTrue
       (HelmChartReconciler.reasonForBuild env b) /\
     conditions.Get (obj w') sourcev1.ArtifactOutdatedCondition = None).
Proof.
  intros H b. subst b. unfold HelmChartReconciler.reconcileArtifact in H.
  destruct (Build_Complete env (scratch w)) eqn:Hcomplete; cbn [negb] in H; [|discriminate].
  split; [reflexivity|].
  unfold HelmChartReconciler.storageFailed, Storage.MkdirAll, Storage.Lock,
    Storage.CopyFromPath, Storage.Symlink, Storage.unlock in H.
  run_in H.
  repeat case_step H.
  all: injection H as <-.
  all: first
    [ solve
        [ match goal with
          | Ha : HelmChart.GetArtifact _ = Some ?a,
            Hp : (Storage.LocalPath _ ?a =? _) = true |- _ =>
              exists a; proj; split;
              [ exact Ha | left; split; [reflexivity | apply String.eqb_eq; exact Hp] ]
          end ]
    | solve
        [ eexists; proj; split; [reflexivity|]; right;
          split; [apply Revision_NewArtifactFor|];
          split; [reflexivity|]; split; [reflexivity|];
          split; [unfold Storage.ArtifactExist; proj; cbn [existsb];
                  rewrite String.eqb_refl; reflexivity|];
          split; [eexists; split; [apply Get_MarkTrue | split; reflexivity]|];
          rewrite Get_MarkTrue_other by reflexivity; apply Get_Delete ]
    | exfalso;
      match goal with
      | Hc : _ && sourcev1.HasRevision _ _ = false |- _ =>
          unfold sourcev1.HasRevision in Hc; proj_in Hc;
          rewrite Revision_NewArtifactFor, !String.eqb_refl in Hc; discriminate Hc
      end ].
Qed.

Lemma HelmChart_reconcileArtifact_success_witness :
  exists w',
    HelmChartReconciler.reconcileArtifact Example.env
      (mkWorld
         (Example.helm_chart None [sourcev1.SourceFinalizer] false "HelmRepository"
            "ChartVersion" None)
         (mkBuild "podinfo" "6.0.0" "/tmp/obj.tgz" 0 false) [] [] []) =
      Done (ResultSuccess, None) w' /\
    Build_Complete Example.env (mkBuild "podinfo" "6.0.0" "/tmp/obj.tgz" 0 false) = true /\
    exists a,
      HelmChart.GetArtifact (obj w') = Some a /\
      (None = Some a /\ Storage.LocalPath Example.env a = "/tmp/obj.tgz" \/
       sourcev1.Revision a = "6.0.0" /\
       sourcev1.Checksum a = "c0ffee" /\
       HelmChart.ObservedChartName (HelmChart.status (obj w')) = "podinfo" /\
       Storage.ArtifactExist w' a = true /\
       has_condition (obj w') sourcev1.ArtifactInStorageCondition metav1.ConditionTrue
         sourcev1.ChartPullSucceededReason /\
       conditions.Get (obj w') sourcev1.ArtifactOutdatedCondition = None).
Proof.
  eexists. split; [vm_compute; reflexivity|].
  apply (HelmChart_reconcileArtifact_success Example.env
           (mkWorld
              (Example.helm_chart None [sourcev1.SourceFinalizer] false "HelmRepository"
                 "ChartVersion" None)
              (mkBuild "podinfo" "6.0.0" "/tmp/obj.tgz" 0 false) [] [] [])).
  vm_compute. reflexivity.
Defined.

(** ** The lock of the artifact phases *)

Ltac prefix_of l t0 :=
  lazymatch l with
  | t0 => lazymatch type of t0 with list ?A => constr:(@nil A) end
  | ?e :: ?r => let p := prefix_of r t0 in constr:(e :: p)
  end.

Ltac lock_cases :=
  let Hin := fresh "Hin" in
  intros ? Hin; cbn [In] in Hin;
  repeat match type of Hin with
         | _ \/ _ => destruct Hin as [Hin | Hin]
         end;
  try (exfalso; exact Hin); try discriminate Hin;
  injection Hin as <-; cbn [hd_error]; split; intros Hl;
  first
    [ reflexivity
    | discriminate Hl
    | match goal with Hs : Lock_error _ _ = None |- _ => exact Hs end
    | match goal with
      | Hs : Lock_error _ _ = Some _ |- _ =>
          exfalso; pose proof (eq_trans (eq_sym Hs) Hl) as Hx; discriminate Hx
      end ].

(** X17. The artifact phases of the OCIRepository and of the HelmChart
    reconciler always return, and they release the lock of the artifact on
    every path: when the phase asked for the lock, the last call the phase
    records is the release of that lock exactly when the lock was acquired. *)
Theorem reconcileArtifact_releases_lock (env : Env) :
  (forall (dir : string) (w : OCIRepositoryReconciler.W),
     exists r w' new,
       OCIRepositoryReconciler.reconcileArtifact env dir w = Done r w' /\
       trace w' = (new ++ trace w)%list /\
       forall p, In (EvStorage OpLock p) new ->
                 (Lock_error env p = None <-> hd_error new = Some (EvStorage OpUnlock p))) /\
  (forall w : HelmChartReconciler.W,
     exists r w' new,
       HelmChartReconciler.reconcileArtifact env w = Done r w' /\
       trace w' = (new ++ trace w)%list /\
       forall p, In (EvStorage OpLock p) new ->
                 (Lock_error env p = None <-> hd_error new = Some (EvStorage OpUnlock p))).
Proof.
  split.
  - intros dir w. unfold OCIRepositoryReconciler.reconcileArtifact.
    unfold OCIRepositoryReconciler.storageFailed, Storage.MkdirAll, Storage.Lock,
      Storage.CopyFromPath, Storage.Archive, Storage.Symlink, Storage.unlock.
    run. repeat case_goal.
    all: eexists; eexists.
    all: match goal with
         | |- exists new, Done ?r ?w1 = _ /\ _ =>
             let t := eval cbn [trace log set_obj set_files set_scratch set_workdir] in (trace w1) in
             let p := prefix_of t (trace w) in exists p
         end.
    all: split; [reflexivity|]; split; [reflexivity|].
    all: lock_cases.
  - intros w. unfold HelmChartReconciler.reconcileArtifact.
    unfold HelmChartReconciler.storageFailed, Storage.MkdirAll, Storage.Lock,
      Storage.CopyFromPath, Storage.Symlink, Storage.unlock.
    destruct (Build_Complete env (scratch w)); cbn [negb].
    2:{ exists (ResultRequeue, None), w, []. split; [reflexivity|].
        split; [reflexivity|]. intros p []. }
    run. repeat case_goal.
    all: eexists; eexists.
    all: match goal with
         | |- exists new, Done ?r ?w1 = _ /\ _ =>
             let t := eval cbn [trace log set_obj set_files set_scratch set_workdir] in (trace w1) in
             let p := prefix_of t (trace w) in exists p
         end.
    all: split; [reflexivity|]; split; [reflexivity|].
    all: lock_cases.
Qed.

(** ** Panics of the source phase of a HelmChart *)

Lemma observeChartBuild_Next (env : Env) (err : option error) (w : HelmChartReconciler.W) :
  exists w', HelmChartReconciler.observeChartBuild env err w = Next tt w'.
Proof.
  unfold HelmChartReconciler.observeChartBuild. run.
  destruct err as [e|]; [destruct (as_BuildError e) as [[reason inner]|]|]; run.
  all: repeat case_goal.
  all: eexists; reflexivity.
Qed.

Lemma observe_build_Done (env : Env) (r : HelmChartReconciler.R) (w : HelmChartReconciler.W) :
  exists r' w', HelmChartReconciler.observe_build env r w = Done r' w'.
Proof.
  unfold HelmChartReconciler.observe_build. destruct r as [res retErr].
  destruct (observeChartBuild_Next env retErr w) as [w1 Hobs].
  cbv beta iota zeta delta [body bind]. rewrite Hobs. run.
  repeat case_goal.
  all: eexists; eexists; reflexivity.
Qed.

Lemma buildFromTarballArtifact_panic (env : Env) (a : sourcev1.Artifact)
    (w w' : HelmChartReconciler.W) (msg : string) :
  HelmChartReconciler.buildFromTarballArtifact env a w = Panicked msg w' ->
  msg = "slice bounds out of range".
Proof.
  intros H.
  unfold HelmChartReconciler.buildFromTarballArtifact,
    HelmChartReconciler.revision_metadata, HelmChartReconciler.generation_metadata,
    HelmChartReconciler.fetchFailed in H.
  run_in H.
  repeat case_step H.
  all: injection H as <- _; reflexivity.
Qed.

Lemma buildFromHelmRepository_panic (env : Env) (repo : HelmRepository.T)
    (w w' : HelmChartReconciler.W) (msg : string) :
  HelmChartReconciler.buildFromHelmRepository env repo w = Panicked msg w' ->
  HelmRepository.GetArtifact repo = None /\
  String.eqb (HelmRepository.Type_ (HelmRepository.spec repo)) sourcev1.HelmRepositoryTypeOCI =
    false.
Proof.
  intros H.
  unfold HelmChartReconciler.buildFromHelmRepository,
    HelmChartReconciler.buildFromHelmRepository_credentials,
    HelmChartReconciler.buildFromHelmRepository_build,
    HelmChartReconciler.chartRepoConfigErrorReturn,
    HelmChartReconciler.fetchFailed in H.
  run_in H.
  repeat case_step H.
  all: split; reflexivity.
Qed.

(** X18. The source phase of a HelmChart never dereferences the artifact of
    a source that has none: the check for a missing source artifact comes
    before every use. The only panic the phase can end in is the cut of a
    revision shorter than twelve bytes. *)
Theorem reconcileSource_panics_only_on_short_revision (env : Env)
    (w w' : HelmChartReconciler.W) (msg : string) :
  HelmChartReconciler.reconcileSource env w = Panicked msg w' ->
  msg = "slice bounds out of range".
Proof.
  intros H. unfold HelmChartReconciler.reconcileSource in H. run_in H.
  repeat case_step H.
  all: try match goal with
           | Hob : HelmChartReconciler.observe_build ?e ?r ?s = Panicked _ _ |- _ =>
               destruct (observe_build_Done e r s) as (r' & s' & Hd);
               rewrite Hd in Hob; discriminate Hob
           end.
  all: injection H as <- _.
  all: try match goal with
           | Hb : HelmChartReconciler.buildFromTarballArtifact _ _ _ = Panicked _ _ |- _ =>
               exact (buildFromTarballArtifact_panic _ _ _ _ _ Hb)
           end.
  all: try match goal with
           | Hb : HelmChartReconciler.buildFromHelmRepository _ _ _ = Panicked _ _ |- _ =>
               destruct (buildFromHelmRepository_panic _ _ _ _ _ Hb) as [Hnone Htype];
               cbn [HelmChartReconciler.Source_GetArtifact] in *;
               first [ congruence
                     | match goal with
                       | Hc : negb (String.eqb _ _) = false |- _ =>
                           rewrite Htype in Hc; discriminate Hc
                       end ]
           end.
  all: cbn [HelmChartReconciler.Source_GetArtifact] in *; congruence.
Qed.

Lemma reconcileSource_panics_only_on_short_revision_witness :
  exists msg w',
    HelmChartReconciler.reconcileSource
      (Example.env_with_cluster (Example.one_secret "none" []) Example.no_repository
         (fun _ _ =>
            inr (Some (Example.source_artifact "gitrepository/flux-system/podinfo/a.tar.gz"
                         "main/abc"))))
      (Example.helm_chart_world
         (Example.helm_chart None [sourcev1.SourceFinalizer] false "GitRepository"
            "Revision" None)
         ["gitrepository/flux-system/podinfo/a.tar.gz"]) = Panicked msg w' /\
    msg = "slice bounds out of range".
Proof.
  eexists. eexists. split; [vm_compute; reflexivity|].
  eapply (reconcileSource_panics_only_on_short_revision
            (Example.env_with_cluster (Example.one_secret "none" []) Example.no_repository
               (fun _ _ =>
                  inr (Some (Example.source_artifact
                               "gitrepository/flux-system/podinfo/a.tar.gz" "main/abc"))))
            (Example.helm_chart_world
               (Example.helm_chart None [sourcev1.SourceFinalizer] false "GitRepository"
                  "Revision" None)
               ["gitrepository/flux-system/podinfo/a.tar.gz"])).
  vm_compute. reflexivity.
Defined.

(** ** Requests for the charts of a changed source *)

Lemma In_requests_from (items : list HelmChart.T) (revision : string)
    (acc : list HelmChartWatches.Request) (req : HelmChartWatches.Request) :
  In req
    (List.fold_left
       (fun reqs i =>
          if negb (String.eqb (HelmChart.ObservedSourceArtifactRevision (HelmChart.status i))
                     revision)
          then (reqs ++ [HelmChartWatches.ObjectKeyFromObject i])%list
          else reqs)
       items acc) <->
  In req acc \/
  exists hc, In hc items /\
             HelmChart.ObservedSourceArtifactRevision (HelmChart.status hc) <> revision /\
             req = HelmChartWatches.ObjectKeyFromObject hc.
Proof.
  revert acc. induction items as [|i items IH]; intros acc; simpl.
  - split; [auto | intros [H | (hc & [] & _)]; exact H].
  - rewrite IH. clear IH.
    destruct (String.eqb (HelmChart.ObservedSourceArtifactRevision (HelmChart.status i))
                revision) eqn:E; simpl.
    + apply String.eqb_eq in E. split.
      * intros [H | (hc & Hin & Hne & Heq)]; [auto | right; exists hc; auto].
      * intros [H | (hc & [<- | Hin] & Hne & Heq)];
          [auto | now elim Hne | right; exists hc; auto].
    + apply String.eqb_neq in E. rewrite in_app_iff. simpl. split.
      * intros [[H | [<- | []]] | (hc & Hin & Hne & Heq)];
          [auto | right; exists i; auto | right; exists hc; auto].
      * intros [H | (hc & [<- | Hin] & Hne & Heq)];
          [auto | subst req; auto | right; exists hc; auto].
Qed.

Lemma In_requests (items : list HelmChart.T) (revision : string)
    (req : HelmChartWatches.Request) :
  In req (HelmChartWatches.requests items revision) <->
  exists hc, In hc items /\
             HelmChart.ObservedSourceArtifactRevision (HelmChart.status hc) <> revision /\
             req = HelmChartWatches.ObjectKeyFromObject hc.
Proof.
  unfold HelmChartWatches.requests. rewrite In_requests_from. simpl. tauto.
Qed.

Lemma In_List_by_source (cached : list HelmChart.T) (value : string) (hc : HelmChart.T) :
  In hc (filter (fun o => existsb (String.eqb value) (HelmChartWatches.indexHelmChartBySource o))
           cached) <->
  In hc cached /\
  HelmChart.SourceKind (HelmChart.SourceRef (HelmChart.spec hc)) ++ "/" ++
  HelmChart.SourceName (HelmChart.SourceRef (HelmChart.spec hc)) = value.
Proof.
  rewrite filter_In. unfold HelmChartWatches.indexHelmChartBySource. simpl.
  rewrite Bool.orb_false_r, String.eqb_eq. intuition congruence.
Qed.

(** X19. The charts a changed source sends to the queue: a request for a
    HelmChart is made exactly when the source has an artifact, the list call
    succeeds, the chart (of any namespace) is indexed under the kind and the
    name of the source, and the chart has not observed the revision of the
    artifact. The same holds for HelmRepository, GitRepository and Bucket
    sources. *)
Theorem requests_for_source_change (failure : option error) (cached : list HelmChart.T)
    (req : HelmChartWatches.Request) :
  let requested (kind name : string) (artifact : option sourcev1.Artifact) : Prop :=
    failure = None /\
    exists a hc,
      artifact = Some a /\ In hc cached /\
      HelmChart.SourceKind (HelmChart.SourceRef (HelmChart.spec hc)) ++ "/" ++
      HelmChart.SourceName (HelmChart.SourceRef (HelmChart.spec hc)) = kind ++ "/" ++ name /\
      HelmChart.ObservedSourceArtifactRevision (HelmChart.status hc) <> sourcev1.Revision a /\
      req = HelmChartWatches.ObjectKeyFromObject hc in
  (forall repo : HelmRepository.T,
     In req (HelmChartWatches.requestsForHelmRepositoryChange failure cached repo) <->
     requested sourcev1.HelmRepositoryKind (metav1.Name (HelmRepository.ObjectMeta repo))
       (HelmRepository.GetArtifact repo)) /\
  (forall (name : string) (artifact : option sourcev1.Artifact),
     In req (HelmChartWatches.requestsForGitRepositoryChange failure cached name artifact) <->
     requested sourcev1.GitRepositoryKind name artifact) /\
  (forall (name : string) (artifact : option sourcev1.Artifact),
     In req (HelmChartWatches.requestsForBucketChange failure cached name artifact) <->
     requested sourcev1.BucketKind name artifact).
Proof.
  intros requested.
  assert (Hcore : forall (value : string) (artifact : option sourcev1.Artifact),
            In req
              match artifact with
              | None => []
              | Some a =>
                  match HelmChartWatches.List_MatchingFields failure cached
                          HelmChartWatches.indexHelmChartBySource value with
                  | inl _ => []
                  | inr items => HelmChartWatches.requests items (sourcev1.Revision a)
                  end
              end <->
            failure = None /\
            exists a hc,
              artifact = Some a /\ In hc cached /\
              HelmChart.SourceKind (HelmChart.SourceRef (HelmChart.spec hc)) ++ "/" ++
              HelmChart.SourceName (HelmChart.SourceRef (HelmChart.spec hc)) = value /\
              HelmChart.ObservedSourceArtifactRevision (HelmChart.status hc) <>
                sourcev1.Revision a /\
              req = HelmChartWatches.ObjectKeyFromObject hc).
  { intros value [a|].
    - unfold HelmChartWatches.List_MatchingFields. destruct failure as [e|].
      + simpl. split; [tauto | intros [Hf _]; discriminate].
      + rewrite In_requests. split.
        * intros (hc & Hin & Hne & Heq). apply In_List_by_source in Hin.
          split; [reflexivity|]. exists a, hc. tauto.
        * intros (_ & a' & hc & Ha & Hin & Hkey & Hne & Heq). injection Ha as <-.
          exists hc. rewrite In_List_by_source. tauto.
    - simpl. split; [tauto | intros (_ & a & hc & Ha & _); discriminate]. }
  split; [|split].
  - intros repo. apply Hcore.
  - intros name artifact. apply Hcore.
  - intros name artifact. apply Hcore.
Qed.

(** X20. [resolveDependencyRepository] answers a HelmRepository only if it
    is in the cache, in the namespace asked for, and its normalized URL is
    the URL asked for, which is not empty. When the list call succeeds it
    fails only if there is no such repository, with an error that carries no
    status reason; a failure of the list call is wrapped and keeps its
    reason. *)
Theorem resolveDependencyRepository_lookup (env : Env) (failure : option error)
    (cached : list HelmRepository.T) (url namespace : string) :
  let matches (repo : HelmRepository.T) : Prop :=
    metav1.Namespace (HelmRepository.ObjectMeta repo) = namespace /\
    repository_NormalizeURL env (HelmRepository.URL (HelmRepository.spec repo)) = url /\
    url <> "" in
  match HelmChartWatches.resolveDependencyRepository env failure cached url namespace with
  | inr repo => failure = None /\ In repo cached /\ matches repo
  | inl err =>
      match failure with
      | Some e => ReasonForError err = ReasonForError e
      | None =>
          ReasonForError err = StatusReasonUnknown /\
          forall repo, In repo cached -> ~ matches repo
      end
  end.
Proof.
  intros matches. subst matches. unfold HelmChartWatches.resolveDependencyRepository,
    HelmChartWatches.List_MatchingFields.
  destruct failure as [e|]; [reflexivity|].
  assert (Hin : forall repo,
            In repo
              (filter (fun o => existsb (String.eqb url)
                                  (HelmChartWatches.indexHelmRepositoryByURL env o))
                 (filter (fun repo =>
                            String.eqb (metav1.Namespace (HelmRepository.ObjectMeta repo))
                              namespace) cached)) <->
            In repo cached /\
            metav1.Namespace (HelmRepository.ObjectMeta repo) = namespace /\
            repository_NormalizeURL env (HelmRepository.URL (HelmRepository.spec repo)) = url /\
            url <> "").
  { intros repo. rewrite !filter_In, String.eqb_eq.
    unfold HelmChartWatches.indexHelmRepositoryByURL.
    destruct (String.eqb (repository_NormalizeURL env _) "") eqn:E; simpl.
    - apply String.eqb_eq in E. split; [intros [_ H]; discriminate|].
      intros (_ & _ & Hu & Hne). congruence.
    - apply String.eqb_neq in E. rewrite Bool.orb_false_r, String.eqb_eq.
      split; [intros [[? ?] ?] | intros (? & ? & ? & ?)]; intuition congruence. }
  destruct (filter _ (filter _ cached)) as [|repo rest] eqn:Hf.
  - split; [reflexivity|]. intros repo Hc Hm. exact (proj2 (Hin repo) (conj Hc Hm)).
  - split; [reflexivity|]. apply Hin. left. reflexivity.
Qed.

(** ** Feature gates *)

Lemma map_lookup_assign (m : list (string * bool)) (k g : string) (v : bool) :
  map_lookup (features.map_assign m k v) g =
  if String.eqb g k then option_map (fun _ => v) (map_lookup m k) else map_lookup m g.
Proof.
  induction m as [|[k' v'] rest IH]; simpl.
  - destruct (String.eqb g k); reflexivity.
  - destruct (String.eqb k' k) eqn:Ek; simpl.
    + apply String.eqb_eq in Ek. subst k'. rewrite (String.eqb_sym k g).
      destruct (String.eqb g k); reflexivity.
    + destruct (String.eqb k' g) eqn:Eg.
      * apply String.eqb_eq in Eg. subst k'. rewrite Ek. reflexivity.
      * exact IH.
Qed.

Lemma map_fst_assign (m : list (string * bool)) (k : string) (v : bool) :
  List.map fst (features.map_assign m k v) = List.map fst m.
Proof.
  induction m as [|[k' v'] rest IH]; simpl; [reflexivity|].
  destruct (String.eqb k' k); simpl; [reflexivity | now rewrite IH].
Qed.

(** X21. [Disable] turns one feature gate off and nothing else: afterwards
    the gate reads false if the map had it and is still missing if it did
    not, every other gate reads as before, and the keys of the map are the
    same. *)
Theorem Disable_only_named_gate (feature : string) (gates : list (string * bool)) :
  List.map fst (features.Disable feature gates) = List.map fst gates /\
  forall g,
    map_lookup (features.FeatureGates (features.Disable feature gates)) g =
    if String.eqb g feature
    then option_map (fun _ => false) (map_lookup gates feature)
    else map_lookup gates g.
Proof.
  unfold features.Disable, features.FeatureGates.
  destruct (map_lookup gates feature) as [v|] eqn:E.
  - split; [apply map_fst_assign|]. intros g. rewrite map_lookup_assign, E. reflexivity.
  - split; [reflexivity|]. intros g. destruct (String.eqb g feature) eqn:Eg; [|reflexivity].
    apply String.eqb_eq in Eg. subst g. exact E.
Qed.

(** ** The result of a run over the phases *)

Lemma LowestRequeuingResult_not_requeue (i j : Result) :
  i <> ResultRequeue -> j <> ResultRequeue -> LowestRequeuingResult i j <> ResultRequeue.
Proof. destruct i, j; simpl; congruence. Qed.

Lemma OCIRepository_run_reconcilers_outcome (reconcilers : list (Func OCIRepositoryReconciler.W OCIRepositoryReconciler.R))
    (res : Result) (w : OCIRepositoryReconciler.W) :
  res <> ResultRequeue ->
  match OCIRepositoryReconciler.run_reconcilers reconcilers res w with
  | Next (r, _) _ => r <> ResultRequeue
  | Return (r, e) _ => r = ResultRequeue /\ e = None
  | Panic _ _ => True
  end.
Proof.
  revert res w. induction reconcilers as [|rec rest IH]; intros res w Hres; simpl.
  - exact Hres.
  - run. destruct (rec w) as [[recResult err] w1 | msg w1]; [|exact I].
    destruct recResult; cbn [Result_eqb].
    + destruct err; [discriminate|]. apply IH.
      apply LowestRequeuingResult_not_requeue; [exact Hres | discriminate].
    + split; reflexivity.
    + destruct err; [discriminate|]. apply IH.
      apply LowestRequeuingResult_not_requeue; [exact Hres | discriminate].
Qed.

Lemma HelmChart_run_reconcilers_outcome (reconcilers : list (Func HelmChartReconciler.W HelmChartReconciler.R))
    (res : Result) (w : HelmChartReconciler.W) :
  res <> ResultRequeue ->
  match HelmChartReconciler.run_reconcilers reconcilers res w with
  | Next (r, _) _ => r <> ResultRequeue
  | Return (r, e) _ => r = ResultRequeue /\ e = None
  | Panic _ _ => True
  end.
Proof.
  revert res w. induction reconcilers as [|rec rest IH]; intros res w Hres; simpl.
  - exact Hres.
  - run. destruct (rec w) as [[recResult err] w1 | msg w1]; [|exact I].
    destruct recResult; cbn [Result_eqb].
    + destruct err; [discriminate|]. apply IH.
      apply LowestRequeuingResult_not_requeue; [exact Hres | discriminate].
    + split; reflexivity.
    + destruct err; [discriminate|]. apply IH.
      apply LowestRequeuingResult_not_requeue; [exact Hres | discriminate].
Qed.

(** X22. Whatever the phases are, [reconcile] of the OCIRepository and of
    the HelmChart reconciler never returns a requeue together with an
    error: the error of a phase that asks for a requeue is dropped. *)
Theorem reconcile_requeue_without_error (env : Env) :
  (forall (reconcilers : list (string -> Func OCIRepositoryReconciler.W OCIRepositoryReconciler.R))
          (w w' : OCIRepositoryReconciler.W) (err : option error),
     OCIRepositoryReconciler.reconcile env reconcilers w = Done (ResultRequeue, err) w' ->
     err = None) /\
  (forall (reconcilers : list (Func HelmChartReconciler.W HelmChartReconciler.R))
          (w w' : HelmChartReconciler.W) (err : option error),
     HelmChartReconciler.reconcile env reconcilers w = Done (ResultRequeue, err) w' ->
     err = None).
Proof.
  split.
  - intros reconcilers w w' err H.
    unfold OCIRepositoryReconciler.reconcile, OCIRepositoryReconciler.reconcile_phases,
      OCIRepositoryReconciler.storageFailed, OCIRepositoryReconciler.notify in H.
    run_in H.
    repeat case_step H.
    all: try match goal with
             | Hrun : OCIRepositoryReconciler.run_reconcilers ?l ?r ?s = _ |- _ =>
                 pose proof (OCIRepository_run_reconcilers_outcome l r s
                               ltac:(discriminate)) as Ho;
                 rewrite Hrun in Ho
             end.
    all: inversion H; subst; cbn in *.
    all: try (destruct Ho as [_ Ho]; exact Ho).
    all: try (now elim Ho).
  - intros reconcilers w w' err H.
    unfold HelmChartReconciler.reconcile, HelmChartReconciler.notify in H.
    run_in H.
    repeat case_step H.
    all: try match goal with
             | Hrun : HelmChartReconciler.run_reconcilers ?l ?r ?s = _ |- _ =>
                 pose proof (HelmChart_run_reconcilers_outcome l r s
                               ltac:(discriminate)) as Ho;
                 rewrite Hrun in Ho
             end.
    all: inversion H; subst; cbn in *.
    all: try (destruct Ho as [_ Ho]; exact Ho).
    all: try (now elim Ho).
Qed.

Lemma reconcile_requeue_without_error_witness :
  exists w',
    OCIRepositoryReconciler.reconcile Example.env
      [fun _ w => Done (ResultRequeue, Some (errors_New "try again")) w]
      Example.fresh_world = Done (ResultRequeue, None) w' /\
    @None error = None.
Proof.
  eexists. split; [vm_compute; reflexivity|].
  eapply (proj1 (reconcile_requeue_without_error Example.env)
            [fun _ w => Done (ResultRequeue, Some (errors_New "try again")) w]
            Example.fresh_world).
  vm_compute. reflexivity.
Defined.

(** ** The errors of the source phase of an OCIRepository *)

Lemma reconcileSource_pull_errors (env : Env) (dir url revision : string)
    (opts : OCIRepositoryReconciler.remoteOptions) (w w' : OCIRepositoryReconciler.W)
    (res : Result) (e : error) :
  body (OCIRepositoryReconciler.reconcileSource_pull env dir url revision opts) w =
    Done (res, Some e) w' ->
  res = ResultEmpty /\ exists reason e', e = serror_Generic reason e'.
Proof.
  intros H. unfold OCIRepositoryReconciler.reconcileSource_pull,
    OCIRepositoryReconciler.fetchFailed in H.
  run_in H.
  repeat case_step H.
  all: inversion H; subst; split; [reflexivity | eexists; eexists; reflexivity].
Qed.

(** X23. Every error of the source phase of an OCIRepository comes with the
    empty result, and it is a generic error, which is retried, with one
    exception: a URL that does not validate gives a stalling error of reason
    URLInvalid, recorded as FetchFailed=True with that reason. *)
Theorem OCIRepository_reconcileSource_errors (env : Env) (dir : string)
    (w w' : OCIRepositoryReconciler.W) (res : Result) (e : error) :
  OCIRepositoryReconciler.reconcileSource env dir w = Done (res, Some e) w' ->
  res = ResultEmpty /\
  ((exists reason e', e = serror_Generic reason e') \/
   (exists e', e = serror_Stalling sourcev1.URLInvalidReason e') /\
   has_condition (obj w') sourcev1.FetchFailedCondition metav1.ConditionTrue
     sourcev1.URLInvalidReason).
Proof.
  intros H. unfold OCIRepositoryReconciler.reconcileSource,
    OCIRepositoryReconciler.reconcileSource_credentials,
    OCIRepositoryReconciler.reconcileSource_fetch,
    OCIRepositoryReconciler.observe_revision,
    OCIRepositoryReconciler.fetchFailed in H.
  run_in H.
  repeat case_step H.
  all: first
    [ solve [ inversion H; subst; split;
              [reflexivity | left; eexists; eexists; reflexivity] ]
    | solve [ inversion H; subst; split;
              [ reflexivity
              | right; split;
                [ eexists; reflexivity
                | unfold has_condition; proj; eexists;
                  split; [apply Get_MarkTrue | split; reflexivity] ] ] ]
    | match goal with
      | Hp : OCIRepositoryReconciler.reconcileSource_pull ?env ?dir ?url ?rev ?opts ?s = _
        |- _ =>
          pose proof (reconcileSource_pull_errors env dir url rev opts s) as Hl;
          cbv beta delta [body] in Hl; rewrite Hp in Hl;
          inversion H; subst;
          destruct (Hl _ _ _ eq_refl) as [-> Hg];
          split; [reflexivity | left; exact Hg]
      end ].
Qed.

Lemma OCIRepository_reconcileSource_errors_witness :
  exists e w',
    OCIRepositoryReconciler.reconcileSource
      (Example.env_with_login (fun _ _ _ => inl (errors_New "access denied"))) "/tmp/work"
      (Example.oci_repository_world
         (Example.oci_repository None [sourcev1.SourceFinalizer] false false "aws" None None
            None) []) = Done (ResultEmpty, Some e) w' /\
    ResultEmpty = ResultEmpty /\
    ((exists reason e', e = serror_Generic reason e') \/
     (exists e', e = serror_Stalling sourcev1.URLInvalidReason e') /\
     has_condition (obj w') sourcev1.FetchFailedCondition metav1.ConditionTrue
       sourcev1.URLInvalidReason).
Proof.
  eexists. eexists. split; [vm_compute; reflexivity|].
  eapply (OCIRepository_reconcileSource_errors
            (Example.env_with_login (fun _ _ _ => inl (errors_New "access denied")))
            "/tmp/work"
            (Example.oci_repository_world
               (Example.oci_repository None [sourcev1.SourceFinalizer] false false "aws" None
                  None None) [])).
  vm_compute. reflexivity.
Defined.

(** ** The source phase of an OCIRepository that succeeds *)

Ltac pull_done H :=
  inversion H; subst; clear H; proj;
  split;
  [ first [reflexivity | assumption | congruence]
  | first
      [ left; reflexivity
      | left; match goal with Hc : _ && negb _ = true |- _ => exact Hc end
      | right; split;
        [ cbn [In]; auto 10
        | eexists; eexists; split; first [reflexivity | eassumption] ] ] ].

Lemma reconcileSource_pull_success (env : Env) (dir url revision : string)
    (opts : OCIRepositoryReconciler.remoteOptions) (w w' : OCIRepositoryReconciler.W) :
  body (OCIRepositoryReconciler.reconcileSource_pull env dir url revision opts) w =
    Done (ResultSuccess, None) w' ->
  sourcev1.Revision (scratch w') = sourcev1.Revision (scratch w) /\
  (sourcev1.HasRevision (OCIRepository.GetArtifact (obj w)) revision &&
   negb (OCIRepositoryReconciler.ociContentConfigChanged (obj w)) = true \/
   In (EvRegistry OpPull url) (trace w') /\
   exists img blob,
     crane_Pull env url (OCIRepositoryReconciler.craneOpts opts) = inr img /\
     OCIRepositoryReconciler.selectLayer (obj w) img = inr blob).
Proof.
  intros H. unfold OCIRepositoryReconciler.reconcileSource_pull,
    OCIRepositoryReconciler.fetchFailed in H.
  run_in H.
  destruct (OCIRepository.Verify (OCIRepository.spec (obj w))) as [verify|] eqn:Hverify;
    run_in H.
  - match type of H with
    | context [if ?c then _ else _] => destruct c eqn:Hdue
    end; run_in H.
    + destruct (OCIRepository.Insecure (OCIRepository.spec (obj w))); run_in H;
        [discriminate|].
      destruct (verifySignature_quiet env url (OCIRepositoryReconciler.verifyOpts opts) w
                  verify Hverify) as (err & w1 & Hv & Hobj & Hfiles & Hscratch & Hq).
      rewrite Hv in H. run_in H.
      destruct err as [err|]; run_in H; [discriminate|].
      rewrite ?Hobj, ?Hscratch in H.
      repeat case_step H.
      all: rewrite ?Hobj, ?Hscratch in *.
      all: pull_done H.
    + repeat case_step H.
      all: pull_done H.
  - repeat case_step H.
    all: pull_done H.
Qed.

Lemma transport_set_Conditions (env : Env) (cs : list metav1.Condition)
    (o : OCIRepository.T) :
  OCIRepositoryReconciler.transport env (OCIRepository.set_Conditions cs o) =
  OCIRepositoryReconciler.transport env o.
Proof. reflexivity. Qed.

Lemma makeRemoteOptions_set_Conditions (cs : list metav1.Condition) (o : OCIRepository.T)
    (tr : option Transport) (k : Keychain) (auth : option Authenticator) :
  OCIRepositoryReconciler.makeRemoteOptions (OCIRepository.set_Conditions cs o) tr k auth =
  OCIRepositoryReconciler.makeRemoteOptions o tr k auth.
Proof. reflexivity. Qed.

Lemma getArtifactURL_set_Conditions (env : Env) (cs : list metav1.Condition)
    (o : OCIRepository.T) (opts : list RegistryOption) :
  OCIRepositoryReconciler.getArtifactURL env (OCIRepository.set_Conditions cs o) opts =
  OCIRepositoryReconciler.getArtifactURL env o opts.
Proof. reflexivity. Qed.

Lemma selectLayer_set_Conditions (cs : list metav1.Condition) (o : OCIRepository.T)
    (img : Image) :
  OCIRepositoryReconciler.selectLayer (OCIRepository.set_Conditions cs o) img =
  OCIRepositoryReconciler.selectLayer o img.
Proof. reflexivity. Qed.

Lemma ociContentConfigChanged_set_Conditions (cs : list metav1.Condition)
    (o : OCIRepository.T) :
  OCIRepositoryReconciler.ociContentConfigChanged (OCIRepository.set_Conditions cs o) =
  OCIRepositoryReconciler.ociContentConfigChanged o.
Proof. reflexivity. Qed.

Lemma GetArtifact_set_Conditions (cs : list metav1.Condition) (o : OCIRepository.T) :
  OCIRepository.GetArtifact (OCIRepository.set_Conditions cs o) = OCIRepository.GetArtifact o.
Proof. reflexivity. Qed.

(** X24. When the source phase of an OCIRepository succeeds, the revision
    it hands to the artifact phase is the one [getRevision] reports for the
    artifact URL of the object, and the content is accounted for: either the
    artifact of the status has that revision and the content configuration
    is unchanged, or the image was pulled from that URL and a layer of it
    was selected. *)
Theorem OCIRepository_reconcileSource_success (env : Env) (dir : string)
    (w w' : OCIRepositoryReconciler.W) :
  OCIRepositoryReconciler.reconcileSource env dir w = Done (ResultSuccess, None) w' ->
  exists k auth tr url,
    let opts := OCIRepositoryReconciler.makeRemoteOptions (obj w) tr k auth in
    let revision := sourcev1.Revision (scratch w') in
    OCIRepositoryReconciler.transport env (obj w) = inr tr /\
    OCIRepositoryReconciler.getArtifactURL env (obj w)
      (OCIRepositoryReconciler.craneOpts opts) = inr url /\
    OCIRepositoryReconciler.getRevision env url (OCIRepositoryReconciler.craneOpts opts) =
      inr revision /\
    (sourcev1.HasRevision (OCIRepository.GetArtifact (obj w)) revision &&
     negb (OCIRepositoryReconciler.ociContentConfigChanged (obj w)) = true \/
     In (EvRegistry OpPull url) (trace w') /\
     exists img blob,
       crane_Pull env url (OCIRepositoryReconciler.craneOpts opts) = inr img /\
       OCIRepositoryReconciler.selectLayer (obj w) img = inr blob).
Proof.
  intros H. unfold OCIRepositoryReconciler.reconcileSource,
    OCIRepositoryReconciler.reconcileSource_credentials,
    OCIRepositoryReconciler.reconcileSource_fetch,
    OCIRepositoryReconciler.observe_revision,
    OCIRepositoryReconciler.fetchFailed in H.
  run_in H.
  destruct (condition_list.IsFalse _ _) in H; run_in H.
  all: match type of H with
       | context [OCIRepositoryReconciler.keychain ?e ?s] =>
           destruct (OCIRepositoryReconciler.keychain e s) as [r s1 | msg s1] eqn:Hk;
           [ destruct (keychain_obj _ _ _ _ Hk) as (Hobj & _ & Hscratch) | ]
       end; run_in H; try discriminate H.
  all: rewrite ?Hobj, ?Hscratch in H; run_in H.
  all: repeat case_step H.
  all: match goal with
       | Hp : OCIRepositoryReconciler.reconcileSource_pull ?env ?dir ?url ?rev ?opts ?s = _
         |- _ =>
           pose proof (reconcileSource_pull_success env dir url rev opts s) as Hl;
           cbv beta delta [body] in Hl; rewrite Hp in Hl
       end.
  all: inversion H; subst; clear H.
  all: specialize (Hl _ eq_refl); proj_in Hl; destruct Hl as [Hrev Hcontent].
  all: proj_in Hobj; rewrite Hobj in *.
  all: rewrite ?transport_set_Conditions, ?makeRemoteOptions_set_Conditions,
    ?getArtifactURL_set_Conditions, ?selectLayer_set_Conditions,
    ?ociContentConfigChanged_set_Conditions, ?GetArtifact_set_Conditions in *.
  all: eexists; eexists; eexists; eexists; cbv zeta; proj; rewrite ?Hrev.
  all: split; [match goal with Ht : OCIRepositoryReconciler.transport _ _ = inr _ |- _ =>
                 exact Ht end|].
  all: split; [match goal with Hu : OCIRepositoryReconciler.getArtifactURL _ _ _ = inr _ |- _ =>
                 exact Hu end|].
  all: split; [match goal with Hr : OCIRepositoryReconciler.getRevision _ _ _ = inr _ |- _ =>
                 exact Hr end|].
  all: destruct Hcontent as [Hc | (Hin & img & blob & Hpull & Hsel)];
    [ left; exact Hc
    | right; split; [cbn [In]; auto | exists img, blob; split; [exact Hpull | exact Hsel]] ].
Qed.

Lemma OCIRepository_reconcileSource_success_witness :
  exists w',
    OCIRepositoryReconciler.reconcileSource Example.env "/tmp/work" Example.fresh_world =
      Done (ResultSuccess, None) w' /\
    exists k auth tr url,
      let opts :=
        OCIRepositoryReconciler.makeRemoteOptions (obj Example.fresh_world) tr k auth in
      let revision := sourcev1.Revision (scratch w') in
      OCIRepositoryReconciler.transport Example.env (obj Example.fresh_world) = inr tr /\
      OCIRepositoryReconciler.getArtifactURL Example.env (obj Example.fresh_world)
        (OCIRepositoryReconciler.craneOpts opts) = inr url /\
      OCIRepositoryReconciler.getRevision Example.env url
        (OCIRepositoryReconciler.craneOpts opts) = inr revision /\
      (sourcev1.HasRevision (OCIRepository.GetArtifact (obj Example.fresh_world)) revision &&
       negb (OCIRepositoryReconciler.ociContentConfigChanged (obj Example.fresh_world)) =
         true \/
       In (EvRegistry OpPull url) (trace w') /\
       exists img blob,
         crane_Pull Example.env url (OCIRepositoryReconciler.craneOpts opts) = inr img /\
         OCIRepositoryReconciler.selectLayer (obj Example.fresh_world) img = inr blob).
Proof.
  eexists. split; [vm_compute; reflexivity|].
  apply (OCIRepository_reconcileSource_success Example.env "/tmp/work" Example.fresh_world).
  vm_compute. reflexivity.
Defined.

(** ** The storage phase and a failing garbage collection *)

Lemma OCIRepository_garbageCollect_returns (env : Env) (w : OCIRepositoryReconciler.W) :
  exists err w', OCIRepositoryReconciler.garbageCollect env w = Done err w'.
Proof.
  unfold OCIRepositoryReconciler.garbageCollect, Storage.RemoveAll, Storage.GarbageCollect.
  run. repeat case_goal. all: eexists _, _; reflexivity.
Qed.

Lemma HelmChart_garbageCollect_returns (env : Env) (w : HelmChartReconciler.W) :
  exists err w', HelmChartReconciler.garbageCollect env w = Done err w'.
Proof.
  unfold HelmChartReconciler.garbageCollect, Storage.RemoveAll, Storage.GarbageCollect.
  run. repeat case_goal. all: eexists _, _; reflexivity.
Qed.

(** X25. The storage phase of an OCIRepository and of a HelmChart always
    returns, and a failure of the garbage collection never fails it: the
    only error it returns is the error of the status patch it sends when the
    object has no artifact left, with the empty result; on every other path
    the result is success. *)
Theorem reconcileStorage_fails_only_on_patch (env : Env) :
  (forall (dir : string) (w : OCIRepositoryReconciler.W),
     exists res err w',
       OCIRepositoryReconciler.reconcileStorage env dir w = Done (res, err) w' /\
       match err with
       | None => res = ResultSuccess
       | Some e =>
           res = ResultEmpty /\ Patch_error env = Some e /\
           OCIRepository.GetArtifact (obj w') = None
       end) /\
  (forall w : HelmChartReconciler.W,
     exists res err w',
       HelmChartReconciler.reconcileStorage env w = Done (res, err) w' /\
       match err with
       | None => res = ResultSuccess
       | Some e =>
           res = ResultEmpty /\ Patch_error env = Some e /\
           HelmChart.GetArtifact (obj w') = None
       end).
Proof.
  split.
  - intros dir w.
    destruct (OCIRepository_garbageCollect_returns env w) as (gcerr & w1 & Hgc).
    unfold OCIRepositoryReconciler.reconcileStorage. run. rewrite Hgc. run.
    repeat case_goal.
    all: eexists _, _, _; split; [reflexivity|]; proj; auto.
  - intros w.
    destruct (HelmChart_garbageCollect_returns env w) as (gcerr & w1 & Hgc).
    unfold HelmChartReconciler.reconcileStorage. run. rewrite Hgc. run.
    repeat case_goal.
    all: eexists _, _, _; split; [reflexivity|]; proj; auto.
Qed.

(** ** The event of a HelmChart run *)

(** X26. [notify] of the HelmChart reconciler changes nothing but the
    events and records at most one: a Normal event with the reason and the
    summary of the build, annotated with the revision and the checksum of the
    artifact of the status. It records that event exactly when the run ended
    in success without error, the status has an artifact, and the checksum of
    that artifact differs from the one before the run (the empty checksum
    when there was none) or the run recovered from a failure. *)
Theorem HelmChart_notify_event (env : Env) (oldObj : HelmChart.T) (res : Result)
    (resErr : option error) (w : HelmChartReconciler.W) :
  let oldChecksum :=
    match HelmChart.GetArtifact oldObj with
    | Some a => sourcev1.Checksum a
    | None => ""
    end in
  let announced (a : sourcev1.Artifact) :=
    EvEvent corev1.EventTypeNormal (HelmChartReconciler.reasonForBuild env (scratch w))
      [(sourcev1.GroupVersion_Group ++ "/" ++ eventv1.MetaRevisionKey, sourcev1.Revision a);
       (sourcev1.GroupVersion_Group ++ "/" ++ eventv1.MetaChecksumKey, sourcev1.Checksum a)]
      (Build_Summary env (scratch w)) in
  let due (a : sourcev1.Artifact) :=
    resErr = None /\ res = ResultSuccess /\ HelmChart.GetArtifact (obj w) = Some a /\
    (sourcev1.Checksum a <> oldChecksum \/
     FailureRecovery env (HelmChart.GetConditions oldObj) (HelmChart.GetConditions (obj w))
       HelmChartReconciler.helmChartFailConditions = true) in
  exists w',
    HelmChartReconciler.notify env oldObj res resErr w = Next tt w' /\
    obj w' = obj w /\ files w' = files w /\ scratch w' = scratch w /\
    (forall a, due a -> trace w' = announced a :: trace w) /\
    ((forall a, ~ due a) -> trace w' = trace w).
Proof.
  intros oldChecksum announced due. subst oldChecksum announced due. cbv beta.
  unfold HelmChartReconciler.notify. run.
  change (HelmChart.Artifact (HelmChart.status (obj w)))
    with (HelmChart.GetArtifact (obj w)).
  destruct resErr as [e|].
  { exists w. do 4 (split; [reflexivity|]). split.
    - intros a (He & _). discriminate.
    - reflexivity. }
  destruct (HelmChart.GetArtifact (obj w)) as [a|] eqn:Ha.
  2:{ exists w. split; [destruct res; reflexivity|]. do 3 (split; [reflexivity|]). split.
      - intros a (_ & _ & Ha' & _). discriminate.
      - reflexivity. }
  destruct res.
  1,2: exists w; do 4 (split; [reflexivity|]); split;
    [ intros a' (_ & Hr & _); discriminate | reflexivity ].
  destruct (String.eqb _ (sourcev1.Checksum a)) eqn:Hsum; run.
  - apply String.eqb_eq in Hsum.
    destruct (FailureRecovery env _ _ _) eqn:Hrec; run.
    + eexists. split; [reflexivity|]. proj. do 3 (split; [reflexivity|]). split.
      * intros a' (_ & _ & Ha' & _). injection Ha' as <-. reflexivity.
      * intros Hn. elim (Hn a). do 3 (split; [reflexivity|]). right. reflexivity.
    + exists w. do 4 (split; [reflexivity|]). split.
      * intros a' (_ & _ & Ha' & [Hne | Hr]); injection Ha' as <-;
          [now elim Hne | discriminate].
      * reflexivity.
  - apply String.eqb_neq in Hsum.
    eexists. split; [reflexivity|]. proj. do 3 (split; [reflexivity|]). split.
    + intros a' (_ & _ & Ha' & _). injection Ha' as <-. reflexivity.
    + intros Hn. elim (Hn a). do 3 (split; [reflexivity|]). left. congruence.
Qed.

(** ** What the source phase of a HelmChart leaves alone *)

Ltac status_kept :=
  proj; repeat split;
  first [ reflexivity | assumption
        | match goal with
          | Hq : HelmChart.GetArtifact _ = _ |- _ => first [exact Hq | exact (eq_sym Hq)]
          end ].

Lemma observeChartBuild_status (env : Env) (err : option error) (w w' : HelmChartReconciler.W) :
  HelmChartReconciler.observeChartBuild env err w = Next tt w' ->
  files w' = files w /\
  HelmChart.GetArtifact (obj w') = HelmChart.GetArtifact (obj w) /\
  HelmChart.ObservedSourceArtifactRevision (HelmChart.status (obj w')) =
    HelmChart.ObservedSourceArtifactRevision (HelmChart.status (obj w)).
Proof.
  intros H. unfold HelmChartReconciler.observeChartBuild in H. run_in H.
  repeat case_step H.
  all: inversion H; subst; clear H; status_kept.
Qed.

Lemma observe_build_status (env : Env) (r r' : HelmChartReconciler.R)
    (w w' : HelmChartReconciler.W) :
  HelmChartReconciler.observe_build env r w = Done r' w' ->
  files w' = files w /\
  HelmChart.GetArtifact (obj w') = HelmChart.GetArtifact (obj w) /\
  HelmChart.ObservedSourceArtifactRevision (HelmChart.status (obj w')) =
    HelmChart.ObservedSourceArtifactRevision (HelmChart.status (obj w)).
Proof.
  intros H. unfold HelmChartReconciler.observe_build in H. destruct r as [res retErr].
  destruct (observeChartBuild_Next env retErr w) as [w1 Hobs].
  destruct (observeChartBuild_status env retErr w w1 Hobs) as (Hf & Ha & Hr).
  cbv beta iota zeta delta [body bind] in H. rewrite Hobs in H. run_in H.
  repeat case_step H.
  all: inversion H; subst; clear H; status_kept.
Qed.

Lemma buildFromTarballArtifact_status (env : Env) (a : sourcev1.Artifact)
    (r : HelmChartReconciler.R) (w w' : HelmChartReconciler.W) :
  HelmChartReconciler.buildFromTarballArtifact env a w = Done r w' ->
  files w' = files w /\
  HelmChart.GetArtifact (obj w') = HelmChart.GetArtifact (obj w) /\
  HelmChart.ObservedSourceArtifactRevision (HelmChart.status (obj w')) =
    HelmChart.ObservedSourceArtifactRevision (HelmChart.status (obj w)).
Proof.
  intros H.
  unfold HelmChartReconciler.buildFromTarballArtifact,
    HelmChartReconciler.revision_metadata, HelmChartReconciler.generation_metadata,
    HelmChartReconciler.fetchFailed in H.
  run_in H.
  repeat case_step H.
  all: inversion H; subst; clear H; status_kept.
Qed.

Lemma buildFromHelmRepository_status (env : Env) (repo : HelmRepository.T)
    (r : HelmChartReconciler.R) (w w' : HelmChartReconciler.W) :
  HelmChartReconciler.buildFromHelmRepository env repo w = Done r w' ->
  files w' = files w /\
  HelmChart.GetArtifact (obj w') = HelmChart.GetArtifact (obj w) /\
  HelmChart.ObservedSourceArtifactRevision (HelmChart.status (obj w')) =
    HelmChart.ObservedSourceArtifactRevision (HelmChart.status (obj w)).
Proof.
  intros H.
  unfold HelmChartReconciler.buildFromHelmRepository,
    HelmChartReconciler.buildFromHelmRepository_credentials,
    HelmChartReconciler.buildFromHelmRepository_build,
    HelmChartReconciler.chartRepoConfigErrorReturn,
    HelmChartReconciler.fetchFailed in H.
  run_in H.
  repeat case_step H.
  all: inversion H; subst; clear H; status_kept.
Qed.

(** X27. The source phase of a HelmChart stores nothing and leaves the
    artifact of the status as it is. When the source was found with an
    artifact whose file is in the storage, the phase records the revision of
    that artifact as the observed source revision of the status before it
    builds, so the record is there on every return, also when the build
    fails. *)
Theorem HelmChart_reconcileSource_observes_source (env : Env) (r : HelmChartReconciler.R)
    (w w' : HelmChartReconciler.W) :
  HelmChartReconciler.reconcileSource env w = Done r w' ->
  files w' = files w /\
  HelmChart.GetArtifact (obj w') = HelmChart.GetArtifact (obj w) /\
  forall s a,
    HelmChartReconciler.getSource env (obj w) = inr s ->
    HelmChartReconciler.Source_GetArtifact s = Some a ->
    Storage.ArtifactExist w a = true ->
    HelmChart.ObservedSourceArtifactRevision (HelmChart.status (obj w')) =
      sourcev1.Revision a.
Proof.
  intros H. unfold HelmChartReconciler.reconcileSource in H. run_in H.
  repeat case_step H.
  all: try match goal with
           | Hob : HelmChartReconciler.observe_build _ _ _ = Done _ _ |- _ =>
               destruct (observe_build_status _ _ _ _ _ Hob) as (Hf2 & Ha2 & Hr2)
           end.
  all: try match goal with
           | Hb : HelmChartReconciler.buildFromTarballArtifact _ _ _ = Done _ _ |- _ =>
               destruct (buildFromTarballArtifact_status _ _ _ _ _ Hb) as (Hf1 & Ha1 & Hr1)
           | Hb : HelmChartReconciler.buildFromHelmRepository _ _ _ = Done _ _ |- _ =>
               destruct (buildFromHelmRepository_status _ _ _ _ _ Hb) as (Hf1 & Ha1 & Hr1)
           end.
  all: inversion H; subst; clear H.
  all: repeat match goal with
              | Hx : _ = _ |- _ => progress proj_in Hx
              end.
  all: proj.
  all: (split; [congruence|]).
  all: (split; [first [reflexivity | congruence | exact (eq_trans Ha2 Ha1)]|]).
  all: intros s' a' Hs Ha He.
  all: try discriminate Hs.
  all: injection Hs as <-.
  all: cbn [HelmChartReconciler.Source_GetArtifact] in *.
  all: try congruence.
  all: match goal with
       | Hn : negb (Storage.ArtifactExist _ ?x) = true |- _ =>
           unfold Storage.ArtifactExist in Hn, He; proj_in Hn;
           replace x with a' in Hn by congruence;
           rewrite He in Hn; discriminate Hn
       end.
Qed.

Lemma HelmChart_reconcileSource_observes_source_witness :
  exists r w',
    HelmChartReconciler.reconcileSource
      (Example.env_with_cluster (Example.one_secret "none" []) Example.no_repository
         (fun _ _ =>
            inr (Some (Example.source_artifact "gitrepository/flux-system/podinfo/a.tar.gz"
                         "main/0123456789abcdef"))))
      (Example.helm_chart_world
         (Example.helm_chart None [sourcev1.SourceFinalizer] false "GitRepository"
            "ChartVersion" None)
         ["gitrepository/flux-system/podinfo/a.tar.gz"]) = Done r w' /\
    files w' = ["gitrepository/flux-system/podinfo/a.tar.gz"] /\
    HelmChart.GetArtifact (obj w') = None /\
    forall s a,
      HelmChartReconciler.getSource
        (Example.env_with_cluster (Example.one_secret "none" []) Example.no_repository
         (fun _ _ =>
            inr (Some (Example.source_artifact "gitrepository/flux-system/podinfo/a.tar.gz"
                         "main/0123456789abcdef"))))
        (obj
      (Example.helm_chart_world
         (Example.helm_chart None [sourcev1.SourceFinalizer] false "GitRepository"
            "ChartVersion" None)
         ["gitrepository/flux-system/podinfo/a.tar.gz"])) = inr s ->
      HelmChartReconciler.Source_GetArtifact s = Some a ->
      Storage.ArtifactExist
        (Example.helm_chart_world
         (Example.helm_chart None [sourcev1.SourceFinalizer] false "GitRepository"
            "ChartVersion" None)
         ["gitrepository/flux-system/podinfo/a.tar.gz"]) a = true ->
      HelmChart.ObservedSourceArtifactRevision (HelmChart.status (obj w')) =
        sourcev1.Revision a.
Proof.
  eexists. eexists. split; [vm_compute; reflexivity|].
  eapply (HelmChart_reconcileSource_observes_source
      (Example.env_with_cluster (Example.one_secret "none" []) Example.no_repository
         (fun _ _ =>
            inr (Some (Example.source_artifact "gitrepository/flux-system/podinfo/a.tar.gz"
                         "main/0123456789abcdef"))))
      _
      (Example.helm_chart_world
         (Example.helm_chart None [sourcev1.SourceFinalizer] false "GitRepository"
            "ChartVersion" None)
         ["gitrepository/flux-system/podinfo/a.tar.gz"])).
  vm_compute. reflexivity.
Defined.
